(** * Frame orchestration of the RTXDI sample renderer

    A shallow embedding of [SceneRenderer] from [src/main.cpp]: the object that
    decides, frame by frame, which GPU resource bundles are (re)built, which
    passes run and with which flags, and how the temporal state (previous
    view, accumulated-frame counter, environment-map dirty level) evolves.

    The renderer's fields become a record, every member function becomes a
    function on that record, and every call into a collaborator (a pass, the
    texture cache, the descriptor table, the profiler) is recorded as an
    [Event] appended to the field [trace].  A dereference of a null handle or
    an out-of-range vector access ends the run with [Crash]. *)

From Stdlib Require Import ZArith NArith QArith Bool List String Lia.
From stdpp Require Import base decidable option list strings.
Import ListNotations.

#[local] Open Scope Z_scope.

(** ** Machine integers *)

(** [uint] is a 32-bit unsigned integer; arithmetic on it wraps around. *)
Definition uint_modulus : Z := 2 ^ 32.
Definition uint_wrap (x : Z) : Z := x mod uint_modulus.
Definition uint_incr (x : Z) : Z := uint_wrap (x + 1).

(** ** Results of fallible code *)

Inductive Fault := NullDereference | IndexOutOfRange.

Inductive Result (A : Type) : Type :=
| Ok (a : A)
| Crash (f : Fault).
Arguments Ok {A} a.
Arguments Crash {A} f.

Definition bind {A B : Type} (r : Result A) (k : A -> Result B) : Result B :=
  match r with
  | Ok a => k a
  | Crash f => Crash f
  end.

Notation "'letR' x ':=' e 'in' k" := (bind e (fun x => k))
  (at level 10, x pattern, e at level 100, k at level 200).

(** Dereference of a possibly-null handle. *)
Definition deref {A : Type} (h : option A) : Result A :=
  match h with
  | Some a => Ok a
  | None => Crash NullDereference
  end.

(** [!handle] in the source. *)
Definition isNull {A : Type} (h : option A) : bool :=
  match h with
  | Some _ => false
  | None => true
  end.

(** ** Enumerations *)

Inductive FrameStepMode := Disabled | Wait | Step.

(** Modelled from the spec: [RenderingMode] is declared outside [main.cpp]
    (with the UI data); the spec lists it as a closed set of four modes.  The
    constructors carry the names the source uses: [ReStirDirectOnly],
    [ReStirDirectBrdfMIS] and [ReStirDirectBrdfIndirect] are the spec's three
    [DirectResampling*] modes. *)
Inductive RenderingMode :=
| BrdfDirectOnly
| ReStirDirectOnly
| ReStirDirectBrdfMIS
| ReStirDirectBrdfIndirect.

(** [rtxdi::CheckerboardMode]. *)
Inductive CheckerboardMode := CheckerboardOff | CheckerboardBlack | CheckerboardWhite.

(** [nrd::Method] and [nrd::CheckerboardMode], as far as the frame uses them. *)
Inductive NrdMethod := REBLUR_DIFFUSE_SPECULAR | RELAX_DIFFUSE_SPECULAR.
Inductive NrdCheckerboardMode := NrdCheckerboardOFF | NrdCheckerboardBLACK.

Inductive DenoiserMode := DENOISER_MODE_OFF | DENOISER_MODE_REBLUR | DENOISER_MODE_RELAX.

(** The colour surfaces of [RenderTargets] that can be shown. *)
Inductive Image := LdrColor | AccumulatedColor | ResolvedColor | HdrColor.

#[global] Instance FrameStepMode_eq_dec : EqDecision FrameStepMode.
Proof. solve_decision. Defined.
#[global] Instance RenderingMode_eq_dec : EqDecision RenderingMode.
Proof. solve_decision. Defined.
#[global] Instance CheckerboardMode_eq_dec : EqDecision CheckerboardMode.
Proof. solve_decision. Defined.
#[global] Instance NrdMethod_eq_dec : EqDecision NrdMethod.
Proof. solve_decision. Defined.
#[global] Instance Image_eq_dec : EqDecision Image.
Proof. solve_decision. Defined.

(** ** Resource objects *)

Record FramebufferInfo := mkFramebufferInfo { fb_width : Z; fb_height : Z }.

(** [rtxdi::ContextParameters]: the fields the orchestrator reads or writes. *)
Record ContextParameters := mkContextParameters {
  RenderWidth : Z;
  RenderHeight : Z;
  CheckerboardSamplingMode : CheckerboardMode
}.

(** [rtxdi::Context] keeps the parameters it was constructed from. *)
Record Context := mkContext { GetParameters : ContextParameters }.

(** [RenderTargets]: surfaces sized to the output resolution. *)
Record RenderTargets := mkRenderTargets { Size : Z * Z }.

(** Modelled from the spec: the constructor of [RtxdiResources] is outside
    [main.cpp]; the spec says the bundle is sized by the output resolution (via
    the context), the three light counts and the environment-map resolution,
    and holds a PDF texture of the environment map's size. *)
Record RtxdiResources := mkRtxdiResources {
  res_context : ContextParameters;
  res_emissiveMeshes : Z;
  res_emissiveTriangles : Z;
  res_primitiveLights : Z;
  EnvironmentPdfTexture : Z * Z;
  LocalLightPdfTexture : Z * Z
}.

(** [engine::LoadedTexture], for a file-backed environment map. *)
Record LoadedTexture := mkLoadedTexture {
  tex_path : string;
  tex_size : Z * Z;
  bindlessDescriptorIndex : Z
}.

Record RenderEnvironmentMapPass := mkRenderEnvironmentMapPass { GetTexture : Z * Z }.

(** [GenerateMipsPass]: source texture size (if any) and target PDF texture size. *)
Record GenerateMipsPass := mkGenerateMipsPass {
  mips_source : option (Z * Z);
  mips_target : Z * Z
}.

(** [render::TemporalAntiAliasingPass]: its jitter sequence position. *)
Record TemporalAntiAliasingPass := mkTemporalAntiAliasingPass { taa_FrameIndex : Z }.

Record ToneMappingPass := mkToneMappingPass { tone_framebuffer : Z * Z }.

Record NrdIntegration := mkNrdIntegration {
  GetMethod : NrdMethod;
  IsAvailable : bool;
  nrd_size : Z * Z
}.

(** The texture the environment light samples: the procedural sky, or the
    file-backed map bound at a descriptor slot. *)
Inductive EnvironmentSource := ProceduralSky | FileMap (descriptor : Z).

(** ** Calls into collaborators *)

Inductive Event :=
| EvWaitForIdle
| EvUnloadTexture (path : string)
| EvReleaseDescriptor (index : Z)
| EvLoadTextureFromFileDeferred (path : string)
| EvFinishTextureLoading
| EvCreateDescriptor (index : Z)
| EvCaptureBenchmarkResults
| EvClearShaderCache
| EvLoadShaders
| EvCreateRenderEnvironmentMapPass
| EvCreateRenderTargets (size : Z * Z)
| EvCreateRenderTargetBindings
| EvCreateRtxdiContext (params : ContextParameters)
| EvCreateRtxdiResources (r : RtxdiResources)
| EvPrepareLightsCreateBindingSet
| EvCreateEnvironmentMapPdfMipmapPass (p : GenerateMipsPass)
| EvCreateLocalLightPdfMipmapPass (p : GenerateMipsPass)
| EvLightingCreateBindingSet (rt : RenderTargets) (r : RtxdiResources)
| EvLightingCreatePipelines (params : ContextParameters) (rayQuery : bool)
| EvCreateTemporalAntiAliasingPass
| EvCreateToneMappingPass
| EvCreateNrdIntegration (method : NrdMethod)
| EvNextFrame
| EvInitializeNeighborOffsets (r : RtxdiResources)
| EvConfigureEnvironmentLight (texture : option EnvironmentSource) (sunIrradiance : Z)
| EvTaaAdvanceFrame
| EvProfilerEnableAccumulation (enable : bool)
| EvBuildTopLevelAccelStruct
| EvRenderEnvironmentMap
| EvEnvironmentMapPdfMipmapProcess (p : GenerateMipsPass)
| EvGBufferRasterized
| EvGBufferRaytraced
| EvPrepareLights (environmentImportance : bool) (frameIndex : Z)
| EvLocalLightPdfMipmapProcess
| EvLightingRender (enableDenoiserInputPacking enableSpecularMis : bool)
| EvRenderBrdfRays (enableDenoiserInputPacking enableIndirect enableAdditiveBlend
                    enableSpecularMis : bool)
| EvRunDenoiserPasses
| EvCompositing (denoiserMode : DenoiserMode)
| EvGlass
| EvAccumulationRender (accumulationWeight : Q)
| EvTemporalResolve (previousViewValid : bool)
| EvResetExposure
| EvToneMapping (source : Image)
| EvBlitTexture (viewport : Z * Z) (source : Image).

(** The events that execute a render pass on the frame's command list, as
    opposed to creating or releasing resources. *)
Definition isPassEvent (e : Event) : bool :=
  match e with
  | EvInitializeNeighborOffsets _ | EvBuildTopLevelAccelStruct | EvRenderEnvironmentMap
  | EvEnvironmentMapPdfMipmapProcess _
  | EvGBufferRasterized | EvGBufferRaytraced | EvPrepareLights _ _
  | EvLocalLightPdfMipmapProcess | EvLightingRender _ _ | EvRenderBrdfRays _ _ _ _
  | EvRunDenoiserPasses | EvCompositing _ | EvGlass | EvAccumulationRender _
  | EvTemporalResolve _ | EvResetExposure | EvToneMapping _ | EvBlitTexture _ _ => true
  | _ => false
  end.

(** The calls into the two lighting pass families. *)
Definition isLightingCall (e : Event) : bool :=
  match e with
  | EvLightingRender _ _ | EvRenderBrdfRays _ _ _ _ => true
  | _ => false
  end.

(** The events of unloading and loading an environment-map file. *)
Definition isReloadEvent (e : Event) : bool :=
  match e with
  | EvUnloadTexture _ | EvReleaseDescriptor _ | EvLoadTextureFromFileDeferred _
  | EvFinishTextureLoading | EvCreateDescriptor _ => true
  | _ => false
  end.

(** ** The UI data read and written by the frame *)

(** Modelled from the spec: [UIData] is declared outside [main.cpp], so the
    integer types of [numAccumulatedFrames] and [framesToAccumulate] are not
    visible.  The spec describes a count of frames with a user-configured cap
    that "grows unboundedly" when the cap is zero; both are natural numbers
    here.  The other fields have the types their uses in [main.cpp] force. *)
Record UIData := mkUIData {
  reloadShaders : bool;
  resetAccumulation : bool;
  enableToneMapping : bool;
  enableAccumulation : bool;
  enableTAA : bool;
  enablePixelJitter : bool;
  freezeRandom : bool;
  animationFrame : option Z;
  resetRtxdiContext : bool;
  environmentMapDirty : Z;
  environmentMapIndex : Z;
  rtxdiContextParams : ContextParameters;
  regirLightSlotCount : Z;
  numAccumulatedFrames : N;
  framesToAccumulate : N;
  enableDenoiser : bool;
  denoisingMethod : NrdMethod;
  reblurCheckerboardMode : NrdCheckerboardMode;
  rasterizeGBuffer : bool;
  renderingMode : RenderingMode;
  enableLocalLightImportanceSampling : bool;
  environmentMapImportanceSampling : bool;
  animateMeshes : bool;
  enableTransparentGeometry : bool;
  enableMaterialReadback : bool;
  selectedMaterialIndex : Z;
  taaClampingFactor : Q;
  useRayQuery : bool
}.

Definition set_reloadShaders (v : bool) (r : UIData) : UIData :=
  {| reloadShaders := v; resetAccumulation := resetAccumulation r;
     enableToneMapping := enableToneMapping r; enableAccumulation := enableAccumulation r;
     enableTAA := enableTAA r; enablePixelJitter := enablePixelJitter r;
     freezeRandom := freezeRandom r; animationFrame := animationFrame r;
     resetRtxdiContext := resetRtxdiContext r; environmentMapDirty := environmentMapDirty r;
     environmentMapIndex := environmentMapIndex r; rtxdiContextParams := rtxdiContextParams r;
     regirLightSlotCount := regirLightSlotCount r; numAccumulatedFrames := numAccumulatedFrames r;
     framesToAccumulate := framesToAccumulate r; enableDenoiser := enableDenoiser r;
     denoisingMethod := denoisingMethod r; reblurCheckerboardMode := reblurCheckerboardMode r;
     rasterizeGBuffer := rasterizeGBuffer r; renderingMode := renderingMode r;
     enableLocalLightImportanceSampling := enableLocalLightImportanceSampling r;
     environmentMapImportanceSampling := environmentMapImportanceSampling r;
     animateMeshes := animateMeshes r; enableTransparentGeometry := enableTransparentGeometry r;
     enableMaterialReadback := enableMaterialReadback r;
     selectedMaterialIndex := selectedMaterialIndex r; taaClampingFactor := taaClampingFactor r;
     useRayQuery := useRayQuery r |}.

Definition set_resetAccumulation (v : bool) (r : UIData) : UIData :=
  {| reloadShaders := reloadShaders r; resetAccumulation := v;
     enableToneMapping := enableToneMapping r; enableAccumulation := enableAccumulation r;
     enableTAA := enableTAA r; enablePixelJitter := enablePixelJitter r;
     freezeRandom := freezeRandom r; animationFrame := animationFrame r;
     resetRtxdiContext := resetRtxdiContext r; environmentMapDirty := environmentMapDirty r;
     environmentMapIndex := environmentMapIndex r; rtxdiContextParams := rtxdiContextParams r;
     regirLightSlotCount := regirLightSlotCount r; numAccumulatedFrames := numAccumulatedFrames r;
     framesToAccumulate := framesToAccumulate r; enableDenoiser := enableDenoiser r;
     denoisingMethod := denoisingMethod r; reblurCheckerboardMode := reblurCheckerboardMode r;
     rasterizeGBuffer := rasterizeGBuffer r; renderingMode := renderingMode r;
     enableLocalLightImportanceSampling := enableLocalLightImportanceSampling r;
     environmentMapImportanceSampling := environmentMapImportanceSampling r;
     animateMeshes := animateMeshes r; enableTransparentGeometry := enableTransparentGeometry r;
     enableMaterialReadback := enableMaterialReadback r;
     selectedMaterialIndex := selectedMaterialIndex r; taaClampingFactor := taaClampingFactor r;
     useRayQuery := useRayQuery r |}.

Definition set_animationFrame (v : option Z) (r : UIData) : UIData :=
  {| reloadShaders := reloadShaders r; resetAccumulation := resetAccumulation r;
     enableToneMapping := enableToneMapping r; enableAccumulation := enableAccumulation r;
     enableTAA := enableTAA r; enablePixelJitter := enablePixelJitter r;
     freezeRandom := freezeRandom r; animationFrame := v; resetRtxdiContext := resetRtxdiContext r;
     environmentMapDirty := environmentMapDirty r; environmentMapIndex := environmentMapIndex r;
     rtxdiContextParams := rtxdiContextParams r; regirLightSlotCount := regirLightSlotCount r;
     numAccumulatedFrames := numAccumulatedFrames r; framesToAccumulate := framesToAccumulate r;
     enableDenoiser := enableDenoiser r; denoisingMethod := denoisingMethod r;
     reblurCheckerboardMode := reblurCheckerboardMode r; rasterizeGBuffer := rasterizeGBuffer r;
     renderingMode := renderingMode r;
     enableLocalLightImportanceSampling := enableLocalLightImportanceSampling r;
     environmentMapImportanceSampling := environmentMapImportanceSampling r;
     animateMeshes := animateMeshes r; enableTransparentGeometry := enableTransparentGeometry r;
     enableMaterialReadback := enableMaterialReadback r;
     selectedMaterialIndex := selectedMaterialIndex r; taaClampingFactor := taaClampingFactor r;
     useRayQuery := useRayQuery r |}.

Definition set_resetRtxdiContext (v : bool) (r : UIData) : UIData :=
  {| reloadShaders := reloadShaders r; resetAccumulation := resetAccumulation r;
     enableToneMapping := enableToneMapping r; enableAccumulation := enableAccumulation r;
     enableTAA := enableTAA r; enablePixelJitter := enablePixelJitter r;
     freezeRandom := freezeRandom r; animationFrame := animationFrame r; resetRtxdiContext := v;
     environmentMapDirty := environmentMapDirty r; environmentMapIndex := environmentMapIndex r;
     rtxdiContextParams := rtxdiContextParams r; regirLightSlotCount := regirLightSlotCount r;
     numAccumulatedFrames := numAccumulatedFrames r; framesToAccumulate := framesToAccumulate r;
     enableDenoiser := enableDenoiser r; denoisingMethod := denoisingMethod r;
     reblurCheckerboardMode := reblurCheckerboardMode r; rasterizeGBuffer := rasterizeGBuffer r;
     renderingMode := renderingMode r;
     enableLocalLightImportanceSampling := enableLocalLightImportanceSampling r;
     environmentMapImportanceSampling := environmentMapImportanceSampling r;
     animateMeshes := animateMeshes r; enableTransparentGeometry := enableTransparentGeometry r;
     enableMaterialReadback := enableMaterialReadback r;
     selectedMaterialIndex := selectedMaterialIndex r; taaClampingFactor := taaClampingFactor r;
     useRayQuery := useRayQuery r |}.

Definition set_environmentMapDirty (v : Z) (r : UIData) : UIData :=
  {| reloadShaders := reloadShaders r; resetAccumulation := resetAccumulation r;
     enableToneMapping := enableToneMapping r; enableAccumulation := enableAccumulation r;
     enableTAA := enableTAA r; enablePixelJitter := enablePixelJitter r;
     freezeRandom := freezeRandom r; animationFrame := animationFrame r;
     resetRtxdiContext := resetRtxdiContext r; environmentMapDirty := v;
     environmentMapIndex := environmentMapIndex r; rtxdiContextParams := rtxdiContextParams r;
     regirLightSlotCount := regirLightSlotCount r; numAccumulatedFrames := numAccumulatedFrames r;
     framesToAccumulate := framesToAccumulate r; enableDenoiser := enableDenoiser r;
     denoisingMethod := denoisingMethod r; reblurCheckerboardMode := reblurCheckerboardMode r;
     rasterizeGBuffer := rasterizeGBuffer r; renderingMode := renderingMode r;
     enableLocalLightImportanceSampling := enableLocalLightImportanceSampling r;
     environmentMapImportanceSampling := environmentMapImportanceSampling r;
     animateMeshes := animateMeshes r; enableTransparentGeometry := enableTransparentGeometry r;
     enableMaterialReadback := enableMaterialReadback r;
     selectedMaterialIndex := selectedMaterialIndex r; taaClampingFactor := taaClampingFactor r;
     useRayQuery := useRayQuery r |}.

Definition set_environmentMapIndex (v : Z) (r : UIData) : UIData :=
  {| reloadShaders := reloadShaders r; resetAccumulation := resetAccumulation r;
     enableToneMapping := enableToneMapping r; enableAccumulation := enableAccumulation r;
     enableTAA := enableTAA r; enablePixelJitter := enablePixelJitter r;
     freezeRandom := freezeRandom r; animationFrame := animationFrame r;
     resetRtxdiContext := resetRtxdiContext r; environmentMapDirty := environmentMapDirty r;
     environmentMapIndex := v; rtxdiContextParams := rtxdiContextParams r;
     regirLightSlotCount := regirLightSlotCount r; numAccumulatedFrames := numAccumulatedFrames r;
     framesToAccumulate := framesToAccumulate r; enableDenoiser := enableDenoiser r;
     denoisingMethod := denoisingMethod r; reblurCheckerboardMode := reblurCheckerboardMode r;
     rasterizeGBuffer := rasterizeGBuffer r; renderingMode := renderingMode r;
     enableLocalLightImportanceSampling := enableLocalLightImportanceSampling r;
     environmentMapImportanceSampling := environmentMapImportanceSampling r;
     animateMeshes := animateMeshes r; enableTransparentGeometry := enableTransparentGeometry r;
     enableMaterialReadback := enableMaterialReadback r;
     selectedMaterialIndex := selectedMaterialIndex r; taaClampingFactor := taaClampingFactor r;
     useRayQuery := useRayQuery r |}.

Definition set_rtxdiContextParams (v : ContextParameters) (r : UIData) : UIData :=
  {| reloadShaders := reloadShaders r; resetAccumulation := resetAccumulation r;
     enableToneMapping := enableToneMapping r; enableAccumulation := enableAccumulation r;
     enableTAA := enableTAA r; enablePixelJitter := enablePixelJitter r;
     freezeRandom := freezeRandom r; animationFrame := animationFrame r;
     resetRtxdiContext := resetRtxdiContext r; environmentMapDirty := environmentMapDirty r;
     environmentMapIndex := environmentMapIndex r; rtxdiContextParams := v;
     regirLightSlotCount := regirLightSlotCount r; numAccumulatedFrames := numAccumulatedFrames r;
     framesToAccumulate := framesToAccumulate r; enableDenoiser := enableDenoiser r;
     denoisingMethod := denoisingMethod r; reblurCheckerboardMode := reblurCheckerboardMode r;
     rasterizeGBuffer := rasterizeGBuffer r; renderingMode := renderingMode r;
     enableLocalLightImportanceSampling := enableLocalLightImportanceSampling r;
     environmentMapImportanceSampling := environmentMapImportanceSampling r;
     animateMeshes := animateMeshes r; enableTransparentGeometry := enableTransparentGeometry r;
     enableMaterialReadback := enableMaterialReadback r;
     selectedMaterialIndex := selectedMaterialIndex r; taaClampingFactor := taaClampingFactor r;
     useRayQuery := useRayQuery r |}.

Definition set_regirLightSlotCount (v : Z) (r : UIData) : UIData :=
  {| reloadShaders := reloadShaders r; resetAccumulation := resetAccumulation r;
     enableToneMapping := enableToneMapping r; enableAccumulation := enableAccumulation r;
     enableTAA := enableTAA r; enablePixelJitter := enablePixelJitter r;
     freezeRandom := freezeRandom r; animationFrame := animationFrame r;
     resetRtxdiContext := resetRtxdiContext r; environmentMapDirty := environmentMapDirty r;
     environmentMapIndex := environmentMapIndex r; rtxdiContextParams := rtxdiContextParams r;
     regirLightSlotCount := v; numAccumulatedFrames := numAccumulatedFrames r;
     framesToAccumulate := framesToAccumulate r; enableDenoiser := enableDenoiser r;
     denoisingMethod := denoisingMethod r; reblurCheckerboardMode := reblurCheckerboardMode r;
     rasterizeGBuffer := rasterizeGBuffer r; renderingMode := renderingMode r;
     enableLocalLightImportanceSampling := enableLocalLightImportanceSampling r;
     environmentMapImportanceSampling := environmentMapImportanceSampling r;
     animateMeshes := animateMeshes r; enableTransparentGeometry := enableTransparentGeometry r;
     enableMaterialReadback := enableMaterialReadback r;
     selectedMaterialIndex := selectedMaterialIndex r; taaClampingFactor := taaClampingFactor r;
     useRayQuery := useRayQuery r |}.

Definition set_numAccumulatedFrames (v : N) (r : UIData) : UIData :=
  {| reloadShaders := reloadShaders r; resetAccumulation := resetAccumulation r;
     enableToneMapping := enableToneMapping r; enableAccumulation := enableAccumulation r;
     enableTAA := enableTAA r; enablePixelJitter := enablePixelJitter r;
     freezeRandom := freezeRandom r; animationFrame := animationFrame r;
     resetRtxdiContext := resetRtxdiContext r; environmentMapDirty := environmentMapDirty r;
     environmentMapIndex := environmentMapIndex r; rtxdiContextParams := rtxdiContextParams r;
     regirLightSlotCount := regirLightSlotCount r; numAccumulatedFrames := v;
     framesToAccumulate := framesToAccumulate r; enableDenoiser := enableDenoiser r;
     denoisingMethod := denoisingMethod r; reblurCheckerboardMode := reblurCheckerboardMode r;
     rasterizeGBuffer := rasterizeGBuffer r; renderingMode := renderingMode r;
     enableLocalLightImportanceSampling := enableLocalLightImportanceSampling r;
     environmentMapImportanceSampling := environmentMapImportanceSampling r;
     animateMeshes := animateMeshes r; enableTransparentGeometry := enableTransparentGeometry r;
     enableMaterialReadback := enableMaterialReadback r;
     selectedMaterialIndex := selectedMaterialIndex r; taaClampingFactor := taaClampingFactor r;
     useRayQuery := useRayQuery r |}.

Definition set_enableDenoiser (v : bool) (r : UIData) : UIData :=
  {| reloadShaders := reloadShaders r; resetAccumulation := resetAccumulation r;
     enableToneMapping := enableToneMapping r; enableAccumulation := enableAccumulation r;
     enableTAA := enableTAA r; enablePixelJitter := enablePixelJitter r;
     freezeRandom := freezeRandom r; animationFrame := animationFrame r;
     resetRtxdiContext := resetRtxdiContext r; environmentMapDirty := environmentMapDirty r;
     environmentMapIndex := environmentMapIndex r; rtxdiContextParams := rtxdiContextParams r;
     regirLightSlotCount := regirLightSlotCount r; numAccumulatedFrames := numAccumulatedFrames r;
     framesToAccumulate := framesToAccumulate r; enableDenoiser := v;
     denoisingMethod := denoisingMethod r; reblurCheckerboardMode := reblurCheckerboardMode r;
     rasterizeGBuffer := rasterizeGBuffer r; renderingMode := renderingMode r;
     enableLocalLightImportanceSampling := enableLocalLightImportanceSampling r;
     environmentMapImportanceSampling := environmentMapImportanceSampling r;
     animateMeshes := animateMeshes r; enableTransparentGeometry := enableTransparentGeometry r;
     enableMaterialReadback := enableMaterialReadback r;
     selectedMaterialIndex := selectedMaterialIndex r; taaClampingFactor := taaClampingFactor r;
     useRayQuery := useRayQuery r |}.

Definition set_reblurCheckerboardMode (v : NrdCheckerboardMode) (r : UIData) : UIData :=
  {| reloadShaders := reloadShaders r; resetAccumulation := resetAccumulation r;
     enableToneMapping := enableToneMapping r; enableAccumulation := enableAccumulation r;
     enableTAA := enableTAA r; enablePixelJitter := enablePixelJitter r;
     freezeRandom := freezeRandom r; animationFrame := animationFrame r;
     resetRtxdiContext := resetRtxdiContext r; environmentMapDirty := environmentMapDirty r;
     environmentMapIndex := environmentMapIndex r; rtxdiContextParams := rtxdiContextParams r;
     regirLightSlotCount := regirLightSlotCount r; numAccumulatedFrames := numAccumulatedFrames r;
     framesToAccumulate := framesToAccumulate r; enableDenoiser := enableDenoiser r;
     denoisingMethod := denoisingMethod r; reblurCheckerboardMode := v;
     rasterizeGBuffer := rasterizeGBuffer r; renderingMode := renderingMode r;
     enableLocalLightImportanceSampling := enableLocalLightImportanceSampling r;
     environmentMapImportanceSampling := environmentMapImportanceSampling r;
     animateMeshes := animateMeshes r; enableTransparentGeometry := enableTransparentGeometry r;
     enableMaterialReadback := enableMaterialReadback r;
     selectedMaterialIndex := selectedMaterialIndex r; taaClampingFactor := taaClampingFactor r;
     useRayQuery := useRayQuery r |}.

Definition set_enableMaterialReadback (v : bool) (r : UIData) : UIData :=
  {| reloadShaders := reloadShaders r; resetAccumulation := resetAccumulation r;
     enableToneMapping := enableToneMapping r; enableAccumulation := enableAccumulation r;
     enableTAA := enableTAA r; enablePixelJitter := enablePixelJitter r;
     freezeRandom := freezeRandom r; animationFrame := animationFrame r;
     resetRtxdiContext := resetRtxdiContext r; environmentMapDirty := environmentMapDirty r;
     environmentMapIndex := environmentMapIndex r; rtxdiContextParams := rtxdiContextParams r;
     regirLightSlotCount := regirLightSlotCount r; numAccumulatedFrames := numAccumulatedFrames r;
     framesToAccumulate := framesToAccumulate r; enableDenoiser := enableDenoiser r;
     denoisingMethod := denoisingMethod r; reblurCheckerboardMode := reblurCheckerboardMode r;
     rasterizeGBuffer := rasterizeGBuffer r; renderingMode := renderingMode r;
     enableLocalLightImportanceSampling := enableLocalLightImportanceSampling r;
     environmentMapImportanceSampling := environmentMapImportanceSampling r;
     animateMeshes := animateMeshes r; enableTransparentGeometry := enableTransparentGeometry r;
     enableMaterialReadback := v; selectedMaterialIndex := selectedMaterialIndex r;
     taaClampingFactor := taaClampingFactor r; useRayQuery := useRayQuery r |}.

Definition set_selectedMaterialIndex (v : Z) (r : UIData) : UIData :=
  {| reloadShaders := reloadShaders r; resetAccumulation := resetAccumulation r;
     enableToneMapping := enableToneMapping r; enableAccumulation := enableAccumulation r;
     enableTAA := enableTAA r; enablePixelJitter := enablePixelJitter r;
     freezeRandom := freezeRandom r; animationFrame := animationFrame r;
     resetRtxdiContext := resetRtxdiContext r; environmentMapDirty := environmentMapDirty r;
     environmentMapIndex := environmentMapIndex r; rtxdiContextParams := rtxdiContextParams r;
     regirLightSlotCount := regirLightSlotCount r; numAccumulatedFrames := numAccumulatedFrames r;
     framesToAccumulate := framesToAccumulate r; enableDenoiser := enableDenoiser r;
     denoisingMethod := denoisingMethod r; reblurCheckerboardMode := reblurCheckerboardMode r;
     rasterizeGBuffer := rasterizeGBuffer r; renderingMode := renderingMode r;
     enableLocalLightImportanceSampling := enableLocalLightImportanceSampling r;
     environmentMapImportanceSampling := environmentMapImportanceSampling r;
     animateMeshes := animateMeshes r; enableTransparentGeometry := enableTransparentGeometry r;
     enableMaterialReadback := enableMaterialReadback r; selectedMaterialIndex := v;
     taaClampingFactor := taaClampingFactor r; useRayQuery := useRayQuery r |}.

Definition set_taaClampingFactor (v : Q) (r : UIData) : UIData :=
  {| reloadShaders := reloadShaders r; resetAccumulation := resetAccumulation r;
     enableToneMapping := enableToneMapping r; enableAccumulation := enableAccumulation r;
     enableTAA := enableTAA r; enablePixelJitter := enablePixelJitter r;
     freezeRandom := freezeRandom r; animationFrame := animationFrame r;
     resetRtxdiContext := resetRtxdiContext r; environmentMapDirty := environmentMapDirty r;
     environmentMapIndex := environmentMapIndex r; rtxdiContextParams := rtxdiContextParams r;
     regirLightSlotCount := regirLightSlotCount r; numAccumulatedFrames := numAccumulatedFrames r;
     framesToAccumulate := framesToAccumulate r; enableDenoiser := enableDenoiser r;
     denoisingMethod := denoisingMethod r; reblurCheckerboardMode := reblurCheckerboardMode r;
     rasterizeGBuffer := rasterizeGBuffer r; renderingMode := renderingMode r;
     enableLocalLightImportanceSampling := enableLocalLightImportanceSampling r;
     environmentMapImportanceSampling := environmentMapImportanceSampling r;
     animateMeshes := animateMeshes r; enableTransparentGeometry := enableTransparentGeometry r;
     enableMaterialReadback := enableMaterialReadback r;
     selectedMaterialIndex := selectedMaterialIndex r; taaClampingFactor := v;
     useRayQuery := useRayQuery r |}.

Section Renderer.

(** The camera's world-to-view transform ([affine3] in the source).  Its
    entries are floating-point numbers, which this development keeps abstract:
    all the orchestrator does with a view matrix is store it and compare it
    with [operator==], modelled as decidable equality. *)
Context {Matrix : Type} `{EqDecision Matrix}.

(** Whether the view got the TAA pass's current sub-pixel offset (and which
    position of the jitter sequence it was), or a zero offset. *)
Inductive PixelOffset := ZeroOffset | JitterOffset (taaFrame : Z).

(** [engine::PlanarView]. *)
Record View := mkView {
  GetViewMatrix : Matrix;
  m_Viewport : Z * Z;
  m_PixelOffset : PixelOffset
}.

(** ** External collaborators

    What the frame asks of the world outside [main.cpp]. *)
Record World := mkWorld {
  (** [WITH_NRD]: whether the denoiser integration is compiled in. *)
  WITH_NRD : bool;
  (** [TextureCache]: the size of the texture at a path, if the file loads
      ([IsTextureLoaded]). *)
  LoadTextureFromFileDeferred : string -> option (Z * Z);
  (** [DescriptorTableManager::CreateDescriptor]: the slot handed out. *)
  CreateDescriptor : string -> Z;
  (** [SampleScene::InterpolateCameraPath] followed by [FPSCamera::LookAt]:
      the camera transform at an animation frame, or "no more path". *)
  InterpolateCameraPath : Z -> option Matrix;
  (** The size of the procedural sky texture made by
      [RenderEnvironmentMapPass] for a requested width. *)
  proceduralTextureSize : Z -> Z * Z;
  (** The size [RtxdiResources] gives the local-light PDF texture for the
      scene's light counts (meshes, triangles, primitive lights). *)
  localLightPdfTextureSize : Z -> Z -> Z -> Z * Z;
  GetReGIRLightSlotCount : ContextParameters -> Z;
  (** [NrdIntegration::IsAvailable] after [Initialize]. *)
  nrdAvailable : NrdMethod -> Z * Z -> bool;
  (** [Profiler::GetMaterialReadback]. *)
  GetMaterialReadback : Z
}.

(** ** The renderer *)
Record SceneRenderer := mkSceneRenderer {
  m_ui : UIData;
  m_RenderTargets : option RenderTargets;
  m_Camera : Matrix;
  m_View : View;
  m_ViewPrevious : View;
  m_EnvironmentMap : option LoadedTexture;
  m_RtxdiContext : option Context;
  m_RenderEnvironmentMapPass : option RenderEnvironmentMapPass;
  m_EnvironmentMapPdfMipmapPass : option GenerateMipsPass;
  m_LocalLightPdfMipmapPass : option GenerateMipsPass;
  m_RtxdiResources : option RtxdiResources;
  m_TemporalAntiAliasingPass : option TemporalAntiAliasingPass;
  m_ToneMappingPass : option ToneMappingPass;
  m_NRD : option NrdIntegration;
  m_FrameIndex : Z;
  m_FramesSinceAnimation : Z;
  m_PreviousViewValid : bool;
  m_MaterialReadbackCountdown : Z;
  m_SceneEmissiveMeshes : Z;
  m_SceneEmissiveTriangles : Z;
  m_ScenePrimitiveLights : Z;
  m_FrameStepMode : FrameStepMode;
  environmentMaps : list string;
  m_BindingCache : list Image;
  trace : list Event
}.

Definition set_m_ui (v : UIData) (r : SceneRenderer) : SceneRenderer :=
  {| m_ui := v; m_RenderTargets := m_RenderTargets r; m_Camera := m_Camera r; m_View := m_View r;
     m_ViewPrevious := m_ViewPrevious r; m_EnvironmentMap := m_EnvironmentMap r;
     m_RtxdiContext := m_RtxdiContext r;
     m_RenderEnvironmentMapPass := m_RenderEnvironmentMapPass r;
     m_EnvironmentMapPdfMipmapPass := m_EnvironmentMapPdfMipmapPass r;
     m_LocalLightPdfMipmapPass := m_LocalLightPdfMipmapPass r;
     m_RtxdiResources := m_RtxdiResources r;
     m_TemporalAntiAliasingPass := m_TemporalAntiAliasingPass r;
     m_ToneMappingPass := m_ToneMappingPass r; m_NRD := m_NRD r; m_FrameIndex := m_FrameIndex r;
     m_FramesSinceAnimation := m_FramesSinceAnimation r;
     m_PreviousViewValid := m_PreviousViewValid r;
     m_MaterialReadbackCountdown := m_MaterialReadbackCountdown r;
     m_SceneEmissiveMeshes := m_SceneEmissiveMeshes r;
     m_SceneEmissiveTriangles := m_SceneEmissiveTriangles r;
     m_ScenePrimitiveLights := m_ScenePrimitiveLights r; m_FrameStepMode := m_FrameStepMode r;
     environmentMaps := environmentMaps r; m_BindingCache := m_BindingCache r; trace := trace r |}.

Definition set_m_RenderTargets (v : option RenderTargets) (r : SceneRenderer) : SceneRenderer :=
  {| m_ui := m_ui r; m_RenderTargets := v; m_Camera := m_Camera r; m_View := m_View r;
     m_ViewPrevious := m_ViewPrevious r; m_EnvironmentMap := m_EnvironmentMap r;
     m_RtxdiContext := m_RtxdiContext r;
     m_RenderEnvironmentMapPass := m_RenderEnvironmentMapPass r;
     m_EnvironmentMapPdfMipmapPass := m_EnvironmentMapPdfMipmapPass r;
     m_LocalLightPdfMipmapPass := m_LocalLightPdfMipmapPass r;
     m_RtxdiResources := m_RtxdiResources r;
     m_TemporalAntiAliasingPass := m_TemporalAntiAliasingPass r;
     m_ToneMappingPass := m_ToneMappingPass r; m_NRD := m_NRD r; m_FrameIndex := m_FrameIndex r;
     m_FramesSinceAnimation := m_FramesSinceAnimation r;
     m_PreviousViewValid := m_PreviousViewValid r;
     m_MaterialReadbackCountdown := m_MaterialReadbackCountdown r;
     m_SceneEmissiveMeshes := m_SceneEmissiveMeshes r;
     m_SceneEmissiveTriangles := m_SceneEmissiveTriangles r;
     m_ScenePrimitiveLights := m_ScenePrimitiveLights r; m_FrameStepMode := m_FrameStepMode r;
     environmentMaps := environmentMaps r; m_BindingCache := m_BindingCache r; trace := trace r |}.

Definition set_m_Camera (v : Matrix) (r : SceneRenderer) : SceneRenderer :=
  {| m_ui := m_ui r; m_RenderTargets := m_RenderTargets r; m_Camera := v; m_View := m_View r;
     m_ViewPrevious := m_ViewPrevious r; m_EnvironmentMap := m_EnvironmentMap r;
     m_RtxdiContext := m_RtxdiContext r;
     m_RenderEnvironmentMapPass := m_RenderEnvironmentMapPass r;
     m_EnvironmentMapPdfMipmapPass := m_EnvironmentMapPdfMipmapPass r;
     m_LocalLightPdfMipmapPass := m_LocalLightPdfMipmapPass r;
     m_RtxdiResources := m_RtxdiResources r;
     m_TemporalAntiAliasingPass := m_TemporalAntiAliasingPass r;
     m_ToneMappingPass := m_ToneMappingPass r; m_NRD := m_NRD r; m_FrameIndex := m_FrameIndex r;
     m_FramesSinceAnimation := m_FramesSinceAnimation r;
     m_PreviousViewValid := m_PreviousViewValid r;
     m_MaterialReadbackCountdown := m_MaterialReadbackCountdown r;
     m_SceneEmissiveMeshes := m_SceneEmissiveMeshes r;
     m_SceneEmissiveTriangles := m_SceneEmissiveTriangles r;
     m_ScenePrimitiveLights := m_ScenePrimitiveLights r; m_FrameStepMode := m_FrameStepMode r;
     environmentMaps := environmentMaps r; m_BindingCache := m_BindingCache r; trace := trace r |}.

Definition set_m_View (v : View) (r : SceneRenderer) : SceneRenderer :=
  {| m_ui := m_ui r; m_RenderTargets := m_RenderTargets r; m_Camera := m_Camera r; m_View := v;
     m_ViewPrevious := m_ViewPrevious r; m_EnvironmentMap := m_EnvironmentMap r;
     m_RtxdiContext := m_RtxdiContext r;
     m_RenderEnvironmentMapPass := m_RenderEnvironmentMapPass r;
     m_EnvironmentMapPdfMipmapPass := m_EnvironmentMapPdfMipmapPass r;
     m_LocalLightPdfMipmapPass := m_LocalLightPdfMipmapPass r;
     m_RtxdiResources := m_RtxdiResources r;
     m_TemporalAntiAliasingPass := m_TemporalAntiAliasingPass r;
     m_ToneMappingPass := m_ToneMappingPass r; m_NRD := m_NRD r; m_FrameIndex := m_FrameIndex r;
     m_FramesSinceAnimation := m_FramesSinceAnimation r;
     m_PreviousViewValid := m_PreviousViewValid r;
     m_MaterialReadbackCountdown := m_MaterialReadbackCountdown r;
     m_SceneEmissiveMeshes := m_SceneEmissiveMeshes r;
     m_SceneEmissiveTriangles := m_SceneEmissiveTriangles r;
     m_ScenePrimitiveLights := m_ScenePrimitiveLights r; m_FrameStepMode := m_FrameStepMode r;
     environmentMaps := environmentMaps r; m_BindingCache := m_BindingCache r; trace := trace r |}.

Definition set_m_ViewPrevious (v : View) (r : SceneRenderer) : SceneRenderer :=
  {| m_ui := m_ui r; m_RenderTargets := m_RenderTargets r; m_Camera := m_Camera r;
     m_View := m_View r; m_ViewPrevious := v; m_EnvironmentMap := m_EnvironmentMap r;
     m_RtxdiContext := m_RtxdiContext r;
     m_RenderEnvironmentMapPass := m_RenderEnvironmentMapPass r;
     m_EnvironmentMapPdfMipmapPass := m_EnvironmentMapPdfMipmapPass r;
     m_LocalLightPdfMipmapPass := m_LocalLightPdfMipmapPass r;
     m_RtxdiResources := m_RtxdiResources r;
     m_TemporalAntiAliasingPass := m_TemporalAntiAliasingPass r;
     m_ToneMappingPass := m_ToneMappingPass r; m_NRD := m_NRD r; m_FrameIndex := m_FrameIndex r;
     m_FramesSinceAnimation := m_FramesSinceAnimation r;
     m_PreviousViewValid := m_PreviousViewValid r;
     m_MaterialReadbackCountdown := m_MaterialReadbackCountdown r;
     m_SceneEmissiveMeshes := m_SceneEmissiveMeshes r;
     m_SceneEmissiveTriangles := m_SceneEmissiveTriangles r;
     m_ScenePrimitiveLights := m_ScenePrimitiveLights r; m_FrameStepMode := m_FrameStepMode r;
     environmentMaps := environmentMaps r; m_BindingCache := m_BindingCache r; trace := trace r |}.

Definition set_m_EnvironmentMap (v : option LoadedTexture) (r : SceneRenderer) : SceneRenderer :=
  {| m_ui := m_ui r; m_RenderTargets := m_RenderTargets r; m_Camera := m_Camera r;
     m_View := m_View r; m_ViewPrevious := m_ViewPrevious r; m_EnvironmentMap := v;
     m_RtxdiContext := m_RtxdiContext r;
     m_RenderEnvironmentMapPass := m_RenderEnvironmentMapPass r;
     m_EnvironmentMapPdfMipmapPass := m_EnvironmentMapPdfMipmapPass r;
     m_LocalLightPdfMipmapPass := m_LocalLightPdfMipmapPass r;
     m_RtxdiResources := m_RtxdiResources r;
     m_TemporalAntiAliasingPass := m_TemporalAntiAliasingPass r;
     m_ToneMappingPass := m_ToneMappingPass r; m_NRD := m_NRD r; m_FrameIndex := m_FrameIndex r;
     m_FramesSinceAnimation := m_FramesSinceAnimation r;
     m_PreviousViewValid := m_PreviousViewValid r;
     m_MaterialReadbackCountdown := m_MaterialReadbackCountdown r;
     m_SceneEmissiveMeshes := m_SceneEmissiveMeshes r;
     m_SceneEmissiveTriangles := m_SceneEmissiveTriangles r;
     m_ScenePrimitiveLights := m_ScenePrimitiveLights r; m_FrameStepMode := m_FrameStepMode r;
     environmentMaps := environmentMaps r; m_BindingCache := m_BindingCache r; trace := trace r |}.

Definition set_m_RtxdiContext (v : option Context) (r : SceneRenderer) : SceneRenderer :=
  {| m_ui := m_ui r; m_RenderTargets := m_RenderTargets r; m_Camera := m_Camera r;
     m_View := m_View r; m_ViewPrevious := m_ViewPrevious r;
     m_EnvironmentMap := m_EnvironmentMap r; m_RtxdiContext := v;
     m_RenderEnvironmentMapPass := m_RenderEnvironmentMapPass r;
     m_EnvironmentMapPdfMipmapPass := m_EnvironmentMapPdfMipmapPass r;
     m_LocalLightPdfMipmapPass := m_LocalLightPdfMipmapPass r;
     m_RtxdiResources := m_RtxdiResources r;
     m_TemporalAntiAliasingPass := m_TemporalAntiAliasingPass r;
     m_ToneMappingPass := m_ToneMappingPass r; m_NRD := m_NRD r; m_FrameIndex := m_FrameIndex r;
     m_FramesSinceAnimation := m_FramesSinceAnimation r;
     m_PreviousViewValid := m_PreviousViewValid r;
     m_MaterialReadbackCountdown := m_MaterialReadbackCountdown r;
     m_SceneEmissiveMeshes := m_SceneEmissiveMeshes r;
     m_SceneEmissiveTriangles := m_SceneEmissiveTriangles r;
     m_ScenePrimitiveLights := m_ScenePrimitiveLights r; m_FrameStepMode := m_FrameStepMode r;
     environmentMaps := environmentMaps r; m_BindingCache := m_BindingCache r; trace := trace r |}.

Definition set_m_RenderEnvironmentMapPass (v : option RenderEnvironmentMapPass)
    (r : SceneRenderer) : SceneRenderer :=
  {| m_ui := m_ui r; m_RenderTargets := m_RenderTargets r; m_Camera := m_Camera r;
     m_View := m_View r; m_ViewPrevious := m_ViewPrevious r;
     m_EnvironmentMap := m_EnvironmentMap r; m_RtxdiContext := m_RtxdiContext r;
     m_RenderEnvironmentMapPass := v;
     m_EnvironmentMapPdfMipmapPass := m_EnvironmentMapPdfMipmapPass r;
     m_LocalLightPdfMipmapPass := m_LocalLightPdfMipmapPass r;
     m_RtxdiResources := m_RtxdiResources r;
     m_TemporalAntiAliasingPass := m_TemporalAntiAliasingPass r;
     m_ToneMappingPass := m_ToneMappingPass r; m_NRD := m_NRD r; m_FrameIndex := m_FrameIndex r;
     m_FramesSinceAnimation := m_FramesSinceAnimation r;
     m_PreviousViewValid := m_PreviousViewValid r;
     m_MaterialReadbackCountdown := m_MaterialReadbackCountdown r;
     m_SceneEmissiveMeshes := m_SceneEmissiveMeshes r;
     m_SceneEmissiveTriangles := m_SceneEmissiveTriangles r;
     m_ScenePrimitiveLights := m_ScenePrimitiveLights r; m_FrameStepMode := m_FrameStepMode r;
     environmentMaps := environmentMaps r; m_BindingCache := m_BindingCache r; trace := trace r |}.

Definition set_m_EnvironmentMapPdfMipmapPass (v : option GenerateMipsPass)
    (r : SceneRenderer) : SceneRenderer :=
  {| m_ui := m_ui r; m_RenderTargets := m_RenderTargets r; m_Camera := m_Camera r;
     m_View := m_View r; m_ViewPrevious := m_ViewPrevious r;
     m_EnvironmentMap := m_EnvironmentMap r; m_RtxdiContext := m_RtxdiContext r;
     m_RenderEnvironmentMapPass := m_RenderEnvironmentMapPass r;
     m_EnvironmentMapPdfMipmapPass := v; m_LocalLightPdfMipmapPass := m_LocalLightPdfMipmapPass r;
     m_RtxdiResources := m_RtxdiResources r;
     m_TemporalAntiAliasingPass := m_TemporalAntiAliasingPass r;
     m_ToneMappingPass := m_ToneMappingPass r; m_NRD := m_NRD r; m_FrameIndex := m_FrameIndex r;
     m_FramesSinceAnimation := m_FramesSinceAnimation r;
     m_PreviousViewValid := m_PreviousViewValid r;
     m_MaterialReadbackCountdown := m_MaterialReadbackCountdown r;
     m_SceneEmissiveMeshes := m_SceneEmissiveMeshes r;
     m_SceneEmissiveTriangles := m_SceneEmissiveTriangles r;
     m_ScenePrimitiveLights := m_ScenePrimitiveLights r; m_FrameStepMode := m_FrameStepMode r;
     environmentMaps := environmentMaps r; m_BindingCache := m_BindingCache r; trace := trace r |}.

Definition set_m_LocalLightPdfMipmapPass (v : option GenerateMipsPass)
    (r : SceneRenderer) : SceneRenderer :=
  {| m_ui := m_ui r; m_RenderTargets := m_RenderTargets r; m_Camera := m_Camera r;
     m_View := m_View r; m_ViewPrevious := m_ViewPrevious r;
     m_EnvironmentMap := m_EnvironmentMap r; m_RtxdiContext := m_RtxdiContext r;
     m_RenderEnvironmentMapPass := m_RenderEnvironmentMapPass r;
     m_EnvironmentMapPdfMipmapPass := m_EnvironmentMapPdfMipmapPass r;
     m_LocalLightPdfMipmapPass := v; m_RtxdiResources := m_RtxdiResources r;
     m_TemporalAntiAliasingPass := m_TemporalAntiAliasingPass r;
     m_ToneMappingPass := m_ToneMappingPass r; m_NRD := m_NRD r; m_FrameIndex := m_FrameIndex r;
     m_FramesSinceAnimation := m_FramesSinceAnimation r;
     m_PreviousViewValid := m_PreviousViewValid r;
     m_MaterialReadbackCountdown := m_MaterialReadbackCountdown r;
     m_SceneEmissiveMeshes := m_SceneEmissiveMeshes r;
     m_SceneEmissiveTriangles := m_SceneEmissiveTriangles r;
     m_ScenePrimitiveLights := m_ScenePrimitiveLights r; m_FrameStepMode := m_FrameStepMode r;
     environmentMaps := environmentMaps r; m_BindingCache := m_BindingCache r; trace := trace r |}.

Definition set_m_RtxdiResources (v : option RtxdiResources) (r : SceneRenderer) : SceneRenderer :=
  {| m_ui := m_ui r; m_RenderTargets := m_RenderTargets r; m_Camera := m_Camera r;
     m_View := m_View r; m_ViewPrevious := m_ViewPrevious r;
     m_EnvironmentMap := m_EnvironmentMap r; m_RtxdiContext := m_RtxdiContext r;
     m_RenderEnvironmentMapPass := m_RenderEnvironmentMapPass r;
     m_EnvironmentMapPdfMipmapPass := m_EnvironmentMapPdfMipmapPass r;
     m_LocalLightPdfMipmapPass := m_LocalLightPdfMipmapPass r; m_RtxdiResources := v;
     m_TemporalAntiAliasingPass := m_TemporalAntiAliasingPass r;
     m_ToneMappingPass := m_ToneMappingPass r; m_NRD := m_NRD r; m_FrameIndex := m_FrameIndex r;
     m_FramesSinceAnimation := m_FramesSinceAnimation r;
     m_PreviousViewValid := m_PreviousViewValid r;
     m_MaterialReadbackCountdown := m_MaterialReadbackCountdown r;
     m_SceneEmissiveMeshes := m_SceneEmissiveMeshes r;
     m_SceneEmissiveTriangles := m_SceneEmissiveTriangles r;
     m_ScenePrimitiveLights := m_ScenePrimitiveLights r; m_FrameStepMode := m_FrameStepMode r;
     environmentMaps := environmentMaps r; m_BindingCache := m_BindingCache r; trace := trace r |}.

Definition set_m_TemporalAntiAliasingPass (v : option TemporalAntiAliasingPass)
    (r : SceneRenderer) : SceneRenderer :=
  {| m_ui := m_ui r; m_RenderTargets := m_RenderTargets r; m_Camera := m_Camera r;
     m_View := m_View r; m_ViewPrevious := m_ViewPrevious r;
     m_EnvironmentMap := m_EnvironmentMap r; m_RtxdiContext := m_RtxdiContext r;
     m_RenderEnvironmentMapPass := m_RenderEnvironmentMapPass r;
     m_EnvironmentMapPdfMipmapPass := m_EnvironmentMapPdfMipmapPass r;
     m_LocalLightPdfMipmapPass := m_LocalLightPdfMipmapPass r;
     m_RtxdiResources := m_RtxdiResources r; m_TemporalAntiAliasingPass := v;
     m_ToneMappingPass := m_ToneMappingPass r; m_NRD := m_NRD r; m_FrameIndex := m_FrameIndex r;
     m_FramesSinceAnimation := m_FramesSinceAnimation r;
     m_PreviousViewValid := m_PreviousViewValid r;
     m_MaterialReadbackCountdown := m_MaterialReadbackCountdown r;
     m_SceneEmissiveMeshes := m_SceneEmissiveMeshes r;
     m_SceneEmissiveTriangles := m_SceneEmissiveTriangles r;
     m_ScenePrimitiveLights := m_ScenePrimitiveLights r; m_FrameStepMode := m_FrameStepMode r;
     environmentMaps := environmentMaps r; m_BindingCache := m_BindingCache r; trace := trace r |}.

Definition set_m_ToneMappingPass (v : option ToneMappingPass) (r : SceneRenderer) : SceneRenderer :=
  {| m_ui := m_ui r; m_RenderTargets := m_RenderTargets r; m_Camera := m_Camera r;
     m_View := m_View r; m_ViewPrevious := m_ViewPrevious r;
     m_EnvironmentMap := m_EnvironmentMap r; m_RtxdiContext := m_RtxdiContext r;
     m_RenderEnvironmentMapPass := m_RenderEnvironmentMapPass r;
     m_EnvironmentMapPdfMipmapPass := m_EnvironmentMapPdfMipmapPass r;
     m_LocalLightPdfMipmapPass := m_LocalLightPdfMipmapPass r;
     m_RtxdiResources := m_RtxdiResources r;
     m_TemporalAntiAliasingPass := m_TemporalAntiAliasingPass r; m_ToneMappingPass := v;
     m_NRD := m_NRD r; m_FrameIndex := m_FrameIndex r;
     m_FramesSinceAnimation := m_FramesSinceAnimation r;
     m_PreviousViewValid := m_PreviousViewValid r;
     m_MaterialReadbackCountdown := m_MaterialReadbackCountdown r;
     m_SceneEmissiveMeshes := m_SceneEmissiveMeshes r;
     m_SceneEmissiveTriangles := m_SceneEmissiveTriangles r;
     m_ScenePrimitiveLights := m_ScenePrimitiveLights r; m_FrameStepMode := m_FrameStepMode r;
     environmentMaps := environmentMaps r; m_BindingCache := m_BindingCache r; trace := trace r |}.

Definition set_m_NRD (v : option NrdIntegration) (r : SceneRenderer) : SceneRenderer :=
  {| m_ui := m_ui r; m_RenderTargets := m_RenderTargets r; m_Camera := m_Camera r;
     m_View := m_View r; m_ViewPrevious := m_ViewPrevious r;
     m_EnvironmentMap := m_EnvironmentMap r; m_RtxdiContext := m_RtxdiContext r;
     m_RenderEnvironmentMapPass := m_RenderEnvironmentMapPass r;
     m_EnvironmentMapPdfMipmapPass := m_EnvironmentMapPdfMipmapPass r;
     m_LocalLightPdfMipmapPass := m_LocalLightPdfMipmapPass r;
     m_RtxdiResources := m_RtxdiResources r;
     m_TemporalAntiAliasingPass := m_TemporalAntiAliasingPass r;
     m_ToneMappingPass := m_ToneMappingPass r; m_NRD := v; m_FrameIndex := m_FrameIndex r;
     m_FramesSinceAnimation := m_FramesSinceAnimation r;
     m_PreviousViewValid := m_PreviousViewValid r;
     m_MaterialReadbackCountdown := m_MaterialReadbackCountdown r;
     m_SceneEmissiveMeshes := m_SceneEmissiveMeshes r;
     m_SceneEmissiveTriangles := m_SceneEmissiveTriangles r;
     m_ScenePrimitiveLights := m_ScenePrimitiveLights r; m_FrameStepMode := m_FrameStepMode r;
     environmentMaps := environmentMaps r; m_BindingCache := m_BindingCache r; trace := trace r |}.

Definition set_m_FrameIndex (v : Z) (r : SceneRenderer) : SceneRenderer :=
  {| m_ui := m_ui r; m_RenderTargets := m_RenderTargets r; m_Camera := m_Camera r;
     m_View := m_View r; m_ViewPrevious := m_ViewPrevious r;
     m_EnvironmentMap := m_EnvironmentMap r; m_RtxdiContext := m_RtxdiContext r;
     m_RenderEnvironmentMapPass := m_RenderEnvironmentMapPass r;
     m_EnvironmentMapPdfMipmapPass := m_EnvironmentMapPdfMipmapPass r;
     m_LocalLightPdfMipmapPass := m_LocalLightPdfMipmapPass r;
     m_RtxdiResources := m_RtxdiResources r;
     m_TemporalAntiAliasingPass := m_TemporalAntiAliasingPass r;
     m_ToneMappingPass := m_ToneMappingPass r; m_NRD := m_NRD r; m_FrameIndex := v;
     m_FramesSinceAnimation := m_FramesSinceAnimation r;
     m_PreviousViewValid := m_PreviousViewValid r;
     m_MaterialReadbackCountdown := m_MaterialReadbackCountdown r;
     m_SceneEmissiveMeshes := m_SceneEmissiveMeshes r;
     m_SceneEmissiveTriangles := m_SceneEmissiveTriangles r;
     m_ScenePrimitiveLights := m_ScenePrimitiveLights r; m_FrameStepMode := m_FrameStepMode r;
     environmentMaps := environmentMaps r; m_BindingCache := m_BindingCache r; trace := trace r |}.

Definition set_m_FramesSinceAnimation (v : Z) (r : SceneRenderer) : SceneRenderer :=
  {| m_ui := m_ui r; m_RenderTargets := m_RenderTargets r; m_Camera := m_Camera r;
     m_View := m_View r; m_ViewPrevious := m_ViewPrevious r;
     m_EnvironmentMap := m_EnvironmentMap r; m_RtxdiContext := m_RtxdiContext r;
     m_RenderEnvironmentMapPass := m_RenderEnvironmentMapPass r;
     m_EnvironmentMapPdfMipmapPass := m_EnvironmentMapPdfMipmapPass r;
     m_LocalLightPdfMipmapPass := m_LocalLightPdfMipmapPass r;
     m_RtxdiResources := m_RtxdiResources r;
     m_TemporalAntiAliasingPass := m_TemporalAntiAliasingPass r;
     m_ToneMappingPass := m_ToneMappingPass r; m_NRD := m_NRD r; m_FrameIndex := m_FrameIndex r;
     m_FramesSinceAnimation := v; m_PreviousViewValid := m_PreviousViewValid r;
     m_MaterialReadbackCountdown := m_MaterialReadbackCountdown r;
     m_SceneEmissiveMeshes := m_SceneEmissiveMeshes r;
     m_SceneEmissiveTriangles := m_SceneEmissiveTriangles r;
     m_ScenePrimitiveLights := m_ScenePrimitiveLights r; m_FrameStepMode := m_FrameStepMode r;
     environmentMaps := environmentMaps r; m_BindingCache := m_BindingCache r; trace := trace r |}.

Definition set_m_PreviousViewValid (v : bool) (r : SceneRenderer) : SceneRenderer :=
  {| m_ui := m_ui r; m_RenderTargets := m_RenderTargets r; m_Camera := m_Camera r;
     m_View := m_View r; m_ViewPrevious := m_ViewPrevious r;
     m_EnvironmentMap := m_EnvironmentMap r; m_RtxdiContext := m_RtxdiContext r;
     m_RenderEnvironmentMapPass := m_RenderEnvironmentMapPass r;
     m_EnvironmentMapPdfMipmapPass := m_EnvironmentMapPdfMipmapPass r;
     m_LocalLightPdfMipmapPass := m_LocalLightPdfMipmapPass r;
     m_RtxdiResources := m_RtxdiResources r;
     m_TemporalAntiAliasingPass := m_TemporalAntiAliasingPass r;
     m_ToneMappingPass := m_ToneMappingPass r; m_NRD := m_NRD r; m_FrameIndex := m_FrameIndex r;
     m_FramesSinceAnimation := m_FramesSinceAnimation r; m_PreviousViewValid := v;
     m_MaterialReadbackCountdown := m_MaterialReadbackCountdown r;
     m_SceneEmissiveMeshes := m_SceneEmissiveMeshes r;
     m_SceneEmissiveTriangles := m_SceneEmissiveTriangles r;
     m_ScenePrimitiveLights := m_ScenePrimitiveLights r; m_FrameStepMode := m_FrameStepMode r;
     environmentMaps := environmentMaps r; m_BindingCache := m_BindingCache r; trace := trace r |}.

Definition set_m_MaterialReadbackCountdown (v : Z) (r : SceneRenderer) : SceneRenderer :=
  {| m_ui := m_ui r; m_RenderTargets := m_RenderTargets r; m_Camera := m_Camera r;
     m_View := m_View r; m_ViewPrevious := m_ViewPrevious r;
     m_EnvironmentMap := m_EnvironmentMap r; m_RtxdiContext := m_RtxdiContext r;
     m_RenderEnvironmentMapPass := m_RenderEnvironmentMapPass r;
     m_EnvironmentMapPdfMipmapPass := m_EnvironmentMapPdfMipmapPass r;
     m_LocalLightPdfMipmapPass := m_LocalLightPdfMipmapPass r;
     m_RtxdiResources := m_RtxdiResources r;
     m_TemporalAntiAliasingPass := m_TemporalAntiAliasingPass r;
     m_ToneMappingPass := m_ToneMappingPass r; m_NRD := m_NRD r; m_FrameIndex := m_FrameIndex r;
     m_FramesSinceAnimation := m_FramesSinceAnimation r;
     m_PreviousViewValid := m_PreviousViewValid r; m_MaterialReadbackCountdown := v;
     m_SceneEmissiveMeshes := m_SceneEmissiveMeshes r;
     m_SceneEmissiveTriangles := m_SceneEmissiveTriangles r;
     m_ScenePrimitiveLights := m_ScenePrimitiveLights r; m_FrameStepMode := m_FrameStepMode r;
     environmentMaps := environmentMaps r; m_BindingCache := m_BindingCache r; trace := trace r |}.

Definition set_m_FrameStepMode (v : FrameStepMode) (r : SceneRenderer) : SceneRenderer :=
  {| m_ui := m_ui r; m_RenderTargets := m_RenderTargets r; m_Camera := m_Camera r;
     m_View := m_View r; m_ViewPrevious := m_ViewPrevious r;
     m_EnvironmentMap := m_EnvironmentMap r; m_RtxdiContext := m_RtxdiContext r;
     m_RenderEnvironmentMapPass := m_RenderEnvironmentMapPass r;
     m_EnvironmentMapPdfMipmapPass := m_EnvironmentMapPdfMipmapPass r;
     m_LocalLightPdfMipmapPass := m_LocalLightPdfMipmapPass r;
     m_RtxdiResources := m_RtxdiResources r;
     m_TemporalAntiAliasingPass := m_TemporalAntiAliasingPass r;
     m_ToneMappingPass := m_ToneMappingPass r; m_NRD := m_NRD r; m_FrameIndex := m_FrameIndex r;
     m_FramesSinceAnimation := m_FramesSinceAnimation r;
     m_PreviousViewValid := m_PreviousViewValid r;
     m_MaterialReadbackCountdown := m_MaterialReadbackCountdown r;
     m_SceneEmissiveMeshes := m_SceneEmissiveMeshes r;
     m_SceneEmissiveTriangles := m_SceneEmissiveTriangles r;
     m_ScenePrimitiveLights := m_ScenePrimitiveLights r; m_FrameStepMode := v;
     environmentMaps := environmentMaps r; m_BindingCache := m_BindingCache r; trace := trace r |}.

Definition set_environmentMaps (v : list string) (r : SceneRenderer) : SceneRenderer :=
  {| m_ui := m_ui r; m_RenderTargets := m_RenderTargets r; m_Camera := m_Camera r;
     m_View := m_View r; m_ViewPrevious := m_ViewPrevious r;
     m_EnvironmentMap := m_EnvironmentMap r; m_RtxdiContext := m_RtxdiContext r;
     m_RenderEnvironmentMapPass := m_RenderEnvironmentMapPass r;
     m_EnvironmentMapPdfMipmapPass := m_EnvironmentMapPdfMipmapPass r;
     m_LocalLightPdfMipmapPass := m_LocalLightPdfMipmapPass r;
     m_RtxdiResources := m_RtxdiResources r;
     m_TemporalAntiAliasingPass := m_TemporalAntiAliasingPass r;
     m_ToneMappingPass := m_ToneMappingPass r; m_NRD := m_NRD r; m_FrameIndex := m_FrameIndex r;
     m_FramesSinceAnimation := m_FramesSinceAnimation r;
     m_PreviousViewValid := m_PreviousViewValid r;
     m_MaterialReadbackCountdown := m_MaterialReadbackCountdown r;
     m_SceneEmissiveMeshes := m_SceneEmissiveMeshes r;
     m_SceneEmissiveTriangles := m_SceneEmissiveTriangles r;
     m_ScenePrimitiveLights := m_ScenePrimitiveLights r; m_FrameStepMode := m_FrameStepMode r;
     environmentMaps := v; m_BindingCache := m_BindingCache r; trace := trace r |}.

Definition set_m_BindingCache (v : list Image) (r : SceneRenderer) : SceneRenderer :=
  {| m_ui := m_ui r; m_RenderTargets := m_RenderTargets r; m_Camera := m_Camera r;
     m_View := m_View r; m_ViewPrevious := m_ViewPrevious r;
     m_EnvironmentMap := m_EnvironmentMap r; m_RtxdiContext := m_RtxdiContext r;
     m_RenderEnvironmentMapPass := m_RenderEnvironmentMapPass r;
     m_EnvironmentMapPdfMipmapPass := m_EnvironmentMapPdfMipmapPass r;
     m_LocalLightPdfMipmapPass := m_LocalLightPdfMipmapPass r;
     m_RtxdiResources := m_RtxdiResources r;
     m_TemporalAntiAliasingPass := m_TemporalAntiAliasingPass r;
     m_ToneMappingPass := m_ToneMappingPass r; m_NRD := m_NRD r; m_FrameIndex := m_FrameIndex r;
     m_FramesSinceAnimation := m_FramesSinceAnimation r;
     m_PreviousViewValid := m_PreviousViewValid r;
     m_MaterialReadbackCountdown := m_MaterialReadbackCountdown r;
     m_SceneEmissiveMeshes := m_SceneEmissiveMeshes r;
     m_SceneEmissiveTriangles := m_SceneEmissiveTriangles r;
     m_ScenePrimitiveLights := m_ScenePrimitiveLights r; m_FrameStepMode := m_FrameStepMode r;
     environmentMaps := environmentMaps r; m_BindingCache := v; trace := trace r |}.

Definition set_trace (v : list Event) (r : SceneRenderer) : SceneRenderer :=
  {| m_ui := m_ui r; m_RenderTargets := m_RenderTargets r; m_Camera := m_Camera r;
     m_View := m_View r; m_ViewPrevious := m_ViewPrevious r;
     m_EnvironmentMap := m_EnvironmentMap r; m_RtxdiContext := m_RtxdiContext r;
     m_RenderEnvironmentMapPass := m_RenderEnvironmentMapPass r;
     m_EnvironmentMapPdfMipmapPass := m_EnvironmentMapPdfMipmapPass r;
     m_LocalLightPdfMipmapPass := m_LocalLightPdfMipmapPass r;
     m_RtxdiResources := m_RtxdiResources r;
     m_TemporalAntiAliasingPass := m_TemporalAntiAliasingPass r;
     m_ToneMappingPass := m_ToneMappingPass r; m_NRD := m_NRD r; m_FrameIndex := m_FrameIndex r;
     m_FramesSinceAnimation := m_FramesSinceAnimation r;
     m_PreviousViewValid := m_PreviousViewValid r;
     m_MaterialReadbackCountdown := m_MaterialReadbackCountdown r;
     m_SceneEmissiveMeshes := m_SceneEmissiveMeshes r;
     m_SceneEmissiveTriangles := m_SceneEmissiveTriangles r;
     m_ScenePrimitiveLights := m_ScenePrimitiveLights r; m_FrameStepMode := m_FrameStepMode r;
     environmentMaps := environmentMaps r; m_BindingCache := m_BindingCache r; trace := v |}.

Implicit Types (s : SceneRenderer) (w : World) (fbinfo : FramebufferInfo).

Definition log (e : Event) s : SceneRenderer := set_trace (trace s ++ [e]) s.

Definition with_ui (f : UIData -> UIData) s : SceneRenderer := set_m_ui (f (m_ui s)) s.

(** ** [BackBufferResizing] (lines 398-409) *)

Definition BackBufferResizing w s : SceneRenderer :=
  let s := set_m_RenderTargets None s in
  let s := set_m_RtxdiContext None s in
  let s := set_m_RtxdiResources None s in
  (* m_CommonPasses->ResetBindingCache() *)
  let s := set_m_BindingCache [] s in
  let s := set_m_TemporalAntiAliasingPass None s in
  let s := set_m_ToneMappingPass None s in
  if WITH_NRD w then set_m_NRD None s else s.

(** ** [LoadEnvironmentMap] (lines 411-449) *)

Definition unloadEnvironmentMap s : SceneRenderer :=
  match m_EnvironmentMap s with
  | Some t =>
      let s := log EvWaitForIdle s in
      let s := log (EvUnloadTexture (tex_path t)) s in
      let s := if 0 <=? bindlessDescriptorIndex t
               then log (EvReleaseDescriptor (bindlessDescriptorIndex t)) s else s in
      set_m_EnvironmentMap None s
  | None => s
  end.

Definition LoadEnvironmentMap w s : Result SceneRenderer :=
  let s := unloadEnvironmentMap s in
  if 0 <? environmentMapIndex (m_ui s) then
    letR environmentMapPath :=
      match environmentMaps s !! Z.to_nat (environmentMapIndex (m_ui s)) with
      | Some path => Ok path
      | None => Crash IndexOutOfRange
      end in
    let s := log (EvLoadTextureFromFileDeferred environmentMapPath) s in
    match LoadTextureFromFileDeferred w environmentMapPath with
    | Some size =>
        let s := log EvFinishTextureLoading s in
        let index := CreateDescriptor w environmentMapPath in
        let s := log (EvCreateDescriptor index) s in
        Ok (set_m_EnvironmentMap (Some (mkLoadedTexture environmentMapPath size index)) s)
    | None =>
        (* Failed to load the file: revert to the procedural map and remove
           this file from the list. *)
        let s := set_m_EnvironmentMap None s in
        let s := set_environmentMaps
                   (delete (Z.to_nat (environmentMapIndex (m_ui s))) (environmentMaps s)) s in
        Ok (with_ui (set_environmentMapIndex 0) s)
    end
  else Ok s.

(** ** [SetupView] (lines 451-473) *)

Definition SetupView fbinfo (effectiveFrameIndex : Z) s : SceneRenderer :=
  let windowViewport := (fb_width fbinfo, fb_height fbinfo) in
  let offset :=
    match m_TemporalAntiAliasingPass s with
    | Some taa => if enablePixelJitter (m_ui s) then JitterOffset (taa_FrameIndex taa)
                  else ZeroOffset
    | None => ZeroOffset
    end in
  let s := set_m_View (mkView (m_Camera s) windowViewport offset) s in
  if m_FrameIndex s =? 0 then set_m_ViewPrevious (m_View s) s else s.

(** ** [SetupRenderPasses] (lines 475-629), block by block *)

Definition LoadShaders s : SceneRenderer := log EvLoadShaders s.

(** Lines 477-482: a pending full reload drops the PDF mipmap pass. *)
Definition dropPdfMipmapPassOnReload s : SceneRenderer :=
  if environmentMapDirty (m_ui s) =? 2 then
    let s := set_m_EnvironmentMapPdfMipmapPass None s in
    with_ui (set_environmentMapDirty 1) s
  else s.

(** Lines 484-496. *)
Definition reloadShadersIfRequested s : SceneRenderer :=
  if reloadShaders (m_ui s) then
    let s := log EvWaitForIdle s in
    let s := log EvClearShaderCache s in
    let s := set_m_TemporalAntiAliasingPass None s in
    let s := set_m_RenderEnvironmentMapPass None s in
    let s := set_m_EnvironmentMapPdfMipmapPass None s in
    let s := set_m_LocalLightPdfMipmapPass None s in
    let s := with_ui (set_environmentMapDirty 1) s in
    LoadShaders s
  else s.

(** Lines 501-504. *)
Definition ensureRenderEnvironmentMapPass w s : SceneRenderer :=
  match m_RenderEnvironmentMapPass s with
  | None =>
      let pass := mkRenderEnvironmentMapPass (proceduralTextureSize w 2048) in
      log EvCreateRenderEnvironmentMapPass (set_m_RenderEnvironmentMapPass (Some pass) s)
  | Some _ => s
  end.

(** Lines 506-510: the size of the active environment map. *)
Definition environmentMapSize s : Result (Z * Z) :=
  if 0 <? environmentMapIndex (m_ui s) then
    letR t := deref (m_EnvironmentMap s) in Ok (tex_size t)
  else
    letR pass := deref (m_RenderEnvironmentMapPass s) in Ok (GetTexture pass).

(** Lines 512-517. *)
Definition invalidateRtxdiResources (size : Z * Z) s : SceneRenderer :=
  match m_RtxdiResources s with
  | Some r =>
      if negb (size.1 =? (EnvironmentPdfTexture r).1)
         && negb (size.2 =? (EnvironmentPdfTexture r).2)
      then set_m_RtxdiResources None s
      else s
  | None => s
  end.

(** Lines 519-534; the flag is [renderTargetsCreated]. *)
Definition ensureRenderTargets fbinfo s : SceneRenderer * bool :=
  match m_RenderTargets s with
  | None =>
      let size := (fb_width fbinfo, fb_height fbinfo) in
      let s := set_m_RenderTargets (Some (mkRenderTargets size)) s in
      let s := log (EvCreateRenderTargets size) s in
      let s := log EvCreateRenderTargetBindings s in
      (s, true)
  | Some _ => (s, false)
  end.

(** Lines 536-544. *)
Definition ensureRtxdiContext w fbinfo s : SceneRenderer :=
  match m_RtxdiContext s with
  | None =>
      let params :=
        mkContextParameters (fb_width fbinfo) (fb_height fbinfo)
          (CheckerboardSamplingMode (rtxdiContextParams (m_ui s))) in
      let s := with_ui (set_rtxdiContextParams params) s in
      let s := set_m_RtxdiContext (Some (mkContext params)) s in
      let s := log (EvCreateRtxdiContext params) s in
      with_ui (set_regirLightSlotCount (GetReGIRLightSlotCount w params)) s
  | Some _ => s
  end.

(** Lines 546-563; the flag is [rtxdiResourcesCreated]. *)
Definition ensureRtxdiResources w (size : Z * Z) s : Result (SceneRenderer * bool) :=
  match m_RtxdiResources s with
  | None =>
      letR context := deref (m_RtxdiContext s) in
      let r :=
        mkRtxdiResources (GetParameters context) (m_SceneEmissiveMeshes s)
          (m_SceneEmissiveTriangles s) (m_ScenePrimitiveLights s) size
          (localLightPdfTextureSize w (m_SceneEmissiveMeshes s)
             (m_SceneEmissiveTriangles s) (m_ScenePrimitiveLights s)) in
      let s := set_m_RtxdiResources (Some r) s in
      let s := log (EvCreateRtxdiResources r) s in
      let s := log EvPrepareLightsCreateBindingSet s in
      (* Make sure that the environment PDF map is re-generated *)
      let s := with_ui (set_environmentMapDirty 1) s in
      Ok (s, true)
  | Some _ => Ok (s, false)
  end.

(** Lines 565-581. *)
Definition ensureEnvironmentMapPdfMipmapPass (size : Z * Z) (rtxdiResourcesCreated : bool) s
  : Result SceneRenderer :=
  if isNull (m_EnvironmentMapPdfMipmapPass s) || rtxdiResourcesCreated then
    letR r := deref (m_RtxdiResources s) in
    let pass := mkGenerateMipsPass (Some size) (EnvironmentPdfTexture r) in
    Ok (log (EvCreateEnvironmentMapPdfMipmapPass pass)
          (set_m_EnvironmentMapPdfMipmapPass (Some pass) s))
  else Ok s.

Definition ensureLocalLightPdfMipmapPass (rtxdiResourcesCreated : bool) s
  : Result SceneRenderer :=
  if isNull (m_LocalLightPdfMipmapPass s) || rtxdiResourcesCreated then
    letR r := deref (m_RtxdiResources s) in
    let pass := mkGenerateMipsPass None (LocalLightPdfTexture r) in
    Ok (log (EvCreateLocalLightPdfMipmapPass pass)
          (set_m_LocalLightPdfMipmapPass (Some pass) s))
  else Ok s.

(** Lines 583-598. *)
Definition rebindLightingPasses (renderTargetsCreated rtxdiResourcesCreated : bool) s
  : Result SceneRenderer :=
  letR s :=
    if renderTargetsCreated || rtxdiResourcesCreated then
      letR rt := deref (m_RenderTargets s) in
      letR r := deref (m_RtxdiResources s) in
      Ok (log (EvLightingCreateBindingSet rt r) s)
    else Ok s in
  let s :=
    if rtxdiResourcesCreated || reloadShaders (m_ui s) then
      (* Some RTXDI context settings affect the shader permutations *)
      log (EvLightingCreatePipelines (rtxdiContextParams (m_ui s)) (useRayQuery (m_ui s))) s
    else s in
  Ok (with_ui (set_reloadShaders false) s).

(** Lines 600-612. *)
Definition ensureTemporalAntiAliasingPass s : Result SceneRenderer :=
  match m_TemporalAntiAliasingPass s with
  | None =>
      letR rt := deref (m_RenderTargets s) in
      Ok (log EvCreateTemporalAntiAliasingPass
            (set_m_TemporalAntiAliasingPass (Some (mkTemporalAntiAliasingPass 0)) s))
  | Some _ => Ok s
  end.

(** Lines 614-620; the flag is [exposureResetRequired]. *)
Definition ensureToneMappingPass s : Result (SceneRenderer * bool) :=
  match m_ToneMappingPass s with
  | None =>
      letR rt := deref (m_RenderTargets s) in
      Ok (log EvCreateToneMappingPass
            (set_m_ToneMappingPass (Some (mkToneMappingPass (Size rt))) s), true)
  | Some _ => Ok (s, false)
  end.

(** Lines 622-628, compiled only with [WITH_NRD]. *)
Definition ensureNrdIntegration w s : Result SceneRenderer :=
  if WITH_NRD w then
    match m_NRD s with
    | None =>
        letR rt := deref (m_RenderTargets s) in
        let method := denoisingMethod (m_ui s) in
        let nrd := mkNrdIntegration method (nrdAvailable w method (Size rt)) (Size rt) in
        Ok (log (EvCreateNrdIntegration method) (set_m_NRD (Some nrd) s))
    | Some _ => Ok s
    end
  else Ok s.

Definition SetupRenderPasses w fbinfo s : Result (SceneRenderer * bool) :=
  let s := dropPdfMipmapPassOnReload s in
  let s := reloadShadersIfRequested s in
  let s := ensureRenderEnvironmentMapPass w s in
  letR size := environmentMapSize s in
  let s := invalidateRtxdiResources size s in
  let '(s, renderTargetsCreated) := ensureRenderTargets fbinfo s in
  let s := ensureRtxdiContext w fbinfo s in
  letR (s, rtxdiResourcesCreated) := ensureRtxdiResources w size s in
  letR s := ensureEnvironmentMapPdfMipmapPass size rtxdiResourcesCreated s in
  letR s := ensureLocalLightPdfMipmapPass rtxdiResourcesCreated s in
  letR s := rebindLightingPasses renderTargetsCreated rtxdiResourcesCreated s in
  letR s := ensureTemporalAntiAliasingPass s in
  letR (s, exposureResetRequired) := ensureToneMappingPass s in
  letR s := ensureNrdIntegration w s in
  Ok (s, exposureResetRequired).

(** ** [RenderScene] (lines 650-1026), block by block *)

(** [CommonRenderPasses::BlitTexture]: the binding set for the source is
    taken from the blit binding cache, which grows on first use. *)
Definition BlitTexture (viewport : Z * Z) (source : Image) s : SceneRenderer :=
  let s := if bool_decide (source ∈ m_BindingCache s) then s
           else set_m_BindingCache (source :: m_BindingCache s) s in
  log (EvBlitTexture viewport source) s.

(** Lines 654-663. *)
Definition finalImage (u : UIData) : Image :=
  if enableToneMapping u then LdrColor
  else if enableAccumulation u then AccumulatedColor
  else if enableTAA u then ResolvedColor
  else HdrColor.

(** Lines 652-673: the frame-step "wait" path. *)
Definition reblitFinalImage s : Result SceneRenderer :=
  letR rt := deref (m_RenderTargets s) in
  Ok (BlitTexture (m_Viewport (m_View s)) (finalImage (m_ui s)) s).

(** Lines 678-696. *)
Definition resolveEffectiveFrameIndex w s : SceneRenderer * Z :=
  let effectiveFrameIndex := if freezeRandom (m_ui s) then 0 else m_FrameIndex s in
  match animationFrame (m_ui s) with
  | Some frame =>
      match InterpolateCameraPath w frame with
      | Some camera =>
          let s := set_m_Camera camera s in
          let effectiveFrameIndex := uint_wrap frame in
          (with_ui (set_animationFrame (Some (uint_incr effectiveFrameIndex))) s,
           effectiveFrameIndex)
      | None =>
          let s := log EvCaptureBenchmarkResults s in
          (with_ui (set_animationFrame None) s, effectiveFrameIndex)
      end
  | None => (s, effectiveFrameIndex)
  end.

(** Lines 720-723, compiled only with [WITH_NRD]. *)
Definition dropDenoiserOnMethodChange w s : SceneRenderer :=
  if WITH_NRD w then
    match m_NRD s with
    | Some nrd =>
        if bool_decide (GetMethod nrd ≠ denoisingMethod (m_ui s))
        then set_m_NRD None s else s
    | None => s
    end
  else s.

(** Lines 725-730. *)
Definition resetRtxdiContextIfRequested s : SceneRenderer :=
  if resetRtxdiContext (m_ui s) then
    let s := set_m_RtxdiContext None s in
    let s := set_m_RtxdiResources None s in
    with_ui (set_resetRtxdiContext false) s
  else s.

(** Lines 732-735. *)
Definition reloadEnvironmentMapIfDirty w s : Result SceneRenderer :=
  if environmentMapDirty (m_ui s) =? 2 then LoadEnvironmentMap w s else Ok s.

(** Lines 743-748: the passes, the render targets and the scene flip their
    double-buffered state. *)
Definition nextFrame s : Result SceneRenderer :=
  letR rt := deref (m_RenderTargets s) in
  Ok (log EvNextFrame s).

(** Lines 750-756. *)
Definition skipJitterAdvance s : Result bool :=
  if enableAccumulation (m_ui s) then
    letR context := deref (m_RtxdiContext s) in
    Ok (bool_decide (CheckerboardSamplingMode (GetParameters context) ≠ CheckerboardOff)
        && negb (Z.land (m_FrameIndex s) 1 =? 0))
  else Ok false.

Definition advanceJitter s : Result SceneRenderer :=
  letR skip := skipJitterAdvance s in
  if negb skip then
    letR taa := deref (m_TemporalAntiAliasingPass s) in
    let taa := mkTemporalAntiAliasingPass (uint_incr (taa_FrameIndex taa)) in
    Ok (log EvTaaAdvanceFrame (set_m_TemporalAntiAliasingPass (Some taa) s))
  else Ok s.

(** Lines 758-772. *)
Definition cameraIsStatic s : bool :=
  m_PreviousViewValid s
  && bool_decide (GetViewMatrix (m_View s) = GetViewMatrix (m_ViewPrevious s)).

Definition updateAccumulation s : SceneRenderer :=
  if cameraIsStatic s && enableAccumulation (m_ui s) && negb (resetAccumulation (m_ui s)) then
    let s := with_ui (fun u => set_numAccumulatedFrames (numAccumulatedFrames u + 1)%N u) s in
    let s :=
      if (0 <? framesToAccumulate (m_ui s))%N then
        with_ui (fun u => set_numAccumulatedFrames
                            (N.min (numAccumulatedFrames u) (framesToAccumulate u)) u) s
      else s in
    log (EvProfilerEnableAccumulation true) s
  else
    let s := with_ui (set_numAccumulatedFrames 1%N) s in
    log (EvProfilerEnableAccumulation (negb (isNull (animationFrame (m_ui s))))) s.

(** Line 774.  The source divides in single precision; the quotient is kept
    exact here. *)
Definition accumulationWeight s : Q :=
  (1 / inject_Z (Z.of_N (numAccumulatedFrames (m_ui s))))%Q.

(** Lines 779-785. *)
Definition pollMaterialReadback w s : SceneRenderer :=
  if 0 <? m_MaterialReadbackCountdown s then
    let s := set_m_MaterialReadbackCountdown (m_MaterialReadbackCountdown s - 1) s in
    if m_MaterialReadbackCountdown s =? 0
    then with_ui (set_selectedMaterialIndex (GetMaterialReadback w)) s
    else s
  else s.

(** Lines 787-800.  The sun irradiance is written through [m_SunLight], which
    [SceneLoaded] sets when the scene has a directional light.  The scene is
    taken to have one, so that handle is never null here. *)
Definition configureEnvironmentLight s : Result SceneRenderer :=
  if 0 <=? environmentMapIndex (m_ui s) then
    letR texture :=
      match m_EnvironmentMap s with
      | Some t => Ok (FileMap (bindlessDescriptorIndex t))
      | None => letR pass := deref (m_RenderEnvironmentMapPass s) in Ok ProceduralSky
      end in
    let sunIrradiance := if 0 <? environmentMapIndex (m_ui s) then 0 else 1 in
    Ok (log (EvConfigureEnvironmentLight (Some texture) sunIrradiance) s)
  else Ok (log (EvConfigureEnvironmentLight None 0) s).

(** Lines 802-812. *)
Definition selectDenoiserMode w s : SceneRenderer * DenoiserMode :=
  if WITH_NRD w then
    let available := match m_NRD s with Some nrd => IsAvailable nrd | None => false end in
    let s := if negb available then with_ui (set_enableDenoiser false) s else s in
    (s, if enableDenoiser (m_ui s)
        then if bool_decide (denoisingMethod (m_ui s) = RELAX_DIFFUSE_SPECULAR)
             then DENOISER_MODE_RELAX else DENOISER_MODE_REBLUR
        else DENOISER_MODE_OFF)
  else (with_ui (set_enableDenoiser false) s, DENOISER_MODE_OFF).

(** Line 821. *)
Definition initializeNeighborOffsets s : Result SceneRenderer :=
  letR r := deref (m_RtxdiResources s) in
  letR context := deref (m_RtxdiContext s) in
  Ok (log (EvInitializeNeighborOffsets r) s).

(** Lines 823-828. *)
Definition updateAccelStruct s : SceneRenderer :=
  if m_FramesSinceAnimation s <? 2 then log EvBuildTopLevelAccelStruct s else s.

(** Lines 830-840.  The sky pass is given [*m_SunLight], taken to be non-null
    as in [configureEnvironmentLight]. *)
Definition regenerateEnvironmentMap s : Result SceneRenderer :=
  if negb (environmentMapDirty (m_ui s) =? 0) then
    letR s :=
      if environmentMapIndex (m_ui s) =? 0 then
        letR pass := deref (m_RenderEnvironmentMapPass s) in
        Ok (log EvRenderEnvironmentMap s)
      else Ok s in
    letR mips := deref (m_EnvironmentMapPdfMipmapPass s) in
    let s := log (EvEnvironmentMapPdfMipmapProcess mips) s in
    Ok (with_ui (set_environmentMapDirty 0) s)
  else Ok s.

(** Lines 844-851. *)
Definition fillGBuffer s : Result SceneRenderer :=
  if rasterizeGBuffer (m_ui s) then
    letR rt := deref (m_RenderTargets s) in
    Ok (log EvGBufferRasterized s)
  else Ok (log EvGBufferRaytraced s).

(** Lines 853-878. *)
Definition prepareLights (effectiveFrameIndex : Z) s : Result SceneRenderer :=
  letR context := deref (m_RtxdiContext s) in
  let s := log (EvPrepareLights
                  (negb (isNull (m_EnvironmentMapPdfMipmapPass s))
                   && environmentMapImportanceSampling (m_ui s))
                  effectiveFrameIndex) s in
  if enableLocalLightImportanceSampling (m_ui s) then
    letR mips := deref (m_LocalLightPdfMipmapPass s) in
    Ok (log EvLocalLightPdfMipmapProcess s)
  else Ok s.

(** Lines 880-891, compiled only with [WITH_NRD]. *)
Definition mirrorCheckerboardMode w s : Result SceneRenderer :=
  if WITH_NRD w then
    letR context := deref (m_RtxdiContext s) in
    if bool_decide (CheckerboardSamplingMode (GetParameters context) ≠ CheckerboardOff)
    then Ok (with_ui (set_reblurCheckerboardMode NrdCheckerboardBLACK) s)
    else Ok (with_ui (set_reblurCheckerboardMode NrdCheckerboardOFF) s)
  else Ok s.

(** Lines 908-936: the rendering mode selects the lighting pass families. *)
Definition renderLighting s : Result SceneRenderer :=
  let mode := renderingMode (m_ui s) in
  letR s :=
    if bool_decide (mode = ReStirDirectOnly) || bool_decide (mode = ReStirDirectBrdfMIS)
       || bool_decide (mode = ReStirDirectBrdfIndirect) then
      (* In the combined mode (ReStirDirectBrdfIndirect), we don't want ReSTIR
         to be the NRD front-end, it should just write out the raw color data. *)
      let enableDenoiserInputPacking :=
        bool_decide (mode = ReStirDirectBrdfMIS)
        || bool_decide (mode ≠ ReStirDirectBrdfIndirect) in
      letR context := deref (m_RtxdiContext s) in
      Ok (log (EvLightingRender enableDenoiserInputPacking
                 (bool_decide (mode = ReStirDirectBrdfMIS)
                  || bool_decide (mode = ReStirDirectBrdfIndirect))) s)
    else Ok s in
  if bool_decide (mode = BrdfDirectOnly) || bool_decide (mode = ReStirDirectBrdfMIS)
     || bool_decide (mode = ReStirDirectBrdfIndirect) then
    let enableDenoiserInputPacking := true in
    letR context := deref (m_RtxdiContext s) in
    Ok (log (EvRenderBrdfRays enableDenoiserInputPacking
               (bool_decide (mode = ReStirDirectBrdfIndirect))
               (bool_decide (mode = ReStirDirectBrdfMIS)
                || bool_decide (mode = ReStirDirectBrdfIndirect))
               (bool_decide (mode = ReStirDirectBrdfMIS)
                || bool_decide (mode = ReStirDirectBrdfIndirect))) s)
  else Ok s.

(** Lines 940-954, compiled only with [WITH_NRD]. *)
Definition runDenoiser w s : Result SceneRenderer :=
  if WITH_NRD w && enableDenoiser (m_ui s) then
    letR nrd := deref (m_NRD s) in
    letR rt := deref (m_RenderTargets s) in
    Ok (log EvRunDenoiserPasses s)
  else Ok s.

(** Lines 956-967. *)
Definition compositeAndGlass (denoiserMode : DenoiserMode) s : SceneRenderer :=
  let s := log (EvCompositing denoiserMode) s in
  if enableTransparentGeometry (m_ui s) then log EvGlass s else s.

(** Lines 969-985; the image is [finalHdrImage]. *)
Definition resolveHdrImage (weight : Q) (static : bool) s : Result (SceneRenderer * Image) :=
  letR rt := deref (m_RenderTargets s) in
  if enableAccumulation (m_ui s) then
    Ok (log (EvAccumulationRender weight) s, AccumulatedColor)
  else if enableTAA (m_ui s) then
    (* Make the image sharper when the camera is static, reduce ghosting when
       it's moving *)
    let s := with_ui (set_taaClampingFactor (if static then 2 else 3 # 2)%Q) s in
    letR taa := deref (m_TemporalAntiAliasingPass s) in
    Ok (log (EvTemporalResolve (m_PreviousViewValid s)) s, ResolvedColor)
  else Ok (s, HdrColor).

(** Lines 987-1005. *)
Definition toneMapAndBlit (exposureResetRequired : bool) (finalHdrImage : Image) s
  : Result SceneRenderer :=
  if enableToneMapping (m_ui s) then
    letR tone := deref (m_ToneMappingPass s) in
    let s := if exposureResetRequired then log EvResetExposure s else s in
    let s := log (EvToneMapping finalHdrImage) s in
    Ok (BlitTexture (m_Viewport (m_View s)) LdrColor s)
  else Ok (BlitTexture (m_Viewport (m_View s)) finalHdrImage s).

(** Lines 1012-1025. *)
Definition commitFrame s : SceneRenderer :=
  let s :=
    if enableMaterialReadback (m_ui s) then
      let s := with_ui (set_enableMaterialReadback false) s in
      set_m_MaterialReadbackCountdown 2 s
    else s in
  let s :=
    if animateMeshes (m_ui s) then set_m_FramesSinceAnimation 0 s
    else set_m_FramesSinceAnimation (uint_incr (m_FramesSinceAnimation s)) s in
  let s := set_m_FrameIndex (uint_incr (m_FrameIndex s)) s in
  let s := set_m_ViewPrevious (m_View s) s in
  set_m_PreviousViewValid true s.

(** *** The four phases of a frame that is not frozen *)

(** Lines 675-739: frame-step bookkeeping, effective frame index, resource
    invalidation requests, environment-map reload, view and resource setup.
    Yields the state, [effectiveFrameIndex] and [exposureResetRequired].
    The frame-rate limiter of lines 700-716 is left out: it waits on the wall
    clock and writes no field kept here; [m_ui.fpsLimit], which it divides
    by, is taken to be nonzero. *)
Definition frameSetup w fbinfo s : Result (SceneRenderer * Z * bool) :=
  let s := if bool_decide (m_FrameStepMode s = Step) then set_m_FrameStepMode Wait s else s in
  let '(s, effectiveFrameIndex) := resolveEffectiveFrameIndex w s in
  let s := dropDenoiserOnMethodChange w s in
  let s := resetRtxdiContextIfRequested s in
  letR s := reloadEnvironmentMapIfDirty w s in
  let s := SetupView fbinfo effectiveFrameIndex s in
  letR (s, exposureResetRequired) := SetupRenderPasses w fbinfo s in
  Ok (s, effectiveFrameIndex, exposureResetRequired).

(** Lines 743-812: per-frame scalars.  Yields the state, [cameraIsStatic],
    [accumulationWeight] and [denoiserMode]. *)
Definition framePolicy w s : Result (SceneRenderer * bool * Q * DenoiserMode) :=
  letR s := nextFrame s in
  letR s := advanceJitter s in
  let static := cameraIsStatic s in
  let s := updateAccumulation s in
  let weight := accumulationWeight s in
  let s := with_ui (set_resetAccumulation false) s in
  let s := pollMaterialReadback w s in
  letR s := configureEnvironmentLight s in
  let '(s, denoiserMode) := selectDenoiserMode w s in
  Ok (s, static, weight, denoiserMode).

(** Lines 814-1010: the frame's command list. *)
Definition recordCommandList w (effectiveFrameIndex : Z) (exposureResetRequired static : bool)
    (weight : Q) (denoiserMode : DenoiserMode) s : Result SceneRenderer :=
  letR s := initializeNeighborOffsets s in
  let s := updateAccelStruct s in
  letR s := regenerateEnvironmentMap s in
  letR s := fillGBuffer s in
  letR s := prepareLights effectiveFrameIndex s in
  letR s := mirrorCheckerboardMode w s in
  letR s := renderLighting s in
  letR s := runDenoiser w s in
  let s := compositeAndGlass denoiserMode s in
  letR (s, finalHdrImage) := resolveHdrImage weight static s in
  toneMapAndBlit exposureResetRequired finalHdrImage s.

Definition RenderScene w fbinfo s : Result SceneRenderer :=
  if bool_decide (m_FrameStepMode s = Wait) then reblitFinalImage s
  else
    letR (s, effectiveFrameIndex, exposureResetRequired) := frameSetup w fbinfo s in
    letR (s, static, weight, denoiserMode) := framePolicy w s in
    letR s := recordCommandList w effectiveFrameIndex exposureResetRequired static weight
                denoiserMode s in
    Ok (commitFrame s).


End Renderer.

(** * Input handling and IES profiles

    The member functions of [SceneRenderer] that run outside the frame. *)

(** GLFW key, button, action and modifier codes, as [glfw3.h] defines them. *)
Definition GLFW_PRESS : Z := 1.
Definition GLFW_MOD_CONTROL : Z := 2.
Definition GLFW_KEY_GRAVE_ACCENT : Z := 96.
Definition GLFW_KEY_R : Z := 82.
Definition GLFW_KEY_F1 : Z := 290.
Definition GLFW_KEY_F2 : Z := 291.
Definition GLFW_MOUSE_BUTTON_RIGHT : Z := 1.

(** The input events the renderer hands on to [m_Camera]. *)
Inductive CameraInput :=
| CameraKeyboardUpdate (key scancode action mods : Z)
| CameraMousePosUpdate (xpos ypos : Q)
| CameraMouseButtonUpdate (button action mods : Z).

(** [int(x)] for a [double] [x]: truncation toward zero. *)
Definition int_of_double (x : Q) : Z := Z.quot (Qnum x) (Z.pos (Qden x)).

Section Shell.

Context {Matrix : Type}.

(** The renderer together with what the input handlers touch besides the
    state of the frame: [m_ui.showUI],
    [m_ui.gbufferSettings.materialReadbackPosition], and the input events
    received by the camera. *)
Record Shell := mkShell {
  renderer : @SceneRenderer Matrix;
  showUI : bool;
  materialReadbackPosition : Z * Z;
  cameraInput : list CameraInput
}.

Definition with_renderer (f : @SceneRenderer Matrix -> @SceneRenderer Matrix) (a : Shell)
  : Shell :=
  {| renderer := f (renderer a); showUI := showUI a;
     materialReadbackPosition := materialReadbackPosition a;
     cameraInput := cameraInput a |}.

Definition set_showUI (v : bool) (a : Shell) : Shell :=
  {| renderer := renderer a; showUI := v;
     materialReadbackPosition := materialReadbackPosition a;
     cameraInput := cameraInput a |}.

Definition set_materialReadbackPosition (v : Z * Z) (a : Shell) : Shell :=
  {| renderer := renderer a; showUI := showUI a; materialReadbackPosition := v;
     cameraInput := cameraInput a |}.

Definition toCamera (e : CameraInput) (a : Shell) : Shell :=
  {| renderer := renderer a; showUI := showUI a;
     materialReadbackPosition := materialReadbackPosition a;
     cameraInput := cameraInput a ++ [e] |}.

(** ** [KeyboardUpdate] (lines 331-361) *)

Definition KeyboardUpdate (key scancode action mods : Z) (a : Shell) : Shell * bool :=
  if (key =? GLFW_KEY_GRAVE_ACCENT) && (action =? GLFW_PRESS) then
    (set_showUI (negb (showUI a)) a, true)
  else if (mods =? GLFW_MOD_CONTROL) && (key =? GLFW_KEY_R) && (action =? GLFW_PRESS) then
    (with_renderer (with_ui (set_reloadShaders true)) a, true)
  else if (mods =? 0) && (key =? GLFW_KEY_F1) && (action =? GLFW_PRESS) then
    (with_renderer
       (fun s => set_m_FrameStepMode
                   (if bool_decide (m_FrameStepMode s = Disabled) then Wait else Disabled) s) a,
     true)
  else if (mods =? 0) && (key =? GLFW_KEY_F2) && (action =? GLFW_PRESS) then
    (with_renderer
       (fun s => if bool_decide (m_FrameStepMode s = Wait) then set_m_FrameStepMode Step s
                 else s) a,
     true)
  else
    (toCamera (CameraKeyboardUpdate key scancode action mods) a, true).

(** ** [MousePosUpdate] (lines 363-367) *)

Definition MousePosUpdate (xpos ypos : Q) (a : Shell) : Shell * bool :=
  (toCamera (CameraMousePosUpdate xpos ypos) a, true).

(** ** [MouseButtonUpdate] (lines 369-383)

    [cursor] is the position [glfwGetCursorPos] reports. *)
Definition MouseButtonUpdate (button action mods : Z) (cursor : Q * Q) (a : Shell)
  : Shell * bool :=
  if (button =? GLFW_MOUSE_BUTTON_RIGHT) && (action =? GLFW_PRESS) then
    let a := set_materialReadbackPosition
               (int_of_double cursor.1, int_of_double cursor.2) a in
    let a := with_renderer (with_ui (set_enableMaterialReadback true)) a in
    let a := with_renderer (set_m_MaterialReadbackCountdown 0) a in
    (a, true)
  else
    (toCamera (CameraMouseButtonUpdate button action mods) a, true).

End Shell.

(** ** [AssignIesProfiles] (lines 233-258) *)

(** A scene light: a spot light with its IES profile name and the texture
    slot of the baked profile (negative while unassigned), or a light of
    another type. *)
Inductive Light :=
| SpotLightWithProfile (profileName : string) (profileTextureIndex : Z)
| OtherLight (lightType : Z).

(** [engine::IesProfile]. *)
Record IesProfile := mkIesProfile {
  ies_name : string;
  textureIndex : Z
}.

#[global] Instance Light_eq_dec : EqDecision Light.
Proof. solve_decision. Defined.
#[global] Instance IesProfile_eq_dec : EqDecision IesProfile.
Proof. solve_decision. Defined.

Section IesProfiles.

(** [IesProfileLoader::BakeIesProfile]: what baking leaves in the profile. *)
Variable BakeIesProfile : IesProfile -> IesProfile.

(** The body of the loop, for one light.  The state is [m_IesProfiles] and the
    names of the profiles baked so far. *)
Definition assignIesProfile (light : Light) (profiles : list IesProfile)
  : Light * list IesProfile * list string :=
  match light with
  | SpotLightWithProfile profileName profileTextureIndex =>
      if bool_decide (profileName = EmptyString) then (light, profiles, [])
      else if 0 <=? profileTextureIndex then (light, profiles, [])
      else
        match list_find (fun p => ies_name p = profileName) profiles with
        | Some (i, foundProfile) =>
            let baked := BakeIesProfile foundProfile in
            (SpotLightWithProfile profileName (textureIndex baked),
             <[i := baked]> profiles, [ies_name foundProfile])
        | None => (light, profiles, [])
        end
  | OtherLight _ => (light, profiles, [])
  end.

(** Yields the lights, the profiles, and the names of the profiles baked, in
    the order of the calls. *)
Fixpoint AssignIesProfiles (lights : list Light) (profiles : list IesProfile)
  : list Light * list IesProfile * list string :=
  match lights with
  | [] => ([], profiles, [])
  | light :: lights =>
      let '(light, profiles, baked) := assignIesProfile light profiles in
      let '(lights, profiles, bakedLater) := AssignIesProfiles lights profiles in
      (light :: lights, profiles, baked ++ bakedLater)
  end.

End IesProfiles.

(** * Properties *)

Section Properties.

Context {Matrix : Type} `{EqDecision Matrix}.

Implicit Types (s : @SceneRenderer Matrix) (w : @World Matrix) (fbinfo : FramebufferInfo).

(** ** Inversion of the error monad *)

Lemma bind_Ok {A B : Type} (r : Result A) (k : A -> Result B) (b : B) :
  bind r k = Ok b -> exists a, r = Ok a /\ k a = Ok b.
Proof. destruct r as [a|f]; simpl; [eauto | discriminate]. Qed.

Lemma deref_Ok {A : Type} (h : option A) (a : A) : deref h = Ok a -> h = Some a.
Proof. destruct h; simpl; congruence. Qed.

Ltac inv_bind H :=
  let a := fresh "a" in
  let Ha := fresh "Hstep" in
  apply bind_Ok in H as (a & Ha & H).

(** ** Growth of the trace *)

(** The block that issues an event. *)
Inductive Origin :=
| OSetup | OLoad | ONextFrame | OJitter | OAccumulation | OEnvironmentLight
| OGeometry | OLighting | OPost.

Definition origin (e : Event) : Origin :=
  match e with
  | EvUnloadTexture _ | EvReleaseDescriptor _ | EvLoadTextureFromFileDeferred _
  | EvFinishTextureLoading | EvCreateDescriptor _ => OLoad
  | EvNextFrame => ONextFrame
  | EvTaaAdvanceFrame => OJitter
  | EvProfilerEnableAccumulation _ => OAccumulation
  | EvConfigureEnvironmentLight _ _ => OEnvironmentLight
  | EvInitializeNeighborOffsets _ | EvBuildTopLevelAccelStruct | EvRenderEnvironmentMap
  | EvEnvironmentMapPdfMipmapProcess _ | EvGBufferRasterized | EvGBufferRaytraced
  | EvPrepareLights _ _ | EvLocalLightPdfMipmapProcess => OGeometry
  | EvLightingRender _ _ | EvRenderBrdfRays _ _ _ _ => OLighting
  | EvRunDenoiserPasses | EvCompositing _ | EvGlass | EvAccumulationRender _
  | EvTemporalResolve _ | EvResetExposure | EvToneMapping _ | EvBlitTexture _ _ => OPost
  | _ => OSetup
  end.

(** [s'] has the trace of [s] followed by events that all satisfy [P]. *)
Definition appends (P : Event -> Prop) s s' : Prop :=
  exists l, Forall P l /\ trace s' = trace s ++ l.

(** The events a run from [s] to [s'] added to the trace. *)
Definition newEvents s s' : list Event := drop (length (trace s)) (trace s').

Lemma appends_refl P s : appends P s s.
Proof. exists []. split; [constructor | by rewrite app_nil_r]. Qed.

Lemma appends_trans P s1 s2 s3 : appends P s1 s2 -> appends P s2 s3 -> appends P s1 s3.
Proof.
  intros (l1 & H1 & E1) (l2 & H2 & E2). exists (l1 ++ l2). split.
  - by apply Forall_app.
  - by rewrite E2, E1, app_assoc.
Qed.

Lemma appends_impl (P Q : Event -> Prop) s s' :
  (forall e, P e -> Q e) -> appends P s s' -> appends Q s s'.
Proof. intros HPQ (l & Hl & E). exists l. split; [by eapply Forall_impl | done]. Qed.

Lemma appends_newEvents P s s' :
  appends P s s' -> Forall P (newEvents s s') /\ trace s' = trace s ++ newEvents s s'.
Proof.
  intros (l & Hl & E). unfold newEvents. rewrite E, drop_app_length. done.
Qed.

Lemma newEvents_app s s' l : trace s' = trace s ++ l -> newEvents s s' = l.
Proof. intros E. unfold newEvents. by rewrite E, drop_app_length. Qed.

Ltac solve_Forall :=
  simpl; repeat (apply Forall_cons_2; [simpl; by intuition congruence |]); apply Forall_nil_2.

Ltac solve_elem := apply list_elem_of_In; simpl; by intuition congruence.

Ltac solve_appends :=
  first
    [ exists []; split; [constructor | by rewrite app_nil_r]
    | eexists; split; last (simpl; rewrite <- ?app_assoc; reflexivity);
      solve_Forall ].

(** Normalisation, case analysis, and the two halves of a step relation. *)
Ltac norm :=
  cbv beta iota zeta delta [
    reloadShaders resetAccumulation enableToneMapping enableAccumulation enableTAA
    enablePixelJitter freezeRandom animationFrame resetRtxdiContext environmentMapDirty
    environmentMapIndex rtxdiContextParams regirLightSlotCount numAccumulatedFrames
    framesToAccumulate enableDenoiser denoisingMethod reblurCheckerboardMode rasterizeGBuffer
    renderingMode enableLocalLightImportanceSampling environmentMapImportanceSampling
    animateMeshes enableTransparentGeometry enableMaterialReadback selectedMaterialIndex
    taaClampingFactor useRayQuery m_ui m_RenderTargets m_Camera m_View m_ViewPrevious
    m_EnvironmentMap m_RtxdiContext m_RenderEnvironmentMapPass m_EnvironmentMapPdfMipmapPass
    m_LocalLightPdfMipmapPass m_RtxdiResources m_TemporalAntiAliasingPass m_ToneMappingPass
    m_NRD m_FrameIndex m_FramesSinceAnimation m_PreviousViewValid m_MaterialReadbackCountdown
    m_SceneEmissiveMeshes m_SceneEmissiveTriangles m_ScenePrimitiveLights m_FrameStepMode
    environmentMaps m_BindingCache trace set_reloadShaders set_resetAccumulation
    set_animationFrame set_resetRtxdiContext set_environmentMapDirty set_environmentMapIndex
    set_rtxdiContextParams set_regirLightSlotCount set_numAccumulatedFrames set_enableDenoiser
    set_reblurCheckerboardMode set_enableMaterialReadback set_selectedMaterialIndex
    set_taaClampingFactor set_m_ui set_m_RenderTargets set_m_Camera set_m_View
    set_m_ViewPrevious set_m_EnvironmentMap set_m_RtxdiContext set_m_RenderEnvironmentMapPass
    set_m_EnvironmentMapPdfMipmapPass set_m_LocalLightPdfMipmapPass set_m_RtxdiResources
    set_m_TemporalAntiAliasingPass set_m_ToneMappingPass set_m_NRD set_m_FrameIndex
    set_m_FramesSinceAnimation set_m_PreviousViewValid set_m_MaterialReadbackCountdown
    set_m_FrameStepMode set_environmentMaps set_m_BindingCache set_trace log with_ui
    bind deref isNull
  ].
Ltac norm_all :=
  cbv beta iota zeta delta [
    reloadShaders resetAccumulation enableToneMapping enableAccumulation enableTAA
    enablePixelJitter freezeRandom animationFrame resetRtxdiContext environmentMapDirty
    environmentMapIndex rtxdiContextParams regirLightSlotCount numAccumulatedFrames
    framesToAccumulate enableDenoiser denoisingMethod reblurCheckerboardMode rasterizeGBuffer
    renderingMode enableLocalLightImportanceSampling environmentMapImportanceSampling
    animateMeshes enableTransparentGeometry enableMaterialReadback selectedMaterialIndex
    taaClampingFactor useRayQuery m_ui m_RenderTargets m_Camera m_View m_ViewPrevious
    m_EnvironmentMap m_RtxdiContext m_RenderEnvironmentMapPass m_EnvironmentMapPdfMipmapPass
    m_LocalLightPdfMipmapPass m_RtxdiResources m_TemporalAntiAliasingPass m_ToneMappingPass
    m_NRD m_FrameIndex m_FramesSinceAnimation m_PreviousViewValid m_MaterialReadbackCountdown
    m_SceneEmissiveMeshes m_SceneEmissiveTriangles m_ScenePrimitiveLights m_FrameStepMode
    environmentMaps m_BindingCache trace set_reloadShaders set_resetAccumulation
    set_animationFrame set_resetRtxdiContext set_environmentMapDirty set_environmentMapIndex
    set_rtxdiContextParams set_regirLightSlotCount set_numAccumulatedFrames set_enableDenoiser
    set_reblurCheckerboardMode set_enableMaterialReadback set_selectedMaterialIndex
    set_taaClampingFactor set_m_ui set_m_RenderTargets set_m_Camera set_m_View
    set_m_ViewPrevious set_m_EnvironmentMap set_m_RtxdiContext set_m_RenderEnvironmentMapPass
    set_m_EnvironmentMapPdfMipmapPass set_m_LocalLightPdfMipmapPass set_m_RtxdiResources
    set_m_TemporalAntiAliasingPass set_m_ToneMappingPass set_m_NRD set_m_FrameIndex
    set_m_FramesSinceAnimation set_m_PreviousViewValid set_m_MaterialReadbackCountdown
    set_m_FrameStepMode set_environmentMaps set_m_BindingCache set_trace log with_ui
    bind deref isNull
  ] in *.

Ltac destruct_renderer s :=
  let u := fresh "u" in
  destruct s as [u ? ? ? ? ? ? ? ? ? ? ? ? ? ? ? ? ? ? ? ? ? ? ? ?]; destruct u.

(** Case analysis on a scrutinee that contains no further [match]. *)
Ltac case_inner :=
  match goal with
  | |- context [match ?x with _ => _ end] =>
      lazymatch x with
      | context [match _ with _ => _ end] => fail
      | _ => destruct x eqn:?
      end
  | H : context [match ?x with _ => _ end] |- _ =>
      lazymatch x with
      | context [match _ with _ => _ end] => fail
      | _ => destruct x eqn:?
      end
  end.

Ltac decide_hyps :=
  repeat match goal with
    | H : bool_decide _ = true |- _ => apply bool_decide_eq_true_1 in H
    | H : bool_decide _ = false |- _ => apply bool_decide_eq_false_1 in H
    end.

Ltac crunch := norm_all; repeat (case_inner; norm_all); simplify_eq.

Ltac solve_shape := repeat (eapply ex_intro); norm; reflexivity.

Ltac solve_step := split; [solve_appends | solve_shape].

(** ** What the command-list blocks leave alone

    The blocks of [recordCommandList] write the trace, the binding cache and
    three UI fields; every other field keeps its value.  The dirty level is
    kept or cleared. *)
Definition commands_step (P : Event -> Prop) s s' : Prop :=
  appends P s s'
  /\ (environmentMapDirty (m_ui s') = environmentMapDirty (m_ui s)
      \/ environmentMapDirty (m_ui s') = 0)
  /\ exists tr cache dirty reblur clamp,
       s' = set_trace tr (set_m_BindingCache cache
              (set_m_ui (set_environmentMapDirty dirty (set_reblurCheckerboardMode reblur
                           (set_taaClampingFactor clamp (m_ui s)))) s)).

Ltac solve_commands := split; [solve_appends | split; [norm; auto | solve_shape]].

Lemma commands_step_refl P s : commands_step P s s.
Proof. destruct_renderer s. solve_commands. Qed.

Lemma commands_step_impl (P Q : Event -> Prop) s s' :
  (forall e, P e -> Q e) -> commands_step P s s' -> commands_step Q s s'.
Proof. intros HPQ (A & D & S). split; [by eapply appends_impl | done]. Qed.

Lemma commands_step_trans P s1 s2 s3 :
  commands_step P s1 s2 -> commands_step P s2 s3 -> commands_step P s1 s3.
Proof.
  intros (A1 & D1 & tr1 & c1 & d1 & r1 & k1 & E1) (A2 & D2 & tr2 & c2 & d2 & r2 & k2 & E2).
  split; [by eapply appends_trans |]. split.
  { destruct D2 as [D2|D2]; [rewrite D2; tauto | tauto]. }
  subst s3 s2. destruct_renderer s1. solve_shape.
Qed.

Definition geometry (e : Event) : Prop := origin e = OGeometry.
Definition lighting (e : Event) : Prop := origin e = OLighting.
Definition post (e : Event) : Prop := origin e = OPost.

Lemma initializeNeighborOffsets_step s s' :
  initializeNeighborOffsets s = Ok s' -> commands_step geometry s s'.
Proof.
  unfold initializeNeighborOffsets, geometry. intros Hrun. destruct_renderer s.
  crunch. solve_commands.
Qed.

Lemma updateAccelStruct_step s : commands_step geometry s (updateAccelStruct s).
Proof. unfold updateAccelStruct, geometry. destruct_renderer s. crunch; solve_commands. Qed.

Lemma regenerateEnvironmentMap_step s s' :
  regenerateEnvironmentMap s = Ok s' -> commands_step geometry s s'.
Proof.
  unfold regenerateEnvironmentMap, geometry. intros Hrun. destruct_renderer s.
  crunch; solve_commands.
Qed.

Lemma fillGBuffer_step s s' : fillGBuffer s = Ok s' -> commands_step geometry s s'.
Proof. unfold fillGBuffer, geometry. intros Hrun. destruct_renderer s. crunch; solve_commands. Qed.

Lemma prepareLights_step eff s s' : prepareLights eff s = Ok s' -> commands_step geometry s s'.
Proof.
  unfold prepareLights, geometry. intros Hrun. destruct_renderer s. crunch; solve_commands.
Qed.

Lemma mirrorCheckerboardMode_step w s s' :
  mirrorCheckerboardMode w s = Ok s' -> commands_step geometry s s'.
Proof.
  unfold mirrorCheckerboardMode, geometry. intros Hrun. destruct_renderer s.
  crunch; solve_commands.
Qed.

Lemma renderLighting_step s s' : renderLighting s = Ok s' -> commands_step lighting s s'.
Proof.
  unfold renderLighting, lighting. intros Hrun. destruct_renderer s. crunch; solve_commands.
Qed.

Lemma runDenoiser_step w s s' : runDenoiser w s = Ok s' -> commands_step post s s'.
Proof. unfold runDenoiser, post. intros Hrun. destruct_renderer s. crunch; solve_commands. Qed.

Lemma compositeAndGlass_step mode s : commands_step post s (compositeAndGlass mode s).
Proof. unfold compositeAndGlass, post. destruct_renderer s. crunch; solve_commands. Qed.

Lemma resolveHdrImage_step weight static s s' img :
  resolveHdrImage weight static s = Ok (s', img) -> commands_step post s s'.
Proof.
  unfold resolveHdrImage, post. intros Hrun. destruct_renderer s. crunch; solve_commands.
Qed.

Lemma toneMapAndBlit_step reset img s s' :
  toneMapAndBlit reset img s = Ok s' -> commands_step post s s'.
Proof.
  unfold toneMapAndBlit, BlitTexture, post. intros Hrun. destruct_renderer s.
  crunch; solve_commands.
Qed.

Lemma recordCommandList_inv w eff reset static weight mode s s' :
  recordCommandList w eff reset static weight mode s = Ok s' ->
  exists s1 s2 s3 s4 s5 s6 s7 s8 img,
    initializeNeighborOffsets s = Ok s1
    /\ regenerateEnvironmentMap (updateAccelStruct s1) = Ok s2
    /\ fillGBuffer s2 = Ok s3
    /\ prepareLights eff s3 = Ok s4
    /\ mirrorCheckerboardMode w s4 = Ok s5
    /\ renderLighting s5 = Ok s6
    /\ runDenoiser w s6 = Ok s7
    /\ resolveHdrImage weight static (compositeAndGlass mode s7) = Ok (s8, img)
    /\ toneMapAndBlit reset img s8 = Ok s'.
Proof.
  unfold recordCommandList. intros Hrun.
  inv_bind Hrun. rename a into s1. inv_bind Hrun. rename a into s2.
  inv_bind Hrun. rename a into s3. inv_bind Hrun. rename a into s4.
  inv_bind Hrun. rename a into s5. inv_bind Hrun. rename a into s6.
  inv_bind Hrun. rename a into s7. inv_bind Hrun. destruct a as [s8 img].
  exists s1, s2, s3, s4, s5, s6, s7, s8, img. by repeat split.
Qed.

(** The command list is three runs of blocks: geometry and light
    preparation, the lighting families, and post-processing. *)
Lemma recordCommandList_runs w eff reset static weight mode s s' :
  recordCommandList w eff reset static weight mode s = Ok s' ->
  exists s5 s6,
    commands_step geometry s s5
    /\ renderLighting s5 = Ok s6
    /\ commands_step post s6 s'.
Proof.
  intros (s1 & s2 & s3 & s4 & s5 & s6 & s7 & s8 & img
          & H1 & H2 & H3 & H4 & H5 & H6 & H7 & H8 & H9)%recordCommandList_inv.
  exists s5, s6. split; [| split; [done |]].
  - eapply commands_step_trans; [by apply initializeNeighborOffsets_step |].
    eapply commands_step_trans; [apply updateAccelStruct_step |].
    eapply commands_step_trans; [by apply regenerateEnvironmentMap_step |].
    eapply commands_step_trans; [by apply fillGBuffer_step |].
    eapply commands_step_trans; [by eapply prepareLights_step |].
    by eapply mirrorCheckerboardMode_step.
  - eapply commands_step_trans; [by eapply runDenoiser_step |].
    eapply commands_step_trans; [apply compositeAndGlass_step |].
    eapply commands_step_trans; [by eapply resolveHdrImage_step |].
    by eapply toneMapAndBlit_step.
Qed.

Definition pass (e : Event) : Prop := geometry e \/ lighting e \/ post e.

Lemma recordCommandList_step w eff reset static weight mode s s' :
  recordCommandList w eff reset static weight mode s = Ok s' -> commands_step pass s s'.
Proof.
  intros (s5 & s6 & G & L%renderLighting_step & P)%recordCommandList_runs.
  eapply commands_step_trans; [eapply commands_step_impl; [| exact G]; unfold pass; tauto |].
  eapply commands_step_trans; [eapply commands_step_impl; [| exact L]; unfold pass; tauto |].
  eapply commands_step_impl; [| exact P]. unfold pass; tauto.
Qed.

(** ** What the policy blocks leave alone

    The blocks of [framePolicy] write the trace, the TAA pass (which they
    never release), the material-readback countdown and four UI fields. *)
Definition policy_step (P : Event -> Prop) s s' : Prop :=
  appends P s s'
  /\ (isNull (m_TemporalAntiAliasingPass s) = false ->
      isNull (m_TemporalAntiAliasingPass s') = false)
  /\ exists tr taa countdown counter reset material denoiser,
       s' = set_trace tr (set_m_TemporalAntiAliasingPass taa
              (set_m_MaterialReadbackCountdown countdown
                 (set_m_ui (set_numAccumulatedFrames counter (set_resetAccumulation reset
                              (set_selectedMaterialIndex material
                                 (set_enableDenoiser denoiser (m_ui s))))) s))).

Ltac solve_policy := split; [solve_appends | split; [norm; done | solve_shape]].

Lemma policy_step_refl P s : policy_step P s s.
Proof. destruct_renderer s. solve_policy. Qed.

Lemma policy_step_impl (P Q : Event -> Prop) s s' :
  (forall e, P e -> Q e) -> policy_step P s s' -> policy_step Q s s'.
Proof. intros HPQ (A & T & S). split; [by eapply appends_impl | done]. Qed.

Lemma policy_step_trans P s1 s2 s3 :
  policy_step P s1 s2 -> policy_step P s2 s3 -> policy_step P s1 s3.
Proof.
  intros (A1 & T1 & tr1 & t1 & c1 & n1 & r1 & m1 & d1 & E1)
         (A2 & T2 & tr2 & t2 & c2 & n2 & r2 & m2 & d2 & E2).
  split; [by eapply appends_trans |]. split; [tauto |].
  subst s3 s2. destruct_renderer s1. solve_shape.
Qed.

Lemma nextFrame_step s s' :
  nextFrame s = Ok s' ->
  policy_step (fun e => origin e = ONextFrame) s s'.
Proof. unfold nextFrame. intros Hrun. destruct_renderer s. crunch; solve_policy. Qed.

Lemma advanceJitter_step s s' :
  advanceJitter s = Ok s' ->
  policy_step (fun e => origin e = OJitter) s s'.
Proof.
  unfold advanceJitter, skipJitterAdvance. intros Hrun. destruct_renderer s.
  crunch; solve_policy.
Qed.

Lemma updateAccumulation_step s :
  policy_step (fun e => origin e = OAccumulation) s (updateAccumulation s).
Proof. unfold updateAccumulation. destruct_renderer s. crunch; solve_policy. Qed.

Lemma clearResetAccumulation_step s :
  policy_step (fun e => origin e = OAccumulation) s (with_ui (set_resetAccumulation false) s).
Proof. destruct_renderer s. crunch; solve_policy. Qed.

Lemma pollMaterialReadback_step w s :
  policy_step (fun e => origin e = OAccumulation) s (pollMaterialReadback w s).
Proof. unfold pollMaterialReadback. destruct_renderer s. crunch; solve_policy. Qed.

Lemma configureEnvironmentLight_step s s' :
  configureEnvironmentLight s = Ok s' -> policy_step (fun e => origin e = OEnvironmentLight) s s'.
Proof.
  unfold configureEnvironmentLight. intros Hrun. destruct_renderer s. crunch; solve_policy.
Qed.

Lemma selectDenoiserMode_step w s s' mode :
  selectDenoiserMode w s = (s', mode) -> policy_step (fun e => origin e = OEnvironmentLight) s s'.
Proof. unfold selectDenoiserMode. intros Hrun. destruct_renderer s. crunch; solve_policy. Qed.

(** ** What [SetupRenderPasses] leaves alone

    Its blocks write the trace, the nine lazily built handles and four UI
    fields. *)
Definition setup_step s s' : Prop :=
  appends (fun e => origin e = OSetup) s s'
  /\ exists tr pdf taa sky local res rt context tone nrd dirty params slots reload,
       s' = set_trace tr (set_m_EnvironmentMapPdfMipmapPass pdf
              (set_m_TemporalAntiAliasingPass taa (set_m_RenderEnvironmentMapPass sky
                 (set_m_LocalLightPdfMipmapPass local (set_m_RtxdiResources res
                    (set_m_RenderTargets rt (set_m_RtxdiContext context
                       (set_m_ToneMappingPass tone (set_m_NRD nrd
                          (set_m_ui (set_environmentMapDirty dirty
                                       (set_rtxdiContextParams params
                                          (set_regirLightSlotCount slots
                                             (set_reloadShaders reload (m_ui s))))) s)))))))))).

Lemma setup_step_refl s : setup_step s s.
Proof. destruct_renderer s. solve_step. Qed.

Lemma setup_step_trans s1 s2 s3 : setup_step s1 s2 -> setup_step s2 s3 -> setup_step s1 s3.
Proof.
  intros (A1 & ? & ? & ? & ? & ? & ? & ? & ? & ? & ? & ? & ? & ? & ? & E1)
         (A2 & ? & ? & ? & ? & ? & ? & ? & ? & ? & ? & ? & ? & ? & ? & E2).
  split; [by eapply appends_trans |]. subst s3 s2. destruct_renderer s1. solve_shape.
Qed.

Lemma dropPdfMipmapPassOnReload_step s : setup_step s (dropPdfMipmapPassOnReload s).
Proof. unfold dropPdfMipmapPassOnReload. destruct_renderer s. crunch; solve_step. Qed.

Lemma reloadShadersIfRequested_step s : setup_step s (reloadShadersIfRequested s).
Proof.
  unfold reloadShadersIfRequested, LoadShaders. destruct_renderer s. crunch; solve_step.
Qed.

Lemma ensureRenderEnvironmentMapPass_step w s :
  setup_step s (ensureRenderEnvironmentMapPass w s).
Proof. unfold ensureRenderEnvironmentMapPass. destruct_renderer s. crunch; solve_step. Qed.

Lemma invalidateRtxdiResources_step size s : setup_step s (invalidateRtxdiResources size s).
Proof. unfold invalidateRtxdiResources. destruct_renderer s. crunch; solve_step. Qed.

Lemma ensureRenderTargets_step fbinfo s s' created :
  ensureRenderTargets fbinfo s = (s', created) -> setup_step s s'.
Proof. unfold ensureRenderTargets. intros Hrun. destruct_renderer s. crunch; solve_step. Qed.

Lemma ensureRtxdiContext_step w fbinfo s : setup_step s (ensureRtxdiContext w fbinfo s).
Proof. unfold ensureRtxdiContext. destruct_renderer s. crunch; solve_step. Qed.

Lemma ensureRtxdiResources_step w size s s' created :
  ensureRtxdiResources w size s = Ok (s', created) -> setup_step s s'.
Proof. unfold ensureRtxdiResources. intros Hrun. destruct_renderer s. crunch; solve_step. Qed.

Lemma ensureEnvironmentMapPdfMipmapPass_step size created s s' :
  ensureEnvironmentMapPdfMipmapPass size created s = Ok s' -> setup_step s s'.
Proof.
  unfold ensureEnvironmentMapPdfMipmapPass. intros Hrun. destruct_renderer s.
  crunch; solve_step.
Qed.

Lemma ensureLocalLightPdfMipmapPass_step created s s' :
  ensureLocalLightPdfMipmapPass created s = Ok s' -> setup_step s s'.
Proof.
  unfold ensureLocalLightPdfMipmapPass. intros Hrun. destruct_renderer s. crunch; solve_step.
Qed.

Lemma rebindLightingPasses_step rtCreated resCreated s s' :
  rebindLightingPasses rtCreated resCreated s = Ok s' -> setup_step s s'.
Proof. unfold rebindLightingPasses. intros Hrun. destruct_renderer s. crunch; solve_step. Qed.

Lemma ensureTemporalAntiAliasingPass_step s s' :
  ensureTemporalAntiAliasingPass s = Ok s' -> setup_step s s'.
Proof.
  unfold ensureTemporalAntiAliasingPass. intros Hrun. destruct_renderer s. crunch; solve_step.
Qed.

Lemma ensureToneMappingPass_step s s' reset :
  ensureToneMappingPass s = Ok (s', reset) -> setup_step s s'.
Proof. unfold ensureToneMappingPass. intros Hrun. destruct_renderer s. crunch; solve_step. Qed.

Lemma ensureNrdIntegration_step w s s' : ensureNrdIntegration w s = Ok s' -> setup_step s s'.
Proof. unfold ensureNrdIntegration. intros Hrun. destruct_renderer s. crunch; solve_step. Qed.

(** ** What the blocks before the environment-map reload leave alone

    Lines 675-730 write the trace, the frame-step mode, the camera, three
    handles they may release, and two UI fields.  They create nothing, leave
    a disabled frame-step mode disabled, and without path playback leave the
    camera where it is. *)
Definition early_step s s' : Prop :=
  appends (fun e => origin e = OSetup) s s'
  /\ (m_RtxdiContext s = None -> m_RtxdiContext s' = None)
  /\ (m_RtxdiResources s = None -> m_RtxdiResources s' = None)
  /\ (m_FrameStepMode s = Disabled -> m_FrameStepMode s' = Disabled)
  /\ (animationFrame (m_ui s) = None ->
      animationFrame (m_ui s') = None /\ m_Camera s' = m_Camera s)
  /\ exists tr mode camera context res nrd frame reset,
       s' = set_trace tr (set_m_FrameStepMode mode (set_m_Camera camera
              (set_m_RtxdiContext context (set_m_RtxdiResources res (set_m_NRD nrd
                 (set_m_ui (set_animationFrame frame
                              (set_resetRtxdiContext reset (m_ui s))) s)))))).

Ltac solve_early :=
  split; [solve_appends | do 4 (split; [norm; intros; decide_hyps; by simplify_eq |]); solve_shape].

Lemma early_step_trans s1 s2 s3 : early_step s1 s2 -> early_step s2 s3 -> early_step s1 s3.
Proof.
  intros (A1 & C1 & R1 & M1 & F1 & ? & ? & ? & ? & ? & ? & ? & ? & E1)
         (A2 & C2 & R2 & M2 & F2 & ? & ? & ? & ? & ? & ? & ? & ? & E2).
  split; [by eapply appends_trans |]. do 3 (split; [tauto |]).
  split.
  { intros Hf. destruct (F1 Hf) as [Hf1 Hc1]. destruct (F2 Hf1) as [Hf2 Hc2].
    split; [done | congruence]. }
  subst s3 s2. destruct_renderer s1. solve_shape.
Qed.

Lemma leaveStep_step s :
  early_step s (if bool_decide (m_FrameStepMode s = Step) then set_m_FrameStepMode Wait s else s).
Proof. destruct_renderer s. crunch; solve_early. Qed.

Lemma resolveEffectiveFrameIndex_step w s s' eff :
  resolveEffectiveFrameIndex w s = (s', eff) -> early_step s s'.
Proof.
  unfold resolveEffectiveFrameIndex. intros Hrun. destruct_renderer s. crunch; solve_early.
Qed.

Lemma dropDenoiserOnMethodChange_step w s : early_step s (dropDenoiserOnMethodChange w s).
Proof. unfold dropDenoiserOnMethodChange. destruct_renderer s. crunch; solve_early. Qed.

Lemma resetRtxdiContextIfRequested_step s : early_step s (resetRtxdiContextIfRequested s).
Proof. unfold resetRtxdiContextIfRequested. destruct_renderer s. crunch; solve_early. Qed.

(** ** The environment-map reload

    [LoadEnvironmentMap] writes the trace, the environment map, the list of
    selectable maps and the selection index. *)
Definition reload_step s s' : Prop :=
  appends (fun e => origin e = OSetup \/ origin e = OLoad) s s'
  /\ exists tr map maps index,
       s' = set_trace tr (set_m_EnvironmentMap map (set_environmentMaps maps
              (set_m_ui (set_environmentMapIndex index (m_ui s)) s))).

Lemma reload_step_refl s : reload_step s s.
Proof. destruct_renderer s. solve_step. Qed.

Lemma LoadEnvironmentMap_step w s s' : LoadEnvironmentMap w s = Ok s' -> reload_step s s'.
Proof.
  unfold LoadEnvironmentMap, unloadEnvironmentMap. intros Hrun. destruct_renderer s.
  crunch; solve_step.
Qed.

Lemma reloadEnvironmentMapIfDirty_step w s s' :
  reloadEnvironmentMapIfDirty w s = Ok s' -> reload_step s s'.
Proof.
  unfold reloadEnvironmentMapIfDirty. intros Hrun. case_inner.
  - by apply LoadEnvironmentMap_step in Hrun.
  - simplify_eq. apply reload_step_refl.
Qed.

(** The reload returns whenever the selection index is within the list. *)
Lemma LoadEnvironmentMap_Ok w s :
  (0 < environmentMapIndex (m_ui s) ->
   is_Some (environmentMaps s !! Z.to_nat (environmentMapIndex (m_ui s)))) ->
  exists s', LoadEnvironmentMap w s = Ok s'.
Proof.
  unfold LoadEnvironmentMap, unloadEnvironmentMap. intros Hidx. destruct_renderer s.
  crunch; eauto.
  all: exfalso;
    match goal with
    | Hlt : (0 <? _) = true |- _ => apply Z.ltb_lt in Hlt; destruct (Hidx Hlt); congruence
    end.
Qed.

(** After the reload, a selected map is a loaded map. *)
Lemma LoadEnvironmentMap_loaded w s s' :
  LoadEnvironmentMap w s = Ok s' ->
  0 < environmentMapIndex (m_ui s') -> isNull (m_EnvironmentMap s') = false.
Proof.
  unfold LoadEnvironmentMap, unloadEnvironmentMap. intros Hrun. destruct_renderer s.
  crunch; try done; try lia.
  all: match goal with Hlt : (0 <? _) = false |- _ => apply Z.ltb_ge in Hlt; lia end.
Qed.

(** The failure path of lines 441-447. *)
Lemma LoadEnvironmentMap_failure w s path :
  0 < environmentMapIndex (m_ui s) ->
  environmentMaps s !! Z.to_nat (environmentMapIndex (m_ui s)) = Some path ->
  LoadTextureFromFileDeferred w path = None ->
  exists s',
    LoadEnvironmentMap w s = Ok s'
    /\ m_EnvironmentMap s' = None
    /\ environmentMapIndex (m_ui s') = 0
    /\ environmentMaps s'
       = delete (Z.to_nat (environmentMapIndex (m_ui s))) (environmentMaps s)
    /\ EvLoadTextureFromFileDeferred path ∈ newEvents s s'.
Proof.
  unfold LoadEnvironmentMap, unloadEnvironmentMap. intros Hidx Hpath Hload.
  apply Z.ltb_lt in Hidx. destruct_renderer s.
  crunch; eexists; (split; [reflexivity |]); norm; repeat split.
  all: unfold newEvents; norm; rewrite <- ?app_assoc, drop_app_length; solve_elem.
Qed.

(** ** [SetupView] *)

Lemma SetupView_result fbinfo eff s :
  exists offset,
    let view := mkView (m_Camera s) (fb_width fbinfo, fb_height fbinfo) offset in
    SetupView fbinfo eff s
    = set_m_ViewPrevious (if m_FrameIndex s =? 0 then view else m_ViewPrevious s)
        (set_m_View view s).
Proof. unfold SetupView. destruct_renderer s. crunch; eexists; reflexivity. Qed.

(** ** Handles

    [kept h h']: a handle that is present stays the same object;
    [alive h h']: a handle that is present stays present. *)
Definition kept {A : Type} (h h' : option A) : Prop := forall x, h = Some x -> h' = Some x.
Definition alive {A : Type} (h h' : option A) : Prop := isNull h = false -> isNull h' = false.

Lemma kept_refl {A : Type} (h : option A) : kept h h.
Proof. by intros x. Qed.

Lemma kept_trans {A : Type} (h1 h2 h3 : option A) : kept h1 h2 -> kept h2 h3 -> kept h1 h3.
Proof. intros H1 H2 x Hx. auto. Qed.

Lemma alive_refl {A : Type} (h : option A) : alive h h.
Proof. by intros Hx. Qed.

Lemma alive_trans {A : Type} (h1 h2 h3 : option A) : alive h1 h2 -> alive h2 h3 -> alive h1 h3.
Proof. intros H1 H2 Hx. auto. Qed.

Lemma kept_alive {A : Type} (h h' : option A) : kept h h' -> alive h h'.
Proof. intros Hk Hx. destruct h as [x|]; [|done]. by rewrite (Hk x). Qed.

Lemma not_null_Some {A : Type} (h : option A) : isNull h = false -> exists x, h = Some x.
Proof. destruct h; [eauto | done]. Qed.

(** Every handle a pass dereferences after [SetupRenderPasses]. *)
Definition handles_ready w s : Prop :=
  isNull (m_RenderTargets s) = false
  /\ isNull (m_RtxdiContext s) = false
  /\ isNull (m_RtxdiResources s) = false
  /\ isNull (m_RenderEnvironmentMapPass s) = false
  /\ isNull (m_EnvironmentMapPdfMipmapPass s) = false
  /\ isNull (m_LocalLightPdfMipmapPass s) = false
  /\ isNull (m_TemporalAntiAliasingPass s) = false
  /\ isNull (m_ToneMappingPass s) = false
  /\ (WITH_NRD w = true -> isNull (m_NRD s) = false).

(** The blocks of [SetupRenderPasses] from [ensureRenderTargets] on release
    nothing, and lower or raise the dirty level to 1 at most. *)
Definition ensure_step s s' : Prop :=
  kept (m_RenderTargets s) (m_RenderTargets s')
  /\ kept (m_RtxdiContext s) (m_RtxdiContext s')
  /\ kept (m_RtxdiResources s) (m_RtxdiResources s')
  /\ kept (m_RenderEnvironmentMapPass s) (m_RenderEnvironmentMapPass s')
  /\ kept (m_TemporalAntiAliasingPass s) (m_TemporalAntiAliasingPass s')
  /\ kept (m_ToneMappingPass s) (m_ToneMappingPass s')
  /\ kept (m_NRD s) (m_NRD s')
  /\ alive (m_EnvironmentMapPdfMipmapPass s) (m_EnvironmentMapPdfMipmapPass s')
  /\ alive (m_LocalLightPdfMipmapPass s) (m_LocalLightPdfMipmapPass s')
  /\ (environmentMapDirty (m_ui s') = environmentMapDirty (m_ui s)
      \/ environmentMapDirty (m_ui s') = 1).

Lemma ensure_step_refl s : ensure_step s s.
Proof. unfold ensure_step. repeat split; auto using kept_refl, alive_refl. Qed.

Lemma ensure_step_trans s1 s2 s3 : ensure_step s1 s2 -> ensure_step s2 s3 -> ensure_step s1 s3.
Proof.
  unfold ensure_step. intros (?&?&?&?&?&?&?&?&?&D1) (?&?&?&?&?&?&?&?&?&D2).
  repeat split; eauto using kept_trans, alive_trans.
  destruct D2 as [D2|D2]; [rewrite D2; tauto | tauto].
Qed.

Ltac solve_ensure :=
  unfold ensure_step, kept, alive; norm; simpl; repeat split; try done; auto.

Lemma ensureRenderTargets_ensure fbinfo s s' created :
  ensureRenderTargets fbinfo s = (s', created) -> ensure_step s s'.
Proof. unfold ensureRenderTargets. intros Hrun. destruct_renderer s. crunch; solve_ensure. Qed.

Lemma ensureRtxdiContext_ensure w fbinfo s : ensure_step s (ensureRtxdiContext w fbinfo s).
Proof. unfold ensureRtxdiContext. destruct_renderer s. crunch; solve_ensure. Qed.

Lemma ensureRtxdiResources_ensure w size s s' created :
  ensureRtxdiResources w size s = Ok (s', created) -> ensure_step s s'.
Proof. unfold ensureRtxdiResources. intros Hrun. destruct_renderer s. crunch; solve_ensure. Qed.

Lemma ensureEnvironmentMapPdfMipmapPass_ensure size created s s' :
  ensureEnvironmentMapPdfMipmapPass size created s = Ok s' -> ensure_step s s'.
Proof.
  unfold ensureEnvironmentMapPdfMipmapPass. intros Hrun. destruct_renderer s.
  crunch; solve_ensure.
Qed.

Lemma ensureLocalLightPdfMipmapPass_ensure created s s' :
  ensureLocalLightPdfMipmapPass created s = Ok s' -> ensure_step s s'.
Proof.
  unfold ensureLocalLightPdfMipmapPass. intros Hrun. destruct_renderer s.
  crunch; solve_ensure.
Qed.

Lemma rebindLightingPasses_ensure rtCreated resCreated s s' :
  rebindLightingPasses rtCreated resCreated s = Ok s' -> ensure_step s s'.
Proof. unfold rebindLightingPasses. intros Hrun. destruct_renderer s. crunch; solve_ensure. Qed.

Lemma ensureTemporalAntiAliasingPass_ensure s s' :
  ensureTemporalAntiAliasingPass s = Ok s' -> ensure_step s s'.
Proof.
  unfold ensureTemporalAntiAliasingPass. intros Hrun. destruct_renderer s.
  crunch; solve_ensure.
Qed.

Lemma ensureToneMappingPass_ensure s s' reset :
  ensureToneMappingPass s = Ok (s', reset) -> ensure_step s s'.
Proof. unfold ensureToneMappingPass. intros Hrun. destruct_renderer s. crunch; solve_ensure. Qed.

Lemma ensureNrdIntegration_ensure w s s' : ensureNrdIntegration w s = Ok s' -> ensure_step s s'.
Proof. unfold ensureNrdIntegration. intros Hrun. destruct_renderer s. crunch; solve_ensure. Qed.

(** ** What each block of [SetupRenderPasses] establishes *)

Lemma ensureRenderEnvironmentMapPass_ready w s :
  isNull (m_RenderEnvironmentMapPass (ensureRenderEnvironmentMapPass w s)) = false.
Proof. unfold ensureRenderEnvironmentMapPass. destruct_renderer s. by crunch. Qed.

Lemma invalidateRtxdiResources_sky size s :
  m_RenderEnvironmentMapPass (invalidateRtxdiResources size s) = m_RenderEnvironmentMapPass s.
Proof. unfold invalidateRtxdiResources. destruct_renderer s. by crunch. Qed.

Lemma ensureRenderTargets_result fbinfo s :
  ensureRenderTargets fbinfo s
  = match m_RenderTargets s with
    | Some rt => (s, false)
    | None =>
        (set_trace (trace s ++ [EvCreateRenderTargets (fb_width fbinfo, fb_height fbinfo);
                                EvCreateRenderTargetBindings])
           (set_m_RenderTargets
              (Some (mkRenderTargets (fb_width fbinfo, fb_height fbinfo))) s), true)
    end.
Proof.
  unfold ensureRenderTargets. destruct_renderer s. crunch; [done |].
  by rewrite <- app_assoc.
Qed.

Lemma ensureRenderTargets_ready fbinfo s s' created :
  ensureRenderTargets fbinfo s = (s', created) -> isNull (m_RenderTargets s') = false.
Proof. unfold ensureRenderTargets. intros Hrun. destruct_renderer s. by crunch. Qed.

Lemma ensureRtxdiContext_result w fbinfo s :
  m_RtxdiContext (ensureRtxdiContext w fbinfo s)
  = Some match m_RtxdiContext s with
         | Some context => context
         | None =>
             mkContext (mkContextParameters (fb_width fbinfo) (fb_height fbinfo)
                          (CheckerboardSamplingMode (rtxdiContextParams (m_ui s))))
         end.
Proof. unfold ensureRtxdiContext. destruct_renderer s. by crunch. Qed.

Lemma ensureRtxdiContext_ready w fbinfo s :
  isNull (m_RtxdiContext (ensureRtxdiContext w fbinfo s)) = false.
Proof. by rewrite ensureRtxdiContext_result. Qed.

Lemma ensureRtxdiResources_Ok w size s :
  isNull (m_RtxdiContext s) = false ->
  exists s' created, ensureRtxdiResources w size s = Ok (s', created).
Proof. unfold ensureRtxdiResources. intros Hc. destruct_renderer s. crunch; eauto. Qed.

Lemma ensureRtxdiResources_ready w size s s' created :
  ensureRtxdiResources w size s = Ok (s', created) ->
  isNull (m_RtxdiResources s') = false
  /\ (created = true -> environmentMapDirty (m_ui s') = 1)
  /\ (m_RtxdiResources s = None ->
      exists context,
        m_RtxdiContext s = Some context
        /\ m_RtxdiResources s'
           = Some (mkRtxdiResources (GetParameters context) (m_SceneEmissiveMeshes s)
                     (m_SceneEmissiveTriangles s) (m_ScenePrimitiveLights s) size
                     (localLightPdfTextureSize w (m_SceneEmissiveMeshes s)
                        (m_SceneEmissiveTriangles s) (m_ScenePrimitiveLights s)))).
Proof.
  unfold ensureRtxdiResources. intros Hrun. destruct_renderer s. crunch; repeat split; try done.
  intros _. eauto.
Qed.

Lemma ensureEnvironmentMapPdfMipmapPass_Ok size created s :
  isNull (m_RtxdiResources s) = false ->
  exists s', ensureEnvironmentMapPdfMipmapPass size created s = Ok s'.
Proof.
  unfold ensureEnvironmentMapPdfMipmapPass. intros Hr. destruct_renderer s. crunch; eauto.
Qed.

Lemma ensureEnvironmentMapPdfMipmapPass_ready size created s s' :
  ensureEnvironmentMapPdfMipmapPass size created s = Ok s' ->
  isNull (m_EnvironmentMapPdfMipmapPass s') = false
  /\ (m_EnvironmentMapPdfMipmapPass s = None ->
      exists pass, trace s' = trace s ++ [EvCreateEnvironmentMapPdfMipmapPass pass]).
Proof.
  unfold ensureEnvironmentMapPdfMipmapPass. intros Hrun. destruct_renderer s.
  crunch; split; try done; eauto.
Qed.

Lemma ensureLocalLightPdfMipmapPass_Ok created s :
  isNull (m_RtxdiResources s) = false ->
  exists s', ensureLocalLightPdfMipmapPass created s = Ok s'.
Proof. unfold ensureLocalLightPdfMipmapPass. intros Hr. destruct_renderer s. crunch; eauto. Qed.

Lemma ensureLocalLightPdfMipmapPass_ready created s s' :
  ensureLocalLightPdfMipmapPass created s = Ok s' ->
  isNull (m_LocalLightPdfMipmapPass s') = false.
Proof.
  unfold ensureLocalLightPdfMipmapPass. intros Hrun. destruct_renderer s. by crunch.
Qed.

Lemma rebindLightingPasses_Ok rtCreated resCreated s :
  isNull (m_RenderTargets s) = false -> isNull (m_RtxdiResources s) = false ->
  exists s', rebindLightingPasses rtCreated resCreated s = Ok s'.
Proof. unfold rebindLightingPasses. intros Hrt Hr. destruct_renderer s. crunch; eauto. Qed.

Lemma ensureTemporalAntiAliasingPass_Ok s :
  isNull (m_RenderTargets s) = false -> exists s', ensureTemporalAntiAliasingPass s = Ok s'.
Proof. unfold ensureTemporalAntiAliasingPass. intros Hrt. destruct_renderer s. crunch; eauto. Qed.

Lemma ensureTemporalAntiAliasingPass_ready s s' :
  ensureTemporalAntiAliasingPass s = Ok s' -> isNull (m_TemporalAntiAliasingPass s') = false.
Proof. unfold ensureTemporalAntiAliasingPass. intros Hrun. destruct_renderer s. by crunch. Qed.

Lemma ensureToneMappingPass_Ok s :
  isNull (m_RenderTargets s) = false ->
  exists s' reset, ensureToneMappingPass s = Ok (s', reset).
Proof. unfold ensureToneMappingPass. intros Hrt. destruct_renderer s. crunch; eauto. Qed.

Lemma ensureToneMappingPass_ready s s' reset :
  ensureToneMappingPass s = Ok (s', reset) -> isNull (m_ToneMappingPass s') = false.
Proof. unfold ensureToneMappingPass. intros Hrun. destruct_renderer s. by crunch. Qed.

Lemma ensureNrdIntegration_Ok w s :
  isNull (m_RenderTargets s) = false -> exists s', ensureNrdIntegration w s = Ok s'.
Proof. unfold ensureNrdIntegration. intros Hrt. destruct_renderer s. crunch; eauto. Qed.

Lemma ensureNrdIntegration_ready w s s' :
  ensureNrdIntegration w s = Ok s' -> WITH_NRD w = true -> isNull (m_NRD s') = false.
Proof. unfold ensureNrdIntegration. intros Hrun. destruct_renderer s. by crunch. Qed.

(** ** [SetupRenderPasses] as a whole *)

(** The state after lines 477-504. *)
Definition prepared w s : SceneRenderer :=
  ensureRenderEnvironmentMapPass w (reloadShadersIfRequested (dropPdfMipmapPassOnReload s)).

Lemma prepared_step w s : setup_step s (prepared w s).
Proof.
  unfold prepared.
  eapply setup_step_trans; [apply dropPdfMipmapPassOnReload_step |].
  eapply setup_step_trans; [apply reloadShadersIfRequested_step |].
  apply ensureRenderEnvironmentMapPass_step.
Qed.

Lemma prepared_facts w s :
  m_RenderTargets (prepared w s) = m_RenderTargets s
  /\ m_RtxdiContext (prepared w s) = m_RtxdiContext s
  /\ m_RtxdiResources (prepared w s) = m_RtxdiResources s
  /\ isNull (m_RenderEnvironmentMapPass (prepared w s)) = false
  /\ (environmentMapDirty (m_ui s) = 2 ->
      environmentMapDirty (m_ui (prepared w s)) = 1
      /\ m_EnvironmentMapPdfMipmapPass (prepared w s) = None)
  /\ (environmentMapDirty (m_ui s) <> 0 -> environmentMapDirty (m_ui (prepared w s)) <> 0)
  /\ environmentMapDirty (m_ui (prepared w s)) <> 2.
Proof.
  unfold prepared, ensureRenderEnvironmentMapPass, reloadShadersIfRequested,
    dropPdfMipmapPassOnReload, LoadShaders.
  destruct_renderer s. crunch; repeat split; try done; try lia.
Qed.

Lemma invalidateRtxdiResources_facts size s :
  m_RenderTargets (invalidateRtxdiResources size s) = m_RenderTargets s
  /\ m_RtxdiContext (invalidateRtxdiResources size s) = m_RtxdiContext s
  /\ m_EnvironmentMapPdfMipmapPass (invalidateRtxdiResources size s)
     = m_EnvironmentMapPdfMipmapPass s
  /\ m_ui (invalidateRtxdiResources size s) = m_ui s
  /\ trace (invalidateRtxdiResources size s) = trace s
  /\ (m_RtxdiResources s = None -> m_RtxdiResources (invalidateRtxdiResources size s) = None).
Proof. unfold invalidateRtxdiResources. destruct_renderer s. by crunch. Qed.

Lemma SetupRenderPasses_inv w fbinfo s s' reset :
  SetupRenderPasses w fbinfo s = Ok (s', reset) ->
  exists size s1 rtCreated s2 resCreated s3 s4 s5 s6 s7,
    environmentMapSize (prepared w s) = Ok size
    /\ ensureRenderTargets fbinfo (invalidateRtxdiResources size (prepared w s))
       = (s1, rtCreated)
    /\ ensureRtxdiResources w size (ensureRtxdiContext w fbinfo s1) = Ok (s2, resCreated)
    /\ ensureEnvironmentMapPdfMipmapPass size resCreated s2 = Ok s3
    /\ ensureLocalLightPdfMipmapPass resCreated s3 = Ok s4
    /\ rebindLightingPasses rtCreated resCreated s4 = Ok s5
    /\ ensureTemporalAntiAliasingPass s5 = Ok s6
    /\ ensureToneMappingPass s6 = Ok (s7, reset)
    /\ ensureNrdIntegration w s7 = Ok s'.
Proof.
  unfold SetupRenderPasses. fold (prepared w s). intros Hrun.
  inv_bind Hrun. rename a into size.
  destruct (ensureRenderTargets fbinfo _) as [s1 rtCreated] eqn:Hrt.
  inv_bind Hrun. destruct a as [s2 resCreated].
  inv_bind Hrun. rename a into s3.
  inv_bind Hrun. rename a into s4.
  inv_bind Hrun. rename a into s5.
  inv_bind Hrun. rename a into s6.
  inv_bind Hrun. destruct a as [s7 reset'].
  inv_bind Hrun. simplify_eq.
  exists size, s1, rtCreated, s2, resCreated, s3, s4, s5, s6, s7. by repeat split.
Qed.

Lemma SetupRenderPasses_step w fbinfo s s' reset :
  SetupRenderPasses w fbinfo s = Ok (s', reset) -> setup_step s s'.
Proof.
  intros (size & s1 & c1 & s2 & c2 & s3 & s4 & s5 & s6 & s7
          & Hsize & H1 & H2 & H3 & H4 & H5 & H6 & H7 & H8)%SetupRenderPasses_inv.
  eapply setup_step_trans; [apply prepared_step |].
  eapply setup_step_trans; [apply invalidateRtxdiResources_step |].
  eapply setup_step_trans; [by eapply ensureRenderTargets_step |].
  eapply setup_step_trans; [apply ensureRtxdiContext_step |].
  eapply setup_step_trans; [by eapply ensureRtxdiResources_step |].
  eapply setup_step_trans; [by eapply ensureEnvironmentMapPdfMipmapPass_step |].
  eapply setup_step_trans; [by eapply ensureLocalLightPdfMipmapPass_step |].
  eapply setup_step_trans; [by eapply rebindLightingPasses_step |].
  eapply setup_step_trans; [by eapply ensureTemporalAntiAliasingPass_step |].
  eapply setup_step_trans; [by eapply ensureToneMappingPass_step |].
  by eapply ensureNrdIntegration_step.
Qed.

(** The chain of blocks from [ensureRenderTargets] to [ensureNrdIntegration]. *)
Lemma SetupRenderPasses_ensure w fbinfo s s' reset :
  SetupRenderPasses w fbinfo s = Ok (s', reset) ->
  exists size s1 rtCreated,
    environmentMapSize (prepared w s) = Ok size
    /\ ensureRenderTargets fbinfo (invalidateRtxdiResources size (prepared w s))
       = (s1, rtCreated)
    /\ ensure_step s1 s'.
Proof.
  intros (size & s1 & c1 & s2 & c2 & s3 & s4 & s5 & s6 & s7
          & Hsize & H1 & H2 & H3 & H4 & H5 & H6 & H7 & H8)%SetupRenderPasses_inv.
  exists size, s1, c1. split; [done |]. split; [done |].
  eapply ensure_step_trans; [apply ensureRtxdiContext_ensure |].
  eapply ensure_step_trans; [by eapply ensureRtxdiResources_ensure |].
  eapply ensure_step_trans; [by eapply ensureEnvironmentMapPdfMipmapPass_ensure |].
  eapply ensure_step_trans; [by eapply ensureLocalLightPdfMipmapPass_ensure |].
  eapply ensure_step_trans; [by eapply rebindLightingPasses_ensure |].
  eapply ensure_step_trans; [by eapply ensureTemporalAntiAliasingPass_ensure |].
  eapply ensure_step_trans; [by eapply ensureToneMappingPass_ensure |].
  by eapply ensureNrdIntegration_ensure.
Qed.

Lemma SetupRenderPasses_ready w fbinfo s s' reset :
  SetupRenderPasses w fbinfo s = Ok (s', reset) -> handles_ready w s'.
Proof.
  intros (size & s1 & c1 & s2 & c2 & s3 & s4 & s5 & s6 & s7
          & Hsize & H1 & H2 & H3 & H4 & H5 & H6 & H7 & H8)%SetupRenderPasses_inv.
  pose proof (ensureRenderTargets_ready _ _ _ _ H1) as Rrt.
  pose proof (ensureRenderTargets_ensure _ _ _ _ H1) as E1.
  pose proof (ensureRtxdiContext_ready w fbinfo s1) as Rctx.
  pose proof (ensureRtxdiContext_ensure w fbinfo s1) as E1c.
  pose proof (ensureRtxdiResources_ready _ _ _ _ _ H2) as (Rres & _).
  pose proof (ensureRtxdiResources_ensure _ _ _ _ _ H2) as E2.
  pose proof (ensureEnvironmentMapPdfMipmapPass_ready _ _ _ _ H3) as (Rpdf & _).
  pose proof (ensureEnvironmentMapPdfMipmapPass_ensure _ _ _ _ H3) as E3.
  pose proof (ensureLocalLightPdfMipmapPass_ready _ _ _ H4) as Rloc.
  pose proof (ensureLocalLightPdfMipmapPass_ensure _ _ _ H4) as E4.
  pose proof (rebindLightingPasses_ensure _ _ _ _ H5) as E5.
  pose proof (ensureTemporalAntiAliasingPass_ready _ _ H6) as Rtaa.
  pose proof (ensureTemporalAntiAliasingPass_ensure _ _ H6) as E6.
  pose proof (ensureToneMappingPass_ready _ _ _ H7) as Rtone.
  pose proof (ensureToneMappingPass_ensure _ _ _ H7) as E7.
  pose proof (ensureNrdIntegration_ready _ _ _ H8) as Rnrd.
  pose proof (ensureNrdIntegration_ensure _ _ _ H8) as E8.
  pose proof (prepared_facts w s) as (_ & _ & _ & Rsky & _).
  rewrite <- (invalidateRtxdiResources_sky size) in Rsky.
  pose proof (ensure_step_trans _ _ _ E1c E2) as E12.
  pose proof (ensure_step_trans _ _ _ E3 (ensure_step_trans _ _ _ E4
                (ensure_step_trans _ _ _ E5 (ensure_step_trans _ _ _ E6
                   (ensure_step_trans _ _ _ E7 E8))))) as E38.
  pose proof (ensure_step_trans _ _ _ E4
                (ensure_step_trans _ _ _ E5 (ensure_step_trans _ _ _ E6
                   (ensure_step_trans _ _ _ E7 E8)))) as E48.
  pose proof (ensure_step_trans _ _ _ E5 (ensure_step_trans _ _ _ E6
                   (ensure_step_trans _ _ _ E7 E8))) as E58.
  pose proof (ensure_step_trans _ _ _ E7 E8) as E78.
  pose proof (ensure_step_trans _ _ _ E12 E38) as E18.
  pose proof (ensure_step_trans _ _ _ E1 E18) as E08.
  destruct E08 as (_ & _ & _ & Ksky & _).
  destruct E18 as (Krt & _).
  destruct (ensure_step_trans _ _ _ E2 E38) as (_ & Kctx & _).
  destruct E38 as (_ & _ & Kres & _).
  destruct E48 as (_ & _ & _ & _ & _ & _ & _ & Kpdf & _).
  destruct E58 as (_ & _ & _ & _ & _ & _ & _ & _ & Kloc & _).
  destruct E78 as (_ & _ & _ & _ & Ktaa & _).
  destruct E8 as (_ & _ & _ & _ & _ & Ktone & _).
  unfold handles_ready. repeat split; auto using kept_alive.
  - by apply (kept_alive _ _ Krt).
  - by apply (kept_alive _ _ Kctx).
  - by apply (kept_alive _ _ Kres).
  - by apply (kept_alive _ _ Ksky).
  - by apply (kept_alive _ _ Ktaa).
  - by apply (kept_alive _ _ Ktone).
Qed.

Lemma environmentMapSize_Ok s :
  (0 < environmentMapIndex (m_ui s) -> isNull (m_EnvironmentMap s) = false) ->
  isNull (m_RenderEnvironmentMapPass s) = false ->
  exists size, environmentMapSize s = Ok size.
Proof.
  unfold environmentMapSize. intros Hmap Hsky. destruct_renderer s. crunch; eauto.
  match goal with Hlt : (0 <? _) = true |- _ => apply Z.ltb_lt in Hlt; by specialize (Hmap Hlt) end.
Qed.

Lemma setup_step_environment s s' :
  setup_step s s' ->
  m_EnvironmentMap s' = m_EnvironmentMap s
  /\ environmentMapIndex (m_ui s') = environmentMapIndex (m_ui s)
  /\ environmentMaps s' = environmentMaps s.
Proof.
  intros (_ & ? & ? & ? & ? & ? & ? & ? & ? & ? & ? & ? & ? & ? & ? & ->).
  destruct_renderer s. by norm.
Qed.

(** [SetupRenderPasses] returns whenever the selected environment map, if
    any, is loaded. *)
Lemma SetupRenderPasses_Ok w fbinfo s :
  (0 < environmentMapIndex (m_ui s) -> isNull (m_EnvironmentMap s) = false) ->
  exists s' reset, SetupRenderPasses w fbinfo s = Ok (s', reset).
Proof.
  intros Hmap. unfold SetupRenderPasses. fold (prepared w s).
  pose proof (prepared_facts w s) as (_ & _ & _ & Rsky & _).
  pose proof (setup_step_environment _ _ (prepared_step w s)) as (Emap & Eidx & _).
  destruct (environmentMapSize_Ok (prepared w s)) as (size & ->); [by rewrite Emap, Eidx | done |].
  cbn [bind].
  destruct (ensureRenderTargets fbinfo _) as [s1 c1] eqn:H1.
  pose proof (ensureRenderTargets_ready _ _ _ _ H1) as Rrt.
  pose proof (ensureRtxdiContext_ensure w fbinfo s1) as E1c.
  destruct (ensureRtxdiResources_Ok w size (ensureRtxdiContext w fbinfo s1))
    as (s2 & c2 & H2); [apply ensureRtxdiContext_ready |].
  rewrite H2. cbn [bind].
  pose proof (ensureRtxdiResources_ready _ _ _ _ _ H2) as (Rres & _).
  pose proof (ensure_step_trans _ _ _ E1c (ensureRtxdiResources_ensure _ _ _ _ _ H2)) as E2.
  destruct (ensureEnvironmentMapPdfMipmapPass_Ok size c2 s2) as (s3 & H3); [done |].
  rewrite H3. cbn [bind].
  pose proof (ensureEnvironmentMapPdfMipmapPass_ensure _ _ _ _ H3) as E3.
  destruct (ensureLocalLightPdfMipmapPass_Ok c2 s3) as (s4 & H4).
  { destruct E3 as (_ & _ & K & _). by apply (kept_alive _ _ K). }
  rewrite H4. cbn [bind].
  pose proof (ensure_step_trans _ _ _ E3 (ensureLocalLightPdfMipmapPass_ensure _ _ _ H4)) as E4.
  pose proof (ensure_step_trans _ _ _ E2 E4) as E24.
  destruct (rebindLightingPasses_Ok c1 c2 s4) as (s5 & H5).
  { destruct E24 as (K & _). by apply (kept_alive _ _ K). }
  { destruct E4 as (_ & _ & K & _). by apply (kept_alive _ _ K). }
  rewrite H5. cbn [bind].
  pose proof (ensure_step_trans _ _ _ E24 (rebindLightingPasses_ensure _ _ _ _ H5)) as E5.
  destruct (ensureTemporalAntiAliasingPass_Ok s5) as (s6 & H6).
  { destruct E5 as (K & _). by apply (kept_alive _ _ K). }
  rewrite H6. cbn [bind].
  pose proof (ensure_step_trans _ _ _ E5 (ensureTemporalAntiAliasingPass_ensure _ _ H6)) as E6.
  destruct (ensureToneMappingPass_Ok s6) as (s7 & reset & H7).
  { destruct E6 as (K & _). by apply (kept_alive _ _ K). }
  rewrite H7. cbn [bind].
  pose proof (ensure_step_trans _ _ _ E6 (ensureToneMappingPass_ensure _ _ _ H7)) as E7.
  destruct (ensureNrdIntegration_Ok w s7) as (s8 & H8).
  { destruct E7 as (K & _). by apply (kept_alive _ _ K). }
  rewrite H8. cbn [bind]. eauto.
Qed.

(** The dirty level across [SetupRenderPasses]: level 2 becomes 1, a nonzero
    level stays nonzero, and nothing raises the level to 2. *)
Lemma SetupRenderPasses_dirty w fbinfo s s' reset :
  SetupRenderPasses w fbinfo s = Ok (s', reset) ->
  (environmentMapDirty (m_ui s) = 2 -> environmentMapDirty (m_ui s') = 1)
  /\ (environmentMapDirty (m_ui s) <> 0 -> environmentMapDirty (m_ui s') <> 0)
  /\ environmentMapDirty (m_ui s') <> 2.
Proof.
  intros (size & s1 & c1 & Hsize & H1 & E)%SetupRenderPasses_ensure.
  pose proof (prepared_facts w s) as (_ & _ & _ & _ & D2 & D0 & Dn2).
  pose proof (invalidateRtxdiResources_facts size (prepared w s)) as (_ & _ & _ & Eui & _).
  pose proof (ensure_step_trans _ _ _ (ensureRenderTargets_ensure _ _ _ _ H1) E)
    as (_ & _ & _ & _ & _ & _ & _ & _ & _ & D).
  rewrite Eui in D. repeat split.
  - intros H2. destruct (D2 H2) as [D1 _]. destruct D as [D|D]; congruence.
  - intros H0. specialize (D0 H0). destruct D as [D|D]; [congruence | lia].
  - destruct D as [D|D]; [congruence | lia].
Qed.

(** Render targets and context across [SetupRenderPasses]: kept if present,
    built for the framebuffer's size if absent. *)
Lemma SetupRenderPasses_targets w fbinfo s s' reset :
  SetupRenderPasses w fbinfo s = Ok (s', reset) ->
  m_RenderTargets s'
  = Some match m_RenderTargets s with
         | Some rt => rt
         | None => mkRenderTargets (fb_width fbinfo, fb_height fbinfo)
         end
  /\ m_RtxdiContext s'
     = Some match m_RtxdiContext s with
            | Some context => context
            | None =>
                mkContext (mkContextParameters (fb_width fbinfo) (fb_height fbinfo)
                             (CheckerboardSamplingMode (rtxdiContextParams (m_ui s))))
            end.
Proof.
  intros Hrun.
  pose proof (SetupRenderPasses_inv _ _ _ _ _ Hrun)
    as (size & s1 & c1 & s2 & c2 & s3 & s4 & s5 & s6 & s7
        & Hsize & H1 & H2 & H3 & H4 & H5 & H6 & H7 & H8).
  pose proof (SetupRenderPasses_ensure _ _ _ _ _ Hrun) as (size' & s1' & c1' & Hsize' & H1' & E).
  rewrite Hsize in Hsize'. injection Hsize' as <-.
  rewrite H1 in H1'. injection H1' as <- <-.
  pose proof (prepared_facts w s) as (Prt & Pctx & _).
  pose proof (invalidateRtxdiResources_facts size (prepared w s)) as (Irt & Ictx & _ & Iui & _).
  pose proof (setup_step_trans _ _ _ (prepared_step w s)
                (invalidateRtxdiResources_step size (prepared w s))) as S0.
  rewrite ensureRenderTargets_result, Irt, Prt in H1.
  destruct E as (Krt & Kctx & _). split.
  - apply Krt. destruct (m_RenderTargets s) eqn:Ert; simplify_eq.
    + by rewrite Irt, Prt.
    + done.
  - assert (m_RtxdiContext s1 = m_RtxdiContext s
            /\ rtxdiContextParams (m_ui s1) = rtxdiContextParams (m_ui s)) as [Ec Ep].
    { destruct (m_RenderTargets s) eqn:Ert; simplify_eq.
      - rewrite Ictx, Pctx, Iui. split; [done |].
        unfold prepared, ensureRenderEnvironmentMapPass, reloadShadersIfRequested,
          dropPdfMipmapPassOnReload, LoadShaders. destruct_renderer s. by crunch.
      - cbn. rewrite Ictx, Pctx, Iui. split; [done |].
        unfold prepared, ensureRenderEnvironmentMapPass, reloadShadersIfRequested,
          dropPdfMipmapPassOnReload, LoadShaders. destruct_renderer s. by crunch. }
    pose proof (ensureRtxdiContext_ensure w fbinfo s1) as (_ & Kc1 & _).
    assert (kept (m_RtxdiContext (ensureRtxdiContext w fbinfo s1)) (m_RtxdiContext s')) as K.
    { pose proof (ensure_step_trans _ _ _ (ensureRtxdiResources_ensure _ _ _ _ _ H2)
        (ensure_step_trans _ _ _ (ensureEnvironmentMapPdfMipmapPass_ensure _ _ _ _ H3)
        (ensure_step_trans _ _ _ (ensureLocalLightPdfMipmapPass_ensure _ _ _ H4)
        (ensure_step_trans _ _ _ (rebindLightingPasses_ensure _ _ _ _ H5)
        (ensure_step_trans _ _ _ (ensureTemporalAntiAliasingPass_ensure _ _ H6)
        (ensure_step_trans _ _ _ (ensureToneMappingPass_ensure _ _ _ H7)
           (ensureNrdIntegration_ensure _ _ _ H8))))))) as (_ & K & _). exact K. }
    apply K. by rewrite ensureRtxdiContext_result, Ec, Ep.
Qed.

(** ** Events of consecutive runs *)

Lemma newEvents_split P Q s1 s2 s3 :
  appends P s1 s2 -> appends Q s2 s3 ->
  newEvents s1 s3 = newEvents s1 s2 ++ newEvents s2 s3.
Proof.
  intros (l1 & _ & E1) (l2 & _ & E2).
  rewrite (newEvents_app s1 s2 l1 E1), (newEvents_app s2 s3 l2 E2).
  apply newEvents_app. by rewrite E2, E1, app_assoc.
Qed.

Lemma newEvents_same s s' : trace s' = trace s -> newEvents s s' = [].
Proof. intros E. apply newEvents_app. by rewrite app_nil_r. Qed.

Lemma appends_Forall P s s' : appends P s s' -> Forall P (newEvents s s').
Proof. intros A. by apply appends_newEvents in A as [? _]. Qed.

(** ** Handles after [SetupRenderPasses] are never released within the frame *)

Definition denoiser_safe w s : Prop :=
  WITH_NRD w = true -> enableDenoiser (m_ui s) = true -> isNull (m_NRD s) = false.

Lemma policy_step_ready P w s s' :
  policy_step P s s' -> handles_ready w s -> handles_ready w s'.
Proof.
  intros (_ & T & ? & ? & ? & ? & ? & ? & ? & E) (?&?&?&?&?&?&?&?&?).
  specialize (T ltac:(done)). subst s'. destruct_renderer s. unfold handles_ready in *.
  norm_all. by repeat split.
Qed.

Lemma commands_step_ready P w s s' :
  commands_step P s s' ->
  (handles_ready w s -> handles_ready w s') /\ (denoiser_safe w s -> denoiser_safe w s').
Proof.
  intros (_ & _ & ? & ? & ? & ? & ? & ->). destruct_renderer s.
  unfold handles_ready, denoiser_safe. by norm.
Qed.

Ltac solve_ok Hr :=
  crunch; eauto; exfalso; unfold handles_ready in Hr; norm_all; by destruct_and!.

Lemma nextFrame_Ok w s : handles_ready w s -> exists s', nextFrame s = Ok s'.
Proof.
  unfold nextFrame. intros Hr. destruct_renderer s. solve_ok Hr.
Qed.

Lemma advanceJitter_Ok w s : handles_ready w s -> exists s', advanceJitter s = Ok s'.
Proof.
  unfold advanceJitter, skipJitterAdvance. intros Hr. destruct_renderer s. solve_ok Hr.
Qed.

Lemma configureEnvironmentLight_Ok w s :
  handles_ready w s -> exists s', configureEnvironmentLight s = Ok s'.
Proof.
  unfold configureEnvironmentLight. intros Hr. destruct_renderer s. solve_ok Hr.
Qed.

Lemma selectDenoiserMode_safe w s s' mode :
  selectDenoiserMode w s = (s', mode) -> denoiser_safe w s'.
Proof.
  unfold selectDenoiserMode, denoiser_safe. intros Hrun. destruct_renderer s.
  crunch; norm; intros; simplify_eq; done.
Qed.

Lemma initializeNeighborOffsets_Ok w s :
  handles_ready w s -> exists s', initializeNeighborOffsets s = Ok s'.
Proof.
  unfold initializeNeighborOffsets. intros Hr. destruct_renderer s. solve_ok Hr.
Qed.

Lemma regenerateEnvironmentMap_Ok w s :
  handles_ready w s -> exists s', regenerateEnvironmentMap s = Ok s'.
Proof.
  unfold regenerateEnvironmentMap. intros Hr. destruct_renderer s. solve_ok Hr.
Qed.

Lemma fillGBuffer_Ok w s : handles_ready w s -> exists s', fillGBuffer s = Ok s'.
Proof.
  unfold fillGBuffer. intros Hr. destruct_renderer s. solve_ok Hr.
Qed.

Lemma prepareLights_Ok w eff s : handles_ready w s -> exists s', prepareLights eff s = Ok s'.
Proof.
  unfold prepareLights. intros Hr. destruct_renderer s. solve_ok Hr.
Qed.

Lemma mirrorCheckerboardMode_Ok w s :
  handles_ready w s -> exists s', mirrorCheckerboardMode w s = Ok s'.
Proof.
  unfold mirrorCheckerboardMode. intros Hr. destruct_renderer s. solve_ok Hr.
Qed.

Lemma renderLighting_Ok w s : handles_ready w s -> exists s', renderLighting s = Ok s'.
Proof.
  unfold renderLighting. intros Hr. destruct_renderer s. solve_ok Hr.
Qed.

Lemma runDenoiser_Ok w s :
  handles_ready w s -> denoiser_safe w s -> exists s', runDenoiser w s = Ok s'.
Proof.
  unfold runDenoiser. intros Hr Hd. destruct_renderer s.
  crunch; eauto; exfalso.
  all: match goal with
       | Hb : _ && _ = true |- _ => apply andb_true_iff in Hb as [Hb1 Hb2]
       end; unfold handles_ready, denoiser_safe in *; norm_all;
       try specialize (Hd Hb1 Hb2); by destruct_and!.
Qed.

Lemma resolveHdrImage_Ok w weight static s :
  handles_ready w s -> exists s' img, resolveHdrImage weight static s = Ok (s', img).
Proof.
  unfold resolveHdrImage. intros Hr. destruct_renderer s. solve_ok Hr.
Qed.

Lemma toneMapAndBlit_Ok w reset img s :
  handles_ready w s -> exists s', toneMapAndBlit reset img s = Ok s'.
Proof.
  unfold toneMapAndBlit. intros Hr. destruct_renderer s. solve_ok Hr.
Qed.

(** ** The policy phase, block by block *)

Lemma nextFrame_result s s' : nextFrame s = Ok s' -> s' = log EvNextFrame s.
Proof. unfold nextFrame. intros Hrun. inv_bind Hrun. by simplify_eq. Qed.

Lemma skipJitterAdvance_spec s context :
  m_RtxdiContext s = Some context ->
  skipJitterAdvance s
  = Ok (enableAccumulation (m_ui s)
        && bool_decide (CheckerboardSamplingMode (GetParameters context) <> CheckerboardOff)
        && negb (Z.land (m_FrameIndex s) 1 =? 0)).
Proof.
  unfold skipJitterAdvance. intros ->. cbn [deref bind].
  by destruct (enableAccumulation (m_ui s)).
Qed.

Lemma advanceJitter_result s s' :
  advanceJitter s = Ok s' ->
  exists skip,
    skipJitterAdvance s = Ok skip
    /\ exists taa,
         s' = if skip then s
              else log EvTaaAdvanceFrame (set_m_TemporalAntiAliasingPass (Some taa) s).
Proof.
  unfold advanceJitter. intros Hrun. inv_bind Hrun. rename a into skip.
  exists skip. split; [done |]. destruct skip; cbn [negb] in Hrun.
  - exists (mkTemporalAntiAliasingPass 0). by simplify_eq.
  - inv_bind Hrun. simplify_eq. eauto.
Qed.

(** The accumulated-frame counter after lines 758-772. *)
Definition accumulate (static enabled reset : bool) (cap counter : N) : N :=
  if static && enabled && negb reset then
    if (0 <? cap)%N then N.min (counter + 1) cap else (counter + 1)%N
  else 1%N.

Lemma updateAccumulation_result s :
  exists e,
    origin e = OAccumulation
    /\ updateAccumulation s
       = log e (with_ui (set_numAccumulatedFrames
                           (accumulate (cameraIsStatic s) (enableAccumulation (m_ui s))
                              (resetAccumulation (m_ui s)) (framesToAccumulate (m_ui s))
                              (numAccumulatedFrames (m_ui s)))) s).
Proof.
  unfold updateAccumulation, accumulate. destruct_renderer s.
  destruct (cameraIsStatic _); norm; destruct enableAccumulation0, resetAccumulation0;
    cbn [andb negb]; norm; try (eexists; split; [| reflexivity]; done).
  destruct (0 <? framesToAccumulate0)%N; norm; eexists; (split; [| reflexivity]); done.
Qed.

Lemma pollMaterialReadback_result w s :
  exists countdown material,
    pollMaterialReadback w s
    = set_m_MaterialReadbackCountdown countdown
        (with_ui (set_selectedMaterialIndex material) s).
Proof. unfold pollMaterialReadback. destruct_renderer s. crunch; solve_shape. Qed.

Lemma configureEnvironmentLight_result s s' :
  configureEnvironmentLight s = Ok s' ->
  exists texture sun,
    s' = log (EvConfigureEnvironmentLight texture sun) s
    /\ (m_EnvironmentMap s = None -> environmentMapIndex (m_ui s) = 0 ->
        texture = Some ProceduralSky /\ sun = 1).
Proof.
  unfold configureEnvironmentLight. intros Hrun. destruct_renderer s.
  crunch; do 2 eexists; (split; [reflexivity |]); norm; intros; by simplify_eq.
Qed.

Lemma selectDenoiserMode_result w s s' mode :
  selectDenoiserMode w s = (s', mode) ->
  exists denoiser, s' = with_ui (set_enableDenoiser denoiser) s.
Proof. unfold selectDenoiserMode. intros Hrun. destruct_renderer s. crunch; solve_shape. Qed.

Definition policyTail (e : Event) : Prop :=
  origin e = OAccumulation \/ origin e = OEnvironmentLight.

(** The policy phase as a whole: what it returns, what it writes, and the
    events it issues. *)
Lemma framePolicy_spec w s s' static weight mode :
  framePolicy w s = Ok (s', static, weight, mode) ->
  static = cameraIsStatic s
  /\ numAccumulatedFrames (m_ui s')
     = accumulate (cameraIsStatic s) (enableAccumulation (m_ui s))
         (resetAccumulation (m_ui s)) (framesToAccumulate (m_ui s))
         (numAccumulatedFrames (m_ui s))
  /\ weight = accumulationWeight s'
  /\ resetAccumulation (m_ui s') = false
  /\ denoiser_safe w s'
  /\ exists skip accumulation texture sun,
       skipJitterAdvance s = Ok skip
       /\ origin accumulation = OAccumulation
       /\ (m_EnvironmentMap s = None -> environmentMapIndex (m_ui s) = 0 ->
           texture = Some ProceduralSky /\ sun = 1)
       /\ newEvents s s'
          = EvNextFrame :: (if skip then [] else [EvTaaAdvanceFrame])
            ++ [accumulation; EvConfigureEnvironmentLight texture sun]
       /\ exists taa countdown material denoiser,
            s' = set_trace (trace s') (set_m_TemporalAntiAliasingPass taa
                   (set_m_MaterialReadbackCountdown countdown
                      (set_m_ui (set_numAccumulatedFrames (numAccumulatedFrames (m_ui s'))
                                   (set_resetAccumulation false
                                      (set_selectedMaterialIndex material
                                         (set_enableDenoiser denoiser (m_ui s))))) s)))
            /\ alive (m_TemporalAntiAliasingPass s) taa.
Proof.
  unfold framePolicy. intros Hrun.
  inv_bind Hrun. rename a into s1. apply nextFrame_result in Hstep. subst s1.
  inv_bind Hrun. rename a into s2.
  apply advanceJitter_result in Hstep as (skip & Hskip & taa & ->).
  destruct (updateAccumulation_result
              (if skip then log EvNextFrame s
               else log EvTaaAdvanceFrame
                      (set_m_TemporalAntiAliasingPass (Some taa) (log EvNextFrame s))))
    as (acc & Hacc & Eacc).
  rewrite Eacc in Hrun. clear Eacc.
  match type of Hrun with
  | context [pollMaterialReadback w ?x] =>
      destruct (pollMaterialReadback_result w x) as (countdown & material & Epoll)
  end.
  rewrite Epoll in Hrun. clear Epoll.
  inv_bind Hrun. rename a into s6.
  apply configureEnvironmentLight_result in Hstep as (texture & sun & -> & Hsky).
  destruct (selectDenoiserMode w _) as [s7 mode'] eqn:Hden. simplify_eq.
  pose proof (selectDenoiserMode_safe _ _ _ _ Hden) as Hsafe.
  apply selectDenoiserMode_result in Hden as (denoiser & ->).
  assert (skipJitterAdvance s = Ok skip) as Hskip'.
  { revert Hskip. unfold skipJitterAdvance. destruct_renderer s. by norm. }
  clear Hskip. unfold accumulationWeight, cameraIsStatic, newEvents in *.
  destruct_renderer s. destruct skip; norm_all.
  - do 5 (split; [done |]).
    exists true, acc, texture, sun. do 3 (split; [done |]). split.
    + rewrite <- !app_assoc. by rewrite drop_app_length.
    + repeat (eapply ex_intro). split; [reflexivity | apply alive_refl].
  - do 5 (split; [done |]).
    exists false, acc, texture, sun. do 3 (split; [done |]). split.
    + rewrite <- !app_assoc. by rewrite drop_app_length.
    + repeat (eapply ex_intro). split; [reflexivity | done].
Qed.

Lemma framePolicy_ready w s s' static weight mode :
  framePolicy w s = Ok (s', static, weight, mode) ->
  handles_ready w s -> handles_ready w s' /\ denoiser_safe w s'.
Proof.
  intros (_ & _ & _ & _ & Hsafe & _ & _ & _ & _ & _ & _ & _ & _
          & taa & countdown & material & denoiser & Es & Htaa)%framePolicy_spec Hr.
  split; [| done]. rewrite Es. clear Es. destruct Hr as (?&?&?&?&?&?&Ht&?&?).
  specialize (Htaa Ht). destruct_renderer s. unfold handles_ready. norm_all. by repeat split.
Qed.

Lemma framePolicy_Ok w s : handles_ready w s -> exists r, framePolicy w s = Ok r.
Proof.
  intros Hr. unfold framePolicy.
  destruct (nextFrame_Ok w s Hr) as (s1 & H1). rewrite H1. cbn [bind].
  pose proof (policy_step_ready _ w _ _ (nextFrame_step _ _ H1) Hr) as Hr1.
  destruct (advanceJitter_Ok w s1 Hr1) as (s2 & H2). rewrite H2. cbn [bind].
  pose proof (policy_step_ready _ w _ _ (advanceJitter_step _ _ H2) Hr1) as Hr2.
  pose proof (policy_step_ready _ w _ _ (updateAccumulation_step s2) Hr2) as Hr3.
  pose proof (policy_step_ready _ w _ _ (clearResetAccumulation_step _) Hr3) as Hr4.
  pose proof (policy_step_ready _ w _ _ (pollMaterialReadback_step w _) Hr4) as Hr5.
  destruct (configureEnvironmentLight_Ok w _ Hr5) as (s6 & H6). cbv zeta. rewrite H6.
  cbn [bind]. destruct (selectDenoiserMode w s6). eauto.
Qed.

(** ** The command-list phase, block by block *)

(** Lines 908-936 as a table. *)
Definition lightingCalls (mode : RenderingMode) : list Event :=
  match mode with
  | BrdfDirectOnly => [EvRenderBrdfRays true false false false]
  | ReStirDirectOnly => [EvLightingRender true false]
  | ReStirDirectBrdfMIS => [EvLightingRender true true; EvRenderBrdfRays true false true true]
  | ReStirDirectBrdfIndirect =>
      [EvLightingRender false true; EvRenderBrdfRays true true true true]
  end.

Lemma renderLighting_result s s' :
  renderLighting s = Ok s' ->
  s' = set_trace (trace s ++ lightingCalls (renderingMode (m_ui s))) s.
Proof.
  unfold renderLighting. intros Hrun. destruct_renderer s.
  destruct renderingMode0; crunch; by rewrite <- ?app_assoc.
Qed.

Lemma regenerateEnvironmentMap_spec s s' :
  regenerateEnvironmentMap s = Ok s' ->
  environmentMapDirty (m_ui s') = 0
  /\ (environmentMapDirty (m_ui s) <> 0 ->
      exists mips,
        m_EnvironmentMapPdfMipmapPass s = Some mips
        /\ EvEnvironmentMapPdfMipmapProcess mips ∈ newEvents s s'
        /\ (environmentMapIndex (m_ui s) = 0 -> EvRenderEnvironmentMap ∈ newEvents s s')).
Proof.
  unfold regenerateEnvironmentMap, newEvents. intros Hrun. destruct_renderer s.
  crunch; (split; [lia || done |]); intros Hd; try lia.
  all: eexists; split; [reflexivity |]; rewrite <- ?app_assoc, drop_app_length.
  all: split; [solve_elem | intros; try lia; solve_elem].
Qed.

Lemma fillGBuffer_events s s' :
  fillGBuffer s = Ok s' ->
  newEvents s s' = [if rasterizeGBuffer (m_ui s) then EvGBufferRasterized else EvGBufferRaytraced].
Proof.
  unfold fillGBuffer, newEvents. intros Hrun. destruct_renderer s.
  crunch; by rewrite drop_app_length.
Qed.

Lemma compositeAndGlass_events mode s :
  EvCompositing mode ∈ newEvents s (compositeAndGlass mode s).
Proof.
  unfold compositeAndGlass, newEvents. destruct_renderer s.
  crunch; rewrite <- ?app_assoc, drop_app_length; solve_elem.
Qed.

Lemma resolveHdrImage_events weight static s s' img :
  resolveHdrImage weight static s = Ok (s', img) ->
  newEvents s s'
  = if enableAccumulation (m_ui s) then [EvAccumulationRender weight]
    else if enableTAA (m_ui s) then [EvTemporalResolve (m_PreviousViewValid s)]
    else [].
Proof.
  unfold resolveHdrImage, newEvents. intros Hrun. destruct_renderer s.
  crunch; by rewrite ?drop_app_length, ?drop_all.
Qed.

Lemma toneMapAndBlit_events reset img s s' :
  toneMapAndBlit reset img s = Ok s' ->
  EvBlitTexture (m_Viewport (m_View s))
    (if enableToneMapping (m_ui s) then LdrColor else img) ∈ newEvents s s'.
Proof.
  unfold toneMapAndBlit, BlitTexture, newEvents. intros Hrun. destruct_renderer s.
  crunch; rewrite <- ?app_assoc, drop_app_length; solve_elem.
Qed.

Lemma commands_step_keeps P s s' :
  commands_step P s s' ->
  m_EnvironmentMapPdfMipmapPass s' = m_EnvironmentMapPdfMipmapPass s
  /\ m_View s' = m_View s
  /\ m_PreviousViewValid s' = m_PreviousViewValid s
  /\ environmentMapIndex (m_ui s') = environmentMapIndex (m_ui s)
  /\ rasterizeGBuffer (m_ui s') = rasterizeGBuffer (m_ui s)
  /\ enableAccumulation (m_ui s') = enableAccumulation (m_ui s)
  /\ enableTAA (m_ui s') = enableTAA (m_ui s)
  /\ enableToneMapping (m_ui s') = enableToneMapping (m_ui s)
  /\ renderingMode (m_ui s') = renderingMode (m_ui s).
Proof.
  intros (_ & _ & ? & ? & ? & ? & ? & ->). destruct_renderer s. by norm.
Qed.

(** [s'] has the trace of [s] and possibly more. *)
Definition grows s s' : Prop := exists l, trace s' = trace s ++ l.

Lemma grows_refl s : grows s s.
Proof. exists []. by rewrite app_nil_r. Qed.

Lemma grows_trans s1 s2 s3 : grows s1 s2 -> grows s2 s3 -> grows s1 s3.
Proof. intros [l1 E1] [l2 E2]. exists (l1 ++ l2). by rewrite E2, E1, app_assoc. Qed.

Lemma appends_grows P s s' : appends P s s' -> grows s s'.
Proof. intros (l & _ & E). by exists l. Qed.

Lemma commands_step_grows P s s' : commands_step P s s' -> grows s s'.
Proof. intros [A _]. by eapply appends_grows. Qed.

Lemma newEvents_grows s1 s2 s3 :
  grows s1 s2 -> grows s2 s3 -> newEvents s1 s3 = newEvents s1 s2 ++ newEvents s2 s3.
Proof.
  intros [l1 E1] [l2 E2].
  rewrite (newEvents_app s1 s2 l1 E1), (newEvents_app s2 s3 l2 E2).
  apply newEvents_app. by rewrite E2, E1, app_assoc.
Qed.

(** An event issued between two points of a run was issued during the run. *)
Lemma elem_of_newEvents s a b s' e :
  grows s a -> grows a b -> grows b s' -> e ∈ newEvents a b -> e ∈ newEvents s s'.
Proof.
  intros G1 G2 G3 He.
  rewrite (newEvents_grows s a s' G1 (grows_trans _ _ _ G2 G3)), (newEvents_grows a b s' G2 G3).
  rewrite !elem_of_app. tauto.
Qed.

(** Follow a chain of [grows] hypotheses between consecutive states. *)
Ltac chain := solve [apply grows_refl | eapply grows_trans; [eassumption | chain]].

(** The command list as a whole. *)
Lemma recordCommandList_spec w eff reset static weight mode s s' :
  recordCommandList w eff reset static weight mode s = Ok s' ->
  environmentMapDirty (m_ui s') = 0
  /\ (environmentMapDirty (m_ui s) <> 0 ->
      exists mips,
        m_EnvironmentMapPdfMipmapPass s = Some mips
        /\ EvEnvironmentMapPdfMipmapProcess mips ∈ newEvents s s'
        /\ (environmentMapIndex (m_ui s) = 0 -> EvRenderEnvironmentMap ∈ newEvents s s'))
  /\ (if rasterizeGBuffer (m_ui s) then EvGBufferRasterized else EvGBufferRaytraced)
     ∈ newEvents s s'
  /\ EvCompositing mode ∈ newEvents s s'
  /\ (enableAccumulation (m_ui s) = true -> EvAccumulationRender weight ∈ newEvents s s')
  /\ (exists img, EvBlitTexture (m_Viewport (m_View s)) img ∈ newEvents s s')
  /\ exists before after,
       newEvents s s' = before ++ lightingCalls (renderingMode (m_ui s)) ++ after
       /\ Forall geometry before /\ Forall post after.
Proof.
  intros Hrun.
  pose proof (recordCommandList_inv _ _ _ _ _ _ _ _ Hrun)
    as (s1 & s2 & s3 & s4 & s5 & s6 & s7 & s8 & img
        & H1 & H2 & H3 & H4 & H5 & H6 & H7 & H8 & H9).
  pose proof (initializeNeighborOffsets_step _ _ H1) as C1.
  pose proof (updateAccelStruct_step s1) as C1'.
  pose proof (regenerateEnvironmentMap_step _ _ H2) as C2.
  pose proof (fillGBuffer_step _ _ H3) as C3.
  pose proof (prepareLights_step _ _ _ H4) as C4.
  pose proof (mirrorCheckerboardMode_step _ _ _ H5) as C5.
  pose proof (renderLighting_step _ _ H6) as C6.
  pose proof (runDenoiser_step _ _ _ H7) as C7.
  pose proof (compositeAndGlass_step mode s7) as C7'.
  pose proof (resolveHdrImage_step _ _ _ _ _ H8) as C8.
  pose proof (toneMapAndBlit_step _ _ _ _ H9) as C9.
  pose proof (commands_step_trans _ _ _ _ C1 C1') as K1.
  pose proof (commands_step_trans _ _ _ _ K1 C2) as K2.
  pose proof (commands_step_trans _ _ _ _ K2
                (commands_step_trans _ _ _ _ C3 (commands_step_trans _ _ _ _ C4 C5))) as K5.
  pose proof (commands_step_trans _ _ _ _ C3 (commands_step_trans _ _ _ _ C4 C5)) as K25.
  pose proof (commands_step_trans _ _ _ _ C7 C7') as P7.
  pose proof (commands_step_trans _ _ _ _ P7 C8) as P8.
  pose proof (commands_step_trans _ _ _ _ P8 C9) as P9.
  pose proof (commands_step_grows _ _ _ C1) as G1.
  pose proof (commands_step_grows _ _ _ C1') as G1'.
  pose proof (commands_step_grows _ _ _ C2) as G2.
  pose proof (commands_step_grows _ _ _ C3) as G3.
  pose proof (commands_step_grows _ _ _ C4) as G4.
  pose proof (commands_step_grows _ _ _ C5) as G5.
  pose proof (commands_step_grows _ _ _ C6) as G6.
  pose proof (commands_step_grows _ _ _ C7) as G7.
  pose proof (commands_step_grows _ _ _ C7') as G7'.
  pose proof (commands_step_grows _ _ _ C8) as G8.
  pose proof (commands_step_grows _ _ _ C9) as G9.
  pose proof (regenerateEnvironmentMap_spec _ _ H2) as (D2 & R2).
  pose proof (commands_step_keeps _ _ _ K1) as (Kpdf1 & _ & _ & Kidx1 & _).
  pose proof (commands_step_keeps _ _ _ K2) as (_ & _ & _ & _ & Kras2 & _).
  pose proof (commands_step_keeps _ _ _ K5) as (_ & _ & _ & _ & _ & _ & _ & _ & Kmode5).
  pose proof (commands_step_keeps _ _ _
                (commands_step_trans _ _ _ _ P7 C8)) as (_ & Kview8 & _ & _ & _ & _ & _ & _ & _).
  pose proof (commands_step_keeps _ _ _ P7) as (_ & _ & _ & _ & _ & Kacc7 & _).
  pose proof (commands_step_keeps _ _ _ C6) as (_ & Kview6 & _ & _ & _ & Kacc6 & _).
  pose proof (commands_step_keeps _ _ _ K5) as (_ & Kview5 & _ & _ & _ & Kacc5 & _).
  assert (m_ui (updateAccelStruct s1) = m_ui s) as Eui.
  { revert H1. unfold initializeNeighborOffsets, updateAccelStruct. clear.
    intros H1. destruct_renderer s. by crunch. }
  split.
  { assert (environmentMapDirty (m_ui s5) = 0) as D5
      by (destruct K25 as (_ & [D|D] & _); congruence).
    assert (environmentMapDirty (m_ui s6) = 0) as D6
      by (destruct C6 as (_ & [D|D] & _); congruence).
    destruct P9 as (_ & [D|D] & _); congruence. }
  split.
  { intros Hd. rewrite Eui in R2. destruct (R2 Hd) as (mips & Hm & He & Hr).
    exists mips. rewrite <- Kpdf1. split; [done |]. split.
    - eapply (elem_of_newEvents s _ _ s'); [| | | exact He]; chain.
    - intros Hi. eapply (elem_of_newEvents s _ _ s'); [| | | exact (Hr Hi)]; chain. }
  split.
  { rewrite <- Kras2. eapply (elem_of_newEvents s s2 s3 s'); [chain | chain | chain |].
    rewrite (fillGBuffer_events _ _ H3). by apply list_elem_of_singleton. }
  split.
  { eapply (elem_of_newEvents s s7 (compositeAndGlass mode s7) s'); [chain | chain | chain |].
    apply compositeAndGlass_events. }
  split.
  { intros Hacc.
    eapply (elem_of_newEvents s (compositeAndGlass mode s7) s8 s'); [chain | chain | chain |].
    rewrite (resolveHdrImage_events _ _ _ _ _ H8).
    assert (enableAccumulation (m_ui (compositeAndGlass mode s7)) = true) as ->
      by (by rewrite Kacc7, Kacc6, Kacc5).
    by apply list_elem_of_singleton. }
  split.
  { eexists. eapply (elem_of_newEvents s s8 s' s'); [chain | chain | chain |].
    rewrite <- Kview5, <- Kview6, <- Kview8. by eapply toneMapAndBlit_events. }
  exists (newEvents s s5), (newEvents s6 s'). split; [| split].
  - rewrite (newEvents_grows s s5 s'); [| chain | chain].
    rewrite (newEvents_grows s5 s6 s'); [| chain | chain].
    do 2 f_equal. rewrite (renderLighting_result _ _ H6) at 1. rewrite Kmode5.
    unfold newEvents. destruct_renderer s5. norm. by rewrite drop_app_length.
  - by destruct K5 as [A%appends_Forall _].
  - by destruct P9 as [A%appends_Forall _].
Qed.

Lemma recordCommandList_Ok w eff reset static weight mode s :
  handles_ready w s -> denoiser_safe w s ->
  exists s', recordCommandList w eff reset static weight mode s = Ok s'.
Proof.
  intros Hr Hd. unfold recordCommandList.
  destruct (initializeNeighborOffsets_Ok w s Hr) as (s1 & H1). rewrite H1. cbn [bind].
  pose proof (commands_step_trans _ _ _ _ (initializeNeighborOffsets_step _ _ H1)
                (updateAccelStruct_step s1)) as C1.
  destruct (commands_step_ready _ w _ _ C1) as [R1 S1].
  destruct (regenerateEnvironmentMap_Ok w _ (R1 Hr)) as (s2 & H2). rewrite H2. cbn [bind].
  destruct (commands_step_ready _ w _ _ (regenerateEnvironmentMap_step _ _ H2)) as [R2 S2].
  destruct (fillGBuffer_Ok w _ (R2 (R1 Hr))) as (s3 & H3). rewrite H3. cbn [bind].
  destruct (commands_step_ready _ w _ _ (fillGBuffer_step _ _ H3)) as [R3 S3].
  destruct (prepareLights_Ok w eff _ (R3 (R2 (R1 Hr)))) as (s4 & H4). rewrite H4. cbn [bind].
  destruct (commands_step_ready _ w _ _ (prepareLights_step _ _ _ H4)) as [R4 S4].
  destruct (mirrorCheckerboardMode_Ok w _ (R4 (R3 (R2 (R1 Hr))))) as (s5 & H5).
  rewrite H5. cbn [bind].
  destruct (commands_step_ready _ w _ _ (mirrorCheckerboardMode_step _ _ _ H5)) as [R5 S5].
  destruct (renderLighting_Ok w _ (R5 (R4 (R3 (R2 (R1 Hr)))))) as (s6 & H6).
  rewrite H6. cbn [bind].
  destruct (commands_step_ready _ w _ _ (renderLighting_step _ _ H6)) as [R6 S6].
  pose proof (R6 (R5 (R4 (R3 (R2 (R1 Hr)))))) as Hr6.
  pose proof (S6 (S5 (S4 (S3 (S2 (S1 Hd)))))) as Hd6.
  destruct (runDenoiser_Ok w _ Hr6 Hd6) as (s7 & H7). rewrite H7. cbn [bind].
  pose proof (commands_step_trans _ _ _ _ (runDenoiser_step _ _ _ H7)
                (compositeAndGlass_step mode s7)) as C7.
  destruct (commands_step_ready _ w _ _ C7) as [R7 S7].
  destruct (resolveHdrImage_Ok w weight static _ (R7 Hr6)) as (s8 & img & H8).
  rewrite H8. cbn [bind].
  destruct (commands_step_ready _ w _ _ (resolveHdrImage_step _ _ _ _ _ H8)) as [R8 S8].
  apply (toneMapAndBlit_Ok w). auto.
Qed.

(** ** The frame as a whole *)

Lemma commitFrame_shape s :
  exists readback countdown since,
    commitFrame s
    = set_m_PreviousViewValid true (set_m_ViewPrevious (m_View s)
        (set_m_FrameIndex (uint_incr (m_FrameIndex s))
           (set_m_FramesSinceAnimation since (set_m_MaterialReadbackCountdown countdown
              (with_ui (set_enableMaterialReadback readback) s))))).
Proof. unfold commitFrame. destruct_renderer s. crunch; solve_shape. Qed.

Lemma frameSetup_inv w fbinfo s s' eff reset :
  frameSetup w fbinfo s = Ok (s', eff, reset) ->
  exists s1 s2,
    early_step s s1
    /\ reloadEnvironmentMapIfDirty w s1 = Ok s2
    /\ SetupRenderPasses w fbinfo (SetupView fbinfo eff s2) = Ok (s', reset).
Proof.
  unfold frameSetup. intros Hrun.
  destruct (resolveEffectiveFrameIndex w _) as [sb eff'] eqn:Heff.
  inv_bind Hrun. rename a into s2. inv_bind Hrun. destruct a as [s4 reset']. simplify_eq.
  exists (resetRtxdiContextIfRequested (dropDenoiserOnMethodChange w sb)), s2.
  split; [| by split].
  eapply early_step_trans; [apply leaveStep_step |].
  eapply early_step_trans; [by eapply resolveEffectiveFrameIndex_step |].
  eapply early_step_trans; [apply dropDenoiserOnMethodChange_step |].
  apply resetRtxdiContextIfRequested_step.
Qed.

(** A frame that is not frozen runs the four phases in order. *)
Lemma RenderScene_inv w fbinfo s s' :
  m_FrameStepMode s <> Wait ->
  RenderScene w fbinfo s = Ok s' ->
  exists s1 s2 s4 s5 s6 eff reset static weight mode,
    early_step s s1
    /\ reloadEnvironmentMapIfDirty w s1 = Ok s2
    /\ SetupRenderPasses w fbinfo (SetupView fbinfo eff s2) = Ok (s4, reset)
    /\ framePolicy w s4 = Ok (s5, static, weight, mode)
    /\ recordCommandList w eff reset static weight mode s5 = Ok s6
    /\ s' = commitFrame s6.
Proof.
  unfold RenderScene. intros Hmode Hrun.
  rewrite bool_decide_eq_false_2 in Hrun by done.
  inv_bind Hrun. destruct a as [[s4 eff] reset].
  inv_bind Hrun. destruct a as [[[s5 static] weight] mode].
  inv_bind Hrun. rename a into s6. simplify_eq.
  apply frameSetup_inv in Hstep as (s1 & s2 & E & L & S).
  exists s1, s2, s4, s5, s6, eff, reset, static, weight, mode.
  do 5 (split; [assumption |]). reflexivity.
Qed.

(** The selected environment map, if any, can be used: a pending reload
    finds its index within the list, or the map is already loaded. *)
Definition environment_ok s : Prop :=
  0 < environmentMapIndex (m_ui s) ->
  if environmentMapDirty (m_ui s) =? 2
  then is_Some (environmentMaps s !! Z.to_nat (environmentMapIndex (m_ui s)))
  else isNull (m_EnvironmentMap s) = false.

Lemma early_step_environment s s' :
  early_step s s' ->
  m_EnvironmentMap s' = m_EnvironmentMap s
  /\ environmentMaps s' = environmentMaps s
  /\ environmentMapIndex (m_ui s') = environmentMapIndex (m_ui s)
  /\ environmentMapDirty (m_ui s') = environmentMapDirty (m_ui s).
Proof.
  intros (_ & _ & _ & _ & _ & ? & ? & ? & ? & ? & ? & ? & ? & ->).
  destruct_renderer s. by norm.
Qed.

Lemma reloadEnvironmentMapIfDirty_Ok w s :
  environment_ok s ->
  exists s', reloadEnvironmentMapIfDirty w s = Ok s'
             /\ (0 < environmentMapIndex (m_ui s') -> isNull (m_EnvironmentMap s') = false).
Proof.
  unfold reloadEnvironmentMapIfDirty, environment_ok. intros Hok.
  destruct (environmentMapDirty (m_ui s) =? 2) eqn:Hd.
  - destruct (LoadEnvironmentMap_Ok w s Hok) as (s' & Hs'). exists s'. split; [done |].
    by eapply LoadEnvironmentMap_loaded.
  - by exists s.
Qed.

Lemma SetupView_environment fbinfo eff s :
  m_EnvironmentMap (SetupView fbinfo eff s) = m_EnvironmentMap s
  /\ m_ui (SetupView fbinfo eff s) = m_ui s.
Proof. destruct (SetupView_result fbinfo eff s) as (offset & ->). by destruct_renderer s. Qed.

(** A frame that is not frozen returns. *)
Lemma RenderScene_Ok w fbinfo s :
  m_FrameStepMode s <> Wait -> environment_ok s -> exists s', RenderScene w fbinfo s = Ok s'.
Proof.
  intros Hmode Hok. unfold RenderScene. rewrite bool_decide_eq_false_2 by done.
  unfold frameSetup.
  destruct (resolveEffectiveFrameIndex w _) as [sb eff] eqn:Heff.
  assert (early_step s (resetRtxdiContextIfRequested (dropDenoiserOnMethodChange w sb))) as E.
  { eapply early_step_trans; [apply leaveStep_step |].
    eapply early_step_trans; [by eapply resolveEffectiveFrameIndex_step |].
    eapply early_step_trans; [apply dropDenoiserOnMethodChange_step |].
    apply resetRtxdiContextIfRequested_step. }
  apply early_step_environment in E as (Em & Ems & Ei & Ed).
  destruct (reloadEnvironmentMapIfDirty_Ok w
              (resetRtxdiContextIfRequested (dropDenoiserOnMethodChange w sb)))
    as (s2 & H2 & Hloaded).
  { unfold environment_ok. by rewrite Em, Ems, Ei, Ed. }
  rewrite H2. cbn [bind].
  destruct (SetupView_environment fbinfo eff s2) as [Vm Vu].
  destruct (SetupRenderPasses_Ok w fbinfo (SetupView fbinfo eff s2)) as (s4 & reset & H4).
  { by rewrite Vm, Vu. }
  rewrite H4. cbn [bind].
  pose proof (SetupRenderPasses_ready _ _ _ _ _ H4) as Hr4.
  destruct (framePolicy_Ok w s4 Hr4) as ([[[s5 static] weight] mode] & H5).
  rewrite H5. cbn [bind].
  destruct (framePolicy_ready _ _ _ _ _ _ H5 Hr4) as [Hr5 Hd5].
  destruct (recordCommandList_Ok w eff reset static weight mode s5 Hr5 Hd5) as (s6 & H6).
  rewrite H6. cbn [bind]. eauto.
Qed.

(** The states of a frame, each written as updates of the one before. *)
Lemma RenderScene_shapes w fbinfo s s' :
  m_FrameStepMode s <> Wait ->
  RenderScene w fbinfo s = Ok s' ->
  exists s1 s2 s4 s5 s6 eff reset static weight mode,
    (early_step s s1
     /\ reloadEnvironmentMapIfDirty w s1 = Ok s2
     /\ SetupRenderPasses w fbinfo (SetupView fbinfo eff s2) = Ok (s4, reset)
     /\ framePolicy w s4 = Ok (s5, static, weight, mode)
     /\ recordCommandList w eff reset static weight mode s5 = Ok s6)
    /\ (exists tr mode camera context res nrd frame reset,
          s1 = set_trace tr (set_m_FrameStepMode mode (set_m_Camera camera
                 (set_m_RtxdiContext context (set_m_RtxdiResources res (set_m_NRD nrd
                    (set_m_ui (set_animationFrame frame
                                 (set_resetRtxdiContext reset (m_ui s))) s)))))))
    /\ (exists tr map maps index,
          s2 = set_trace tr (set_m_EnvironmentMap map (set_environmentMaps maps
                 (set_m_ui (set_environmentMapIndex index (m_ui s1)) s1))))
    /\ (exists tr pdf taa sky local res rt context tone nrd dirty params slots reload offset,
          let view := mkView (m_Camera s2) (fb_width fbinfo, fb_height fbinfo) offset in
          s4 = set_trace tr (set_m_EnvironmentMapPdfMipmapPass pdf
                 (set_m_TemporalAntiAliasingPass taa (set_m_RenderEnvironmentMapPass sky
                    (set_m_LocalLightPdfMipmapPass local (set_m_RtxdiResources res
                       (set_m_RenderTargets rt (set_m_RtxdiContext context
                          (set_m_ToneMappingPass tone (set_m_NRD nrd
                             (set_m_ui (set_environmentMapDirty dirty
                                          (set_rtxdiContextParams params
                                             (set_regirLightSlotCount slots
                                                (set_reloadShaders reload (m_ui s2)))))
                                (set_m_ViewPrevious
                                   (if m_FrameIndex s2 =? 0 then view else m_ViewPrevious s2)
                                   (set_m_View view s2)))))))))))))
    /\ (exists tr taa countdown counter material denoiser,
          s5 = set_trace tr (set_m_TemporalAntiAliasingPass taa
                 (set_m_MaterialReadbackCountdown countdown
                    (set_m_ui (set_numAccumulatedFrames counter (set_resetAccumulation false
                                 (set_selectedMaterialIndex material
                                    (set_enableDenoiser denoiser (m_ui s4))))) s4))))
    /\ (exists tr cache reblur clamp,
          s6 = set_trace tr (set_m_BindingCache cache
                 (set_m_ui (set_environmentMapDirty 0 (set_reblurCheckerboardMode reblur
                              (set_taaClampingFactor clamp (m_ui s5)))) s5)))
    /\ (exists readback countdown since,
          s' = set_m_PreviousViewValid true (set_m_ViewPrevious (m_View s6)
                 (set_m_FrameIndex (uint_incr (m_FrameIndex s6))
                    (set_m_FramesSinceAnimation since (set_m_MaterialReadbackCountdown countdown
                       (with_ui (set_enableMaterialReadback readback) s6)))))).
Proof.
  intros Hmode Hrun.
  destruct (RenderScene_inv _ _ _ _ Hmode Hrun)
    as (s1 & s2 & s4 & s5 & s6 & eff & reset & static & weight & mode
        & E & L & S & P & C & ->).
  exists s1, s2, s4, s5, s6, eff, reset, static, weight, mode.
  split; [done |].
  split; [by destruct E as (_ & _ & _ & _ & _ & Es) |].
  split; [by apply reloadEnvironmentMapIfDirty_step in L as (_ & Es) |].
  split.
  { apply SetupRenderPasses_step in S
      as (_ & tr & pdf & taa & sky & loc & res & rt & ctx & tone & nrd & d & p & n & r & ->).
    destruct (SetupView_result fbinfo eff s2) as (offset & ->).
    by exists tr, pdf, taa, sky, loc, res, rt, ctx, tone, nrd, d, p, n, r, offset. }
  split.
  { apply framePolicy_spec in P
      as (_ & _ & _ & _ & _ & _ & _ & _ & _ & _ & _ & _ & _ & taa & cd & mat & den & Es & _).
    by exists (trace s5), taa, cd, (numAccumulatedFrames (m_ui s5)), mat, den. }
  split; [| apply commitFrame_shape].
  pose proof (recordCommandList_spec _ _ _ _ _ _ _ _ C) as (D & _).
  apply recordCommandList_step in C as (_ & _ & tr & cache & d & rb & cl & ->).
  exists tr, cache, rb, cl. revert D. destruct_renderer s5. norm. by intros ->.
Qed.

Lemma SetupView_trace fbinfo eff s : trace (SetupView fbinfo eff s) = trace s.
Proof. destruct (SetupView_result fbinfo eff s) as (offset & ->). by destruct_renderer s. Qed.

Lemma commitFrame_trace s : trace (commitFrame s) = trace s.
Proof.
  destruct (commitFrame_shape s) as (r & c & n & ->). by destruct_renderer s.
Qed.

Lemma policy_step_grows P s s' : policy_step P s s' -> grows s s'.
Proof. intros [A _]. by eapply appends_grows. Qed.

Lemma framePolicy_grows w s s' static weight mode :
  framePolicy w s = Ok (s', static, weight, mode) -> grows s s'.
Proof.
  unfold framePolicy. intros Hrun.
  inv_bind Hrun. apply nextFrame_step, policy_step_grows in Hstep.
  inv_bind Hrun. apply advanceJitter_step, policy_step_grows in Hstep0.
  pose proof (policy_step_grows _ _ _ (updateAccumulation_step a0)) as G3.
  pose proof (policy_step_grows _ _ _ (clearResetAccumulation_step (updateAccumulation a0)))
    as G4.
  pose proof (policy_step_grows _ _ _
                (pollMaterialReadback_step w
                   (with_ui (set_resetAccumulation false) (updateAccumulation a0)))) as G5.
  inv_bind Hrun. apply configureEnvironmentLight_step, policy_step_grows in Hstep1.
  destruct (selectDenoiserMode w a1) as [s7 mode'] eqn:Hden. simplify_eq.
  apply selectDenoiserMode_step, policy_step_grows in Hden. chain.
Qed.

Definition setupOrReload (e : Event) : Prop := origin e = OSetup \/ origin e = OLoad.

(** All the events of a frame that is not frozen, phase by phase. *)
Lemma RenderScene_events w fbinfo s s' :
  m_FrameStepMode s <> Wait ->
  RenderScene w fbinfo s = Ok s' ->
  exists setup (skip : bool) accumulation texture sun before after,
    newEvents s s'
    = setup
      ++ (EvNextFrame :: (if skip then [] else [EvTaaAdvanceFrame])
          ++ [accumulation; EvConfigureEnvironmentLight texture sun])
      ++ before ++ lightingCalls (renderingMode (m_ui s)) ++ after
    /\ Forall setupOrReload setup
    /\ (environmentMapDirty (m_ui s) <> 2 -> Forall (fun e => origin e = OSetup) setup)
    /\ origin accumulation = OAccumulation
    /\ Forall geometry before
    /\ Forall post after
    /\ (forall context,
          m_RtxdiContext s' = Some context ->
          skip = enableAccumulation (m_ui s)
                 && bool_decide (CheckerboardSamplingMode (GetParameters context)
                                 <> CheckerboardOff)
                 && negb (Z.land (m_FrameIndex s) 1 =? 0)).
Proof.
  intros Hmode Hrun.
  destruct (RenderScene_shapes _ _ _ _ Hmode Hrun)
    as (s1 & s2 & s4 & s5 & s6 & eff & reset & static & weight & mode
        & (E & L & S & P & C) & Sh1 & Sh2 & Sh4 & Sh5 & Sh6 & Sh').
  pose proof (framePolicy_spec _ _ _ _ _ _ P)
    as (_ & _ & _ & _ & _ & skip & acc & texture & sun & Hskip & Hacc & _ & Hpol & _).
  pose proof (recordCommandList_spec _ _ _ _ _ _ _ _ C)
    as (_ & _ & _ & _ & _ & _ & before & after & Hcmd & Hbefore & Hafter).
  pose proof (reloadEnvironmentMapIfDirty_step _ _ _ L) as [AL _].
  pose proof (SetupRenderPasses_step _ _ _ _ _ S) as [AS _].
  pose proof E as (AE & _).
  pose proof (appends_grows _ _ _ AE) as G1.
  pose proof (appends_grows _ _ _ AL) as G2.
  assert (appends (fun e => origin e = OSetup) s2 s4) as AS'.
  { destruct AS as (l & Hl & El). exists l. by rewrite El, SetupView_trace. }
  pose proof (appends_grows _ _ _ AS') as G4.
  pose proof (framePolicy_grows _ _ _ _ _ _ P) as G5.
  pose proof (commands_step_grows _ _ _ (recordCommandList_step _ _ _ _ _ _ _ _ C)) as G6.
  assert (newEvents s s' = newEvents s s6) as ->.
  { unfold newEvents. destruct Sh' as (? & ? & ? & ->). clear. destruct_renderer s6. by norm. }
  exists (newEvents s s1 ++ newEvents s1 s2 ++ newEvents s2 s4), skip, acc, texture, sun,
    before, after.
  split.
  { rewrite (newEvents_grows s s1 s6), (newEvents_grows s1 s2 s6), (newEvents_grows s2 s4 s6),
      (newEvents_grows s4 s5 s6) by chain.
    rewrite Hpol, Hcmd, <- !app_assoc. do 4 f_equal.
    clear -Sh1 Sh2 Sh4 Sh5.
    destruct Sh1 as (?&?&?&?&?&?&?&?& ->). destruct Sh2 as (?&?&?&? & ->).
    destruct Sh4 as (?&?&?&?&?&?&?&?&?&?&?&?&?&?&?& ->). destruct Sh5 as (?&?&?&?&?&? & ->).
    destruct_renderer s. by norm. }
  split.
  { repeat (apply Forall_app; split).
    - eapply Forall_impl; [by apply appends_Forall |]. unfold setupOrReload. tauto.
    - by apply appends_Forall.
    - eapply Forall_impl; [by apply appends_Forall |]. unfold setupOrReload. tauto. }
  split.
  { intros Hd. repeat (apply Forall_app; split); try by apply appends_Forall.
    assert (s2 = s1) as ->; [| by rewrite newEvents_same].
    revert L. unfold reloadEnvironmentMapIfDirty.
    destruct (early_step_environment _ _ E) as (_ & _ & _ & ->).
    destruct (Z.eqb_spec (environmentMapDirty (m_ui s)) 2); [done |]. by intros [= ->]. }
  do 3 (split; [done |]).
  intros context Hctx.
  assert (m_RtxdiContext s4 = Some context) as Hctx4.
  { revert Hctx. clear -Sh5 Sh6 Sh'.
    destruct Sh5 as (?&?&?&?&?&? & ->). destruct Sh6 as (?&?&?&? & ->).
    destruct Sh' as (?&?&? & ->). destruct_renderer s4. by norm. }
  rewrite (skipJitterAdvance_spec _ _ Hctx4) in Hskip. injection Hskip as <-.
  clear -Sh1 Sh2 Sh4.
  destruct Sh1 as (?&?&?&?&?&?&?&?& ->). destruct Sh2 as (?&?&?&? & ->).
  destruct Sh4 as (?&?&?&?&?&?&?&?&?&?&?&?&?&?&?& ->).
  destruct_renderer s. by norm.
Qed.

(** * The frame-step "wait" path *)

(** C10: in frame-step mode "wait" the image that is blitted again is chosen
    by a fixed priority over the enable toggles: the tone-mapped LDR colour if
    tone mapping is enabled, otherwise the accumulated colour if accumulation
    is enabled, otherwise the TAA-resolved colour if TAA is enabled, otherwise
    the raw HDR colour. *)
Theorem wait_image_priority w fbinfo s rt :
  m_FrameStepMode s = Wait ->
  m_RenderTargets s = Some rt ->
  exists s' img,
    RenderScene w fbinfo s = Ok s'
    /\ newEvents s s' = [EvBlitTexture (m_Viewport (m_View s)) img]
    /\ (enableToneMapping (m_ui s) = true -> img = LdrColor)
    /\ (enableToneMapping (m_ui s) = false -> enableAccumulation (m_ui s) = true ->
        img = AccumulatedColor)
    /\ (enableToneMapping (m_ui s) = false -> enableAccumulation (m_ui s) = false ->
        enableTAA (m_ui s) = true -> img = ResolvedColor)
    /\ (enableToneMapping (m_ui s) = false -> enableAccumulation (m_ui s) = false ->
        enableTAA (m_ui s) = false -> img = HdrColor).
Proof.
  intros Hmode Hrt. unfold RenderScene, reblitFinalImage.
  rewrite bool_decide_eq_true_2, Hrt by done. cbn [deref bind].
  exists (BlitTexture (m_Viewport (m_View s)) (finalImage (m_ui s)) s), (finalImage (m_ui s)).
  split; [done |]. split.
  - unfold newEvents, BlitTexture. destruct_renderer s. norm.
    case_inner; norm; by rewrite drop_app_length.
  - unfold finalImage. split; [by intros -> |]. split; [by intros -> -> |].
    split; by intros -> -> ->.
Qed.

(** * The rendering-mode selector *)

Lemma origin_not_lighting e : origin e <> OLighting -> isLightingCall e = false.
Proof. by destruct e. Qed.

(** C4: the mode-to-pass mapping.  In every frame that is not frozen, the
    calls into the two lighting families are exactly: for
    [ReStirDirectOnly], the resampling family with denoiser-input packing; for
    [ReStirDirectBrdfMIS], the resampling family with packing, then the BRDF
    family with packing, additive blend and specular MIS, without indirect;
    for [ReStirDirectBrdfIndirect], the resampling family without packing,
    then the BRDF family with packing, indirect, additive blend and specular
    MIS; for [BrdfDirectOnly], the BRDF family alone with packing and none of
    the other three flags. *)
Theorem mode_selects_lighting_passes w fbinfo s s' :
  m_FrameStepMode s <> Wait ->
  RenderScene w fbinfo s = Ok s' ->
  exists before calls after,
    newEvents s s' = before ++ calls ++ after
    /\ Forall (fun e => isLightingCall e = false) before
    /\ Forall (fun e => isLightingCall e = false) after
    /\ (renderingMode (m_ui s) = ReStirDirectOnly ->
        calls = [EvLightingRender true false])
    /\ (renderingMode (m_ui s) = ReStirDirectBrdfMIS ->
        calls = [EvLightingRender true true; EvRenderBrdfRays true false true true])
    /\ (renderingMode (m_ui s) = ReStirDirectBrdfIndirect ->
        calls = [EvLightingRender false true; EvRenderBrdfRays true true true true])
    /\ (renderingMode (m_ui s) = BrdfDirectOnly ->
        calls = [EvRenderBrdfRays true false false false]).
Proof.
  intros Hmode Hrun.
  destruct (RenderScene_events _ _ _ _ Hmode Hrun)
    as (setup & skip & acc & texture & sun & before & after
        & Hev & Hsetup & _ & Hacc & Hbefore & Hafter & _).
  exists (setup ++ (EvNextFrame :: (if skip then [] else [EvTaaAdvanceFrame])
                    ++ [acc; EvConfigureEnvironmentLight texture sun]) ++ before),
    (lightingCalls (renderingMode (m_ui s))), after.
  split; [by rewrite Hev, <- !app_assoc |]. split.
  { repeat (apply Forall_app; split).
    - eapply Forall_impl; [exact Hsetup |]. intros e [He|He]; apply origin_not_lighting; congruence.
    - apply Forall_cons_2; [done |]. apply Forall_app. split.
      + destruct skip; by repeat constructor.
      + repeat constructor. apply origin_not_lighting. congruence.
    - eapply Forall_impl; [exact Hbefore |]. intros e He. apply origin_not_lighting.
      unfold geometry in He. congruence. }
  split.
  { eapply Forall_impl; [exact Hafter |]. intros e He. apply origin_not_lighting.
    unfold post in He. congruence. }
  repeat split; by intros ->.
Qed.

(** * Camera motion and accumulation *)

Lemma environmentMapSize_loaded s size :
  environmentMapSize s = Ok size ->
  0 < environmentMapIndex (m_ui s) -> isNull (m_EnvironmentMap s) = false.
Proof.
  unfold environmentMapSize. intros Hrun Hidx. apply Z.ltb_lt in Hidx. rewrite Hidx in Hrun.
  inv_bind Hrun. apply deref_Ok in Hstep. by rewrite Hstep.
Qed.

(** Whether the frame started in [s] and ended in [s'] saw a static camera:
    a valid previous view, and the frame's view matrix equal to the previous
    one (which frame 0 seeds from the frame's own view). *)
Definition frameIsStatic s s' : bool :=
  m_PreviousViewValid s
  && bool_decide (GetViewMatrix (m_View s')
                  = GetViewMatrix (if m_FrameIndex s =? 0 then m_View s' else m_ViewPrevious s)).

(** What a frame that is not frozen does to the temporal state. *)
Lemma RenderScene_temporal w fbinfo s s' :
  m_FrameStepMode s <> Wait ->
  RenderScene w fbinfo s = Ok s' ->
  numAccumulatedFrames (m_ui s')
  = accumulate (frameIsStatic s s') (enableAccumulation (m_ui s))
      (resetAccumulation (m_ui s)) (framesToAccumulate (m_ui s))
      (numAccumulatedFrames (m_ui s))
  /\ (enableAccumulation (m_ui s) = true ->
      EvAccumulationRender (accumulationWeight s') ∈ newEvents s s')
  /\ m_PreviousViewValid s' = true
  /\ m_ViewPrevious s' = m_View s'
  /\ GetViewMatrix (m_View s') = m_Camera s'
  /\ m_FrameIndex s' = uint_incr (m_FrameIndex s)
  /\ resetAccumulation (m_ui s') = false
  /\ environmentMapDirty (m_ui s') = 0
  /\ enableAccumulation (m_ui s') = enableAccumulation (m_ui s)
  /\ framesToAccumulate (m_ui s') = framesToAccumulate (m_ui s)
  /\ (m_FrameStepMode s = Disabled -> m_FrameStepMode s' = Disabled)
  /\ (animationFrame (m_ui s) = None ->
      animationFrame (m_ui s') = None /\ m_Camera s' = m_Camera s)
  /\ environment_ok s'.
Proof.
  intros Hmode Hrun.
  destruct (RenderScene_shapes _ _ _ _ Hmode Hrun)
    as (s1 & s2 & s4 & s5 & s6 & eff & reset & static & weight & mode
        & (E & L & S & P & C) & Sh1 & Sh2 & Sh4 & Sh5 & Sh6 & Sh').
  pose proof (framePolicy_spec _ _ _ _ _ _ P) as (_ & Hcount & Hweight & _).
  pose proof (recordCommandList_spec _ _ _ _ _ _ _ _ C) as (_ & _ & _ & _ & Hrender & _).
  pose proof E as (AE & _ & _ & Hdis & Hanim & _).
  pose proof (reloadEnvironmentMapIfDirty_step _ _ _ L) as [AL _].
  pose proof (SetupRenderPasses_step _ _ _ _ _ S) as [AS _].
  pose proof (appends_grows _ _ _ AE) as G1.
  pose proof (appends_grows _ _ _ AL) as G2.
  assert (grows s2 s4) as G4.
  { destruct (appends_grows _ _ _ AS) as [l El]. exists l. by rewrite El, SetupView_trace. }
  pose proof (framePolicy_grows _ _ _ _ _ _ P) as G5.
  pose proof (commands_step_grows _ _ _ (recordCommandList_step _ _ _ _ _ _ _ _ C)) as G6.
  assert (0 < environmentMapIndex (m_ui s2) -> isNull (m_EnvironmentMap s2) = false) as Hloaded.
  { apply SetupRenderPasses_inv in S as (size & _ & _ & _ & _ & _ & _ & _ & _ & _ & Hsize & _).
    intros Hidx. apply environmentMapSize_loaded in Hsize.
    - revert Hsize.
      destruct (setup_step_environment _ _ (prepared_step w (SetupView fbinfo eff s2)))
        as (-> & _ & _). by destruct (SetupView_environment fbinfo eff s2) as [-> _].
    - destruct (setup_step_environment _ _ (prepared_step w (SetupView fbinfo eff s2)))
        as (_ & -> & _). by destruct (SetupView_environment fbinfo eff s2) as [_ ->]. }
  assert (newEvents s s' = newEvents s s6) as Hnew.
  { unfold newEvents. destruct Sh' as (? & ? & ? & ->). clear. destruct_renderer s6. by norm. }
  assert (enableAccumulation (m_ui s) = true ->
          EvAccumulationRender (accumulationWeight s') ∈ newEvents s s') as Hev.
  { intros Hacc. rewrite Hnew.
    assert (accumulationWeight s' = weight) as ->.
    { rewrite Hweight. unfold accumulationWeight. clear -Sh6 Sh'.
      destruct Sh6 as (?&?&?&? & ->). destruct Sh' as (?&?&? & ->).
      destruct_renderer s5. by norm. }
    eapply (elem_of_newEvents s s5 s6 s6); [chain | chain | apply grows_refl |].
    apply Hrender. rewrite <- Hacc. clear -Sh1 Sh2 Sh4 Sh5.
    destruct Sh1 as (?&?&?&?&?&?&?&?& ->). destruct Sh2 as (?&?&?&? & ->).
    destruct Sh4 as (?&?&?&?&?&?&?&?&?&?&?&?&?&?&?& ->). destruct Sh5 as (?&?&?&?&?&? & ->).
    destruct_renderer s. by norm. }
  split.
  { clear -Hcount Sh1 Sh2 Sh4 Sh5 Sh6 Sh'. revert Hcount. unfold frameIsStatic, cameraIsStatic.
    destruct Sh' as (?&?&? & ->). destruct Sh6 as (?&?&?&? & ->).
    destruct Sh5 as (?&?&?&?&?&? & ->).
    destruct Sh4 as (?&?&?&?&?&?&?&?&?&?&?&?&?&?&?& ->). destruct Sh2 as (?&?&?&? & ->).
    destruct Sh1 as (?&?&?&?&?&?&?&?& ->).
    destruct_renderer s. norm. intros ->. by destruct (m_FrameIndex0 =? 0). }
  split; [exact Hev |].
  clear Hev Hnew Hrender Hcount Hweight G1 G2 G4 G5 G6 AE AL AS E L S P C.
  unfold environment_ok. revert Hdis Hanim Hloaded.
  destruct Sh' as (?&?&? & ->). destruct Sh6 as (?&?&?&? & ->).
  destruct Sh5 as (?&?&?&?&?&? & ->).
  destruct Sh4 as (?&?&?&?&?&?&?&?&?&?&?&?&?&?&?& ->). destruct Sh2 as (?&?&?&? & ->).
  destruct Sh1 as (?&?&?&?&?&?&?&?& ->).
  destruct_renderer s. norm. intros Hdis Hanim Hloaded. repeat split; try done.
  all: match goal with Hnone : _ = None |- _ => by destruct (Hanim Hnone) end.
Qed.










(** * TAA jitter *)

Lemma odd_land_1 (x : Z) : negb (Z.land x 1 =? 0) = Z.odd x.
Proof.
  change 1 with (Z.ones 1) at 1. rewrite Z.land_ones by lia. change (2 ^ 1) with 2.
  rewrite Zmod_odd. by destruct (Z.odd x).
Qed.

(** C5, as the code has it: in every frame that is not frozen, the TAA
    jitter advance is skipped if and only if accumulation is enabled, the
    resampling context's checkerboard mode is not Off, and the renderer's own
    frame counter [m_FrameIndex] is odd; freeze-random and path playback,
    which change the effective frame index, play no part. *)
Theorem jitter_advance_rule w fbinfo s s' context :
  m_FrameStepMode s <> Wait ->
  RenderScene w fbinfo s = Ok s' ->
  m_RtxdiContext s' = Some context ->
  EvTaaAdvanceFrame ∉ newEvents s s'
  <-> enableAccumulation (m_ui s) = true
      /\ CheckerboardSamplingMode (GetParameters context) <> CheckerboardOff
      /\ Z.odd (m_FrameIndex s) = true.
Proof.
  intros Hmode Hrun Hctx.
  destruct (RenderScene_events _ _ _ _ Hmode Hrun)
    as (setup & skip & acc & texture & sun & before & after
        & Hev & Hsetup & _ & Hacc & Hbefore & Hafter & Hskip).
  specialize (Hskip context Hctx). rewrite odd_land_1 in Hskip.
  assert (EvTaaAdvanceFrame ∈ newEvents s s' <-> skip = false) as Hin.
  { rewrite Hev, !elem_of_app, !elem_of_cons, !elem_of_app, !elem_of_cons.
    rewrite Forall_forall in Hsetup, Hbefore, Hafter.
    split.
    - intros [H1 | [[H1 | [H1 | [H1 | [H1 | H1]]]] | [H1 | [H1 | H1]]]].
      + by destruct (Hsetup _ H1).
      + done.
      + destruct skip; [by apply elem_of_nil in H1 | done].
      + by rewrite <- H1 in Hacc.
      + done.
      + by apply elem_of_nil in H1.
      + by specialize (Hbefore _ H1).
      + by destruct (renderingMode (m_ui s)); repeat (apply elem_of_cons in H1 as [H1|H1]);
          try done; apply elem_of_nil in H1.
      + by specialize (Hafter _ H1).
    - intros ->. right. left. right. left. apply list_elem_of_here. }
  rewrite Hin, Hskip, not_false_iff_true, !andb_true_iff, bool_decide_eq_true. tauto.
Qed.

(** * The environment map *)

Lemma LoadEnvironmentMap_event w s s' path :
  LoadEnvironmentMap w s = Ok s' ->
  0 < environmentMapIndex (m_ui s) ->
  environmentMaps s !! Z.to_nat (environmentMapIndex (m_ui s)) = Some path ->
  EvLoadTextureFromFileDeferred path ∈ newEvents s s'.
Proof.
  unfold LoadEnvironmentMap, unloadEnvironmentMap, newEvents. intros Hrun Hidx Hpath.
  apply Z.ltb_lt in Hidx. destruct_renderer s.
  crunch; rewrite <- ?app_assoc, drop_app_length; solve_elem.
Qed.

Lemma origin_not_reload e : origin e <> OLoad -> isReloadEvent e = false.
Proof. by destruct e. Qed.

(** What a frame that is not frozen does about the environment map. *)
Lemma RenderScene_environment w fbinfo s s' :
  m_FrameStepMode s <> Wait ->
  RenderScene w fbinfo s = Ok s' ->
  exists s1 s2,
    reloadEnvironmentMapIfDirty w s1 = Ok s2
    /\ m_EnvironmentMap s1 = m_EnvironmentMap s
    /\ environmentMaps s1 = environmentMaps s
    /\ environmentMapIndex (m_ui s1) = environmentMapIndex (m_ui s)
    /\ environmentMapDirty (m_ui s1) = environmentMapDirty (m_ui s)
    /\ m_EnvironmentMap s' = m_EnvironmentMap s2
    /\ environmentMaps s' = environmentMaps s2
    /\ environmentMapIndex (m_ui s') = environmentMapIndex (m_ui s2)
    /\ (forall e, e ∈ newEvents s1 s2 -> e ∈ newEvents s s')
    /\ (environmentMapDirty (m_ui s) <> 0 ->
        exists mips, EvEnvironmentMapPdfMipmapProcess mips ∈ newEvents s s')
    /\ (environmentMapDirty (m_ui s) <> 0 -> environmentMapIndex (m_ui s2) = 0 ->
        EvRenderEnvironmentMap ∈ newEvents s s')
    /\ (m_EnvironmentMap s2 = None -> environmentMapIndex (m_ui s2) = 0 ->
        EvConfigureEnvironmentLight (Some ProceduralSky) 1 ∈ newEvents s s')
    /\ (if rasterizeGBuffer (m_ui s) then EvGBufferRasterized else EvGBufferRaytraced)
       ∈ newEvents s s'
    /\ (exists mode, EvCompositing mode ∈ newEvents s s')
    /\ (exists img, EvBlitTexture (fb_width fbinfo, fb_height fbinfo) img ∈ newEvents s s').
Proof.
  intros Hmode Hrun.
  destruct (RenderScene_shapes _ _ _ _ Hmode Hrun)
    as (s1 & s2 & s4 & s5 & s6 & eff & reset & static & weight & mode
        & (E & L & S & P & C) & Sh1 & Sh2 & Sh4 & Sh5 & Sh6 & Sh').
  exists s1, s2. split; [done |].
  destruct (early_step_environment _ _ E) as (Em & Ems & Ei & Ed).
  do 4 (split; [done |]).
  pose proof (framePolicy_spec _ _ _ _ _ _ P)
    as (_ & _ & _ & _ & _ & skip & acc & texture & sun & _ & _ & Hsky & Hpol & _).
  pose proof (recordCommandList_spec _ _ _ _ _ _ _ _ C)
    as (_ & Hpdf & Hgb & Hcomp & _ & Hblit & _).
  pose proof (SetupRenderPasses_dirty _ _ _ _ _ S) as (_ & Hd0 & _).
  pose proof E as (AE & _).
  pose proof (reloadEnvironmentMapIfDirty_step _ _ _ L) as [AL _].
  pose proof (SetupRenderPasses_step _ _ _ _ _ S) as [AS _].
  pose proof (appends_grows _ _ _ AE) as G1.
  pose proof (appends_grows _ _ _ AL) as G2.
  assert (grows s2 s4) as G4.
  { destruct (appends_grows _ _ _ AS) as [l El]. exists l. by rewrite El, SetupView_trace. }
  pose proof (framePolicy_grows _ _ _ _ _ _ P) as G5.
  pose proof (commands_step_grows _ _ _ (recordCommandList_step _ _ _ _ _ _ _ _ C)) as G6.
  assert (newEvents s s' = newEvents s s6) as ->.
  { unfold newEvents. destruct Sh' as (? & ? & ? & ->). clear. destruct_renderer s6. by norm. }
  assert (m_EnvironmentMap s' = m_EnvironmentMap s2
          /\ environmentMaps s' = environmentMaps s2
          /\ environmentMapIndex (m_ui s') = environmentMapIndex (m_ui s2)
          /\ m_EnvironmentMap s4 = m_EnvironmentMap s2
          /\ environmentMapIndex (m_ui s4) = environmentMapIndex (m_ui s2)
          /\ environmentMapIndex (m_ui s5) = environmentMapIndex (m_ui s2)
          /\ environmentMapDirty (m_ui s5) = environmentMapDirty (m_ui s4)
          /\ environmentMapDirty (m_ui (SetupView fbinfo eff s2)) = environmentMapDirty (m_ui s)
          /\ rasterizeGBuffer (m_ui s5) = rasterizeGBuffer (m_ui s)
          /\ m_Viewport (m_View s5) = (fb_width fbinfo, fb_height fbinfo))
    as (Hm' & Hms' & Hi' & Hm4 & Hi4 & Hi5 & Hd5 & Hdv & Hr5 & Hvp).
  { destruct (SetupView_environment fbinfo eff s2) as [_ ->]. revert Ed.
    clear -Sh1 Sh2 Sh4 Sh5 Sh6 Sh'.
    destruct Sh' as (?&?&? & ->). destruct Sh6 as (?&?&?&? & ->).
    destruct Sh5 as (?&?&?&?&?&? & ->).
    destruct Sh4 as (?&?&?&?&?&?&?&?&?&?&?&?&?&?&?& ->). destruct Sh2 as (?&?&?&? & ->).
    destruct Sh1 as (?&?&?&?&?&?&?&?& ->).
    destruct_renderer s. norm. by intros _. }
  do 3 (split; [done |]).
  split.
  { intros e He. eapply (elem_of_newEvents s s1 s2 s6); [chain | chain | chain | done]. }
  assert (environmentMapDirty (m_ui s) <> 0 -> environmentMapDirty (m_ui s5) <> 0) as Hdirty.
  { intros Hd. rewrite Hd5. apply Hd0. by rewrite Hdv. }
  split.
  { intros Hd. destruct (Hpdf (Hdirty Hd)) as (mips & _ & He & _). exists mips.
    eapply (elem_of_newEvents s s5 s6 s6); [chain | chain | apply grows_refl | done]. }
  split.
  { intros Hd Hi. destruct (Hpdf (Hdirty Hd)) as (mips & _ & _ & He).
    eapply (elem_of_newEvents s s5 s6 s6); [chain | chain | apply grows_refl |].
    apply He. by rewrite Hi5. }
  split.
  { intros Hm Hi. destruct Hsky as [-> ->]; [by rewrite Hm4 | by rewrite Hi4 |].
    eapply (elem_of_newEvents s s4 s5 s6); [chain | chain | chain |].
    rewrite Hpol. apply list_elem_of_further, elem_of_app. right.
    apply list_elem_of_further, list_elem_of_here. }
  split.
  { rewrite <- Hr5.
    eapply (elem_of_newEvents s s5 s6 s6); [chain | chain | apply grows_refl | done]. }
  split.
  { exists mode.
    eapply (elem_of_newEvents s s5 s6 s6); [chain | chain | apply grows_refl | done]. }
  destruct Hblit as (img & He). exists img. rewrite <- Hvp.
  eapply (elem_of_newEvents s s5 s6 s6); [chain | chain | apply grows_refl | done].
Qed.

(** * Resizing *)

Lemma setup_step_grows s s' : setup_step s s' -> grows s s'.
Proof. intros [A _]. by eapply appends_grows. Qed.

Lemma prepared_params w s :
  rtxdiContextParams (m_ui (prepared w s)) = rtxdiContextParams (m_ui s).
Proof.
  unfold prepared, ensureRenderEnvironmentMapPass, reloadShadersIfRequested,
    dropPdfMipmapPassOnReload, LoadShaders. destruct_renderer s. by crunch.
Qed.

Lemma ensureRtxdiContext_created w fbinfo s :
  m_RtxdiContext s = None ->
  let params :=
    mkContextParameters (fb_width fbinfo) (fb_height fbinfo)
      (CheckerboardSamplingMode (rtxdiContextParams (m_ui s))) in
  newEvents s (ensureRtxdiContext w fbinfo s) = [EvCreateRtxdiContext params]
  /\ m_RtxdiResources (ensureRtxdiContext w fbinfo s) = m_RtxdiResources s.
Proof.
  intros Hctx. unfold ensureRtxdiContext, newEvents. rewrite Hctx.
  destruct_renderer s. norm. by rewrite drop_app_length.
Qed.

(** Lines 477-544 when render targets, context and resource bundle are all
    absent: the first two are created for the framebuffer's size. *)
Lemma setup_after_release w fbinfo size s :
  m_RenderTargets s = None -> m_RtxdiContext s = None -> m_RtxdiResources s = None ->
  let params :=
    mkContextParameters (fb_width fbinfo) (fb_height fbinfo)
      (CheckerboardSamplingMode (rtxdiContextParams (m_ui s))) in
  let sc :=
    ensureRtxdiContext w fbinfo
      (ensureRenderTargets fbinfo (invalidateRtxdiResources size (prepared w s))).1 in
  EvCreateRenderTargets (fb_width fbinfo, fb_height fbinfo) ∈ newEvents s sc
  /\ EvCreateRtxdiContext params ∈ newEvents s sc
  /\ grows s sc
  /\ m_RtxdiResources sc = None
  /\ m_RtxdiContext sc = Some (mkContext params).
Proof.
  intros Hrt Hctx Hres. cbv zeta.
  pose proof (prepared_facts w s) as (Prt & Pctx & Pres & _).
  pose proof (prepared_params w s) as Pp.
  pose proof (setup_step_grows _ _ (prepared_step w s)) as G0.
  set (sa := prepared w s) in *.
  pose proof (invalidateRtxdiResources_facts size sa) as (Irt & Ictx & _ & Iui & Itr & Ires).
  pose proof (setup_step_grows _ _ (invalidateRtxdiResources_step size sa)) as G1.
  set (s0 := invalidateRtxdiResources size sa) in *.
  rewrite ensureRenderTargets_result, Irt, Prt, Hrt. cbn [fst].
  set (s1 := set_trace _ _).
  assert (m_RtxdiContext s1 = None /\ m_RtxdiResources s1 = None /\ m_ui s1 = m_ui s0
          /\ newEvents s0 s1 = [EvCreateRenderTargets (fb_width fbinfo, fb_height fbinfo);
                                EvCreateRenderTargetBindings]) as (Hc1 & Hr1 & Hu1 & He1).
  { assert (m_RtxdiContext s0 = None) as Hc0 by (by rewrite Ictx, Pctx).
    assert (m_RtxdiResources s0 = None) as Hr0 by (apply Ires; by rewrite Pres).
    subst s1. unfold newEvents. revert Hc0 Hr0. clearbody s0. clear.
    destruct_renderer s0. norm. intros -> ->. by rewrite drop_app_length. }
  assert (grows s0 s1) as G2.
  { subst s1. clearbody s0. clear. eexists. destruct_renderer s0. norm. reflexivity. }
  destruct (ensureRtxdiContext_created w fbinfo s1 Hc1) as (He2 & Hr2). cbv zeta in He2.
  rewrite Hu1, Iui, Pp in He2.
  pose proof (setup_step_grows _ _ (ensureRtxdiContext_step w fbinfo s1)) as G3.
  split; [eapply (elem_of_newEvents s s0 s1 (ensureRtxdiContext w fbinfo s1));
          [chain | chain | chain |]; rewrite He1; apply list_elem_of_here |].
  split; [eapply (elem_of_newEvents s s1 (ensureRtxdiContext w fbinfo s1)
                    (ensureRtxdiContext w fbinfo s1)); [chain | chain | apply grows_refl |];
          rewrite He2; apply list_elem_of_here |].
  split; [chain |]. split; [by rewrite Hr2 |].
  by rewrite ensureRtxdiContext_result, Hc1, Hu1, Iui, Pp.
Qed.

Lemma SetupRenderPasses_after_release w fbinfo s s' reset :
  SetupRenderPasses w fbinfo s = Ok (s', reset) ->
  m_RenderTargets s = None -> m_RtxdiContext s = None -> m_RtxdiResources s = None ->
  let params :=
    mkContextParameters (fb_width fbinfo) (fb_height fbinfo)
      (CheckerboardSamplingMode (rtxdiContextParams (m_ui s))) in
  EvCreateRenderTargets (fb_width fbinfo, fb_height fbinfo) ∈ newEvents s s'
  /\ EvCreateRtxdiContext params ∈ newEvents s s'
  /\ exists r, m_RtxdiResources s' = Some r /\ res_context r = params.
Proof.
  intros Hrun Hrt Hctx Hres params.
  pose proof (SetupRenderPasses_inv _ _ _ _ _ Hrun)
    as (size & s1 & c1 & s2 & c2 & s3 & s4 & s5 & s6 & s7
        & Hsize & H1 & H2 & H3 & H4 & H5 & H6 & H7 & H8).
  pose proof (setup_after_release w fbinfo size s Hrt Hctx Hres) as Hsc. cbv zeta in Hsc.
  rewrite H1 in Hsc. cbn [fst] in Hsc. fold params in Hsc.
  destruct Hsc as (Ert & Ectx & G0 & Hnone & Hsome).
  pose proof (setup_step_grows _ _ (ensureRtxdiResources_step _ _ _ _ _ H2)) as G2.
  pose proof (setup_step_grows _ _ (ensureEnvironmentMapPdfMipmapPass_step _ _ _ _ H3)) as G3.
  pose proof (setup_step_grows _ _ (ensureLocalLightPdfMipmapPass_step _ _ _ H4)) as G4.
  pose proof (setup_step_grows _ _ (rebindLightingPasses_step _ _ _ _ H5)) as G5.
  pose proof (setup_step_grows _ _ (ensureTemporalAntiAliasingPass_step _ _ H6)) as G6.
  pose proof (setup_step_grows _ _ (ensureToneMappingPass_step _ _ _ H7)) as G7.
  pose proof (setup_step_grows _ _ (ensureNrdIntegration_step _ _ _ H8)) as G8.
  split; [eapply (elem_of_newEvents s s _ s'); [apply grows_refl | exact G0 | chain | done] |].
  split; [eapply (elem_of_newEvents s s _ s'); [apply grows_refl | exact G0 | chain | done] |].
  destruct (ensureRtxdiResources_ready _ _ _ _ _ H2) as (_ & _ & Hr).
  destruct (Hr Hnone) as (context & Hc & Hr2). rewrite Hsome in Hc. injection Hc as <-.
  pose proof (ensure_step_trans _ _ _ (ensureEnvironmentMapPdfMipmapPass_ensure _ _ _ _ H3)
     (ensure_step_trans _ _ _ (ensureLocalLightPdfMipmapPass_ensure _ _ _ H4)
     (ensure_step_trans _ _ _ (rebindLightingPasses_ensure _ _ _ _ H5)
     (ensure_step_trans _ _ _ (ensureTemporalAntiAliasingPass_ensure _ _ H6)
     (ensure_step_trans _ _ _ (ensureToneMappingPass_ensure _ _ _ H7)
        (ensureNrdIntegration_ensure _ _ _ H8)))))) as (_ & _ & K & _).
  eexists. split; [apply K; exact Hr2 | reflexivity].
Qed.

Lemma origin_not_pass e : setupOrReload e -> isPassEvent e = false.
Proof. by destruct e; intros [|]. Qed.

(** A frame that is not frozen and starts without render targets, context and
    bundle builds all three for the framebuffer, before any pass event. *)
Lemma frame_after_release w fbinfo s s' :
  m_FrameStepMode s <> Wait ->
  m_RenderTargets s = None -> m_RtxdiContext s = None -> m_RtxdiResources s = None ->
  RenderScene w fbinfo s = Ok s' ->
  exists context r setup rest,
    m_RenderTargets s' = Some (mkRenderTargets (fb_width fbinfo, fb_height fbinfo))
    /\ m_RtxdiContext s' = Some context
    /\ RenderWidth (GetParameters context) = fb_width fbinfo
    /\ RenderHeight (GetParameters context) = fb_height fbinfo
    /\ m_RtxdiResources s' = Some r
    /\ res_context r = GetParameters context
    /\ newEvents s s' = setup ++ rest
    /\ EvCreateRenderTargets (fb_width fbinfo, fb_height fbinfo) ∈ setup
    /\ EvCreateRtxdiContext (GetParameters context) ∈ setup
    /\ Forall (fun e => isPassEvent e = false) setup.
Proof.
  intros Hmode Hrt Hctx Hres Hrun.
  destruct (RenderScene_shapes _ _ _ _ Hmode Hrun)
    as (s1 & s2 & s4 & s5 & s6 & eff & reset & static & weight & mode
        & (E & L & S & P & C) & Sh1 & Sh2 & Sh4 & Sh5 & Sh6 & Sh').
  pose proof E as (AE & Hc1 & Hr1 & _).
  pose proof (reloadEnvironmentMapIfDirty_step _ _ _ L) as [AL _].
  pose proof (SetupRenderPasses_step _ _ _ _ _ S) as [AS _].
  assert (m_RenderTargets (SetupView fbinfo eff s2) = None
          /\ m_RtxdiContext (SetupView fbinfo eff s2) = None
          /\ m_RtxdiResources (SetupView fbinfo eff s2) = None
          /\ rtxdiContextParams (m_ui (SetupView fbinfo eff s2)) = rtxdiContextParams (m_ui s))
    as (Hrt3 & Hctx3 & Hres3 & Hp3).
  { specialize (Hc1 Hctx). specialize (Hr1 Hres). revert Hc1 Hr1 Hrt. clear -Sh1 Sh2.
    destruct (SetupView_result fbinfo eff s2) as (offset & ->). cbv zeta.
    destruct Sh2 as (?&?&?&? & ->). destruct Sh1 as (?&?&?&?&?&?&?&?& ->).
    destruct_renderer s. norm. by intros -> -> ->. }
  destruct (SetupRenderPasses_after_release _ _ _ _ _ S Hrt3 Hctx3 Hres3)
    as (Ert & Ectx & r & Hr & Hrc).
  destruct (SetupRenderPasses_targets _ _ _ _ _ S) as (Hrt4 & Hctx4).
  rewrite Hrt3 in Hrt4. rewrite Hctx3 in Hctx4. rewrite Hp3 in *.
  set (params := mkContextParameters (fb_width fbinfo) (fb_height fbinfo)
                   (CheckerboardSamplingMode (rtxdiContextParams (m_ui s)))) in *.
  pose proof (appends_grows _ _ _ AE) as G1.
  pose proof (appends_grows _ _ _ AL) as G2.
  assert (appends (fun e => origin e = OSetup) s2 s4) as AS'.
  { destruct AS as (l & Hl & El). exists l. by rewrite El, SetupView_trace. }
  pose proof (appends_grows _ _ _ AS') as G4.
  pose proof (framePolicy_grows _ _ _ _ _ _ P) as G5.
  pose proof (commands_step_grows _ _ _ (recordCommandList_step _ _ _ _ _ _ _ _ C)) as G6.
  assert (newEvents (SetupView fbinfo eff s2) s4 = newEvents s2 s4) as Hsame.
  { unfold newEvents. by rewrite SetupView_trace. }
  rewrite Hsame in Ert, Ectx.
  exists (mkContext params), r, (newEvents s s4), (newEvents s4 s6).
  assert (m_RenderTargets s' = m_RenderTargets s4 /\ m_RtxdiContext s' = m_RtxdiContext s4
          /\ m_RtxdiResources s' = m_RtxdiResources s4 /\ newEvents s s' = newEvents s s6)
    as (-> & -> & -> & ->).
  { clear -Sh5 Sh6 Sh'. unfold newEvents.
    destruct Sh' as (?&?&? & ->). destruct Sh6 as (?&?&?&? & ->).
    destruct Sh5 as (?&?&?&?&?&? & ->). destruct_renderer s4. by norm. }
  do 6 (split; [done |]).
  split; [apply newEvents_grows; chain |].
  split; [eapply (elem_of_newEvents s s2 s4 s4); [chain | chain | apply grows_refl | done] |].
  split; [eapply (elem_of_newEvents s s2 s4 s4); [chain | chain | apply grows_refl | done] |].
  rewrite (newEvents_grows s s1 s4), (newEvents_grows s1 s2 s4) by chain.
  repeat (apply Forall_app; split).
  + eapply Forall_impl; [by apply appends_Forall |]. intros e He. apply origin_not_pass.
    by left.
  + eapply Forall_impl; [by apply appends_Forall |]. intros e He. by apply origin_not_pass.
  + eapply Forall_impl; [by apply appends_Forall |]. intros e He. apply origin_not_pass.
    by left.
Qed.

(** C2, as the code has it: the resize handler releases the render targets,
    the resampling context, the ray-tracing resource bundle and the blit
    binding cache (and the TAA and tone-mapping passes).  A frame that is not
    frozen and finds the three released builds render targets and a context
    of exactly the framebuffer's width and height, and a resource bundle for
    that context; both creations are issued before any pass event of the
    frame.  The frame right after a resize, if it is not frozen and the
    selected environment map is usable, returns, and it is such a frame. *)
Theorem resize_rebuilds :
  (forall w s,
     m_RenderTargets (BackBufferResizing w s) = None
     /\ m_RtxdiContext (BackBufferResizing w s) = None
     /\ m_RtxdiResources (BackBufferResizing w s) = None
     /\ m_BindingCache (BackBufferResizing w s) = []
     /\ m_TemporalAntiAliasingPass (BackBufferResizing w s) = None
     /\ m_ToneMappingPass (BackBufferResizing w s) = None)
  /\ (forall w fbinfo s s',
        m_FrameStepMode s <> Wait ->
        m_RenderTargets s = None -> m_RtxdiContext s = None -> m_RtxdiResources s = None ->
        RenderScene w fbinfo s = Ok s' ->
        exists context r setup rest,
          m_RenderTargets s' = Some (mkRenderTargets (fb_width fbinfo, fb_height fbinfo))
          /\ m_RtxdiContext s' = Some context
          /\ RenderWidth (GetParameters context) = fb_width fbinfo
          /\ RenderHeight (GetParameters context) = fb_height fbinfo
          /\ m_RtxdiResources s' = Some r
          /\ res_context r = GetParameters context
          /\ newEvents s s' = setup ++ rest
          /\ EvCreateRenderTargets (fb_width fbinfo, fb_height fbinfo) ∈ setup
          /\ EvCreateRtxdiContext (GetParameters context) ∈ setup
          /\ Forall (fun e => isPassEvent e = false) setup)
  /\ (forall w fbinfo s,
        m_FrameStepMode s <> Wait ->
        environment_ok s ->
        let resized := BackBufferResizing w s in
        exists s' context r setup rest,
          RenderScene w fbinfo resized = Ok s'
          /\ m_RenderTargets s' = Some (mkRenderTargets (fb_width fbinfo, fb_height fbinfo))
          /\ m_RtxdiContext s' = Some context
          /\ RenderWidth (GetParameters context) = fb_width fbinfo
          /\ RenderHeight (GetParameters context) = fb_height fbinfo
          /\ m_RtxdiResources s' = Some r
          /\ res_context r = GetParameters context
          /\ newEvents resized s' = setup ++ rest
          /\ EvCreateRenderTargets (fb_width fbinfo, fb_height fbinfo) ∈ setup
          /\ EvCreateRtxdiContext (GetParameters context) ∈ setup
          /\ Forall (fun e => isPassEvent e = false) setup).
Proof.
  assert (forall w (s : @SceneRenderer Matrix),
             m_RenderTargets (BackBufferResizing w s) = None
             /\ m_RtxdiContext (BackBufferResizing w s) = None
             /\ m_RtxdiResources (BackBufferResizing w s) = None
             /\ m_BindingCache (BackBufferResizing w s) = []
             /\ m_TemporalAntiAliasingPass (BackBufferResizing w s) = None
             /\ m_ToneMappingPass (BackBufferResizing w s) = None) as Hrelease.
  { intros w s. unfold BackBufferResizing. destruct_renderer s. by crunch. }
  split; [exact Hrelease |]. split; [intros w fbinfo s s'; apply frame_after_release |].
  intros w fbinfo s Hmode Hok resized. subst resized.
  destruct (Hrelease w s) as (Hrt & Hctx & Hres & _).
  assert (m_FrameStepMode (BackBufferResizing w s) = m_FrameStepMode s
          /\ m_EnvironmentMap (BackBufferResizing w s) = m_EnvironmentMap s
          /\ environmentMaps (BackBufferResizing w s) = environmentMaps s
          /\ m_ui (BackBufferResizing w s) = m_ui s) as (Em & Ee & Es & Eu).
  { unfold BackBufferResizing. destruct_renderer s. by crunch. }
  destruct (RenderScene_Ok w fbinfo (BackBufferResizing w s)) as (s' & Hrun).
  { by rewrite Em. }
  { unfold environment_ok in *. by rewrite Ee, Es, Eu. }
  assert (m_FrameStepMode (BackBufferResizing w s) <> Wait) as Hmode' by (by rewrite Em).
  destruct (frame_after_release _ _ _ _ Hmode' Hrt Hctx Hres Hrun)
    as (context & r & setup & rest & Hbuilt).
  by exists s', context, r, setup, rest.
Qed.
(** ** The blocks before the environment-map reload, as one function *)

(** Lines 675-676. *)
Definition leaveStep s : SceneRenderer :=
  if bool_decide (m_FrameStepMode s = Step) then set_m_FrameStepMode Wait s else s.

(** The state after lines 675-730, and the frame's [effectiveFrameIndex]. *)
Definition earlyState w s : SceneRenderer :=
  resetRtxdiContextIfRequested
    (dropDenoiserOnMethodChange w (resolveEffectiveFrameIndex w (leaveStep s)).1).

Definition effectiveFrameIndex w s : Z := (resolveEffectiveFrameIndex w (leaveStep s)).2.

Lemma earlyState_step w s : early_step s (earlyState w s).
Proof.
  unfold earlyState, leaveStep.
  destruct (resolveEffectiveFrameIndex w _) as [sb eff] eqn:Heff. cbn [fst].
  eapply early_step_trans; [apply leaveStep_step |].
  eapply early_step_trans; [by eapply resolveEffectiveFrameIndex_step |].
  eapply early_step_trans; [apply dropDenoiserOnMethodChange_step |].
  apply resetRtxdiContextIfRequested_step.
Qed.

(** A frame that is not frozen, phase by phase, from the state [earlyState]. *)
Lemma RenderScene_early w fbinfo s s' :
  m_FrameStepMode s <> Wait ->
  RenderScene w fbinfo s = Ok s' ->
  exists s2 s4 s5 s6 reset static weight mode,
    reloadEnvironmentMapIfDirty w (earlyState w s) = Ok s2
    /\ SetupRenderPasses w fbinfo (SetupView fbinfo (effectiveFrameIndex w s) s2)
       = Ok (s4, reset)
    /\ framePolicy w s4 = Ok (s5, static, weight, mode)
    /\ recordCommandList w (effectiveFrameIndex w s) reset static weight mode s5 = Ok s6
    /\ s' = commitFrame s6.
Proof.
  unfold RenderScene, frameSetup, earlyState, effectiveFrameIndex, leaveStep.
  intros Hmode Hrun. rewrite bool_decide_eq_false_2 in Hrun by done.
  destruct (resolveEffectiveFrameIndex w _) as [sb eff] eqn:Heff. cbn [fst snd].
  inv_bind Hrun. destruct a as [[s4 eff'] reset].
  inv_bind Hstep. rename a into s2. inv_bind Hstep. destruct a as [s4' reset']. simplify_eq.
  inv_bind Hrun. destruct a as [[[s5 static] weight] mode].
  inv_bind Hrun. rename a into s6. simplify_eq.
  exists s2, s4, s5, s6, reset, static, weight, mode. by repeat split.
Qed.

(** The states of a frame, each written as updates of the one before,
    starting from [earlyState]. *)
Lemma RenderScene_frame w fbinfo s s' :
  m_FrameStepMode s <> Wait ->
  RenderScene w fbinfo s = Ok s' ->
  exists s2 s4 s5 s6 reset static weight mode,
    (reloadEnvironmentMapIfDirty w (earlyState w s) = Ok s2
     /\ SetupRenderPasses w fbinfo (SetupView fbinfo (effectiveFrameIndex w s) s2)
        = Ok (s4, reset)
     /\ framePolicy w s4 = Ok (s5, static, weight, mode)
     /\ recordCommandList w (effectiveFrameIndex w s) reset static weight mode s5 = Ok s6)
    /\ (exists tr map maps index,
          s2 = set_trace tr (set_m_EnvironmentMap map (set_environmentMaps maps
                 (set_m_ui (set_environmentMapIndex index (m_ui (earlyState w s)))
                    (earlyState w s)))))
    /\ (exists tr pdf taa sky local res rt context tone nrd dirty params slots reload offset,
          let view := mkView (m_Camera s2) (fb_width fbinfo, fb_height fbinfo) offset in
          s4 = set_trace tr (set_m_EnvironmentMapPdfMipmapPass pdf
                 (set_m_TemporalAntiAliasingPass taa (set_m_RenderEnvironmentMapPass sky
                    (set_m_LocalLightPdfMipmapPass local (set_m_RtxdiResources res
                       (set_m_RenderTargets rt (set_m_RtxdiContext context
                          (set_m_ToneMappingPass tone (set_m_NRD nrd
                             (set_m_ui (set_environmentMapDirty dirty
                                          (set_rtxdiContextParams params
                                             (set_regirLightSlotCount slots
                                                (set_reloadShaders reload (m_ui s2)))))
                                (set_m_ViewPrevious
                                   (if m_FrameIndex s2 =? 0 then view else m_ViewPrevious s2)
                                   (set_m_View view s2)))))))))))))
    /\ (exists tr taa countdown counter material denoiser,
          s5 = set_trace tr (set_m_TemporalAntiAliasingPass taa
                 (set_m_MaterialReadbackCountdown countdown
                    (set_m_ui (set_numAccumulatedFrames counter (set_resetAccumulation false
                                 (set_selectedMaterialIndex material
                                    (set_enableDenoiser denoiser (m_ui s4))))) s4))))
    /\ (exists tr cache reblur clamp,
          s6 = set_trace tr (set_m_BindingCache cache
                 (set_m_ui (set_environmentMapDirty 0 (set_reblurCheckerboardMode reblur
                              (set_taaClampingFactor clamp (m_ui s5)))) s5)))
    /\ s' = commitFrame s6.
Proof.
  intros Hmode Hrun.
  destruct (RenderScene_early _ _ _ _ Hmode Hrun)
    as (s2 & s4 & s5 & s6 & reset & static & weight & mode & L & S & P & C & ->).
  exists s2, s4, s5, s6, reset, static, weight, mode.
  split; [done |].
  split; [by apply reloadEnvironmentMapIfDirty_step in L as (_ & Es) |].
  split.
  { apply SetupRenderPasses_step in S
      as (_ & tr & pdf & taa & sky & loc & res & rt & ctx & tone & nrd & d & p & n & r & ->).
    destruct (SetupView_result fbinfo (effectiveFrameIndex w s) s2) as (offset & ->).
    by exists tr, pdf, taa, sky, loc, res, rt, ctx, tone, nrd, d, p, n, r, offset. }
  split.
  { apply framePolicy_spec in P
      as (_ & _ & _ & _ & _ & _ & _ & _ & _ & _ & _ & _ & _ & taa & cd & mat & den & Es & _).
    by exists (trace s5), taa, cd, (numAccumulatedFrames (m_ui s5)), mat, den. }
  split; [| done].
  pose proof (recordCommandList_spec _ _ _ _ _ _ _ _ C) as (D & _).
  apply recordCommandList_step in C as (_ & _ & tr & cache & d & rb & cl & ->).
  exists tr, cache, rb, cl. revert D. destruct_renderer s5. norm. by intros ->.
Qed.

(** What the phases after [earlyState] leave alone. *)
Lemma RenderScene_settings w fbinfo s s' :
  m_FrameStepMode s <> Wait ->
  RenderScene w fbinfo s = Ok s' ->
  m_FrameStepMode s' = m_FrameStepMode (earlyState w s)
  /\ m_Camera s' = m_Camera (earlyState w s)
  /\ animationFrame (m_ui s') = animationFrame (m_ui (earlyState w s))
  /\ resetRtxdiContext (m_ui s') = resetRtxdiContext (m_ui (earlyState w s))
  /\ m_FrameIndex s' = uint_incr (m_FrameIndex (earlyState w s))
  /\ m_FramesSinceAnimation s'
     = (if animateMeshes (m_ui (earlyState w s)) then 0
        else uint_incr (m_FramesSinceAnimation (earlyState w s))).
Proof.
  intros Hmode Hrun.
  destruct (RenderScene_frame _ _ _ _ Hmode Hrun)
    as (s2 & s4 & s5 & s6 & reset & static & weight & mode & _ & Sh2 & Sh4 & Sh5 & Sh6 & ->).
  destruct Sh2 as (?&?&?&? & ->).
  destruct Sh4 as (?&?&?&?&?&?&?&?&?&?&?&?&?&?&?& ->). destruct Sh5 as (?&?&?&?&?&? & ->).
  destruct Sh6 as (?&?&?&? & ->). unfold commitFrame.
  destruct_renderer (earlyState w s). norm. by repeat case_inner.
Qed.

Lemma resolveEffectiveFrameIndex_mode w s :
  m_FrameStepMode (resolveEffectiveFrameIndex w s).1 = m_FrameStepMode s.
Proof.
  unfold resolveEffectiveFrameIndex. destruct_renderer s. norm.
  repeat (case_inner; cbn [fst snd]; norm); done.
Qed.

Lemma dropDenoiserOnMethodChange_mode w s :
  m_FrameStepMode (dropDenoiserOnMethodChange w s) = m_FrameStepMode s
  /\ resetRtxdiContext (m_ui (dropDenoiserOnMethodChange w s)) = resetRtxdiContext (m_ui s).
Proof. unfold dropDenoiserOnMethodChange. destruct_renderer s. norm. by repeat case_inner. Qed.

Lemma resetRtxdiContextIfRequested_mode s :
  m_FrameStepMode (resetRtxdiContextIfRequested s) = m_FrameStepMode s
  /\ resetRtxdiContext (m_ui (resetRtxdiContextIfRequested s)) = false.
Proof.
  unfold resetRtxdiContextIfRequested. destruct_renderer s. norm. by case_inner.
Qed.

Lemma earlyState_facts w s :
  m_FrameStepMode (earlyState w s)
  = (if bool_decide (m_FrameStepMode s = Step) then Wait else m_FrameStepMode s)
  /\ m_FrameIndex (earlyState w s) = m_FrameIndex s
  /\ m_FramesSinceAnimation (earlyState w s) = m_FramesSinceAnimation s
  /\ animateMeshes (m_ui (earlyState w s)) = animateMeshes (m_ui s)
  /\ resetRtxdiContext (m_ui (earlyState w s)) = false.
Proof.
  split.
  { unfold earlyState.
    rewrite (proj1 (resetRtxdiContextIfRequested_mode _)),
      (proj1 (dropDenoiserOnMethodChange_mode _ _)), resolveEffectiveFrameIndex_mode.
    unfold leaveStep. destruct_renderer s. norm. by case_inner. }
  split; [| split; [| split]].
  4: { unfold earlyState. apply resetRtxdiContextIfRequested_mode. }
  all: destruct (earlyState_step w s) as (_ & _ & _ & _ & _ & ?&?&?&?&?&?&?&? & ->);
    destruct_renderer s; by norm.
Qed.

(** ** Keyboard shortcuts *)

(** An unmodified press of key [k]. *)
Definition pressed (k key action mods : Z) : Prop :=
  key = k /\ action = GLFW_PRESS /\ mods = 0.

Lemma app_singleton_neq {A : Type} (l : list A) (x : A) : l <> l ++ [x].
Proof.
  intros E. apply (f_equal length) in E. rewrite length_app in E. simpl in E. lia.
Qed.

(** The frame-step mode changes only on an unmodified press of F1 or F2: F1
    toggles between [Disabled] and [Wait] (and leaves [Step] for [Disabled]),
    F2 arms a single step from [Wait] and does nothing in the other modes.
    The handler always reports the event as consumed, and hands it to the
    camera exactly when it is none of the four shortcuts. *)
Theorem frame_step_keys (a : @Shell Matrix) (key scancode action mods : Z) :
  (KeyboardUpdate key scancode action mods a).2 = true
  /\ (pressed GLFW_KEY_F1 key action mods ->
      m_FrameStepMode (renderer (KeyboardUpdate key scancode action mods a).1)
      = if bool_decide (m_FrameStepMode (renderer a) = Disabled) then Wait else Disabled)
  /\ (pressed GLFW_KEY_F2 key action mods ->
      m_FrameStepMode (renderer (KeyboardUpdate key scancode action mods a).1)
      = if bool_decide (m_FrameStepMode (renderer a) = Wait) then Step
        else m_FrameStepMode (renderer a))
  /\ (~ pressed GLFW_KEY_F1 key action mods -> ~ pressed GLFW_KEY_F2 key action mods ->
      m_FrameStepMode (renderer (KeyboardUpdate key scancode action mods a).1)
      = m_FrameStepMode (renderer a))
  /\ (cameraInput (KeyboardUpdate key scancode action mods a).1
      = cameraInput a ++ [CameraKeyboardUpdate key scancode action mods]
      <-> ~ (key = GLFW_KEY_GRAVE_ACCENT /\ action = GLFW_PRESS)
          /\ ~ (mods = GLFW_MOD_CONTROL /\ key = GLFW_KEY_R /\ action = GLFW_PRESS)
          /\ ~ pressed GLFW_KEY_F1 key action mods
          /\ ~ pressed GLFW_KEY_F2 key action mods)
  /\ (cameraInput (KeyboardUpdate key scancode action mods a).1
      <> cameraInput a ++ [CameraKeyboardUpdate key scancode action mods] ->
      cameraInput (KeyboardUpdate key scancode action mods a).1 = cameraInput a).
Proof.
  unfold KeyboardUpdate, pressed, GLFW_KEY_F1, GLFW_KEY_F2, GLFW_KEY_R,
    GLFW_KEY_GRAVE_ACCENT, GLFW_MOD_CONTROL, GLFW_PRESS.
  destruct ((key =? 96) && (action =? 1)) eqn:Hgrave;
    [| destruct ((mods =? 2) && (key =? 82) && (action =? 1)) eqn:Hreload;
       [| destruct ((mods =? 0) && (key =? 290) && (action =? 1)) eqn:Hf1;
          [| destruct ((mods =? 0) && (key =? 291) && (action =? 1)) eqn:Hf2]]].
  all: cbn [fst snd renderer cameraInput with_renderer set_showUI toCamera].
  all: unfold with_ui, set_m_ui, set_m_FrameStepMode; cbn [m_FrameStepMode].
  all: rewrite ?andb_true_iff, ?andb_false_iff, ?Z.eqb_eq, ?Z.eqb_neq in *.
  all: split; [done |].
  all: split; [intros (? & ? & ?); try lia; try done |].
  all: split; [intros (? & ? & ?); try lia; try by case_bool_decide |].
  all: split; [intros Hn1 Hn2; try done; try (exfalso; apply Hn1; lia);
               try (exfalso; apply Hn2; lia) |].
  all: split; [| intros Hne; try done].
  all: split; [intros E; try (exfalso; by apply app_singleton_neq in E);
               repeat split; lia
              | intros (N1 & N2 & N3 & N4); try done; exfalso; lia].
Qed.

(** ** Frozen frames and single steps *)

Lemma RenderScene_wait w fbinfo s :
  m_FrameStepMode s = Wait -> RenderScene w fbinfo s = reblitFinalImage s.
Proof. intros Hmode. unfold RenderScene. by rewrite bool_decide_eq_true_2. Qed.

Lemma reblitFinalImage_result s rt :
  m_RenderTargets s = Some rt ->
  exists cache,
    reblitFinalImage s
    = Ok (set_trace (trace s ++ [EvBlitTexture (m_Viewport (m_View s)) (finalImage (m_ui s))])
            (set_m_BindingCache cache s)).
Proof.
  unfold reblitFinalImage, BlitTexture. intros ->. cbn [deref bind].
  destruct_renderer s. norm. case_inner; eexists; reflexivity.
Qed.

(** A frame that is not frozen leaves every handle of [handles_ready] built. *)
Lemma RenderScene_ready w fbinfo s s' :
  m_FrameStepMode s <> Wait -> RenderScene w fbinfo s = Ok s' -> handles_ready w s'.
Proof.
  intros Hmode Hrun.
  destruct (RenderScene_frame _ _ _ _ Hmode Hrun)
    as (s2 & s4 & s5 & s6 & reset & static & weight & mode
        & (L & S & P & C) & _ & _ & _ & _ & ->).
  pose proof (SetupRenderPasses_ready _ _ _ _ _ S) as R4.
  destruct (framePolicy_ready _ _ _ _ _ _ P R4) as [R5 _].
  destruct (commands_step_ready _ w _ _ (recordCommandList_step _ _ _ _ _ _ _ _ C)) as [R6 _].
  specialize (R6 R5). destruct (commitFrame_shape s6) as (? & ? & ? & ->).
  revert R6. unfold handles_ready. destruct_renderer s6. by norm.
Qed.

(** While frozen in [Wait], an unmodified press of F2 lets exactly one frame
    through: the next call of [RenderScene] renders a frame (the frame counter
    advances by one) and freezes again, and the call after that only shows the
    finished image again. *)
Theorem single_step w fbinfo (a : @Shell Matrix) (scancode : Z) :
  m_FrameStepMode (renderer a) = Wait ->
  environment_ok (renderer a) ->
  exists s1 s2,
    RenderScene w fbinfo (renderer (KeyboardUpdate GLFW_KEY_F2 scancode GLFW_PRESS 0 a).1)
    = Ok s1
    /\ m_FrameIndex s1 = uint_incr (m_FrameIndex (renderer a))
    /\ m_FrameStepMode s1 = Wait
    /\ RenderScene w fbinfo s1 = Ok s2
    /\ m_FrameIndex s2 = m_FrameIndex s1
    /\ m_FrameStepMode s2 = Wait
    /\ newEvents s1 s2 = [EvBlitTexture (m_Viewport (m_View s1)) (finalImage (m_ui s1))].
Proof.
  intros Hwait Hok.
  assert (renderer (KeyboardUpdate GLFW_KEY_F2 scancode GLFW_PRESS 0 a).1
          = set_m_FrameStepMode Step (renderer a)) as ->.
  { unfold KeyboardUpdate. cbn [fst renderer with_renderer andb Z.eqb Pos.eqb GLFW_KEY_F2
      GLFW_KEY_GRAVE_ACCENT GLFW_PRESS GLFW_MOD_CONTROL GLFW_KEY_R GLFW_KEY_F1].
    by rewrite bool_decide_eq_true_2. }
  set (s0 := set_m_FrameStepMode Step (renderer a)).
  assert (m_FrameStepMode s0 = Step) as Hstep by (subst s0; by destruct_renderer (renderer a)).
  assert (m_FrameStepMode s0 <> Wait) as Hmode by (by rewrite Hstep).
  assert (environment_ok s0) as Hok0.
  { revert Hok. subst s0. unfold environment_ok. by destruct_renderer (renderer a). }
  destruct (RenderScene_Ok w fbinfo s0 Hmode Hok0) as (s1 & Hrun1).
  destruct (RenderScene_settings _ _ _ _ Hmode Hrun1) as (Em & _ & _ & _ & Ei & _).
  destruct (earlyState_facts w s0) as (Fm & Fi & _).
  rewrite Fm, Hstep in Em. rewrite Fi in Ei.
  assert (m_FrameIndex s0 = m_FrameIndex (renderer a)) as Ei0
    by (subst s0; by destruct_renderer (renderer a)).
  rewrite Ei0 in Ei.
  destruct (RenderScene_ready _ _ _ _ Hmode Hrun1) as (Hrt & _).
  apply not_null_Some in Hrt as (rt & Hrt).
  destruct (reblitFinalImage_result s1 rt Hrt) as (cache & Hblit).
  exists s1. eexists. split; [done |]. split; [done |]. split; [done |].
  split; [rewrite RenderScene_wait by done; exact Hblit |].
  unfold newEvents. destruct_renderer s1. norm. by rewrite drop_app_length.
Qed.

(** ** When a frame returns, and how it fails otherwise *)

Lemma RenderScene_unfold w fbinfo s :
  m_FrameStepMode s <> Wait ->
  RenderScene w fbinfo s
  = letR s2 := reloadEnvironmentMapIfDirty w (earlyState w s) in
    letR (s4, reset) :=
      SetupRenderPasses w fbinfo (SetupView fbinfo (effectiveFrameIndex w s) s2) in
    letR (s5, static, weight, mode) := framePolicy w s4 in
    letR s6 := recordCommandList w (effectiveFrameIndex w s) reset static weight mode s5 in
    Ok (commitFrame s6).
Proof.
  intros Hmode. unfold RenderScene, frameSetup, earlyState, effectiveFrameIndex, leaveStep.
  rewrite bool_decide_eq_false_2 by done.
  destruct (resolveEffectiveFrameIndex w _) as [sb eff]. cbn [fst snd].
  destruct (reloadEnvironmentMapIfDirty w _) as [s2|]; [| done]. cbn [bind].
  destruct (SetupRenderPasses w fbinfo _) as [[s4 reset]|]; done.
Qed.

Lemma LoadEnvironmentMap_crash w s :
  0 < environmentMapIndex (m_ui s) ->
  environmentMaps s !! Z.to_nat (environmentMapIndex (m_ui s)) = None ->
  LoadEnvironmentMap w s = Crash IndexOutOfRange.
Proof.
  unfold LoadEnvironmentMap, unloadEnvironmentMap. intros Hidx Hnone.
  apply Z.ltb_lt in Hidx. destruct_renderer s. by crunch.
Qed.

Lemma environmentMapSize_crash s :
  0 < environmentMapIndex (m_ui s) -> m_EnvironmentMap s = None ->
  environmentMapSize s = Crash NullDereference.
Proof.
  unfold environmentMapSize. intros Hidx ->. apply Z.ltb_lt in Hidx. by rewrite Hidx.
Qed.

(** A window resize while the renderer is frozen in [Wait] releases the
    render targets that the frozen frame reads: the next call of [RenderScene]
    dereferences the null handle. *)
Theorem paused_resize_crashes w fbinfo s :
  m_FrameStepMode s = Wait ->
  RenderScene w fbinfo (BackBufferResizing w s) = Crash NullDereference.
Proof.
  intros Hmode.
  assert (m_FrameStepMode (BackBufferResizing w s) = Wait
          /\ m_RenderTargets (BackBufferResizing w s) = None) as [Hm Hrt].
  { revert Hmode. unfold BackBufferResizing. destruct_renderer s. norm. by case_inner. }
  rewrite RenderScene_wait by done. unfold reblitFinalImage. by rewrite Hrt.
Qed.

(** ** The command list, event by event *)

(** The events of each block of [recordCommandList], as a function of the
    state the block starts from. *)
Definition neighborOffsetEvents s : list Event :=
  match m_RtxdiResources s with
  | Some r => [EvInitializeNeighborOffsets r]
  | None => []
  end.

Definition accelStructEvents s : list Event :=
  if m_FramesSinceAnimation s <? 2 then [EvBuildTopLevelAccelStruct] else [].

Definition environmentEvents s : list Event :=
  if negb (environmentMapDirty (m_ui s) =? 0) then
    (if environmentMapIndex (m_ui s) =? 0 then [EvRenderEnvironmentMap] else [])
    ++ match m_EnvironmentMapPdfMipmapPass s with
       | Some mips => [EvEnvironmentMapPdfMipmapProcess mips]
       | None => []
       end
  else [].

Definition gbufferEvents s : list Event :=
  [if rasterizeGBuffer (m_ui s) then EvGBufferRasterized else EvGBufferRaytraced].

Definition lightPreparationEvents (eff : Z) s : list Event :=
  EvPrepareLights (negb (isNull (m_EnvironmentMapPdfMipmapPass s))
                   && environmentMapImportanceSampling (m_ui s)) eff
  :: (if enableLocalLightImportanceSampling (m_ui s) then [EvLocalLightPdfMipmapProcess]
      else []).

Definition denoiserEvents w s : list Event :=
  if WITH_NRD w && enableDenoiser (m_ui s) then [EvRunDenoiserPasses] else [].

Definition compositingEvents (mode : DenoiserMode) s : list Event :=
  EvCompositing mode :: (if enableTransparentGeometry (m_ui s) then [EvGlass] else []).

(** [finalHdrImage] of lines 969-985. *)
Definition finalHdrImage (u : UIData) : Image :=
  if enableAccumulation u then AccumulatedColor
  else if enableTAA u then ResolvedColor
  else HdrColor.

Definition resolveEvents (weight : Q) s : list Event :=
  if enableAccumulation (m_ui s) then [EvAccumulationRender weight]
  else if enableTAA (m_ui s) then [EvTemporalResolve (m_PreviousViewValid s)]
  else [].

Definition presentEvents (reset : bool) s : list Event :=
  if enableToneMapping (m_ui s) then
    (if reset then [EvResetExposure] else [])
    ++ [EvToneMapping (finalHdrImage (m_ui s)); EvBlitTexture (m_Viewport (m_View s)) LdrColor]
  else [EvBlitTexture (m_Viewport (m_View s)) (finalHdrImage (m_ui s))].

Definition commandList w (eff : Z) (reset : bool) (weight : Q) (mode : DenoiserMode) s
  : list Event :=
  neighborOffsetEvents s ++ accelStructEvents s ++ environmentEvents s ++ gbufferEvents s
  ++ lightPreparationEvents eff s ++ lightingCalls (renderingMode (m_ui s))
  ++ denoiserEvents w s ++ compositingEvents mode s ++ resolveEvents weight s
  ++ presentEvents reset s.

Lemma initializeNeighborOffsets_trace s s' :
  initializeNeighborOffsets s = Ok s' -> trace s' = trace s ++ neighborOffsetEvents s.
Proof.
  unfold initializeNeighborOffsets, neighborOffsetEvents. intros Hrun.
  destruct_renderer s. by crunch.
Qed.

Lemma updateAccelStruct_trace s :
  trace (updateAccelStruct s) = trace s ++ accelStructEvents s
  /\ environmentMapDirty (m_ui (updateAccelStruct s)) = environmentMapDirty (m_ui s).
Proof.
  unfold updateAccelStruct, accelStructEvents. destruct_renderer s. norm.
  case_inner; norm; by rewrite ?app_nil_r.
Qed.

Lemma initializeNeighborOffsets_dirty s s' :
  initializeNeighborOffsets s = Ok s' ->
  environmentMapDirty (m_ui s') = environmentMapDirty (m_ui s).
Proof. unfold initializeNeighborOffsets. intros Hrun. destruct_renderer s. by crunch. Qed.

Lemma regenerateEnvironmentMap_trace s s' :
  regenerateEnvironmentMap s = Ok s' -> trace s' = trace s ++ environmentEvents s.
Proof.
  unfold regenerateEnvironmentMap, environmentEvents. intros Hrun.
  destruct_renderer s. crunch; by rewrite <- ?app_assoc, ?app_nil_r.
Qed.

Lemma fillGBuffer_trace s s' : fillGBuffer s = Ok s' -> trace s' = trace s ++ gbufferEvents s.
Proof.
  unfold fillGBuffer, gbufferEvents. intros Hrun. destruct_renderer s. by crunch.
Qed.

Lemma prepareLights_trace eff s s' :
  prepareLights eff s = Ok s' -> trace s' = trace s ++ lightPreparationEvents eff s.
Proof.
  unfold prepareLights, lightPreparationEvents. intros Hrun. destruct_renderer s.
  crunch; by rewrite <- ?app_assoc.
Qed.

Lemma mirrorCheckerboardMode_trace w s s' :
  mirrorCheckerboardMode w s = Ok s' -> trace s' = trace s.
Proof. unfold mirrorCheckerboardMode. intros Hrun. destruct_renderer s. by crunch. Qed.

Lemma runDenoiser_trace w s s' :
  runDenoiser w s = Ok s' -> trace s' = trace s ++ denoiserEvents w s.
Proof.
  unfold runDenoiser, denoiserEvents. intros Hrun. destruct_renderer s.
  crunch; by rewrite ?app_nil_r.
Qed.

Lemma compositeAndGlass_trace mode s :
  trace (compositeAndGlass mode s) = trace s ++ compositingEvents mode s.
Proof.
  unfold compositeAndGlass, compositingEvents. destruct_renderer s. norm.
  case_inner; norm; by rewrite <- ?app_assoc.
Qed.

Lemma resolveHdrImage_trace weight static s s' img :
  resolveHdrImage weight static s = Ok (s', img) ->
  trace s' = trace s ++ resolveEvents weight s /\ img = finalHdrImage (m_ui s).
Proof.
  unfold resolveHdrImage, resolveEvents, finalHdrImage. intros Hrun. destruct_renderer s.
  crunch; by rewrite ?app_nil_r.
Qed.

Lemma toneMapAndBlit_trace reset s s' :
  toneMapAndBlit reset (finalHdrImage (m_ui s)) s = Ok s' ->
  trace s' = trace s ++ presentEvents reset s.
Proof.
  unfold toneMapAndBlit, presentEvents, BlitTexture. intros Hrun. destruct_renderer s.
  crunch; by rewrite <- ?app_assoc.
Qed.

Ltac shape_of K :=
  let tr := fresh "tr" in let c := fresh "c" in let d := fresh "d" in
  let r := fresh "r" in let k := fresh "k" in
  destruct K as (_ & _ & tr & c & d & r & k & ->).

Lemma geometry_pass e : geometry e -> pass e.
Proof. unfold pass. tauto. Qed.
Lemma lighting_pass e : lighting e -> pass e.
Proof. unfold pass. tauto. Qed.
Lemma post_pass e : post e -> pass e.
Proof. unfold pass. tauto. Qed.

(** The events of the command list, all of them, as a function of the state
    the command list starts from. *)
Lemma recordCommandList_events w eff reset static weight mode s s' :
  recordCommandList w eff reset static weight mode s = Ok s' ->
  trace s' = trace s ++ commandList w eff reset weight mode s.
Proof.
  intros Hrun.
  pose proof (recordCommandList_inv _ _ _ _ _ _ _ _ Hrun)
    as (s1 & s2 & s3 & s4 & s5 & s6 & s7 & s8 & img
        & H1 & H2 & H3 & H4 & H5 & H6 & H7 & H8 & H9).
  pose proof (initializeNeighborOffsets_step _ _ H1) as C1.
  pose proof (updateAccelStruct_step s1) as C1'.
  pose proof (regenerateEnvironmentMap_step _ _ H2) as C2.
  pose proof (fillGBuffer_step _ _ H3) as C3.
  pose proof (prepareLights_step _ _ _ H4) as C4.
  pose proof (mirrorCheckerboardMode_step _ _ _ H5) as C5.
  pose proof (renderLighting_step _ _ H6) as C6.
  pose proof (runDenoiser_step _ _ _ H7) as C7.
  pose proof (compositeAndGlass_step mode s7) as C7'.
  pose proof (resolveHdrImage_step _ _ _ _ _ H8) as C8.
  pose proof (commands_step_trans _ _ _ _ C1 C1') as K1.
  pose proof (commands_step_trans _ _ _ _ K1 C2) as K2.
  pose proof (commands_step_trans _ _ _ _ K2 C3) as K3.
  pose proof (commands_step_trans _ _ _ _ K3 C4) as K4.
  pose proof (commands_step_trans _ _ _ _ K4 C5) as K5.
  pose proof (commands_step_impl _ pass _ _ geometry_pass K5) as K5'.
  pose proof (commands_step_impl _ pass _ _ lighting_pass C6) as C6'.
  pose proof (commands_step_trans _ _ _ _ K5' C6') as K6.
  pose proof (commands_step_impl _ pass _ _ post_pass C7) as C7p.
  pose proof (commands_step_impl _ pass _ _ post_pass C7') as C7'p.
  pose proof (commands_step_impl _ pass _ _ post_pass C8) as C8p.
  pose proof (commands_step_trans _ _ _ _ K6 C7p) as K7.
  pose proof (commands_step_trans _ _ _ _ K7 C7'p) as K7'.
  pose proof (commands_step_trans _ _ _ _ K7' C8p) as K8.
  apply resolveHdrImage_trace in H8 as [T8 ->].
  assert (finalHdrImage (m_ui (compositeAndGlass mode s7)) = finalHdrImage (m_ui s8)) as Eimg.
  { clear -C8. shape_of C8. unfold finalHdrImage. destruct_renderer (compositeAndGlass mode s7).
    by norm. }
  rewrite Eimg in H9. apply toneMapAndBlit_trace in H9 as T9.
  apply runDenoiser_trace in H7 as T7.
  pose proof (compositeAndGlass_trace mode s7) as T7'.
  assert (trace s6 = trace s5 ++ lightingCalls (renderingMode (m_ui s5))) as T6.
  { rewrite (renderLighting_result _ _ H6). by destruct_renderer s5. }
  apply mirrorCheckerboardMode_trace in H5 as T5.
  apply prepareLights_trace in H4 as T4.
  apply fillGBuffer_trace in H3 as T3.
  apply regenerateEnvironmentMap_trace in H2 as T2.
  destruct (updateAccelStruct_trace s1) as [T1' D1'].
  pose proof (initializeNeighborOffsets_dirty _ _ H1) as D1.
  apply initializeNeighborOffsets_trace in H1 as T1.
  assert (accelStructEvents s1 = accelStructEvents s) as E1
    by (clear -C1; shape_of C1; unfold accelStructEvents; destruct_renderer s; by norm).
  assert (environmentEvents (updateAccelStruct s1) = environmentEvents s) as E2.
  { unfold environmentEvents. rewrite D1', D1. clear -K1. shape_of K1.
    destruct_renderer s. by norm. }
  assert (gbufferEvents s2 = gbufferEvents s) as E3
    by (clear -K2; shape_of K2; unfold gbufferEvents; destruct_renderer s; by norm).
  assert (lightPreparationEvents eff s3 = lightPreparationEvents eff s) as E4
    by (clear -K3; shape_of K3; unfold lightPreparationEvents; destruct_renderer s; by norm).
  assert (renderingMode (m_ui s5) = renderingMode (m_ui s)) as E6
    by (clear -K5; shape_of K5; destruct_renderer s; by norm).
  assert (denoiserEvents w s6 = denoiserEvents w s) as E7
    by (clear -K6; shape_of K6; unfold denoiserEvents; destruct_renderer s; by norm).
  assert (compositingEvents mode s7 = compositingEvents mode s) as E7'
    by (clear -K7; shape_of K7; unfold compositingEvents; destruct_renderer s; by norm).
  assert (resolveEvents weight (compositeAndGlass mode s7) = resolveEvents weight s) as E8
    by (clear -K7'; shape_of K7'; unfold resolveEvents; destruct_renderer s; by norm).
  assert (presentEvents reset s8 = presentEvents reset s) as E9
    by (clear -K8; shape_of K8; unfold presentEvents, finalHdrImage; destruct_renderer s;
        by norm).
  rewrite T9, T8, T7', T7, T6, T5, T4, T3, T2, T1', T1.
  rewrite E1, E2, E3, E4, E6, E7, E7', E8, E9.
  unfold commandList. by rewrite <- !app_assoc.
Qed.

(** ** The frame, event by event *)

(** The events of the policy phase. *)
Definition policyEvents (skip : bool) (accumulation : Event)
    (texture : option EnvironmentSource) (sun : Z) : list Event :=
  EvNextFrame :: (if skip then [] else [EvTaaAdvanceFrame])
  ++ [accumulation; EvConfigureEnvironmentLight texture sun].

(** The settings the command list reads that no earlier phase writes. *)
Definition same_settings s s' : Prop :=
  m_FramesSinceAnimation s' = m_FramesSinceAnimation s
  /\ m_PreviousViewValid s' = m_PreviousViewValid s
  /\ rasterizeGBuffer (m_ui s') = rasterizeGBuffer (m_ui s)
  /\ renderingMode (m_ui s') = renderingMode (m_ui s)
  /\ enableTransparentGeometry (m_ui s') = enableTransparentGeometry (m_ui s)
  /\ enableAccumulation (m_ui s') = enableAccumulation (m_ui s)
  /\ enableTAA (m_ui s') = enableTAA (m_ui s)
  /\ enableToneMapping (m_ui s') = enableToneMapping (m_ui s)
  /\ enableLocalLightImportanceSampling (m_ui s')
     = enableLocalLightImportanceSampling (m_ui s)
  /\ environmentMapImportanceSampling (m_ui s') = environmentMapImportanceSampling (m_ui s).

(** What the command list and the commit leave as the policy phase left it. *)
Definition same_resources s s' : Prop :=
  m_RenderTargets s' = m_RenderTargets s
  /\ m_RtxdiContext s' = m_RtxdiContext s
  /\ m_RtxdiResources s' = m_RtxdiResources s
  /\ m_EnvironmentMapPdfMipmapPass s' = m_EnvironmentMapPdfMipmapPass s
  /\ m_TemporalAntiAliasingPass s' = m_TemporalAntiAliasingPass s
  /\ m_ToneMappingPass s' = m_ToneMappingPass s
  /\ m_NRD s' = m_NRD s
  /\ m_View s' = m_View s
  /\ environmentMapIndex (m_ui s') = environmentMapIndex (m_ui s)
  /\ enableDenoiser (m_ui s') = enableDenoiser (m_ui s)
  /\ selectedMaterialIndex (m_ui s') = selectedMaterialIndex (m_ui s).

(** All the events of a frame that is not frozen: those of the setup, those
    of the policy phase, and the command list of the state [s5] the policy
    phase ends in. *)
Lemma RenderScene_trace w fbinfo s s' :
  m_FrameStepMode s <> Wait ->
  RenderScene w fbinfo s = Ok s' ->
  exists s2 s4 s5 reset static weight mode setup skip accumulation texture sun,
    (reloadEnvironmentMapIfDirty w (earlyState w s) = Ok s2
     /\ SetupRenderPasses w fbinfo (SetupView fbinfo (effectiveFrameIndex w s) s2)
        = Ok (s4, reset)
     /\ framePolicy w s4 = Ok (s5, static, weight, mode))
    /\ newEvents s s'
       = setup ++ policyEvents skip accumulation texture sun
         ++ commandList w (effectiveFrameIndex w s) reset weight mode s5
    /\ Forall setupOrReload setup
    /\ newEvents s s4 = setup
    /\ origin accumulation = OAccumulation
    /\ same_settings s s5
    /\ same_resources s5 s'
    /\ handles_ready w s5
    /\ m_Viewport (m_View s5) = (fb_width fbinfo, fb_height fbinfo)
    /\ environmentMapDirty (m_ui s5) = environmentMapDirty (m_ui s4).
Proof.
  intros Hmode Hrun.
  destruct (RenderScene_frame _ _ _ _ Hmode Hrun)
    as (s2 & s4 & s5 & s6 & reset & static & weight & mode
        & (L & S & P & C) & Sh2 & Sh4 & Sh5 & Sh6 & ->).
  pose proof (framePolicy_spec _ _ _ _ _ _ P)
    as (_ & _ & _ & _ & _ & skip & acc & texture & sun & Hskip & Hacc & _ & Hpol & _).
  pose proof (recordCommandList_events _ _ _ _ _ _ _ _ C) as Hcmd.
  pose proof (earlyState_step w s) as (AE & _ & _ & _ & _ & Sh1).
  pose proof (reloadEnvironmentMapIfDirty_step _ _ _ L) as [AL _].
  pose proof (SetupRenderPasses_step _ _ _ _ _ S) as [AS _].
  pose proof (appends_grows _ _ _ AE) as G1.
  pose proof (appends_grows _ _ _ AL) as G2.
  assert (appends (fun e => origin e = OSetup) s2 s4) as AS'.
  { destruct AS as (l & Hl & El). exists l. by rewrite El, SetupView_trace. }
  pose proof (appends_grows _ _ _ AS') as G4.
  pose proof (framePolicy_grows _ _ _ _ _ _ P) as G5.
  assert (grows s5 s6) as G6 by (by eexists).
  pose proof (SetupRenderPasses_ready _ _ _ _ _ S) as R4.
  destruct (framePolicy_ready _ _ _ _ _ _ P R4) as [R5 _].
  exists s2, s4, s5, reset, static, weight, mode, (newEvents s s4), skip, acc, texture, sun.
  split; [done |]. split.
  { assert (newEvents s (commitFrame s6) = newEvents s s6) as ->
      by (unfold newEvents; by rewrite commitFrame_trace).
    rewrite (newEvents_grows s s4 s6), (newEvents_grows s4 s5 s6) by chain.
    rewrite Hpol. by rewrite (newEvents_app s5 s6 _ Hcmd). }
  split.
  { rewrite (newEvents_grows s (earlyState w s) s4), (newEvents_grows (earlyState w s) s2 s4)
      by chain.
    repeat (apply Forall_app; split).
    - eapply Forall_impl; [by apply appends_Forall |]. unfold setupOrReload. tauto.
    - by apply appends_Forall.
    - eapply Forall_impl; [by apply appends_Forall |]. unfold setupOrReload. tauto. }
  do 2 (split; [done |]).
  split.
  { clear -Sh1 Sh2 Sh4 Sh5.
    destruct Sh1 as (?&?&?&?&?&?&?&?& E1). destruct Sh2 as (?&?&?&? & ->).
    destruct Sh4 as (?&?&?&?&?&?&?&?&?&?&?&?&?&?&?& ->). destruct Sh5 as (?&?&?&?&?&? & ->).
    rewrite E1. clear E1. unfold same_settings. destruct_renderer s. by norm. }
  split.
  { clear -Sh6. destruct Sh6 as (tr6 & cache6 & reblur6 & clamp6 & ->).
    destruct (commitFrame_shape
      (set_trace tr6 (set_m_BindingCache cache6 (set_m_ui (set_environmentMapDirty 0
         (set_reblurCheckerboardMode reblur6 (set_taaClampingFactor clamp6 (m_ui s5)))) s5))))
      as (? & ? & ? & ->).
    unfold same_resources. destruct_renderer s5. by norm. }
  split; [done |]. split.
  - clear -Sh4 Sh5. destruct Sh4 as (?&?&?&?&?&?&?&?&?&?&?&?&?&?&?& ->).
    destruct Sh5 as (?&?&?&?&?&? & ->). destruct_renderer s2. by norm.
  - clear -Sh5. destruct Sh5 as (?&?&?&?&?&? & ->). destruct_renderer s4. by norm.
Qed.

(** An event of a render pass is issued by a frame exactly when it is in the
    frame's command list. *)
Lemma pass_event w fbinfo s s' :
  m_FrameStepMode s <> Wait ->
  RenderScene w fbinfo s = Ok s' ->
  exists s4 s5 reset static weight mode,
    framePolicy w s4 = Ok (s5, static, weight, mode)
    /\ (exists s2,
          reloadEnvironmentMapIfDirty w (earlyState w s) = Ok s2
          /\ SetupRenderPasses w fbinfo (SetupView fbinfo (effectiveFrameIndex w s) s2)
             = Ok (s4, reset))
    /\ (forall e,
          pass e ->
          e ∈ newEvents s s'
          <-> e ∈ commandList w (effectiveFrameIndex w s) reset weight mode s5)
    /\ same_settings s s5
    /\ same_resources s5 s'
    /\ handles_ready w s5
    /\ m_Viewport (m_View s5) = (fb_width fbinfo, fb_height fbinfo)
    /\ environmentMapDirty (m_ui s5) = environmentMapDirty (m_ui s4).
Proof.
  intros Hmode Hrun.
  destruct (RenderScene_trace _ _ _ _ Hmode Hrun)
    as (s2 & s4 & s5 & reset & static & weight & mode & setup & skip & acc & texture & sun
        & (L & S & P) & Hev & Hsetup & _ & Hacc & Hset & Hres & Hr & Hv & Hd).
  exists s4, s5, reset, static, weight, mode.
  split; [done |]. split; [by exists s2 |]. split; [| done].
  intros e He. rewrite Hev, !elem_of_app. unfold policyEvents.
  split; [| tauto]. intros [Hin | [Hin | Hin]]; [| | done]; exfalso.
  - rewrite Forall_forall in Hsetup. apply Hsetup in Hin.
    unfold pass, geometry, lighting, post, setupOrReload in *.
    destruct Hin as [O|O]; rewrite O in He; by destruct He as [? | [? | ?]].
  - unfold pass, geometry, lighting, post in He.
    rewrite elem_of_cons, elem_of_app, elem_of_cons, list_elem_of_singleton in Hin.
    destruct Hin as [-> | [Hin | [-> | ->]]].
    + by destruct He as [? | [? | ?]].
    + destruct skip; [by apply elem_of_nil in Hin |].
      apply list_elem_of_singleton in Hin as ->. by destruct He as [? | [? | ?]].
    + rewrite Hacc in He. by destruct He as [? | [? | ?]].
    + by destruct He as [? | [? | ?]].
Qed.

(** The block of the command list that issues an event. *)
Inductive Block :=
| BNeighborOffsets | BAccelStruct | BEnvironment | BGBuffer | BLightPreparation
| BLighting | BDenoiser | BCompositing | BResolve | BPresent | BOutside.

Definition block (e : Event) : Block :=
  match e with
  | EvInitializeNeighborOffsets _ => BNeighborOffsets
  | EvBuildTopLevelAccelStruct => BAccelStruct
  | EvRenderEnvironmentMap | EvEnvironmentMapPdfMipmapProcess _ => BEnvironment
  | EvGBufferRasterized | EvGBufferRaytraced => BGBuffer
  | EvPrepareLights _ _ | EvLocalLightPdfMipmapProcess => BLightPreparation
  | EvLightingRender _ _ | EvRenderBrdfRays _ _ _ _ => BLighting
  | EvRunDenoiserPasses => BDenoiser
  | EvCompositing _ | EvGlass => BCompositing
  | EvAccumulationRender _ | EvTemporalResolve _ => BResolve
  | EvResetExposure | EvToneMapping _ | EvBlitTexture _ _ => BPresent
  | _ => BOutside
  end.

Lemma block_pass e : block e <> BOutside -> pass e.
Proof. unfold pass, geometry, lighting, post. destruct e; cbn; intros; tauto. Qed.

Ltac block_Forall :=
  repeat case_match; repeat (apply Forall_cons_2; [reflexivity |]); apply Forall_nil_2.

Lemma commandList_blocks w eff reset weight mode s :
  Forall (fun e => block e = BNeighborOffsets) (neighborOffsetEvents s)
  /\ Forall (fun e => block e = BAccelStruct) (accelStructEvents s)
  /\ Forall (fun e => block e = BEnvironment) (environmentEvents s)
  /\ Forall (fun e => block e = BGBuffer) (gbufferEvents s)
  /\ Forall (fun e => block e = BLightPreparation) (lightPreparationEvents eff s)
  /\ Forall (fun e => block e = BLighting) (lightingCalls (renderingMode (m_ui s)))
  /\ Forall (fun e => block e = BDenoiser) (denoiserEvents w s)
  /\ Forall (fun e => block e = BCompositing) (compositingEvents mode s)
  /\ Forall (fun e => block e = BResolve) (resolveEvents weight s)
  /\ Forall (fun e => block e = BPresent) (presentEvents reset s).
Proof.
  unfold neighborOffsetEvents, accelStructEvents, environmentEvents, gbufferEvents,
    lightPreparationEvents, lightingCalls, denoiserEvents, compositingEvents, resolveEvents,
    presentEvents.
  repeat split; block_Forall.
Qed.

(** An event is in the command list exactly when it is among the events of
    its block. *)
Lemma elem_of_commandList w eff reset weight mode s e :
  e ∈ commandList w eff reset weight mode s
  <-> match block e with
      | BNeighborOffsets => e ∈ neighborOffsetEvents s
      | BAccelStruct => e ∈ accelStructEvents s
      | BEnvironment => e ∈ environmentEvents s
      | BGBuffer => e ∈ gbufferEvents s
      | BLightPreparation => e ∈ lightPreparationEvents eff s
      | BLighting => e ∈ lightingCalls (renderingMode (m_ui s))
      | BDenoiser => e ∈ denoiserEvents w s
      | BCompositing => e ∈ compositingEvents mode s
      | BResolve => e ∈ resolveEvents weight s
      | BPresent => e ∈ presentEvents reset s
      | BOutside => False
      end.
Proof.
  destruct (commandList_blocks w eff reset weight mode s)
    as (F1 & F2 & F3 & F4 & F5 & F6 & F7 & F8 & F9 & F10).
  rewrite Forall_forall in F1, F2, F3, F4, F5, F6, F7, F8, F9, F10.
  unfold commandList. rewrite !elem_of_app. split.
  - intros [Hin | [Hin | [Hin | [Hin | [Hin | [Hin | [Hin | [Hin | [Hin | Hin]]]]]]]]].
    + by rewrite (F1 _ Hin).
    + by rewrite (F2 _ Hin).
    + by rewrite (F3 _ Hin).
    + by rewrite (F4 _ Hin).
    + by rewrite (F5 _ Hin).
    + by rewrite (F6 _ Hin).
    + by rewrite (F7 _ Hin).
    + by rewrite (F8 _ Hin).
    + by rewrite (F9 _ Hin).
    + by rewrite (F10 _ Hin).
  - destruct (block e); tauto.
Qed.

(** An event of the command list is issued by a frame exactly when it is
    among the events of its block, taken from the state the policy phase ends
    in. *)
Lemma frame_event w fbinfo s s' :
  m_FrameStepMode s <> Wait ->
  RenderScene w fbinfo s = Ok s' ->
  exists s4 s5 reset static weight mode,
    framePolicy w s4 = Ok (s5, static, weight, mode)
    /\ (exists s2,
          reloadEnvironmentMapIfDirty w (earlyState w s) = Ok s2
          /\ SetupRenderPasses w fbinfo (SetupView fbinfo (effectiveFrameIndex w s) s2)
             = Ok (s4, reset))
    /\ (forall e,
          block e <> BOutside ->
          e ∈ newEvents s s'
          <-> match block e with
            | BNeighborOffsets => e ∈ neighborOffsetEvents s5
            | BAccelStruct => e ∈ accelStructEvents s5
            | BEnvironment => e ∈ environmentEvents s5
            | BGBuffer => e ∈ gbufferEvents s5
            | BLightPreparation => e ∈ lightPreparationEvents (effectiveFrameIndex w s) s5
            | BLighting => e ∈ lightingCalls (renderingMode (m_ui s5))
            | BDenoiser => e ∈ denoiserEvents w s5
            | BCompositing => e ∈ compositingEvents mode s5
            | BResolve => e ∈ resolveEvents weight s5
            | BPresent => e ∈ presentEvents reset s5
            | BOutside => False
            end)
    /\ same_settings s s5
    /\ same_resources s5 s'
    /\ handles_ready w s5
    /\ m_Viewport (m_View s5) = (fb_width fbinfo, fb_height fbinfo)
    /\ environmentMapDirty (m_ui s5) = environmentMapDirty (m_ui s4).
Proof.
  intros Hmode Hrun.
  destruct (pass_event _ _ _ _ Hmode Hrun)
    as (s4 & s5 & reset & static & weight & mode & P & S & Hin & Hrest).
  exists s4, s5, reset, static, weight, mode. do 2 (split; [done |]).
  split; [| done]. intros e He. by rewrite (Hin e (block_pass e He)), elem_of_commandList.
Qed.

(** ** Acceleration structure *)

(** The top-level acceleration structure is rebuilt in a frame exactly when
    fewer than two frames have passed since meshes were last animated; the
    count of such frames is reset by a frame with mesh animation on and
    advanced (modulo 2^32) by any other frame. *)
Theorem accel_struct_rebuild_rule w fbinfo s s' :
  m_FrameStepMode s <> Wait ->
  RenderScene w fbinfo s = Ok s' ->
  (EvBuildTopLevelAccelStruct ∈ newEvents s s' <-> m_FramesSinceAnimation s < 2)
  /\ m_FramesSinceAnimation s'
     = if animateMeshes (m_ui s) then 0 else uint_incr (m_FramesSinceAnimation s).
Proof.
  intros Hmode Hrun. split.
  - destruct (frame_event _ _ _ _ Hmode Hrun)
      as (s4 & s5 & reset & static & weight & mode & _ & _ & Hin & Hset & _).
    rewrite (Hin EvBuildTopLevelAccelStruct) by done.
    destruct Hset as (Hsince & _). cbn [block]. unfold accelStructEvents. rewrite Hsince.
    destruct (Z.ltb_spec (m_FramesSinceAnimation s) 2) as [Hlt|Hge].
    + by rewrite list_elem_of_singleton.
    + rewrite elem_of_nil. lia.
  - destruct (RenderScene_settings _ _ _ _ Hmode Hrun) as (_ & _ & _ & _ & _ & ->).
    destruct (earlyState_facts w s) as (_ & _ & -> & -> & _). done.
Qed.

(** ** The effective frame index *)

Lemma effectiveFrameIndex_spec w s :
  effectiveFrameIndex w s
  = match animationFrame (m_ui s) with
    | Some frame =>
        match InterpolateCameraPath w frame with
        | Some _ => uint_wrap frame
        | None => if freezeRandom (m_ui s) then 0 else m_FrameIndex s
        end
    | None => if freezeRandom (m_ui s) then 0 else m_FrameIndex s
    end.
Proof.
  unfold effectiveFrameIndex, resolveEffectiveFrameIndex, leaveStep.
  destruct_renderer s. norm. repeat (case_inner; cbn [fst snd]; norm); done.
Qed.

(** ** Post-processing *)

(** After compositing, a frame accumulates if accumulation is enabled and
    otherwise resolves with TAA if TAA is enabled (never both), passing on
    whether a previous view existed when the frame began; it tone-maps the
    resulting image if tone mapping is enabled; and it blits exactly the image
    that the frame-step "wait" path shows, over the whole framebuffer.  The
    glass pass runs exactly when transparent geometry is enabled. *)
Lemma post_processing_members w fbinfo s s' :
  m_FrameStepMode s <> Wait ->
  RenderScene w fbinfo s = Ok s' ->
  ((exists weight, EvAccumulationRender weight ∈ newEvents s s')
   <-> enableAccumulation (m_ui s) = true)
  /\ (forall valid,
        EvTemporalResolve valid ∈ newEvents s s'
        <-> enableAccumulation (m_ui s) = false /\ enableTAA (m_ui s) = true
            /\ valid = m_PreviousViewValid s)
  /\ (forall img,
        EvToneMapping img ∈ newEvents s s'
        <-> enableToneMapping (m_ui s) = true
            /\ img = if enableAccumulation (m_ui s) then AccumulatedColor
                     else if enableTAA (m_ui s) then ResolvedColor else HdrColor)
  /\ (forall viewport img,
        EvBlitTexture viewport img ∈ newEvents s s'
        <-> viewport = (fb_width fbinfo, fb_height fbinfo) /\ img = finalImage (m_ui s))
  /\ (EvGlass ∈ newEvents s s' <-> enableTransparentGeometry (m_ui s) = true).
Proof.
  intros Hmode Hrun.
  destruct (frame_event _ _ _ _ Hmode Hrun)
    as (s4 & s5 & reset & static & weight & mode & _ & _ & Hin & Hset & _ & _ & Hv & _).
  destruct Hset as (_ & Hvalid & _ & _ & Hglass & Hacc & Htaa & Htone & _).
  split; [| split; [| split; [| split]]].
  - split.
    + intros [q Hq]. rewrite (Hin (EvAccumulationRender q)) in Hq by done.
      cbn [block] in Hq. unfold resolveEvents in Hq. rewrite Hacc, Htaa in Hq.
      destruct (enableAccumulation (m_ui s)); [done |].
      destruct (enableTAA (m_ui s)); [| by apply elem_of_nil in Hq].
      by apply list_elem_of_singleton in Hq.
    + intros Ha. exists weight. rewrite (Hin (EvAccumulationRender weight)) by done.
      cbn [block]. unfold resolveEvents. rewrite Hacc, Ha. by apply list_elem_of_singleton.
  - intros valid. rewrite (Hin (EvTemporalResolve valid)) by done.
    cbn [block]. unfold resolveEvents. rewrite Hacc, Htaa, Hvalid.
    destruct (enableAccumulation (m_ui s)), (enableTAA (m_ui s));
      rewrite ?list_elem_of_singleton, ?elem_of_nil; intuition (simplify_eq; done).
  - intros img. rewrite (Hin (EvToneMapping img)) by done.
    cbn [block]. unfold presentEvents, finalHdrImage. rewrite Hacc, Htaa, Htone.
    destruct (enableToneMapping (m_ui s)), reset;
      rewrite ?elem_of_app, ?elem_of_cons, ?list_elem_of_singleton, ?elem_of_nil;
      intuition (simplify_eq; done).
  - intros viewport img. rewrite (Hin (EvBlitTexture viewport img)) by done.
    cbn [block]. unfold presentEvents, finalImage, finalHdrImage.
    rewrite Hacc, Htaa, Htone, Hv.
    destruct (enableToneMapping (m_ui s)), reset;
      rewrite ?elem_of_app, ?elem_of_cons, ?list_elem_of_singleton, ?elem_of_nil;
      intuition (simplify_eq; done).
  - rewrite (Hin EvGlass) by done. cbn [block]. unfold compositingEvents.
    rewrite Hglass. destruct (enableTransparentGeometry (m_ui s));
      rewrite ?elem_of_cons, ?list_elem_of_singleton, ?elem_of_nil; intuition (simplify_eq; done).
Qed.

(** ** Freezing after a frame *)

(** A frame leaves the UI's toggles as they are. *)
Lemma RenderScene_toggles w fbinfo s s' :
  m_FrameStepMode s <> Wait ->
  RenderScene w fbinfo s = Ok s' ->
  enableToneMapping (m_ui s') = enableToneMapping (m_ui s)
  /\ enableAccumulation (m_ui s') = enableAccumulation (m_ui s)
  /\ enableTAA (m_ui s') = enableTAA (m_ui s)
  /\ enablePixelJitter (m_ui s') = enablePixelJitter (m_ui s)
  /\ denoisingMethod (m_ui s') = denoisingMethod (m_ui s)
  /\ freezeRandom (m_ui s') = freezeRandom (m_ui s)
  /\ animateMeshes (m_ui s') = animateMeshes (m_ui s)
  /\ framesToAccumulate (m_ui s') = framesToAccumulate (m_ui s)
  /\ useRayQuery (m_ui s') = useRayQuery (m_ui s).
Proof.
  intros Hmode Hrun.
  destruct (RenderScene_frame _ _ _ _ Hmode Hrun)
    as (s2 & s4 & s5 & s6 & reset & static & weight & mode & _ & Sh2 & Sh4 & Sh5 & Sh6 & ->).
  pose proof (earlyState_step w s) as (_ & _ & _ & _ & _ & Sh1).
  destruct (commitFrame_shape s6) as (? & ? & ? & ->).
  destruct Sh1 as (?&?&?&?&?&?&?&?& E1). destruct Sh2 as (?&?&?&? & ->).
  destruct Sh4 as (?&?&?&?&?&?&?&?&?&?&?&?&?&?&?& ->). destruct Sh5 as (?&?&?&?&?&? & ->).
  destruct Sh6 as (?&?&?&? & ->). rewrite E1. clear E1. destruct_renderer s. by norm.
Qed.

Lemma presentEvents_last reset s :
  exists earlier,
    presentEvents reset s
    = earlier ++ [EvBlitTexture (m_Viewport (m_View s)) (finalImage (m_ui s))].
Proof.
  unfold presentEvents, finalImage, finalHdrImage.
  destruct (enableToneMapping (m_ui s)); [| by exists []].
  exists ((if reset then [EvResetExposure] else [])
          ++ [EvToneMapping (if enableAccumulation (m_ui s) then AccumulatedColor
                             else if enableTAA (m_ui s) then ResolvedColor else HdrColor)]).
  by rewrite <- app_assoc.
Qed.

(** Freezing shows the frame that was rendered last: when F1 is pressed after
    a frame, the frozen renderer blits the image, and over the viewport, of
    the blit that ended that frame. *)
Theorem pause_shows_last_frame w fbinfo (a : @Shell Matrix) (scancode : Z) s1 :
  m_FrameStepMode (renderer a) = Disabled ->
  RenderScene w fbinfo (renderer a) = Ok s1 ->
  exists paused s2 earlier blit,
    paused = renderer (KeyboardUpdate GLFW_KEY_F1 scancode GLFW_PRESS 0
                         (with_renderer (fun _ => s1) a)).1
    /\ m_FrameStepMode paused = Wait
    /\ RenderScene w fbinfo paused = Ok s2
    /\ blit = EvBlitTexture (fb_width fbinfo, fb_height fbinfo)
                (finalImage (m_ui (renderer a)))
    /\ newEvents (renderer a) s1 = earlier ++ [blit]
    /\ newEvents paused s2 = [blit].
Proof.
  intros Hdis Hrun.
  assert (m_FrameStepMode (renderer a) <> Wait) as Hmode by (by rewrite Hdis).
  destruct (RenderScene_settings _ _ _ _ Hmode Hrun) as (Em & _).
  destruct (earlyState_facts w (renderer a)) as (Fm & _).
  rewrite Fm, Hdis in Em. cbn in Em.
  destruct (RenderScene_toggles _ _ _ _ Hmode Hrun) as (Ttone & Tacc & Ttaa & _).
  destruct (RenderScene_trace _ _ _ _ Hmode Hrun)
    as (s2 & s4 & s5 & reset & static & weight & mode & setup & skip & acc & texture & sun
        & _ & Hev & _ & _ & _ & Hset & Hres & Hr & Hv & _).
  destruct Hset as (_ & _ & _ & _ & _ & Hacc & Htaa & Htone & _).
  destruct Hres as (Hrt & _ & _ & _ & _ & _ & _ & Hview & _).
  destruct Hr as (Rrt & _). rewrite <- Hrt in Rrt. apply not_null_Some in Rrt as (rt & Rrt).
  assert (finalImage (m_ui s5) = finalImage (m_ui (renderer a))) as Eimg5
    by (unfold finalImage; by rewrite Hacc, Htaa, Htone).
  assert (finalImage (m_ui s1) = finalImage (m_ui (renderer a))) as Eimg1
    by (unfold finalImage; by rewrite Tacc, Ttaa, Ttone).
  set (paused := set_m_FrameStepMode Wait s1).
  assert (renderer (KeyboardUpdate GLFW_KEY_F1 scancode GLFW_PRESS 0
                      (with_renderer (fun _ => s1) a)).1 = paused) as Epaused.
  { unfold KeyboardUpdate. cbn [fst renderer with_renderer andb Z.eqb Pos.eqb GLFW_KEY_F2
      GLFW_KEY_GRAVE_ACCENT GLFW_PRESS GLFW_MOD_CONTROL GLFW_KEY_R GLFW_KEY_F1].
    subst paused. by rewrite Em, bool_decide_eq_true_2. }
  assert (m_FrameStepMode paused = Wait /\ m_RenderTargets paused = Some rt
          /\ m_View paused = m_View s1 /\ m_ui paused = m_ui s1
          /\ trace paused = trace s1) as (Pm & Prt & Pv & Pu & Pt).
  { subst paused. revert Rrt. clear. destruct_renderer s1. by norm. }
  destruct (reblitFinalImage_result paused rt Prt) as (cache & Hblit).
  destruct (presentEvents_last reset s5) as (earlier & Hlast).
  exists paused. eexists.
  exists (setup ++ policyEvents skip acc texture sun
          ++ neighborOffsetEvents s5 ++ accelStructEvents s5 ++ environmentEvents s5
          ++ gbufferEvents s5 ++ lightPreparationEvents (effectiveFrameIndex w (renderer a)) s5
          ++ lightingCalls (renderingMode (m_ui s5)) ++ denoiserEvents w s5
          ++ compositingEvents mode s5 ++ resolveEvents weight s5 ++ earlier).
  eexists. split; [by rewrite Epaused |]. split; [done |].
  split; [rewrite RenderScene_wait by done; exact Hblit |]. split; [reflexivity |].
  split.
  - rewrite Hev. unfold commandList. rewrite Hlast, Hv, Eimg5. by rewrite <- !app_assoc.
  - rewrite Pv, Pu, Hview, Hv, Eimg1. unfold newEvents. clear.
    destruct_renderer paused. norm. by rewrite drop_app_length.
Qed.

(** ** The passes [SetupRenderPasses] builds last *)

(** Blocks that leave the TAA pass, the tone-mapping pass, the denoiser and
    the shader-reload request alone. *)
Definition quiet s s' : Prop :=
  m_TemporalAntiAliasingPass s' = m_TemporalAntiAliasingPass s
  /\ m_ToneMappingPass s' = m_ToneMappingPass s
  /\ m_NRD s' = m_NRD s
  /\ reloadShaders (m_ui s') = reloadShaders (m_ui s).

Lemma quiet_trans s1 s2 s3 : quiet s1 s2 -> quiet s2 s3 -> quiet s1 s3.
Proof. unfold quiet. intros (?&?&?&?) (?&?&?&?). repeat split; congruence. Qed.

Ltac solve_quiet := unfold quiet; norm; by repeat split.

Lemma dropPdfMipmapPassOnReload_quiet s : quiet s (dropPdfMipmapPassOnReload s).
Proof. unfold dropPdfMipmapPassOnReload. destruct_renderer s. crunch; solve_quiet. Qed.

Lemma ensureRenderEnvironmentMapPass_quiet w s : quiet s (ensureRenderEnvironmentMapPass w s).
Proof. unfold ensureRenderEnvironmentMapPass. destruct_renderer s. crunch; solve_quiet. Qed.

Lemma invalidateRtxdiResources_quiet size s : quiet s (invalidateRtxdiResources size s).
Proof. unfold invalidateRtxdiResources. destruct_renderer s. crunch; solve_quiet. Qed.

Lemma ensureRenderTargets_quiet fbinfo s s' created :
  ensureRenderTargets fbinfo s = (s', created) -> quiet s s'.
Proof. unfold ensureRenderTargets. intros Hrun. destruct_renderer s. crunch; solve_quiet. Qed.

Lemma ensureRtxdiContext_quiet w fbinfo s : quiet s (ensureRtxdiContext w fbinfo s).
Proof. unfold ensureRtxdiContext. destruct_renderer s. crunch; solve_quiet. Qed.

Lemma ensureRtxdiResources_quiet w size s s' created :
  ensureRtxdiResources w size s = Ok (s', created) -> quiet s s'.
Proof. unfold ensureRtxdiResources. intros Hrun. destruct_renderer s. crunch; solve_quiet. Qed.

Lemma ensureEnvironmentMapPdfMipmapPass_quiet size created s s' :
  ensureEnvironmentMapPdfMipmapPass size created s = Ok s' -> quiet s s'.
Proof.
  unfold ensureEnvironmentMapPdfMipmapPass. intros Hrun. destruct_renderer s.
  crunch; solve_quiet.
Qed.

Lemma ensureLocalLightPdfMipmapPass_quiet created s s' :
  ensureLocalLightPdfMipmapPass created s = Ok s' -> quiet s s'.
Proof.
  unfold ensureLocalLightPdfMipmapPass. intros Hrun. destruct_renderer s.
  crunch; solve_quiet.
Qed.

(** Lines 484-496, for the four. *)
Lemma reloadShadersIfRequested_passes s :
  m_TemporalAntiAliasingPass (reloadShadersIfRequested s)
  = (if reloadShaders (m_ui s) then None else m_TemporalAntiAliasingPass s)
  /\ m_ToneMappingPass (reloadShadersIfRequested s) = m_ToneMappingPass s
  /\ m_NRD (reloadShadersIfRequested s) = m_NRD s
  /\ reloadShaders (m_ui (reloadShadersIfRequested s)) = reloadShaders (m_ui s).
Proof.
  unfold reloadShadersIfRequested, LoadShaders. destruct_renderer s. norm.
  by case_inner.
Qed.

(** Lines 583-598. *)
Lemma rebindLightingPasses_passes rtCreated resCreated s s' :
  rebindLightingPasses rtCreated resCreated s = Ok s' ->
  m_TemporalAntiAliasingPass s' = m_TemporalAntiAliasingPass s
  /\ m_ToneMappingPass s' = m_ToneMappingPass s
  /\ m_NRD s' = m_NRD s
  /\ reloadShaders (m_ui s') = false
  /\ (reloadShaders (m_ui s) = true ->
      EvLightingCreatePipelines (rtxdiContextParams (m_ui s)) (useRayQuery (m_ui s))
      ∈ newEvents s s').
Proof.
  unfold rebindLightingPasses, newEvents. intros Hrun. destruct_renderer s.
  crunch; repeat split; try done; intros; simplify_eq.
  all: try match goal with Hor : (_ || true) = false |- _ => by rewrite orb_true_r in Hor end.
  all: rewrite <- ?app_assoc, drop_app_length; solve_elem.
Qed.

(** Lines 600-612. *)
Lemma ensureTemporalAntiAliasingPass_passes s s' :
  ensureTemporalAntiAliasingPass s = Ok s' ->
  m_TemporalAntiAliasingPass s'
  = Some (match m_TemporalAntiAliasingPass s with
          | Some taa => taa
          | None => mkTemporalAntiAliasingPass 0
          end)
  /\ m_ToneMappingPass s' = m_ToneMappingPass s
  /\ m_NRD s' = m_NRD s
  /\ reloadShaders (m_ui s') = reloadShaders (m_ui s)
  /\ newEvents s s'
     = (if isNull (m_TemporalAntiAliasingPass s) then [EvCreateTemporalAntiAliasingPass]
        else []).
Proof.
  unfold ensureTemporalAntiAliasingPass, newEvents. intros Hrun. destruct_renderer s.
  crunch; repeat split; by rewrite ?drop_app_length, ?drop_all.
Qed.

(** Lines 614-620. *)
Lemma ensureToneMappingPass_passes s s' reset :
  ensureToneMappingPass s = Ok (s', reset) ->
  reset = isNull (m_ToneMappingPass s)
  /\ isNull (m_ToneMappingPass s') = false
  /\ m_TemporalAntiAliasingPass s' = m_TemporalAntiAliasingPass s
  /\ m_NRD s' = m_NRD s
  /\ reloadShaders (m_ui s') = reloadShaders (m_ui s)
  /\ newEvents s s' = (if reset then [EvCreateToneMappingPass] else []).
Proof.
  unfold ensureToneMappingPass, newEvents. intros Hrun. destruct_renderer s.
  crunch; repeat split; by rewrite ?drop_app_length, ?drop_all.
Qed.

(** Lines 622-628. *)
Lemma ensureNrdIntegration_passes w s s' :
  ensureNrdIntegration w s = Ok s' ->
  m_TemporalAntiAliasingPass s' = m_TemporalAntiAliasingPass s
  /\ m_ToneMappingPass s' = m_ToneMappingPass s
  /\ reloadShaders (m_ui s') = reloadShaders (m_ui s)
  /\ (WITH_NRD w = false -> m_NRD s' = m_NRD s)
  /\ (WITH_NRD w = true ->
      exists nrd,
        m_NRD s' = Some nrd
        /\ (forall old, m_NRD s = Some old -> nrd = old)
        /\ (m_NRD s = None ->
            GetMethod nrd = denoisingMethod (m_ui s)
            /\ EvCreateNrdIntegration (denoisingMethod (m_ui s)) ∈ newEvents s s')).
Proof.
  unfold ensureNrdIntegration, newEvents. intros Hrun. destruct_renderer s.
  crunch; repeat split; try done.
  - intros _. eexists. split; [reflexivity |]. split; [by intros ? [= ->] | done].
  - intros _. eexists. split; [reflexivity |]. split; [done |]. intros _.
    split; [done |]. rewrite drop_app_length. solve_elem.
Qed.

Lemma setup_step_settings s s' :
  setup_step s s' ->
  denoisingMethod (m_ui s') = denoisingMethod (m_ui s)
  /\ useRayQuery (m_ui s') = useRayQuery (m_ui s)
  /\ enableToneMapping (m_ui s') = enableToneMapping (m_ui s)
  /\ resetRtxdiContext (m_ui s') = resetRtxdiContext (m_ui s)
  /\ m_View s' = m_View s
  /\ m_FrameIndex s' = m_FrameIndex s.
Proof.
  intros (_ & ? & ? & ? & ? & ? & ? & ? & ? & ? & ? & ? & ? & ? & ? & ->).
  destruct_renderer s. by norm.
Qed.

(** The TAA pass, the tone-mapping pass and the denoiser across
    [SetupRenderPasses]. *)
Lemma SetupRenderPasses_passes w fbinfo s s' reset :
  SetupRenderPasses w fbinfo s = Ok (s', reset) ->
  reset = isNull (m_ToneMappingPass s)
  /\ isNull (m_ToneMappingPass s') = false
  /\ m_TemporalAntiAliasingPass s'
     = Some (match m_TemporalAntiAliasingPass s with
             | Some taa => if reloadShaders (m_ui s) then mkTemporalAntiAliasingPass 0 else taa
             | None => mkTemporalAntiAliasingPass 0
             end)
  /\ reloadShaders (m_ui s') = false
  /\ (WITH_NRD w = false -> m_NRD s' = m_NRD s)
  /\ (WITH_NRD w = true ->
      exists nrd,
        m_NRD s' = Some nrd
        /\ (forall old, m_NRD s = Some old -> nrd = old)
        /\ (m_NRD s = None -> GetMethod nrd = denoisingMethod (m_ui s))).
Proof.
  intros Hrun.
  pose proof (SetupRenderPasses_step _ _ _ _ _ Hrun) as Hstep.
  apply SetupRenderPasses_inv in Hrun
    as (size & s1 & c1 & s2 & c2 & s3 & s4 & s5 & s6 & s7
        & Hsize & H1 & H2 & H3 & H4 & H5 & H6 & H7 & H8).
  pose proof (ensureNrdIntegration_step _ _ _ H8) as Hlast.
  pose proof (dropPdfMipmapPassOnReload_quiet s) as (Q0t & Q0o & Q0n & Q0r).
  pose proof (reloadShadersIfRequested_passes (dropPdfMipmapPassOnReload s))
    as (Rt & Ro & Rn & Rr).
  assert (quiet (reloadShadersIfRequested (dropPdfMipmapPassOnReload s)) s4)
    as (Qt & Qo & Qn & Qr).
  { eapply quiet_trans; [apply (ensureRenderEnvironmentMapPass_quiet w) |].
    fold (prepared w s).
    eapply quiet_trans; [apply (invalidateRtxdiResources_quiet size) |].
    eapply quiet_trans; [by eapply ensureRenderTargets_quiet |].
    eapply quiet_trans; [apply (ensureRtxdiContext_quiet w fbinfo) |].
    eapply quiet_trans; [by eapply ensureRtxdiResources_quiet |].
    eapply quiet_trans; [by eapply ensureEnvironmentMapPdfMipmapPass_quiet |].
    by eapply ensureLocalLightPdfMipmapPass_quiet. }
  apply rebindLightingPasses_passes in H5 as (Bt & Bo & Bn & Br & _).
  apply ensureTemporalAntiAliasingPass_passes in H6 as (Tt & To & Tn & Tr & _).
  apply ensureToneMappingPass_passes in H7 as (-> & Oo & Ot & On & Or & _).
  apply ensureNrdIntegration_passes in H8 as (Nt & No & Nr & Nn0 & Nn1).
  assert (denoisingMethod (m_ui s7) = denoisingMethod (m_ui s)) as Em.
  { destruct (setup_step_settings _ _ Hstep) as (E1 & _).
    destruct (setup_step_settings _ _ Hlast) as (E2 & _). congruence. }
  split; [by rewrite To, Bo, Qo, Ro, Q0o |].
  split; [by rewrite No |].
  split.
  { rewrite Nt, Ot, Tt, Bt, Qt, Rt, Q0r, Q0t.
    destruct (m_TemporalAntiAliasingPass s), (reloadShaders (m_ui s)); done. }
  split; [by rewrite Nr, Or, Tr |].
  split.
  { intros Hw. by rewrite (Nn0 Hw), On, Tn, Bn, Qn, Rn, Q0n. }
  intros Hw. destruct (Nn1 Hw) as (nrd & E & Hold & Hnew). exists nrd.
  rewrite On, Tn, Bn, Qn, Rn, Q0n in Hold, Hnew. split; [done |]. split; [done |].
  intros Hnone. destruct (Hnew Hnone) as [Hm _]. by rewrite Hm, Em.
Qed.

(** ** The policy phase, field by field *)

Lemma advanceJitter_explicit s s' :
  advanceJitter s = Ok s' ->
  exists skip,
    skipJitterAdvance s = Ok skip
    /\ s' = (if skip then s
             else log EvTaaAdvanceFrame
                    (set_m_TemporalAntiAliasingPass
                       (mkTemporalAntiAliasingPass
                          <$> (uint_incr <$> (taa_FrameIndex <$> m_TemporalAntiAliasingPass s)))
                       s)).
Proof.
  unfold advanceJitter. intros Hrun. inv_bind Hrun. rename a into skip.
  exists skip. split; [done |]. destruct skip; cbn [negb] in Hrun.
  - by simplify_eq.
  - inv_bind Hrun. apply deref_Ok in Hstep0. rewrite Hstep0. by simplify_eq.
Qed.

(** The state the policy phase ends in, written from the state it starts
    from. *)
Lemma framePolicy_explicit w s s' static weight mode :
  framePolicy w s = Ok (s', static, weight, mode) ->
  exists skip accumulation counter texture sun,
    skipJitterAdvance s = Ok skip
    /\ selectDenoiserMode w
         (log (EvConfigureEnvironmentLight texture sun)
            (pollMaterialReadback w
               (with_ui (set_resetAccumulation false)
                  (log accumulation
                     (with_ui (set_numAccumulatedFrames counter)
                        (if skip then log EvNextFrame s
                         else log EvTaaAdvanceFrame
                                (set_m_TemporalAntiAliasingPass
                                   (mkTemporalAntiAliasingPass
                                      <$> (uint_incr
                                           <$> (taa_FrameIndex
                                                <$> m_TemporalAntiAliasingPass s)))
                                   (log EvNextFrame s))))))))
       = (s', mode).
Proof.
  unfold framePolicy. intros Hrun.
  inv_bind Hrun. rename a into s1. apply nextFrame_result in Hstep. subst s1.
  inv_bind Hrun. rename a into s2.
  apply advanceJitter_explicit in Hstep as (skip & Hskip & ->).
  match type of Hrun with
  | context [updateAccumulation ?x] =>
      destruct (updateAccumulation_result x) as (acc & Hacc & Eacc)
  end.
  rewrite Eacc in Hrun. clear Eacc.
  inv_bind Hrun. rename a into s6.
  apply configureEnvironmentLight_result in Hstep as (texture & sun & -> & Hsky).
  destruct (selectDenoiserMode w _) as [s7 mode'] eqn:Hden. simplify_eq.
  assert (skipJitterAdvance s = Ok skip) as Hskip'.
  { revert Hskip. unfold skipJitterAdvance. destruct_renderer s. by norm. }
  assert (m_TemporalAntiAliasingPass (log EvNextFrame s) = m_TemporalAntiAliasingPass s)
    as Etaa by (by destruct_renderer s).
  rewrite Etaa in Hden.
  exists skip, acc. eexists. exists texture, sun. split; [done |]. exact Hden.
Qed.

Lemma framePolicy_taa w s s' static weight mode :
  framePolicy w s = Ok (s', static, weight, mode) ->
  exists skip,
    skipJitterAdvance s = Ok skip
    /\ m_TemporalAntiAliasingPass s'
       = (if skip then m_TemporalAntiAliasingPass s
          else mkTemporalAntiAliasingPass
                 <$> (uint_incr <$> (taa_FrameIndex <$> m_TemporalAntiAliasingPass s))).
Proof.
  intros (skip & acc & counter & texture & sun & Hskip & Hden)%framePolicy_explicit.
  exists skip. split; [done |].
  apply selectDenoiserMode_result in Hden as (denoiser & ->).
  match goal with
  | |- context [pollMaterialReadback w ?x] =>
      destruct (pollMaterialReadback_result w x) as (countdown & material & ->)
  end.
  destruct skip; destruct_renderer s; by norm.
Qed.

(** Lines 779-785 within the policy phase. *)
Lemma framePolicy_readback w s s' static weight mode :
  framePolicy w s = Ok (s', static, weight, mode) ->
  m_MaterialReadbackCountdown s'
  = (if 0 <? m_MaterialReadbackCountdown s then m_MaterialReadbackCountdown s - 1
     else m_MaterialReadbackCountdown s)
  /\ selectedMaterialIndex (m_ui s')
     = (if (0 <? m_MaterialReadbackCountdown s) && (m_MaterialReadbackCountdown s - 1 =? 0)
        then GetMaterialReadback w else selectedMaterialIndex (m_ui s))
  /\ enableMaterialReadback (m_ui s') = enableMaterialReadback (m_ui s).
Proof.
  intros (skip & acc & counter & texture & sun & Hskip & Hden)%framePolicy_explicit.
  apply selectDenoiserMode_result in Hden as (denoiser & ->).
  unfold pollMaterialReadback.
  destruct skip; destruct_renderer s; norm; repeat case_inner; by norm.
Qed.

(** Lines 802-812. *)
Lemma selectDenoiserMode_spec w s s' mode :
  selectDenoiserMode w s = (s', mode) ->
  enableDenoiser (m_ui s')
  = WITH_NRD w && enableDenoiser (m_ui s)
    && match m_NRD s with Some nrd => IsAvailable nrd | None => false end
  /\ mode = (if enableDenoiser (m_ui s')
             then if bool_decide (denoisingMethod (m_ui s) = RELAX_DIFFUSE_SPECULAR)
                  then DENOISER_MODE_RELAX else DENOISER_MODE_REBLUR
             else DENOISER_MODE_OFF)
  /\ m_NRD s' = m_NRD s.
Proof.
  unfold selectDenoiserMode. intros Hden.
  destruct (WITH_NRD w); [| by simplify_eq; destruct_renderer s].
  destruct (m_NRD s) as [nrd|] eqn:Hnrd; [destruct (IsAvailable nrd) |]; cbn [negb] in Hden.
  - destruct (enableDenoiser (m_ui s)) eqn:Hen; simplify_eq; by rewrite Hen.
  - destruct (enableDenoiser (m_ui s)) eqn:Hen; simplify_eq; revert Hnrd;
      destruct_renderer s; by norm.
  - destruct (enableDenoiser (m_ui s)) eqn:Hen; simplify_eq; revert Hnrd;
      destruct_renderer s; by norm.
Qed.

(** Lines 802-812 within the policy phase. *)
Lemma framePolicy_denoiser w s s' static weight mode :
  framePolicy w s = Ok (s', static, weight, mode) ->
  enableDenoiser (m_ui s')
  = WITH_NRD w && enableDenoiser (m_ui s)
    && match m_NRD s with Some nrd => IsAvailable nrd | None => false end
  /\ mode = (if enableDenoiser (m_ui s')
             then if bool_decide (denoisingMethod (m_ui s) = RELAX_DIFFUSE_SPECULAR)
                  then DENOISER_MODE_RELAX else DENOISER_MODE_REBLUR
             else DENOISER_MODE_OFF)
  /\ m_NRD s' = m_NRD s.
Proof.
  intros (skip & acc & counter & texture & sun & Hskip & Hden)%framePolicy_explicit.
  match type of Hden with
  | context [pollMaterialReadback w ?x] =>
      destruct (pollMaterialReadback_result w x) as (countdown & material & Epoll)
  end.
  rewrite Epoll in Hden. clear Epoll.
  apply selectDenoiserMode_spec in Hden as (-> & -> & ->).
  destruct skip; destruct_renderer s; by norm.
Qed.

(** ** The state [SetupRenderPasses] starts from *)

Lemma SetupView_view fbinfo eff s :
  m_View (SetupView fbinfo eff s)
  = mkView (m_Camera s) (fb_width fbinfo, fb_height fbinfo)
      match m_TemporalAntiAliasingPass s with
      | Some taa =>
          if enablePixelJitter (m_ui s) then JitterOffset (taa_FrameIndex taa) else ZeroOffset
      | None => ZeroOffset
      end.
Proof. unfold SetupView. destruct_renderer s. norm. by repeat case_inner. Qed.

(** What lines 675-738 leave alone. *)
Lemma before_setup w fbinfo eff s s2 :
  reloadEnvironmentMapIfDirty w (earlyState w s) = Ok s2 ->
  m_ToneMappingPass (SetupView fbinfo eff s2) = m_ToneMappingPass s
  /\ m_TemporalAntiAliasingPass (SetupView fbinfo eff s2) = m_TemporalAntiAliasingPass s
  /\ m_TemporalAntiAliasingPass s2 = m_TemporalAntiAliasingPass s
  /\ enablePixelJitter (m_ui s2) = enablePixelJitter (m_ui s)
  /\ m_Camera s2 = m_Camera (earlyState w s)
  /\ reloadShaders (m_ui (SetupView fbinfo eff s2)) = reloadShaders (m_ui s)
  /\ m_NRD (SetupView fbinfo eff s2) = m_NRD (earlyState w s)
  /\ denoisingMethod (m_ui (SetupView fbinfo eff s2)) = denoisingMethod (m_ui s)
  /\ enableDenoiser (m_ui (SetupView fbinfo eff s2)) = enableDenoiser (m_ui s)
  /\ m_MaterialReadbackCountdown (SetupView fbinfo eff s2) = m_MaterialReadbackCountdown s
  /\ selectedMaterialIndex (m_ui (SetupView fbinfo eff s2)) = selectedMaterialIndex (m_ui s)
  /\ enableMaterialReadback (m_ui (SetupView fbinfo eff s2)) = enableMaterialReadback (m_ui s)
  /\ m_RenderTargets (SetupView fbinfo eff s2) = m_RenderTargets s
  /\ m_RtxdiContext (SetupView fbinfo eff s2) = m_RtxdiContext (earlyState w s)
  /\ m_RtxdiResources (SetupView fbinfo eff s2) = m_RtxdiResources (earlyState w s)
  /\ rtxdiContextParams (m_ui (SetupView fbinfo eff s2)) = rtxdiContextParams (m_ui s)
  /\ useRayQuery (m_ui (SetupView fbinfo eff s2)) = useRayQuery (m_ui s)
  /\ m_FrameIndex (SetupView fbinfo eff s2) = m_FrameIndex s
  /\ enableAccumulation (m_ui (SetupView fbinfo eff s2)) = enableAccumulation (m_ui s)
  /\ m_RenderEnvironmentMapPass (SetupView fbinfo eff s2) = m_RenderEnvironmentMapPass s
  /\ m_EnvironmentMapPdfMipmapPass (SetupView fbinfo eff s2) = m_EnvironmentMapPdfMipmapPass s
  /\ m_LocalLightPdfMipmapPass (SetupView fbinfo eff s2) = m_LocalLightPdfMipmapPass s
  /\ environmentMapDirty (m_ui (SetupView fbinfo eff s2)) = environmentMapDirty (m_ui s)
  /\ m_EnvironmentMap (SetupView fbinfo eff s2) = m_EnvironmentMap s2
  /\ environmentMapIndex (m_ui (SetupView fbinfo eff s2)) = environmentMapIndex (m_ui s2).
Proof.
  intros L. apply reloadEnvironmentMapIfDirty_step in L as (_ & Sh2).
  pose proof (earlyState_step w s) as (_ & _ & _ & _ & _ & Sh1).
  destruct (SetupView_result fbinfo eff s2) as (offset & ->).
  destruct Sh2 as (tr2 & map2 & maps2 & index2 & ->).
  destruct Sh1 as (tr1 & mode1 & camera1 & context1 & res1 & nrd1 & frame1 & reset1 & E1).
  assert (m_NRD (earlyState w s) = nrd1 /\ m_Camera (earlyState w s) = camera1
          /\ m_RtxdiContext (earlyState w s) = context1
          /\ m_RtxdiResources (earlyState w s) = res1) as (En & Ec & Ex & Er).
  { rewrite E1. clear. destruct_renderer s. by norm. }
  assert (m_EnvironmentMap
            (set_trace tr2 (set_m_EnvironmentMap map2 (set_environmentMaps maps2
               (set_m_ui (set_environmentMapIndex index2 (m_ui (earlyState w s)))
                  (earlyState w s))))) = map2
          /\ environmentMapIndex
               (m_ui (set_trace tr2 (set_m_EnvironmentMap map2 (set_environmentMaps maps2
                  (set_m_ui (set_environmentMapIndex index2 (m_ui (earlyState w s)))
                     (earlyState w s)))))) = index2) as (Em & Ei).
  { clear. destruct_renderer (earlyState w s). by norm. }
  rewrite Em, Ei, En, Ec, Ex, Er, E1. clear. destruct_renderer s. by norm.
Qed.

Lemma dropDenoiserOnMethodChange_nrd w s :
  m_NRD (dropDenoiserOnMethodChange w s)
  = (if WITH_NRD w then
       match m_NRD s with
       | Some nrd =>
           if bool_decide (GetMethod nrd = denoisingMethod (m_ui s)) then Some nrd else None
       | None => None
       end
     else m_NRD s).
Proof.
  unfold dropDenoiserOnMethodChange. destruct (WITH_NRD w); [| done].
  destruct (m_NRD s) as [nrd|] eqn:Hnrd; [| done].
  by do 2 case_bool_decide.
Qed.

Lemma earlyState_resources w s :
  m_NRD (earlyState w s)
  = (if WITH_NRD w then
       match m_NRD s with
       | Some nrd =>
           if bool_decide (GetMethod nrd = denoisingMethod (m_ui s)) then Some nrd else None
       | None => None
       end
     else m_NRD s)
  /\ m_RtxdiContext (earlyState w s)
     = (if resetRtxdiContext (m_ui s) then None else m_RtxdiContext s)
  /\ m_RtxdiResources (earlyState w s)
     = (if resetRtxdiContext (m_ui s) then None else m_RtxdiResources s).
Proof.
  unfold earlyState.
  set (s1 := (resolveEffectiveFrameIndex w (leaveStep s)).1).
  assert (m_NRD s1 = m_NRD s /\ denoisingMethod (m_ui s1) = denoisingMethod (m_ui s)
          /\ m_RtxdiContext s1 = m_RtxdiContext s
          /\ m_RtxdiResources s1 = m_RtxdiResources s
          /\ resetRtxdiContext (m_ui s1) = resetRtxdiContext (m_ui s)) as (E1 & E2 & E3 & E4 & E5).
  { subst s1. destruct (resolveEffectiveFrameIndex w (leaveStep s)) as [sb eff] eqn:Heff.
    cbn [fst].
    pose proof (early_step_trans _ _ _ (leaveStep_step s)
                  (resolveEffectiveFrameIndex_step _ _ _ _ Heff)) as (_ & _ & _ & _ & _ & Sh).
    revert Heff. unfold resolveEffectiveFrameIndex, leaveStep. clear.
    destruct_renderer s. norm. repeat (case_inner; norm); intros [= <- <-]; by norm. }
  set (s2 := dropDenoiserOnMethodChange w s1).
  assert (m_NRD s2 = m_NRD (dropDenoiserOnMethodChange w s1)
          /\ m_RtxdiContext s2 = m_RtxdiContext s1
          /\ m_RtxdiResources s2 = m_RtxdiResources s1
          /\ resetRtxdiContext (m_ui s2) = resetRtxdiContext (m_ui s1)) as (F1 & F2 & F3 & F4).
  { subst s2. split; [done |]. unfold dropDenoiserOnMethodChange. clear.
    destruct_renderer s1. norm. by repeat case_inner. }
  assert (m_NRD (resetRtxdiContextIfRequested s2) = m_NRD s2
          /\ m_RtxdiContext (resetRtxdiContextIfRequested s2)
             = (if resetRtxdiContext (m_ui s2) then None else m_RtxdiContext s2)
          /\ m_RtxdiResources (resetRtxdiContextIfRequested s2)
             = (if resetRtxdiContext (m_ui s2) then None else m_RtxdiResources s2))
    as (G1 & G2 & G3).
  { unfold resetRtxdiContextIfRequested. clear. destruct_renderer s2. norm. by case_inner. }
  rewrite G1, G2, G3, F1, F2, F3, F4, E3, E4, E5, dropDenoiserOnMethodChange_nrd, E1, E2.
  done.
Qed.

(** What the setup, the policy phase and the command list leave alone. *)
Lemma setup_step_keeps s s' :
  setup_step s s' ->
  enableDenoiser (m_ui s') = enableDenoiser (m_ui s)
  /\ m_MaterialReadbackCountdown s' = m_MaterialReadbackCountdown s
  /\ selectedMaterialIndex (m_ui s') = selectedMaterialIndex (m_ui s)
  /\ enableMaterialReadback (m_ui s') = enableMaterialReadback (m_ui s)
  /\ enableAccumulation (m_ui s') = enableAccumulation (m_ui s)
  /\ m_EnvironmentMap s' = m_EnvironmentMap s
  /\ environmentMapIndex (m_ui s') = environmentMapIndex (m_ui s).
Proof.
  intros (_ & ? & ? & ? & ? & ? & ? & ? & ? & ? & ? & ? & ? & ? & ? & ->).
  destruct_renderer s. by norm.
Qed.

Lemma framePolicy_keeps w s s' static weight mode :
  framePolicy w s = Ok (s', static, weight, mode) ->
  m_ToneMappingPass s' = m_ToneMappingPass s
  /\ m_View s' = m_View s
  /\ reloadShaders (m_ui s') = reloadShaders (m_ui s)
  /\ resetRtxdiContext (m_ui s') = resetRtxdiContext (m_ui s)
  /\ m_RenderTargets s' = m_RenderTargets s
  /\ m_RtxdiContext s' = m_RtxdiContext s
  /\ m_RtxdiResources s' = m_RtxdiResources s
  /\ rtxdiContextParams (m_ui s') = rtxdiContextParams (m_ui s)
  /\ m_EnvironmentMap s' = m_EnvironmentMap s
  /\ m_RenderEnvironmentMapPass s' = m_RenderEnvironmentMapPass s
  /\ m_LocalLightPdfMipmapPass s' = m_LocalLightPdfMipmapPass s
  /\ denoisingMethod (m_ui s') = denoisingMethod (m_ui s).
Proof.
  intros P.
  destruct (framePolicy_spec _ _ _ _ _ _ P)
    as (_ & _ & _ & _ & _ & _ & _ & _ & _ & _ & _ & _ & _ & taa & countdown & material
        & denoiser & E & _).
  remember (trace s') as tr eqn:Etr. remember (numAccumulatedFrames (m_ui s')) as n eqn:En.
  clear Etr En P. subst s'. destruct_renderer s. by norm.
Qed.

Lemma recordCommandList_keeps w eff reset static weight mode s s' :
  recordCommandList w eff reset static weight mode s = Ok s' ->
  m_MaterialReadbackCountdown s' = m_MaterialReadbackCountdown s
  /\ enableMaterialReadback (m_ui s') = enableMaterialReadback (m_ui s)
  /\ reloadShaders (m_ui s') = reloadShaders (m_ui s)
  /\ resetRtxdiContext (m_ui s') = resetRtxdiContext (m_ui s)
  /\ rtxdiContextParams (m_ui s') = rtxdiContextParams (m_ui s)
  /\ m_EnvironmentMap s' = m_EnvironmentMap s
  /\ m_RenderEnvironmentMapPass s' = m_RenderEnvironmentMapPass s
  /\ m_LocalLightPdfMipmapPass s' = m_LocalLightPdfMipmapPass s
  /\ denoisingMethod (m_ui s') = denoisingMethod (m_ui s)
  /\ animateMeshes (m_ui s') = animateMeshes (m_ui s)
  /\ selectedMaterialIndex (m_ui s') = selectedMaterialIndex (m_ui s).
Proof.
  intros C. destruct (recordCommandList_step _ _ _ _ _ _ _ _ C)
    as (_ & _ & ? & ? & ? & ? & ? & ->).
  destruct_renderer s. by norm.
Qed.

Lemma commitFrame_keeps s :
  m_MaterialReadbackCountdown (commitFrame s)
  = (if enableMaterialReadback (m_ui s) then 2 else m_MaterialReadbackCountdown s)
  /\ enableMaterialReadback (m_ui (commitFrame s)) = false
  /\ reloadShaders (m_ui (commitFrame s)) = reloadShaders (m_ui s)
  /\ resetRtxdiContext (m_ui (commitFrame s)) = resetRtxdiContext (m_ui s)
  /\ rtxdiContextParams (m_ui (commitFrame s)) = rtxdiContextParams (m_ui s)
  /\ m_EnvironmentMap (commitFrame s) = m_EnvironmentMap s
  /\ m_RenderEnvironmentMapPass (commitFrame s) = m_RenderEnvironmentMapPass s
  /\ m_LocalLightPdfMipmapPass (commitFrame s) = m_LocalLightPdfMipmapPass s
  /\ denoisingMethod (m_ui (commitFrame s)) = denoisingMethod (m_ui s)
  /\ environmentMapDirty (m_ui (commitFrame s)) = environmentMapDirty (m_ui s)
  /\ selectedMaterialIndex (m_ui (commitFrame s)) = selectedMaterialIndex (m_ui s).
Proof. unfold commitFrame. destruct_renderer s. norm. by repeat (case_inner; norm). Qed.

(** The states a frame that is not frozen goes through, as [frame_event]
    names them, with the last two steps. *)
Lemma frame_states w fbinfo s s' :
  m_FrameStepMode s <> Wait ->
  RenderScene w fbinfo s = Ok s' ->
  exists s2 s4 s5 s6 reset static weight mode,
    reloadEnvironmentMapIfDirty w (earlyState w s) = Ok s2
    /\ SetupRenderPasses w fbinfo (SetupView fbinfo (effectiveFrameIndex w s) s2)
       = Ok (s4, reset)
    /\ framePolicy w s4 = Ok (s5, static, weight, mode)
    /\ recordCommandList w (effectiveFrameIndex w s) reset static weight mode s5 = Ok s6
    /\ s' = commitFrame s6.
Proof.
  intros Hmode Hrun.
  destruct (RenderScene_frame _ _ _ _ Hmode Hrun)
    as (s2 & s4 & s5 & s6 & reset & static & weight & mode
        & (L & S & P & C) & _ & _ & _ & _ & ->).
  by exists s2, s4, s5, s6, reset, static, weight, mode.
Qed.

(** ** Exposure *)

(** The exposure of the tone mapper is reset in a frame exactly when the
    tone-mapping pass did not exist when the frame began (at start-up and
    after every resize of the back buffer) and tone mapping is enabled; with
    tone mapping disabled the reset is lost, since the pass exists from then
    on. *)
Theorem exposure_reset_rule w fbinfo s s' :
  m_FrameStepMode s <> Wait ->
  RenderScene w fbinfo s = Ok s' ->
  (EvResetExposure ∈ newEvents s s'
   <-> isNull (m_ToneMappingPass s) = true /\ enableToneMapping (m_ui s) = true)
  /\ isNull (m_ToneMappingPass s') = false
  /\ isNull (m_ToneMappingPass (BackBufferResizing w s')) = true.
Proof.
  intros Hmode Hrun.
  destruct (frame_event _ _ _ _ Hmode Hrun)
    as (s4 & s5 & reset & static & weight & mode & P & (s2 & L & S) & Hin & Hset & Hres & _).
  destruct Hset as (_ & _ & _ & _ & _ & _ & _ & Htone & _).
  destruct Hres as (_ & _ & _ & _ & _ & Etone & _).
  destruct (SetupRenderPasses_passes _ _ _ _ _ S) as (-> & Hnn & _).
  destruct (before_setup _ fbinfo (effectiveFrameIndex w s) _ _ L) as (Eb & _).
  destruct (framePolicy_keeps _ _ _ _ _ _ P) as (Ep & _).
  split; [| split].
  - rewrite (Hin EvResetExposure) by done. cbn [block]. unfold presentEvents.
    rewrite Htone, Eb.
    destruct (enableToneMapping (m_ui s)), (isNull (m_ToneMappingPass s));
      rewrite ?elem_of_app, ?elem_of_cons, ?list_elem_of_singleton, ?elem_of_nil;
      intuition (simplify_eq; done).
  - by rewrite Etone, Ep.
  - unfold BackBufferResizing. destruct_renderer s'. destruct (WITH_NRD w); by norm.
Qed.

(** ** Pixel jitter and the TAA sequence *)

(** The pixel offset of a frame's view is taken from the TAA pass as it was
    when the frame began, before the setup creates the pass and before the
    frame advances it: zero when there was no pass (start-up, after a resize)
    or when pixel jitter is off.  The frame leaves a TAA pass whose sequence
    index restarts at 0 when the pass was created or the shaders were
    reloaded, and is advanced by one unless the advance is skipped
    (accumulation on, checkerboard sampling, odd frame counter). *)
Theorem jitter_sequence_rule w fbinfo s s' :
  m_FrameStepMode s <> Wait ->
  RenderScene w fbinfo s = Ok s' ->
  m_PixelOffset (m_View s')
  = match m_TemporalAntiAliasingPass s with
    | Some taa =>
        if enablePixelJitter (m_ui s) then JitterOffset (taa_FrameIndex taa) else ZeroOffset
    | None => ZeroOffset
    end
  /\ exists context,
       let start :=
         match m_TemporalAntiAliasingPass s with
         | Some taa => if reloadShaders (m_ui s) then 0 else taa_FrameIndex taa
         | None => 0
         end in
       let skip :=
         enableAccumulation (m_ui s)
         && bool_decide (CheckerboardSamplingMode (GetParameters context) <> CheckerboardOff)
         && Z.odd (m_FrameIndex s) in
       m_RtxdiContext s' = Some context
       /\ m_TemporalAntiAliasingPass s'
          = Some (mkTemporalAntiAliasingPass (if skip then start else uint_incr start)).
Proof.
  intros Hmode Hrun.
  destruct (frame_event _ _ _ _ Hmode Hrun)
    as (s4 & s5 & reset & static & weight & mode & P & (s2 & L & S) & _ & _ & Hres & _).
  destruct Hres as (_ & Ectx & _ & _ & Etaa & _ & _ & Eview & _).
  destruct (framePolicy_keeps _ _ _ _ _ _ P) as (_ & Pview & _ & _ & _ & Pctx & _).
  destruct (SetupRenderPasses_step _ _ _ _ _ S) as [_ Sh].
  assert (setup_step (SetupView fbinfo (effectiveFrameIndex w s) s2) s4) as St
    by (split; [apply (SetupRenderPasses_step _ _ _ _ _ S) | exact Sh]).
  destruct (setup_step_settings _ _ St) as (_ & _ & _ & _ & Sview & Sidx).
  destruct (setup_step_keeps _ _ St) as (_ & _ & _ & _ & Sacc & _).
  destruct (before_setup _ fbinfo (effectiveFrameIndex w s) _ _ L)
    as (_ & Btaa & Btaa2 & Bjit & _ & Brel & _ & _ & _ & _ & _ & _ & _ & _ & _ & _ & _
        & Bidx & Bacc & _).
  destruct (SetupRenderPasses_passes _ _ _ _ _ S) as (_ & _ & Staa & _).
  destruct (SetupRenderPasses_ready _ _ _ _ _ S) as (_ & Hctx & _).
  split.
  - rewrite Eview, Pview, Sview, SetupView_view, Btaa2, Bjit. done.
  - destruct (m_RtxdiContext s4) as [context|] eqn:Ec; [| done].
    exists context. cbv zeta. split; [by rewrite Ectx, Pctx |].
    destruct (framePolicy_taa _ _ _ _ _ _ P) as (skip & Hskip & Htaa).
    rewrite Etaa, Htaa, Staa, Btaa, Brel.
    unfold skipJitterAdvance in Hskip. rewrite Sacc, Bacc, Ec, Sidx, Bidx in Hskip.
    rewrite odd_land_1 in Hskip.
    destruct (enableAccumulation (m_ui s)); cbn in Hskip; injection Hskip as <-; cbn [andb].
    all: destruct (m_TemporalAntiAliasingPass s) as [[index]|]; cbn.
    all: by repeat case_match.
Qed.

(** ** The denoiser *)

(** In a build with NRD every frame that is not frozen ends with a denoiser
    integration for the denoising method selected in the UI: the one it began
    with if that has the selected method, a new one otherwise.  The frame
    switches the UI's denoiser flag off when the integration is not available
    (and always in a build without NRD); the denoiser passes run exactly when
    the flag is still on after that, and compositing is told the mode the
    flag and the method give. *)
Theorem denoiser_gating w fbinfo s s' :
  m_FrameStepMode s <> Wait ->
  RenderScene w fbinfo s = Ok s' ->
  (WITH_NRD w = true ->
   exists nrd,
     m_NRD s' = Some nrd
     /\ GetMethod nrd = denoisingMethod (m_ui s)
     /\ (forall old,
           m_NRD s = Some old -> GetMethod old = denoisingMethod (m_ui s) -> nrd = old)
     /\ enableDenoiser (m_ui s') = enableDenoiser (m_ui s) && IsAvailable nrd)
  /\ (WITH_NRD w = false -> enableDenoiser (m_ui s') = false /\ m_NRD s' = m_NRD s)
  /\ (EvRunDenoiserPasses ∈ newEvents s s' <-> enableDenoiser (m_ui s') = true)
  /\ (forall m,
        EvCompositing m ∈ newEvents s s'
        <-> m = if enableDenoiser (m_ui s')
                then if bool_decide (denoisingMethod (m_ui s) = RELAX_DIFFUSE_SPECULAR)
                     then DENOISER_MODE_RELAX else DENOISER_MODE_REBLUR
                else DENOISER_MODE_OFF).
Proof.
  intros Hmode Hrun.
  destruct (frame_event _ _ _ _ Hmode Hrun)
    as (s4 & s5 & reset & static & weight & mode & P & (s2 & L & S) & Hin & _ & Hres & _).
  destruct Hres as (_ & _ & _ & _ & _ & _ & Enrd & _ & _ & Eden & _).
  destruct (SetupRenderPasses_step _ _ _ _ _ S) as [Sapp Sh].
  assert (setup_step (SetupView fbinfo (effectiveFrameIndex w s) s2) s4) as St by done.
  destruct (setup_step_settings _ _ St) as (Smeth & _).
  destruct (setup_step_keeps _ _ St) as (Sden & _).
  destruct (before_setup _ fbinfo (effectiveFrameIndex w s) _ _ L)
    as (_ & _ & _ & _ & _ & _ & Bnrd & Bmeth & Bden & _).
  destruct (SetupRenderPasses_passes _ _ _ _ _ S) as (_ & _ & _ & _ & Soff & Son).
  destruct (framePolicy_denoiser _ _ _ _ _ _ P) as (Pden & Pmode & Pnrd).
  destruct (earlyState_resources w s) as (Enrd0 & _).
  rewrite Sden, Bden in Pden. rewrite Smeth, Bmeth in Pmode. rewrite <- Eden in Pden, Pmode.
  rewrite Bnrd, Enrd0 in Soff, Son. rewrite Bmeth in Son.
  split; [| split; [| split]].
  - intros Hw. rewrite Hw in *. destruct (Son eq_refl) as (nrd & E4 & Hold & Hnew).
    exists nrd. rewrite Enrd, Pnrd, E4 in *. split; [done |].
    cbn [andb] in Pden. split; [| split; [| done]].
    + destruct (m_NRD s) as [old|]; [| by apply Hnew].
      case_bool_decide as Hm; [| by apply Hnew]. by rewrite (Hold old eq_refl).
    + intros old Eold Hm. rewrite Eold in Hold. rewrite bool_decide_eq_true_2 in Hold by done.
      by apply Hold.
  - intros Hw. rewrite Hw in *. split; [done |]. by rewrite Enrd, Pnrd, Soff.
  - rewrite (Hin EvRunDenoiserPasses) by done. cbn [block]. unfold denoiserEvents.
    rewrite <- Eden. destruct (WITH_NRD w); cbn [andb] in *.
    + destruct (enableDenoiser (m_ui s'));
        rewrite ?list_elem_of_singleton, ?elem_of_nil; intuition (simplify_eq; done).
    + rewrite Pden, elem_of_nil. intuition (simplify_eq; done).
  - intros m. rewrite (Hin (EvCompositing m)) by done. cbn [block]. unfold compositingEvents.
    rewrite Pmode, elem_of_cons. split.
    + intros [[= ->] | Hm]; [done |].
      destruct (enableTransparentGeometry (m_ui s5)); [| by apply elem_of_nil in Hm].
      by apply list_elem_of_singleton in Hm.
    + intros ->. by left.
Qed.

(** ** Material readback *)

(** One frame of the readback protocol (lines 779-785 and 1012-1016): a
    pending countdown is decremented and the material index is read when it
    reaches 0; a readback requested for this frame is consumed and starts the
    countdown at 2. *)
Lemma RenderScene_readback w fbinfo s s' :
  m_FrameStepMode s <> Wait ->
  RenderScene w fbinfo s = Ok s' ->
  let c := m_MaterialReadbackCountdown s in
  m_MaterialReadbackCountdown s'
  = (if enableMaterialReadback (m_ui s) then 2 else if 0 <? c then c - 1 else c)
  /\ enableMaterialReadback (m_ui s') = false
  /\ selectedMaterialIndex (m_ui s')
     = (if (0 <? c) && (c - 1 =? 0) then GetMaterialReadback w
        else selectedMaterialIndex (m_ui s)).
Proof.
  intros Hmode Hrun. cbv zeta.
  destruct (frame_states _ _ _ _ Hmode Hrun)
    as (s2 & s4 & s5 & s6 & reset & static & weight & mode & L & S & P & C & ->).
  destruct (SetupRenderPasses_step _ _ _ _ _ S) as [Sapp Sh].
  assert (setup_step (SetupView fbinfo (effectiveFrameIndex w s) s2) s4) as St by done.
  destruct (setup_step_keeps _ _ St) as (_ & Sc & Ss & Sf & _).
  destruct (before_setup _ fbinfo (effectiveFrameIndex w s) _ _ L)
    as (_ & _ & _ & _ & _ & _ & _ & _ & _ & Bc & Bs & Bf & _).
  destruct (framePolicy_readback _ _ _ _ _ _ P) as (Pc & Ps & Pf).
  destruct (recordCommandList_keeps _ _ _ _ _ _ _ _ C)
    as (Cc & Cf & _ & _ & _ & _ & _ & _ & _ & _ & Cs).
  destruct (commitFrame_keeps s6) as (Kc & Kf & _ & _ & _ & _ & _ & _ & _ & _ & Ks).
  rewrite Kc, Kf, Ks, Cc, Cf, Cs, Pc, Ps, Pf, Sc, Ss, Sf, Bc, Bs, Bf. done.
Qed.

(** A click of the right mouse button stores the cursor position, truncated
    to integers, requests a material readback and is not passed on to the
    camera.  The request is consumed by the next frame, the frame after it
    only counts down, and the third frame reads the material index; until then
    the selected material is unchanged. *)
Theorem material_readback_latency w fbinfo (a : @Shell Matrix) (mods : Z) (cursor : Q * Q)
    s1 s2 s3 :
  let clicked := (MouseButtonUpdate GLFW_MOUSE_BUTTON_RIGHT GLFW_PRESS mods cursor a).1 in
  m_FrameStepMode (renderer a) = Disabled ->
  RenderScene w fbinfo (renderer clicked) = Ok s1 ->
  RenderScene w fbinfo s1 = Ok s2 ->
  RenderScene w fbinfo s2 = Ok s3 ->
  materialReadbackPosition clicked = (int_of_double cursor.1, int_of_double cursor.2)
  /\ cameraInput clicked = cameraInput a
  /\ enableMaterialReadback (m_ui s1) = false
  /\ selectedMaterialIndex (m_ui s1) = selectedMaterialIndex (m_ui (renderer a))
  /\ selectedMaterialIndex (m_ui s2) = selectedMaterialIndex (m_ui (renderer a))
  /\ selectedMaterialIndex (m_ui s3) = GetMaterialReadback w
  /\ m_MaterialReadbackCountdown s3 = 0.
Proof.
  intros clicked Hdis Hrun1 Hrun2 Hrun3.
  set (s0 := set_m_MaterialReadbackCountdown 0
               (with_ui (set_enableMaterialReadback true) (renderer a))).
  assert (clicked
          = with_renderer (fun _ => s0)
              (set_materialReadbackPosition
                 (int_of_double cursor.1, int_of_double cursor.2) a)) as Ec.
  { subst clicked s0. unfold MouseButtonUpdate.
    cbn [fst andb Z.eqb Pos.eqb GLFW_MOUSE_BUTTON_RIGHT GLFW_PRESS].
    by destruct a. }
  assert (renderer clicked = s0) as Er by (by rewrite Ec).
  assert (m_FrameStepMode s0 = Disabled /\ m_MaterialReadbackCountdown s0 = 0
          /\ enableMaterialReadback (m_ui s0) = true
          /\ selectedMaterialIndex (m_ui s0) = selectedMaterialIndex (m_ui (renderer a)))
    as (M0 & C0 & F0 & S0).
  { subst s0. revert Hdis. clear. destruct_renderer (renderer a). by norm. }
  rewrite Er in Hrun1. clearbody s0.
  assert (forall s s', m_FrameStepMode s = Disabled -> RenderScene w fbinfo s = Ok s' ->
                       m_FrameStepMode s' = Disabled /\ m_FrameStepMode s <> Wait) as Hkeep.
  { intros s s' Hd Hr. assert (m_FrameStepMode s <> Wait) as Hm by (by rewrite Hd).
    split; [| done]. destruct (RenderScene_settings _ _ _ _ Hm Hr) as (-> & _).
    destruct (earlyState_facts w s) as (-> & _). by rewrite Hd. }
  destruct (Hkeep _ _ M0 Hrun1) as (M1 & N0).
  destruct (Hkeep _ _ M1 Hrun2) as (M2 & N1).
  destruct (Hkeep _ _ M2 Hrun3) as (_ & N2).
  destruct (RenderScene_readback _ _ _ _ N0 Hrun1) as (C1 & F1 & S1).
  destruct (RenderScene_readback _ _ _ _ N1 Hrun2) as (C2 & F2 & S2).
  destruct (RenderScene_readback _ _ _ _ N2 Hrun3) as (C3 & F3 & S3).
  rewrite C0, F0 in *. rewrite C1, F1 in *. rewrite C2, F2 in *.
  change (2 - 1) with 1 in *. change (1 - 1) with 0 in *.
  cbn in S1, S2, S3, C2, C3. rewrite S0 in S1. rewrite S1 in S2.
  split; [by rewrite Ec; destruct a |]. split; [by rewrite Ec; destruct a |].
  done.
Qed.

(** ** Resource setup, event by event *)

(** The test of lines 512-517 on the bundle a state holds: the bundle is
    released when both dimensions of its environment PDF texture differ from
    the environment map's. *)
Definition bundleStale (size : Z * Z) s : bool :=
  match m_RtxdiResources s with
  | Some r =>
      negb (size.1 =? (EnvironmentPdfTexture r).1)
      && negb (size.2 =? (EnvironmentPdfTexture r).2)
  | None => false
  end.

Ltac case_hyp :=
  match goal with
  | H : context [match ?x with _ => _ end] |- _ =>
      lazymatch x with
      | context [match _ with _ => _ end] => fail
      | _ => destruct x eqn:?
      end
  end.

(** Inverts the run of a block on a destructed state, then splits the cases
    of the goal. *)
Ltac invert_run :=
  norm_all; repeat (case_hyp; norm_all); simplify_eq; norm; repeat (case_inner; norm).

(** Lines 477-482. *)
Lemma dropPdfMipmapPassOnReload_exact s :
  trace (dropPdfMipmapPassOnReload s)
  = trace s
    ++ []
  /\ m_RenderTargets (dropPdfMipmapPassOnReload s) = m_RenderTargets s
  /\ m_RtxdiContext (dropPdfMipmapPassOnReload s) = m_RtxdiContext s
  /\ m_RtxdiResources (dropPdfMipmapPassOnReload s) = m_RtxdiResources s
  /\ m_RenderEnvironmentMapPass (dropPdfMipmapPassOnReload s) = m_RenderEnvironmentMapPass s
  /\ m_EnvironmentMapPdfMipmapPass (dropPdfMipmapPassOnReload s)
     = (if environmentMapDirty (m_ui s) =? 2 then None
      else m_EnvironmentMapPdfMipmapPass s)
  /\ m_LocalLightPdfMipmapPass (dropPdfMipmapPassOnReload s) = m_LocalLightPdfMipmapPass s
  /\ m_TemporalAntiAliasingPass (dropPdfMipmapPassOnReload s) = m_TemporalAntiAliasingPass s
  /\ m_ToneMappingPass (dropPdfMipmapPassOnReload s) = m_ToneMappingPass s
  /\ m_NRD (dropPdfMipmapPassOnReload s) = m_NRD s
  /\ reloadShaders (m_ui (dropPdfMipmapPassOnReload s)) = reloadShaders (m_ui s)
  /\ rtxdiContextParams (m_ui (dropPdfMipmapPassOnReload s)) = rtxdiContextParams (m_ui s)
  /\ useRayQuery (m_ui (dropPdfMipmapPassOnReload s)) = useRayQuery (m_ui s)
  /\ denoisingMethod (m_ui (dropPdfMipmapPassOnReload s)) = denoisingMethod (m_ui s)
  /\ m_EnvironmentMap (dropPdfMipmapPassOnReload s) = m_EnvironmentMap s
  /\ environmentMapIndex (m_ui (dropPdfMipmapPassOnReload s)) = environmentMapIndex (m_ui s)
  /\ environmentMapDirty (m_ui (dropPdfMipmapPassOnReload s))
     = (if environmentMapDirty (m_ui s) =? 2 then 1 else environmentMapDirty (m_ui s))
  /\ m_SceneEmissiveMeshes (dropPdfMipmapPassOnReload s) = m_SceneEmissiveMeshes s
  /\ m_SceneEmissiveTriangles (dropPdfMipmapPassOnReload s) = m_SceneEmissiveTriangles s
  /\ m_ScenePrimitiveLights (dropPdfMipmapPassOnReload s) = m_ScenePrimitiveLights s.
Proof.
  unfold dropPdfMipmapPassOnReload. destruct_renderer s. norm.
  repeat (case_inner; norm); by rewrite ?app_nil_r, <- ?app_assoc.
Qed.

(** Lines 484-496. *)
Lemma reloadShadersIfRequested_exact s :
  trace (reloadShadersIfRequested s)
  = trace s
    ++ (if reloadShaders (m_ui s) then [EvWaitForIdle; EvClearShaderCache; EvLoadShaders]
         else [])
  /\ m_RenderTargets (reloadShadersIfRequested s) = m_RenderTargets s
  /\ m_RtxdiContext (reloadShadersIfRequested s) = m_RtxdiContext s
  /\ m_RtxdiResources (reloadShadersIfRequested s) = m_RtxdiResources s
  /\ m_RenderEnvironmentMapPass (reloadShadersIfRequested s)
     = (if reloadShaders (m_ui s) then None else m_RenderEnvironmentMapPass s)
  /\ m_EnvironmentMapPdfMipmapPass (reloadShadersIfRequested s)
     = (if reloadShaders (m_ui s) then None else m_EnvironmentMapPdfMipmapPass s)
  /\ m_LocalLightPdfMipmapPass (reloadShadersIfRequested s)
     = (if reloadShaders (m_ui s) then None else m_LocalLightPdfMipmapPass s)
  /\ m_TemporalAntiAliasingPass (reloadShadersIfRequested s)
     = (if reloadShaders (m_ui s) then None else m_TemporalAntiAliasingPass s)
  /\ m_ToneMappingPass (reloadShadersIfRequested s) = m_ToneMappingPass s
  /\ m_NRD (reloadShadersIfRequested s) = m_NRD s
  /\ reloadShaders (m_ui (reloadShadersIfRequested s)) = reloadShaders (m_ui s)
  /\ rtxdiContextParams (m_ui (reloadShadersIfRequested s)) = rtxdiContextParams (m_ui s)
  /\ useRayQuery (m_ui (reloadShadersIfRequested s)) = useRayQuery (m_ui s)
  /\ denoisingMethod (m_ui (reloadShadersIfRequested s)) = denoisingMethod (m_ui s)
  /\ m_EnvironmentMap (reloadShadersIfRequested s) = m_EnvironmentMap s
  /\ environmentMapIndex (m_ui (reloadShadersIfRequested s)) = environmentMapIndex (m_ui s)
  /\ environmentMapDirty (m_ui (reloadShadersIfRequested s))
     = (if reloadShaders (m_ui s) then 1 else environmentMapDirty (m_ui s))
  /\ m_SceneEmissiveMeshes (reloadShadersIfRequested s) = m_SceneEmissiveMeshes s
  /\ m_SceneEmissiveTriangles (reloadShadersIfRequested s) = m_SceneEmissiveTriangles s
  /\ m_ScenePrimitiveLights (reloadShadersIfRequested s) = m_ScenePrimitiveLights s.
Proof.
  unfold reloadShadersIfRequested, LoadShaders. destruct_renderer s. norm.
  repeat (case_inner; norm); by rewrite ?app_nil_r, <- ?app_assoc.
Qed.

(** Lines 501-504. *)
Lemma ensureRenderEnvironmentMapPass_exact w s :
  trace (ensureRenderEnvironmentMapPass w s)
  = trace s
    ++ (if isNull (m_RenderEnvironmentMapPass s) then [EvCreateRenderEnvironmentMapPass]
         else [])
  /\ m_RenderTargets (ensureRenderEnvironmentMapPass w s) = m_RenderTargets s
  /\ m_RtxdiContext (ensureRenderEnvironmentMapPass w s) = m_RtxdiContext s
  /\ m_RtxdiResources (ensureRenderEnvironmentMapPass w s) = m_RtxdiResources s
  /\ m_RenderEnvironmentMapPass (ensureRenderEnvironmentMapPass w s)
     = Some (match m_RenderEnvironmentMapPass s with
             | Some pass => pass
             | None => mkRenderEnvironmentMapPass (proceduralTextureSize w 2048)
             end)
  /\ m_EnvironmentMapPdfMipmapPass (ensureRenderEnvironmentMapPass w s)
     = m_EnvironmentMapPdfMipmapPass s
  /\ m_LocalLightPdfMipmapPass (ensureRenderEnvironmentMapPass w s) = m_LocalLightPdfMipmapPass s
  /\ m_TemporalAntiAliasingPass (ensureRenderEnvironmentMapPass w s)
     = m_TemporalAntiAliasingPass s
  /\ m_ToneMappingPass (ensureRenderEnvironmentMapPass w s) = m_ToneMappingPass s
  /\ m_NRD (ensureRenderEnvironmentMapPass w s) = m_NRD s
  /\ reloadShaders (m_ui (ensureRenderEnvironmentMapPass w s)) = reloadShaders (m_ui s)
  /\ rtxdiContextParams (m_ui (ensureRenderEnvironmentMapPass w s)) = rtxdiContextParams (m_ui s)
  /\ useRayQuery (m_ui (ensureRenderEnvironmentMapPass w s)) = useRayQuery (m_ui s)
  /\ denoisingMethod (m_ui (ensureRenderEnvironmentMapPass w s)) = denoisingMethod (m_ui s)
  /\ m_EnvironmentMap (ensureRenderEnvironmentMapPass w s) = m_EnvironmentMap s
  /\ environmentMapIndex (m_ui (ensureRenderEnvironmentMapPass w s))
     = environmentMapIndex (m_ui s)
  /\ environmentMapDirty (m_ui (ensureRenderEnvironmentMapPass w s))
     = environmentMapDirty (m_ui s)
  /\ m_SceneEmissiveMeshes (ensureRenderEnvironmentMapPass w s) = m_SceneEmissiveMeshes s
  /\ m_SceneEmissiveTriangles (ensureRenderEnvironmentMapPass w s) = m_SceneEmissiveTriangles s
  /\ m_ScenePrimitiveLights (ensureRenderEnvironmentMapPass w s) = m_ScenePrimitiveLights s.
Proof.
  unfold ensureRenderEnvironmentMapPass. destruct_renderer s. norm.
  repeat (case_inner; norm); by rewrite ?app_nil_r, <- ?app_assoc.
Qed.

(** Lines 512-517. *)
Lemma invalidateRtxdiResources_exact size s :
  trace (invalidateRtxdiResources size s)
  = trace s
    ++ []
  /\ m_RenderTargets (invalidateRtxdiResources size s) = m_RenderTargets s
  /\ m_RtxdiContext (invalidateRtxdiResources size s) = m_RtxdiContext s
  /\ m_RtxdiResources (invalidateRtxdiResources size s)
     = (if bundleStale size s then None else m_RtxdiResources s)
  /\ m_RenderEnvironmentMapPass (invalidateRtxdiResources size s) = m_RenderEnvironmentMapPass s
  /\ m_EnvironmentMapPdfMipmapPass (invalidateRtxdiResources size s)
     = m_EnvironmentMapPdfMipmapPass s
  /\ m_LocalLightPdfMipmapPass (invalidateRtxdiResources size s) = m_LocalLightPdfMipmapPass s
  /\ m_TemporalAntiAliasingPass (invalidateRtxdiResources size s) = m_TemporalAntiAliasingPass s
  /\ m_ToneMappingPass (invalidateRtxdiResources size s) = m_ToneMappingPass s
  /\ m_NRD (invalidateRtxdiResources size s) = m_NRD s
  /\ reloadShaders (m_ui (invalidateRtxdiResources size s)) = reloadShaders (m_ui s)
  /\ rtxdiContextParams (m_ui (invalidateRtxdiResources size s)) = rtxdiContextParams (m_ui s)
  /\ useRayQuery (m_ui (invalidateRtxdiResources size s)) = useRayQuery (m_ui s)
  /\ denoisingMethod (m_ui (invalidateRtxdiResources size s)) = denoisingMethod (m_ui s)
  /\ m_EnvironmentMap (invalidateRtxdiResources size s) = m_EnvironmentMap s
  /\ environmentMapIndex (m_ui (invalidateRtxdiResources size s)) = environmentMapIndex (m_ui s)
  /\ environmentMapDirty (m_ui (invalidateRtxdiResources size s)) = environmentMapDirty (m_ui s)
  /\ m_SceneEmissiveMeshes (invalidateRtxdiResources size s) = m_SceneEmissiveMeshes s
  /\ m_SceneEmissiveTriangles (invalidateRtxdiResources size s) = m_SceneEmissiveTriangles s
  /\ m_ScenePrimitiveLights (invalidateRtxdiResources size s) = m_ScenePrimitiveLights s.
Proof.
  unfold invalidateRtxdiResources, bundleStale. destruct_renderer s. norm.
  repeat (case_inner; norm); by rewrite ?app_nil_r, <- ?app_assoc.
Qed.

(** Lines 519-534. *)
Lemma ensureRenderTargets_exact fbinfo s s' created :
  ensureRenderTargets fbinfo s = (s', created) ->
  trace s'
  = trace s
    ++ (if created
         then [EvCreateRenderTargets (fb_width fbinfo, fb_height fbinfo);
               EvCreateRenderTargetBindings]
         else [])
  /\ created = isNull (m_RenderTargets s)
  /\ m_RenderTargets s'
     = Some (match m_RenderTargets s with
             | Some rt => rt
             | None => mkRenderTargets (fb_width fbinfo, fb_height fbinfo)
             end)
  /\ m_RtxdiContext s' = m_RtxdiContext s
  /\ m_RtxdiResources s' = m_RtxdiResources s
  /\ m_RenderEnvironmentMapPass s' = m_RenderEnvironmentMapPass s
  /\ m_EnvironmentMapPdfMipmapPass s' = m_EnvironmentMapPdfMipmapPass s
  /\ m_LocalLightPdfMipmapPass s' = m_LocalLightPdfMipmapPass s
  /\ m_TemporalAntiAliasingPass s' = m_TemporalAntiAliasingPass s
  /\ m_ToneMappingPass s' = m_ToneMappingPass s
  /\ m_NRD s' = m_NRD s
  /\ reloadShaders (m_ui s') = reloadShaders (m_ui s)
  /\ rtxdiContextParams (m_ui s') = rtxdiContextParams (m_ui s)
  /\ useRayQuery (m_ui s') = useRayQuery (m_ui s)
  /\ denoisingMethod (m_ui s') = denoisingMethod (m_ui s)
  /\ m_EnvironmentMap s' = m_EnvironmentMap s
  /\ environmentMapIndex (m_ui s') = environmentMapIndex (m_ui s)
  /\ environmentMapDirty (m_ui s') = environmentMapDirty (m_ui s)
  /\ m_SceneEmissiveMeshes s' = m_SceneEmissiveMeshes s
  /\ m_SceneEmissiveTriangles s' = m_SceneEmissiveTriangles s
  /\ m_ScenePrimitiveLights s' = m_ScenePrimitiveLights s.
Proof.
  unfold ensureRenderTargets. intros Hrun. destruct_renderer s.
  invert_run; by rewrite ?app_nil_r, <- ?app_assoc.
Qed.

(** Lines 536-544. *)
Lemma ensureRtxdiContext_exact w fbinfo s :
  trace (ensureRtxdiContext w fbinfo s)
  = trace s
    ++ (if isNull (m_RtxdiContext s)
         then [EvCreateRtxdiContext
                 (mkContextParameters (fb_width fbinfo) (fb_height fbinfo)
                   (CheckerboardSamplingMode (rtxdiContextParams (m_ui s))))]
         else [])
  /\ m_RenderTargets (ensureRtxdiContext w fbinfo s) = m_RenderTargets s
  /\ m_RtxdiContext (ensureRtxdiContext w fbinfo s)
     = Some (match m_RtxdiContext s with
             | Some context => context
             | None =>
                 mkContext
                   (mkContextParameters (fb_width fbinfo) (fb_height fbinfo)
                     (CheckerboardSamplingMode (rtxdiContextParams (m_ui s))))
             end)
  /\ m_RtxdiResources (ensureRtxdiContext w fbinfo s) = m_RtxdiResources s
  /\ m_RenderEnvironmentMapPass (ensureRtxdiContext w fbinfo s) = m_RenderEnvironmentMapPass s
  /\ m_EnvironmentMapPdfMipmapPass (ensureRtxdiContext w fbinfo s)
     = m_EnvironmentMapPdfMipmapPass s
  /\ m_LocalLightPdfMipmapPass (ensureRtxdiContext w fbinfo s) = m_LocalLightPdfMipmapPass s
  /\ m_TemporalAntiAliasingPass (ensureRtxdiContext w fbinfo s) = m_TemporalAntiAliasingPass s
  /\ m_ToneMappingPass (ensureRtxdiContext w fbinfo s) = m_ToneMappingPass s
  /\ m_NRD (ensureRtxdiContext w fbinfo s) = m_NRD s
  /\ reloadShaders (m_ui (ensureRtxdiContext w fbinfo s)) = reloadShaders (m_ui s)
  /\ rtxdiContextParams (m_ui (ensureRtxdiContext w fbinfo s))
     = (if isNull (m_RtxdiContext s)
      then mkContextParameters (fb_width fbinfo) (fb_height fbinfo)
         (CheckerboardSamplingMode (rtxdiContextParams (m_ui s)))
      else rtxdiContextParams (m_ui s))
  /\ useRayQuery (m_ui (ensureRtxdiContext w fbinfo s)) = useRayQuery (m_ui s)
  /\ denoisingMethod (m_ui (ensureRtxdiContext w fbinfo s)) = denoisingMethod (m_ui s)
  /\ m_EnvironmentMap (ensureRtxdiContext w fbinfo s) = m_EnvironmentMap s
  /\ environmentMapIndex (m_ui (ensureRtxdiContext w fbinfo s)) = environmentMapIndex (m_ui s)
  /\ environmentMapDirty (m_ui (ensureRtxdiContext w fbinfo s)) = environmentMapDirty (m_ui s)
  /\ m_SceneEmissiveMeshes (ensureRtxdiContext w fbinfo s) = m_SceneEmissiveMeshes s
  /\ m_SceneEmissiveTriangles (ensureRtxdiContext w fbinfo s) = m_SceneEmissiveTriangles s
  /\ m_ScenePrimitiveLights (ensureRtxdiContext w fbinfo s) = m_ScenePrimitiveLights s.
Proof.
  unfold ensureRtxdiContext. destruct_renderer s. norm.
  repeat (case_inner; norm); by rewrite ?app_nil_r, <- ?app_assoc.
Qed.

(** Lines 546-563. *)
Lemma ensureRtxdiResources_exact w size s s' created :
  ensureRtxdiResources w size s = Ok (s', created) ->
  trace s'
  = trace s
    ++ (if created
         then match m_RtxdiResources s' with
              | Some r => [EvCreateRtxdiResources r; EvPrepareLightsCreateBindingSet]
              | None => []
              end
         else [])
  /\ created = isNull (m_RtxdiResources s)
  /\ isNull (m_RtxdiResources s') = false
  /\ (created = false -> m_RtxdiResources s' = m_RtxdiResources s)
  /\ (created = true ->
      exists context,
        m_RtxdiContext s = Some context
        /\ m_RtxdiResources s'
           = Some (mkRtxdiResources (GetParameters context) (m_SceneEmissiveMeshes s)
                     (m_SceneEmissiveTriangles s) (m_ScenePrimitiveLights s) size
                     (localLightPdfTextureSize w (m_SceneEmissiveMeshes s)
                        (m_SceneEmissiveTriangles s) (m_ScenePrimitiveLights s))))
  /\ m_RenderTargets s' = m_RenderTargets s
  /\ m_RtxdiContext s' = m_RtxdiContext s
  /\ m_RenderEnvironmentMapPass s' = m_RenderEnvironmentMapPass s
  /\ m_EnvironmentMapPdfMipmapPass s' = m_EnvironmentMapPdfMipmapPass s
  /\ m_LocalLightPdfMipmapPass s' = m_LocalLightPdfMipmapPass s
  /\ m_TemporalAntiAliasingPass s' = m_TemporalAntiAliasingPass s
  /\ m_ToneMappingPass s' = m_ToneMappingPass s
  /\ m_NRD s' = m_NRD s
  /\ reloadShaders (m_ui s') = reloadShaders (m_ui s)
  /\ rtxdiContextParams (m_ui s') = rtxdiContextParams (m_ui s)
  /\ useRayQuery (m_ui s') = useRayQuery (m_ui s)
  /\ denoisingMethod (m_ui s') = denoisingMethod (m_ui s)
  /\ m_EnvironmentMap s' = m_EnvironmentMap s
  /\ environmentMapIndex (m_ui s') = environmentMapIndex (m_ui s)
  /\ environmentMapDirty (m_ui s')
     = (if created then 1 else environmentMapDirty (m_ui s))
  /\ m_SceneEmissiveMeshes s' = m_SceneEmissiveMeshes s
  /\ m_SceneEmissiveTriangles s' = m_SceneEmissiveTriangles s
  /\ m_ScenePrimitiveLights s' = m_ScenePrimitiveLights s.
Proof.
  unfold ensureRtxdiResources. intros Hrun. destruct_renderer s.
  invert_run; rewrite ?app_nil_r, <- ?app_assoc; repeat split; try done.
  intros _. eexists. by split.
Qed.

(** Lines 565-573. *)
Lemma ensureEnvironmentMapPdfMipmapPass_exact size created s s' :
  ensureEnvironmentMapPdfMipmapPass size created s = Ok s' ->
  trace s'
  = trace s
    ++ (if isNull (m_EnvironmentMapPdfMipmapPass s) || created
         then match m_EnvironmentMapPdfMipmapPass s' with
              | Some pass => [EvCreateEnvironmentMapPdfMipmapPass pass]
              | None => []
              end
         else [])
  /\ isNull (m_EnvironmentMapPdfMipmapPass s') = false
  /\ (isNull (m_EnvironmentMapPdfMipmapPass s) || created = false ->
      m_EnvironmentMapPdfMipmapPass s' = m_EnvironmentMapPdfMipmapPass s)
  /\ m_RenderTargets s' = m_RenderTargets s
  /\ m_RtxdiContext s' = m_RtxdiContext s
  /\ m_RtxdiResources s' = m_RtxdiResources s
  /\ m_RenderEnvironmentMapPass s' = m_RenderEnvironmentMapPass s
  /\ m_LocalLightPdfMipmapPass s' = m_LocalLightPdfMipmapPass s
  /\ m_TemporalAntiAliasingPass s' = m_TemporalAntiAliasingPass s
  /\ m_ToneMappingPass s' = m_ToneMappingPass s
  /\ m_NRD s' = m_NRD s
  /\ reloadShaders (m_ui s') = reloadShaders (m_ui s)
  /\ rtxdiContextParams (m_ui s') = rtxdiContextParams (m_ui s)
  /\ useRayQuery (m_ui s') = useRayQuery (m_ui s)
  /\ denoisingMethod (m_ui s') = denoisingMethod (m_ui s)
  /\ m_EnvironmentMap s' = m_EnvironmentMap s
  /\ environmentMapIndex (m_ui s') = environmentMapIndex (m_ui s)
  /\ environmentMapDirty (m_ui s') = environmentMapDirty (m_ui s)
  /\ m_SceneEmissiveMeshes s' = m_SceneEmissiveMeshes s
  /\ m_SceneEmissiveTriangles s' = m_SceneEmissiveTriangles s
  /\ m_ScenePrimitiveLights s' = m_ScenePrimitiveLights s.
Proof.
  unfold ensureEnvironmentMapPdfMipmapPass. intros Hrun. destruct_renderer s.
  invert_run; by rewrite ?app_nil_r, <- ?app_assoc.
Qed.

(** Lines 575-581. *)
Lemma ensureLocalLightPdfMipmapPass_exact created s s' :
  ensureLocalLightPdfMipmapPass created s = Ok s' ->
  trace s'
  = trace s
    ++ (if isNull (m_LocalLightPdfMipmapPass s) || created
         then match m_LocalLightPdfMipmapPass s' with
              | Some pass => [EvCreateLocalLightPdfMipmapPass pass]
              | None => []
              end
         else [])
  /\ isNull (m_LocalLightPdfMipmapPass s') = false
  /\ (isNull (m_LocalLightPdfMipmapPass s) || created = false ->
      m_LocalLightPdfMipmapPass s' = m_LocalLightPdfMipmapPass s)
  /\ m_RenderTargets s' = m_RenderTargets s
  /\ m_RtxdiContext s' = m_RtxdiContext s
  /\ m_RtxdiResources s' = m_RtxdiResources s
  /\ m_RenderEnvironmentMapPass s' = m_RenderEnvironmentMapPass s
  /\ m_EnvironmentMapPdfMipmapPass s' = m_EnvironmentMapPdfMipmapPass s
  /\ m_TemporalAntiAliasingPass s' = m_TemporalAntiAliasingPass s
  /\ m_ToneMappingPass s' = m_ToneMappingPass s
  /\ m_NRD s' = m_NRD s
  /\ reloadShaders (m_ui s') = reloadShaders (m_ui s)
  /\ rtxdiContextParams (m_ui s') = rtxdiContextParams (m_ui s)
  /\ useRayQuery (m_ui s') = useRayQuery (m_ui s)
  /\ denoisingMethod (m_ui s') = denoisingMethod (m_ui s)
  /\ m_EnvironmentMap s' = m_EnvironmentMap s
  /\ environmentMapIndex (m_ui s') = environmentMapIndex (m_ui s)
  /\ environmentMapDirty (m_ui s') = environmentMapDirty (m_ui s)
  /\ m_SceneEmissiveMeshes s' = m_SceneEmissiveMeshes s
  /\ m_SceneEmissiveTriangles s' = m_SceneEmissiveTriangles s
  /\ m_ScenePrimitiveLights s' = m_ScenePrimitiveLights s.
Proof.
  unfold ensureLocalLightPdfMipmapPass. intros Hrun. destruct_renderer s.
  invert_run; by rewrite ?app_nil_r, <- ?app_assoc.
Qed.

(** Lines 583-598. *)
Lemma rebindLightingPasses_exact rtCreated resCreated s s' :
  rebindLightingPasses rtCreated resCreated s = Ok s' ->
  trace s'
  = trace s
    ++ (if rtCreated || resCreated
         then match m_RenderTargets s, m_RtxdiResources s with
              | Some rt, Some r => [EvLightingCreateBindingSet rt r]
              | _, _ => []
              end
         else [])
        ++ (if resCreated || reloadShaders (m_ui s)
            then [EvLightingCreatePipelines (rtxdiContextParams (m_ui s))
                    (useRayQuery (m_ui s))]
            else [])
  /\ m_RenderTargets s' = m_RenderTargets s
  /\ m_RtxdiContext s' = m_RtxdiContext s
  /\ m_RtxdiResources s' = m_RtxdiResources s
  /\ m_RenderEnvironmentMapPass s' = m_RenderEnvironmentMapPass s
  /\ m_EnvironmentMapPdfMipmapPass s' = m_EnvironmentMapPdfMipmapPass s
  /\ m_LocalLightPdfMipmapPass s' = m_LocalLightPdfMipmapPass s
  /\ m_TemporalAntiAliasingPass s' = m_TemporalAntiAliasingPass s
  /\ m_ToneMappingPass s' = m_ToneMappingPass s
  /\ m_NRD s' = m_NRD s
  /\ reloadShaders (m_ui s')
     = false
  /\ rtxdiContextParams (m_ui s') = rtxdiContextParams (m_ui s)
  /\ useRayQuery (m_ui s') = useRayQuery (m_ui s)
  /\ denoisingMethod (m_ui s') = denoisingMethod (m_ui s)
  /\ m_EnvironmentMap s' = m_EnvironmentMap s
  /\ environmentMapIndex (m_ui s') = environmentMapIndex (m_ui s)
  /\ environmentMapDirty (m_ui s') = environmentMapDirty (m_ui s)
  /\ m_SceneEmissiveMeshes s' = m_SceneEmissiveMeshes s
  /\ m_SceneEmissiveTriangles s' = m_SceneEmissiveTriangles s
  /\ m_ScenePrimitiveLights s' = m_ScenePrimitiveLights s.
Proof.
  unfold rebindLightingPasses. intros Hrun. destruct_renderer s.
  invert_run; by rewrite ?app_nil_r, <- ?app_assoc.
Qed.

(** Lines 600-612. *)
Lemma ensureTemporalAntiAliasingPass_exact s s' :
  ensureTemporalAntiAliasingPass s = Ok s' ->
  trace s'
  = trace s
    ++ (if isNull (m_TemporalAntiAliasingPass s) then [EvCreateTemporalAntiAliasingPass]
         else [])
  /\ m_RenderTargets s' = m_RenderTargets s
  /\ m_RtxdiContext s' = m_RtxdiContext s
  /\ m_RtxdiResources s' = m_RtxdiResources s
  /\ m_RenderEnvironmentMapPass s' = m_RenderEnvironmentMapPass s
  /\ m_EnvironmentMapPdfMipmapPass s' = m_EnvironmentMapPdfMipmapPass s
  /\ m_LocalLightPdfMipmapPass s' = m_LocalLightPdfMipmapPass s
  /\ m_TemporalAntiAliasingPass s'
     = Some (match m_TemporalAntiAliasingPass s with
             | Some taa => taa
             | None => mkTemporalAntiAliasingPass 0
             end)
  /\ m_ToneMappingPass s' = m_ToneMappingPass s
  /\ m_NRD s' = m_NRD s
  /\ reloadShaders (m_ui s') = reloadShaders (m_ui s)
  /\ rtxdiContextParams (m_ui s') = rtxdiContextParams (m_ui s)
  /\ useRayQuery (m_ui s') = useRayQuery (m_ui s)
  /\ denoisingMethod (m_ui s') = denoisingMethod (m_ui s)
  /\ m_EnvironmentMap s' = m_EnvironmentMap s
  /\ environmentMapIndex (m_ui s') = environmentMapIndex (m_ui s)
  /\ environmentMapDirty (m_ui s') = environmentMapDirty (m_ui s)
  /\ m_SceneEmissiveMeshes s' = m_SceneEmissiveMeshes s
  /\ m_SceneEmissiveTriangles s' = m_SceneEmissiveTriangles s
  /\ m_ScenePrimitiveLights s' = m_ScenePrimitiveLights s.
Proof.
  unfold ensureTemporalAntiAliasingPass. intros Hrun. destruct_renderer s.
  invert_run; by rewrite ?app_nil_r, <- ?app_assoc.
Qed.

(** Lines 614-620. *)
Lemma ensureToneMappingPass_exact s s' reset :
  ensureToneMappingPass s = Ok (s', reset) ->
  trace s'
  = trace s
    ++ (if reset then [EvCreateToneMappingPass] else [])
  /\ reset = isNull (m_ToneMappingPass s)
  /\ isNull (m_ToneMappingPass s') = false
  /\ (reset = false -> m_ToneMappingPass s' = m_ToneMappingPass s)
  /\ m_RenderTargets s' = m_RenderTargets s
  /\ m_RtxdiContext s' = m_RtxdiContext s
  /\ m_RtxdiResources s' = m_RtxdiResources s
  /\ m_RenderEnvironmentMapPass s' = m_RenderEnvironmentMapPass s
  /\ m_EnvironmentMapPdfMipmapPass s' = m_EnvironmentMapPdfMipmapPass s
  /\ m_LocalLightPdfMipmapPass s' = m_LocalLightPdfMipmapPass s
  /\ m_TemporalAntiAliasingPass s' = m_TemporalAntiAliasingPass s
  /\ m_NRD s' = m_NRD s
  /\ reloadShaders (m_ui s') = reloadShaders (m_ui s)
  /\ rtxdiContextParams (m_ui s') = rtxdiContextParams (m_ui s)
  /\ useRayQuery (m_ui s') = useRayQuery (m_ui s)
  /\ denoisingMethod (m_ui s') = denoisingMethod (m_ui s)
  /\ m_EnvironmentMap s' = m_EnvironmentMap s
  /\ environmentMapIndex (m_ui s') = environmentMapIndex (m_ui s)
  /\ environmentMapDirty (m_ui s') = environmentMapDirty (m_ui s)
  /\ m_SceneEmissiveMeshes s' = m_SceneEmissiveMeshes s
  /\ m_SceneEmissiveTriangles s' = m_SceneEmissiveTriangles s
  /\ m_ScenePrimitiveLights s' = m_ScenePrimitiveLights s.
Proof.
  unfold ensureToneMappingPass. intros Hrun. destruct_renderer s.
  invert_run; by rewrite ?app_nil_r, <- ?app_assoc.
Qed.

(** Lines 622-628. *)
Lemma ensureNrdIntegration_exact w s s' :
  ensureNrdIntegration w s = Ok s' ->
  trace s'
  = trace s
    ++ (if WITH_NRD w && isNull (m_NRD s)
         then [EvCreateNrdIntegration (denoisingMethod (m_ui s))]
         else [])
  /\ (WITH_NRD w && isNull (m_NRD s) = false -> m_NRD s' = m_NRD s)
  /\ m_RenderTargets s' = m_RenderTargets s
  /\ m_RtxdiContext s' = m_RtxdiContext s
  /\ m_RtxdiResources s' = m_RtxdiResources s
  /\ m_RenderEnvironmentMapPass s' = m_RenderEnvironmentMapPass s
  /\ m_EnvironmentMapPdfMipmapPass s' = m_EnvironmentMapPdfMipmapPass s
  /\ m_LocalLightPdfMipmapPass s' = m_LocalLightPdfMipmapPass s
  /\ m_TemporalAntiAliasingPass s' = m_TemporalAntiAliasingPass s
  /\ m_ToneMappingPass s' = m_ToneMappingPass s
  /\ reloadShaders (m_ui s') = reloadShaders (m_ui s)
  /\ rtxdiContextParams (m_ui s') = rtxdiContextParams (m_ui s)
  /\ useRayQuery (m_ui s') = useRayQuery (m_ui s)
  /\ denoisingMethod (m_ui s') = denoisingMethod (m_ui s)
  /\ m_EnvironmentMap s' = m_EnvironmentMap s
  /\ environmentMapIndex (m_ui s') = environmentMapIndex (m_ui s)
  /\ environmentMapDirty (m_ui s') = environmentMapDirty (m_ui s)
  /\ m_SceneEmissiveMeshes s' = m_SceneEmissiveMeshes s
  /\ m_SceneEmissiveTriangles s' = m_SceneEmissiveTriangles s
  /\ m_ScenePrimitiveLights s' = m_ScenePrimitiveLights s.
Proof.
  unfold ensureNrdIntegration. intros Hrun. destruct_renderer s.
  invert_run; by rewrite ?app_nil_r, <- ?app_assoc.
Qed.

(** The events of each block of [SetupRenderPasses], as a function of the
    state [s] the setup starts from; the objects it creates are named through
    the state [s'] it ends in.  [size] is the size of the active environment
    map. *)
Definition bundleCreated (size : Z * Z) s : bool :=
  isNull (m_RtxdiResources s) || bundleStale size s.

Definition shaderReloadEvents s : list Event :=
  if reloadShaders (m_ui s) then [EvWaitForIdle; EvClearShaderCache; EvLoadShaders] else [].

Definition skyPassEvents s : list Event :=
  if reloadShaders (m_ui s) || isNull (m_RenderEnvironmentMapPass s)
  then [EvCreateRenderEnvironmentMapPass] else [].

Definition renderTargetEvents fbinfo s : list Event :=
  if isNull (m_RenderTargets s)
  then [EvCreateRenderTargets (fb_width fbinfo, fb_height fbinfo);
        EvCreateRenderTargetBindings]
  else [].

Definition contextEvents fbinfo s : list Event :=
  if isNull (m_RtxdiContext s)
  then [EvCreateRtxdiContext
          (mkContextParameters (fb_width fbinfo) (fb_height fbinfo)
             (CheckerboardSamplingMode (rtxdiContextParams (m_ui s))))]
  else [].

Definition bundleEvents (size : Z * Z) s s' : list Event :=
  if bundleCreated size s
  then match m_RtxdiResources s' with
       | Some r => [EvCreateRtxdiResources r; EvPrepareLightsCreateBindingSet]
       | None => []
       end
  else [].

Definition environmentPdfPassEvents (size : Z * Z) s s' : list Event :=
  if (environmentMapDirty (m_ui s) =? 2) || reloadShaders (m_ui s)
     || isNull (m_EnvironmentMapPdfMipmapPass s) || bundleCreated size s
  then match m_EnvironmentMapPdfMipmapPass s' with
       | Some pass => [EvCreateEnvironmentMapPdfMipmapPass pass]
       | None => []
       end
  else [].

Definition localPdfPassEvents (size : Z * Z) s s' : list Event :=
  if reloadShaders (m_ui s) || isNull (m_LocalLightPdfMipmapPass s) || bundleCreated size s
  then match m_LocalLightPdfMipmapPass s' with
       | Some pass => [EvCreateLocalLightPdfMipmapPass pass]
       | None => []
       end
  else [].

Definition lightingBindingEvents (size : Z * Z) s s' : list Event :=
  if isNull (m_RenderTargets s) || bundleCreated size s
  then match m_RenderTargets s', m_RtxdiResources s' with
       | Some rt, Some r => [EvLightingCreateBindingSet rt r]
       | _, _ => []
       end
  else [].

Definition lightingPipelineEvents (size : Z * Z) s s' : list Event :=
  if bundleCreated size s || reloadShaders (m_ui s)
  then [EvLightingCreatePipelines (rtxdiContextParams (m_ui s')) (useRayQuery (m_ui s))]
  else [].

Definition taaPassEvents s : list Event :=
  if reloadShaders (m_ui s) || isNull (m_TemporalAntiAliasingPass s)
  then [EvCreateTemporalAntiAliasingPass] else [].

Definition toneMappingPassEvents s : list Event :=
  if isNull (m_ToneMappingPass s) then [EvCreateToneMappingPass] else [].

Definition denoiserIntegrationEvents w s : list Event :=
  if WITH_NRD w && isNull (m_NRD s)
  then [EvCreateNrdIntegration (denoisingMethod (m_ui s))] else [].

Definition setupEvents w fbinfo (size : Z * Z) s s' : list Event :=
  shaderReloadEvents s ++ skyPassEvents s ++ renderTargetEvents fbinfo s
  ++ contextEvents fbinfo s ++ bundleEvents size s s' ++ environmentPdfPassEvents size s s'
  ++ localPdfPassEvents size s s' ++ lightingBindingEvents size s s'
  ++ lightingPipelineEvents size s s' ++ taaPassEvents s ++ toneMappingPassEvents s
  ++ denoiserIntegrationEvents w s.

Lemma app_eq {A : Type} (l1 l2 r1 r2 : list A) :
  l1 = r1 -> l2 = r2 -> l1 ++ l2 = r1 ++ r2.
Proof. by intros -> ->. Qed.

Ltac split_app :=
  lazymatch goal with
  | |- _ ++ _ = _ ++ _ => apply app_eq; [| split_app]
  | _ => idtac
  end.

Ltac case_goal :=
  match goal with
  | |- context [match ?x with _ => _ end] =>
      lazymatch x with
      | context [match _ with _ => _ end] => fail
      | _ => destruct x eqn:?
      end
  end.

Ltac piece :=
  clear;
  repeat (case_goal; cbn [isNull orb andb negb] in *;
          rewrite ?orb_true_r, ?orb_false_r, ?andb_true_r, ?andb_false_r in *;
          cbn [isNull orb andb negb] in *; simplify_eq);
  done.

(** [SetupRenderPasses], exactly: its events, and the handles it leaves. *)
Lemma SetupRenderPasses_exact w fbinfo s s' reset :
  SetupRenderPasses w fbinfo s = Ok (s', reset) ->
  exists size,
    environmentMapSize (prepared w s) = Ok size
    /\ newEvents s s' = setupEvents w fbinfo size s s'
    /\ m_RenderTargets s'
       = Some (match m_RenderTargets s with
               | Some rt => rt
               | None => mkRenderTargets (fb_width fbinfo, fb_height fbinfo)
               end)
    /\ m_RtxdiContext s'
       = Some (match m_RtxdiContext s with
               | Some context => context
               | None =>
                   mkContext
                     (mkContextParameters (fb_width fbinfo) (fb_height fbinfo)
                        (CheckerboardSamplingMode (rtxdiContextParams (m_ui s))))
               end)
    /\ rtxdiContextParams (m_ui s')
       = (if isNull (m_RtxdiContext s)
          then mkContextParameters (fb_width fbinfo) (fb_height fbinfo)
                 (CheckerboardSamplingMode (rtxdiContextParams (m_ui s)))
          else rtxdiContextParams (m_ui s))
    /\ isNull (m_RtxdiResources s') = false
    /\ (bundleCreated size s = false ->
        m_RtxdiResources s' = m_RtxdiResources s)
    /\ m_EnvironmentMap s' = m_EnvironmentMap s
    /\ environmentMapIndex (m_ui s') = environmentMapIndex (m_ui s)
    /\ environmentMapDirty (m_ui s')
       = (if bundleCreated size s || reloadShaders (m_ui s)
             || (environmentMapDirty (m_ui s) =? 2)
          then 1 else environmentMapDirty (m_ui s))
    /\ m_RenderEnvironmentMapPass s'
       = Some (match m_RenderEnvironmentMapPass s with
               | Some pass =>
                   if reloadShaders (m_ui s)
                   then mkRenderEnvironmentMapPass (proceduralTextureSize w 2048)
                   else pass
               | None => mkRenderEnvironmentMapPass (proceduralTextureSize w 2048)
               end)
    /\ (bundleCreated size s || reloadShaders (m_ui s)
        || (environmentMapDirty (m_ui s) =? 2) || isNull (m_EnvironmentMapPdfMipmapPass s)
        = false ->
        m_EnvironmentMapPdfMipmapPass s' = m_EnvironmentMapPdfMipmapPass s)
    /\ (bundleCreated size s || reloadShaders (m_ui s)
        || isNull (m_LocalLightPdfMipmapPass s) = false ->
        m_LocalLightPdfMipmapPass s' = m_LocalLightPdfMipmapPass s)
    /\ (bundleCreated size s = true ->
        exists context,
          m_RtxdiContext s' = Some context
          /\ m_RtxdiResources s'
             = Some (mkRtxdiResources (GetParameters context) (m_SceneEmissiveMeshes s)
                       (m_SceneEmissiveTriangles s) (m_ScenePrimitiveLights s) size
                       (localLightPdfTextureSize w (m_SceneEmissiveMeshes s)
                          (m_SceneEmissiveTriangles s) (m_ScenePrimitiveLights s)))).
Proof.
  intros Hrun.
  destruct (SetupRenderPasses_inv _ _ _ _ _ Hrun)
    as (size & s1 & rtCreated & s2 & resCreated & s3 & s4 & s5 & s6 & s7
        & Hsize & H5 & H7 & H8 & H9 & H10 & H11 & H12 & H13).
  exists size. split; [done |]. clear Hsize Hrun. unfold prepared in *.
  destruct (dropPdfMipmapPassOnReload_exact s)
    as (B1_tr & B1_rt & B1_ctx & B1_res & B1_sky & B1_pdf & B1_local & B1_taa & B1_tone &
          B1_nrd & B1_reload & B1_params & B1_rq & B1_method & B1_map & B1_index & B1_dirty &
          B1_meshes & B1_triangles & B1_lights).
  set (a1 := dropPdfMipmapPassOnReload s) in *. clearbody a1.
  destruct (reloadShadersIfRequested_exact a1)
    as (B2_tr & B2_rt & B2_ctx & B2_res & B2_sky & B2_pdf & B2_local & B2_taa & B2_tone &
          B2_nrd & B2_reload & B2_params & B2_rq & B2_method & B2_map & B2_index & B2_dirty &
          B2_meshes & B2_triangles & B2_lights).
  set (a2 := reloadShadersIfRequested a1) in *. clearbody a2.
  destruct (ensureRenderEnvironmentMapPass_exact w a2)
    as (B3_tr & B3_rt & B3_ctx & B3_res & B3_sky & B3_pdf & B3_local & B3_taa & B3_tone &
          B3_nrd & B3_reload & B3_params & B3_rq & B3_method & B3_map & B3_index & B3_dirty &
          B3_meshes & B3_triangles & B3_lights).
  set (a3 := ensureRenderEnvironmentMapPass w a2) in *. clearbody a3.
  assert (bundleStale size a3 = bundleStale size s) as Estale
    by (unfold bundleStale; by rewrite B3_res, B2_res, B1_res).
  destruct (invalidateRtxdiResources_exact size a3)
    as (B4_tr & B4_rt & B4_ctx & B4_res & B4_sky & B4_pdf & B4_local & B4_taa & B4_tone &
          B4_nrd & B4_reload & B4_params & B4_rq & B4_method & B4_map & B4_index & B4_dirty &
          B4_meshes & B4_triangles & B4_lights).
  set (a4 := invalidateRtxdiResources size a3) in *. clearbody a4.
  destruct (ensureRenderTargets_exact _ _ _ _ H5)
    as (B5_tr & B5_x1 & B5_rt & B5_ctx & B5_res & B5_sky & B5_pdf & B5_local & B5_taa & B5_tone
          & B5_nrd & B5_reload & B5_params & B5_rq & B5_method & B5_map & B5_index & B5_dirty &
          B5_meshes & B5_triangles & B5_lights).
  destruct (ensureRtxdiContext_exact w fbinfo s1)
    as (B6_tr & B6_rt & B6_ctx & B6_res & B6_sky & B6_pdf & B6_local & B6_taa & B6_tone &
          B6_nrd & B6_reload & B6_params & B6_rq & B6_method & B6_map & B6_index & B6_dirty &
          B6_meshes & B6_triangles & B6_lights).
  set (a6 := ensureRtxdiContext w fbinfo s1) in *. clearbody a6.
  destruct (ensureRtxdiResources_exact _ _ _ _ _ H7)
    as (B7_tr & B7_x1 & B7_x2 & B7_x3 & B7_x4 & B7_rt & B7_ctx & B7_sky & B7_pdf & B7_local &
          B7_taa & B7_tone & B7_nrd & B7_reload & B7_params & B7_rq & B7_method & B7_map &
          B7_index & B7_dirty & B7_meshes & B7_triangles & B7_lights).
  destruct (ensureEnvironmentMapPdfMipmapPass_exact _ _ _ _ H8)
    as (B8_tr & B8_x1 & B8_x2 & B8_rt & B8_ctx & B8_res & B8_sky & B8_local & B8_taa & B8_tone
          & B8_nrd & B8_reload & B8_params & B8_rq & B8_method & B8_map & B8_index & B8_dirty &
          B8_meshes & B8_triangles & B8_lights).
  destruct (ensureLocalLightPdfMipmapPass_exact _ _ _ H9)
    as (B9_tr & B9_x1 & B9_x2 & B9_rt & B9_ctx & B9_res & B9_sky & B9_pdf & B9_taa & B9_tone &
          B9_nrd & B9_reload & B9_params & B9_rq & B9_method & B9_map & B9_index & B9_dirty &
          B9_meshes & B9_triangles & B9_lights).
  destruct (rebindLightingPasses_exact _ _ _ _ H10)
    as (B10_tr & B10_rt & B10_ctx & B10_res & B10_sky & B10_pdf & B10_local & B10_taa &
          B10_tone & B10_nrd & B10_reload & B10_params & B10_rq & B10_method & B10_map &
          B10_index & B10_dirty & B10_meshes & B10_triangles & B10_lights).
  destruct (ensureTemporalAntiAliasingPass_exact _ _ H11)
    as (B11_tr & B11_rt & B11_ctx & B11_res & B11_sky & B11_pdf & B11_local & B11_taa &
          B11_tone & B11_nrd & B11_reload & B11_params & B11_rq & B11_method & B11_map &
          B11_index & B11_dirty & B11_meshes & B11_triangles & B11_lights).
  destruct (ensureToneMappingPass_exact _ _ _ H12)
    as (B12_tr & B12_x1 & B12_x2 & B12_x3 & B12_rt & B12_ctx & B12_res & B12_sky & B12_pdf &
          B12_local & B12_taa & B12_nrd & B12_reload & B12_params & B12_rq & B12_method &
          B12_map & B12_index & B12_dirty & B12_meshes & B12_triangles & B12_lights).
  destruct (ensureNrdIntegration_exact _ _ _ H13)
    as (B13_tr & B13_x1 & B13_rt & B13_ctx & B13_res & B13_sky & B13_pdf & B13_local & B13_taa
          & B13_tone & B13_reload & B13_params & B13_rq & B13_method & B13_map & B13_index &
          B13_dirty & B13_meshes & B13_triangles & B13_lights).
  clear H5 H7 H8 H9 H10 H11 H12 H13.
  assert (rtCreated = isNull (m_RenderTargets s)) as ->
    by (by rewrite B5_x1, B4_rt, B3_rt, B2_rt, B1_rt).
  assert (resCreated = bundleCreated size s) as Ecreated.
  { unfold bundleCreated.
    rewrite B7_x1, B6_res, B5_res, B4_res, Estale, B3_res, B2_res, B1_res.
    unfold bundleStale. piece. }
  assert (reset = isNull (m_ToneMappingPass s)) as ->.
  { rewrite B12_x1, B11_tone, B10_tone, B9_tone, B8_tone, B7_tone, B6_tone, B5_tone,
      B4_tone, B3_tone, B2_tone, B1_tone. done. }
  split; [| split; [| split; [| split; [| split; [| split; [| split; [| split; [| split;
    [| split; [| split; [| split]]]]]]]]]]].
  - unfold newEvents, setupEvents, shaderReloadEvents, skyPassEvents, renderTargetEvents,
      contextEvents, bundleEvents, environmentPdfPassEvents, localPdfPassEvents,
      lightingBindingEvents, lightingPipelineEvents, taaPassEvents, toneMappingPassEvents,
      denoiserIntegrationEvents.
    rewrite B13_tr, B12_tr, B11_tr, B10_tr, B9_tr, B8_tr, B7_tr, B6_tr, B5_tr, B4_tr, B3_tr,
      B2_tr, B1_tr.
    rewrite !app_nil_r, <- !app_assoc, drop_app_length. rewrite <- Ecreated.
    clear B1_tr B2_tr B3_tr B4_tr B5_tr B6_tr B7_tr B8_tr B9_tr B10_tr B11_tr B12_tr B13_tr.
    split_app.
    all: rewrite ?B13_rt, ?B13_ctx, ?B13_res, ?B13_sky, ?B13_pdf, ?B13_local, ?B13_taa, ?B13_tone,
       ?B13_reload, ?B13_params, ?B13_rq, ?B13_method, ?B13_map, ?B13_index, ?B13_dirty,
       ?B13_meshes, ?B13_triangles, ?B13_lights, ?B12_rt, ?B12_ctx, ?B12_res, ?B12_sky, ?B12_pdf,
       ?B12_local, ?B12_taa, ?B12_nrd, ?B12_reload, ?B12_params, ?B12_rq, ?B12_method, ?B12_map,
       ?B12_index, ?B12_dirty, ?B12_meshes, ?B12_triangles, ?B12_lights, ?B11_rt, ?B11_ctx,
       ?B11_res, ?B11_sky, ?B11_pdf, ?B11_local, ?B11_taa, ?B11_tone, ?B11_nrd, ?B11_reload,
       ?B11_params, ?B11_rq, ?B11_method, ?B11_map, ?B11_index, ?B11_dirty, ?B11_meshes,
       ?B11_triangles, ?B11_lights, ?B10_rt, ?B10_ctx, ?B10_res, ?B10_sky, ?B10_pdf, ?B10_local,
       ?B10_taa, ?B10_tone, ?B10_nrd, ?B10_reload, ?B10_params, ?B10_rq, ?B10_method, ?B10_map,
       ?B10_index, ?B10_dirty, ?B10_meshes, ?B10_triangles, ?B10_lights, ?B9_rt, ?B9_ctx, ?B9_res,
       ?B9_sky, ?B9_pdf, ?B9_taa, ?B9_tone, ?B9_nrd, ?B9_reload, ?B9_params, ?B9_rq, ?B9_method,
       ?B9_map, ?B9_index, ?B9_dirty, ?B9_meshes, ?B9_triangles, ?B9_lights, ?B8_rt, ?B8_ctx,
       ?B8_res, ?B8_sky, ?B8_local, ?B8_taa, ?B8_tone, ?B8_nrd, ?B8_reload, ?B8_params, ?B8_rq,
       ?B8_method, ?B8_map, ?B8_index, ?B8_dirty, ?B8_meshes, ?B8_triangles, ?B8_lights, ?B7_rt,
       ?B7_ctx, ?B7_sky, ?B7_pdf, ?B7_local, ?B7_taa, ?B7_tone, ?B7_nrd, ?B7_reload, ?B7_params,
       ?B7_rq, ?B7_method, ?B7_map, ?B7_index, ?B7_dirty, ?B7_meshes, ?B7_triangles, ?B7_lights,
       ?B6_rt, ?B6_ctx, ?B6_res, ?B6_sky, ?B6_pdf, ?B6_local, ?B6_taa, ?B6_tone, ?B6_nrd,
       ?B6_reload, ?B6_params, ?B6_rq, ?B6_method, ?B6_map, ?B6_index, ?B6_dirty, ?B6_meshes,
       ?B6_triangles, ?B6_lights, ?B5_rt, ?B5_ctx, ?B5_res, ?B5_sky, ?B5_pdf, ?B5_local, ?B5_taa,
       ?B5_tone, ?B5_nrd, ?B5_reload, ?B5_params, ?B5_rq, ?B5_method, ?B5_map, ?B5_index,
       ?B5_dirty, ?B5_meshes, ?B5_triangles, ?B5_lights, ?B4_rt, ?B4_ctx, ?B4_res, ?B4_sky,
       ?B4_pdf, ?B4_local, ?B4_taa, ?B4_tone, ?B4_nrd, ?B4_reload, ?B4_params, ?B4_rq, ?B4_method,
       ?B4_map, ?B4_index, ?B4_dirty, ?B4_meshes, ?B4_triangles, ?B4_lights, ?B3_rt, ?B3_ctx,
       ?B3_res, ?B3_sky, ?B3_pdf, ?B3_local, ?B3_taa, ?B3_tone, ?B3_nrd, ?B3_reload, ?B3_params,
       ?B3_rq, ?B3_method, ?B3_map, ?B3_index, ?B3_dirty, ?B3_meshes, ?B3_triangles, ?B3_lights,
       ?B2_rt, ?B2_ctx, ?B2_res, ?B2_sky, ?B2_pdf, ?B2_local, ?B2_taa, ?B2_tone, ?B2_nrd,
       ?B2_reload, ?B2_params, ?B2_rq, ?B2_method, ?B2_map, ?B2_index, ?B2_dirty, ?B2_meshes,
       ?B2_triangles, ?B2_lights, ?B1_rt, ?B1_ctx, ?B1_res, ?B1_sky, ?B1_pdf, ?B1_local, ?B1_taa,
       ?B1_tone, ?B1_nrd, ?B1_reload, ?B1_params, ?B1_rq, ?B1_method, ?B1_map, ?B1_index,
       ?B1_dirty, ?B1_meshes, ?B1_triangles, ?B1_lights.
    all: piece.
  - rewrite ?B13_rt, ?B13_ctx, ?B13_res, ?B13_sky, ?B13_pdf, ?B13_local, ?B13_taa, ?B13_tone,
    ?B13_reload, ?B13_params, ?B13_rq, ?B13_method, ?B13_map, ?B13_index, ?B13_dirty,
    ?B13_meshes, ?B13_triangles, ?B13_lights, ?B12_rt, ?B12_ctx, ?B12_res, ?B12_sky, ?B12_pdf,
    ?B12_local, ?B12_taa, ?B12_nrd, ?B12_reload, ?B12_params, ?B12_rq, ?B12_method, ?B12_map,
    ?B12_index, ?B12_dirty, ?B12_meshes, ?B12_triangles, ?B12_lights, ?B11_rt, ?B11_ctx,
    ?B11_res, ?B11_sky, ?B11_pdf, ?B11_local, ?B11_taa, ?B11_tone, ?B11_nrd, ?B11_reload,
    ?B11_params, ?B11_rq, ?B11_method, ?B11_map, ?B11_index, ?B11_dirty, ?B11_meshes,
    ?B11_triangles, ?B11_lights, ?B10_rt, ?B10_ctx, ?B10_res, ?B10_sky, ?B10_pdf, ?B10_local,
    ?B10_taa, ?B10_tone, ?B10_nrd, ?B10_reload, ?B10_params, ?B10_rq, ?B10_method, ?B10_map,
    ?B10_index, ?B10_dirty, ?B10_meshes, ?B10_triangles, ?B10_lights, ?B9_rt, ?B9_ctx, ?B9_res,
    ?B9_sky, ?B9_pdf, ?B9_taa, ?B9_tone, ?B9_nrd, ?B9_reload, ?B9_params, ?B9_rq, ?B9_method,
    ?B9_map, ?B9_index, ?B9_dirty, ?B9_meshes, ?B9_triangles, ?B9_lights, ?B8_rt, ?B8_ctx,
    ?B8_res, ?B8_sky, ?B8_local, ?B8_taa, ?B8_tone, ?B8_nrd, ?B8_reload, ?B8_params, ?B8_rq,
    ?B8_method, ?B8_map, ?B8_index, ?B8_dirty, ?B8_meshes, ?B8_triangles, ?B8_lights, ?B7_rt,
    ?B7_ctx, ?B7_sky, ?B7_pdf, ?B7_local, ?B7_taa, ?B7_tone, ?B7_nrd, ?B7_reload, ?B7_params,
    ?B7_rq, ?B7_method, ?B7_map, ?B7_index, ?B7_dirty, ?B7_meshes, ?B7_triangles, ?B7_lights,
    ?B6_rt, ?B6_ctx, ?B6_res, ?B6_sky, ?B6_pdf, ?B6_local, ?B6_taa, ?B6_tone, ?B6_nrd,
    ?B6_reload, ?B6_params, ?B6_rq, ?B6_method, ?B6_map, ?B6_index, ?B6_dirty, ?B6_meshes,
    ?B6_triangles, ?B6_lights, ?B5_rt, ?B5_ctx, ?B5_res, ?B5_sky, ?B5_pdf, ?B5_local, ?B5_taa,
    ?B5_tone, ?B5_nrd, ?B5_reload, ?B5_params, ?B5_rq, ?B5_method, ?B5_map, ?B5_index,
    ?B5_dirty, ?B5_meshes, ?B5_triangles, ?B5_lights, ?B4_rt, ?B4_ctx, ?B4_res, ?B4_sky,
    ?B4_pdf, ?B4_local, ?B4_taa, ?B4_tone, ?B4_nrd, ?B4_reload, ?B4_params, ?B4_rq, ?B4_method,
    ?B4_map, ?B4_index, ?B4_dirty, ?B4_meshes, ?B4_triangles, ?B4_lights, ?B3_rt, ?B3_ctx,
    ?B3_res, ?B3_sky, ?B3_pdf, ?B3_local, ?B3_taa, ?B3_tone, ?B3_nrd, ?B3_reload, ?B3_params,
    ?B3_rq, ?B3_method, ?B3_map, ?B3_index, ?B3_dirty, ?B3_meshes, ?B3_triangles, ?B3_lights,
    ?B2_rt, ?B2_ctx, ?B2_res, ?B2_sky, ?B2_pdf, ?B2_local, ?B2_taa, ?B2_tone, ?B2_nrd,
    ?B2_reload, ?B2_params, ?B2_rq, ?B2_method, ?B2_map, ?B2_index, ?B2_dirty, ?B2_meshes,
    ?B2_triangles, ?B2_lights, ?B1_rt, ?B1_ctx, ?B1_res, ?B1_sky, ?B1_pdf, ?B1_local, ?B1_taa,
    ?B1_tone, ?B1_nrd, ?B1_reload, ?B1_params, ?B1_rq, ?B1_method, ?B1_map, ?B1_index,
    ?B1_dirty, ?B1_meshes, ?B1_triangles, ?B1_lights.
    done.
  - rewrite ?B13_rt, ?B13_ctx, ?B13_res, ?B13_sky, ?B13_pdf, ?B13_local, ?B13_taa, ?B13_tone,
    ?B13_reload, ?B13_params, ?B13_rq, ?B13_method, ?B13_map, ?B13_index, ?B13_dirty,
    ?B13_meshes, ?B13_triangles, ?B13_lights, ?B12_rt, ?B12_ctx, ?B12_res, ?B12_sky, ?B12_pdf,
    ?B12_local, ?B12_taa, ?B12_nrd, ?B12_reload, ?B12_params, ?B12_rq, ?B12_method, ?B12_map,
    ?B12_index, ?B12_dirty, ?B12_meshes, ?B12_triangles, ?B12_lights, ?B11_rt, ?B11_ctx,
    ?B11_res, ?B11_sky, ?B11_pdf, ?B11_local, ?B11_taa, ?B11_tone, ?B11_nrd, ?B11_reload,
    ?B11_params, ?B11_rq, ?B11_method, ?B11_map, ?B11_index, ?B11_dirty, ?B11_meshes,
    ?B11_triangles, ?B11_lights, ?B10_rt, ?B10_ctx, ?B10_res, ?B10_sky, ?B10_pdf, ?B10_local,
    ?B10_taa, ?B10_tone, ?B10_nrd, ?B10_reload, ?B10_params, ?B10_rq, ?B10_method, ?B10_map,
    ?B10_index, ?B10_dirty, ?B10_meshes, ?B10_triangles, ?B10_lights, ?B9_rt, ?B9_ctx, ?B9_res,
    ?B9_sky, ?B9_pdf, ?B9_taa, ?B9_tone, ?B9_nrd, ?B9_reload, ?B9_params, ?B9_rq, ?B9_method,
    ?B9_map, ?B9_index, ?B9_dirty, ?B9_meshes, ?B9_triangles, ?B9_lights, ?B8_rt, ?B8_ctx,
    ?B8_res, ?B8_sky, ?B8_local, ?B8_taa, ?B8_tone, ?B8_nrd, ?B8_reload, ?B8_params, ?B8_rq,
    ?B8_method, ?B8_map, ?B8_index, ?B8_dirty, ?B8_meshes, ?B8_triangles, ?B8_lights, ?B7_rt,
    ?B7_ctx, ?B7_sky, ?B7_pdf, ?B7_local, ?B7_taa, ?B7_tone, ?B7_nrd, ?B7_reload, ?B7_params,
    ?B7_rq, ?B7_method, ?B7_map, ?B7_index, ?B7_dirty, ?B7_meshes, ?B7_triangles, ?B7_lights,
    ?B6_rt, ?B6_ctx, ?B6_res, ?B6_sky, ?B6_pdf, ?B6_local, ?B6_taa, ?B6_tone, ?B6_nrd,
    ?B6_reload, ?B6_params, ?B6_rq, ?B6_method, ?B6_map, ?B6_index, ?B6_dirty, ?B6_meshes,
    ?B6_triangles, ?B6_lights, ?B5_rt, ?B5_ctx, ?B5_res, ?B5_sky, ?B5_pdf, ?B5_local, ?B5_taa,
    ?B5_tone, ?B5_nrd, ?B5_reload, ?B5_params, ?B5_rq, ?B5_method, ?B5_map, ?B5_index,
    ?B5_dirty, ?B5_meshes, ?B5_triangles, ?B5_lights, ?B4_rt, ?B4_ctx, ?B4_res, ?B4_sky,
    ?B4_pdf, ?B4_local, ?B4_taa, ?B4_tone, ?B4_nrd, ?B4_reload, ?B4_params, ?B4_rq, ?B4_method,
    ?B4_map, ?B4_index, ?B4_dirty, ?B4_meshes, ?B4_triangles, ?B4_lights, ?B3_rt, ?B3_ctx,
    ?B3_res, ?B3_sky, ?B3_pdf, ?B3_local, ?B3_taa, ?B3_tone, ?B3_nrd, ?B3_reload, ?B3_params,
    ?B3_rq, ?B3_method, ?B3_map, ?B3_index, ?B3_dirty, ?B3_meshes, ?B3_triangles, ?B3_lights,
    ?B2_rt, ?B2_ctx, ?B2_res, ?B2_sky, ?B2_pdf, ?B2_local, ?B2_taa, ?B2_tone, ?B2_nrd,
    ?B2_reload, ?B2_params, ?B2_rq, ?B2_method, ?B2_map, ?B2_index, ?B2_dirty, ?B2_meshes,
    ?B2_triangles, ?B2_lights, ?B1_rt, ?B1_ctx, ?B1_res, ?B1_sky, ?B1_pdf, ?B1_local, ?B1_taa,
    ?B1_tone, ?B1_nrd, ?B1_reload, ?B1_params, ?B1_rq, ?B1_method, ?B1_map, ?B1_index,
    ?B1_dirty, ?B1_meshes, ?B1_triangles, ?B1_lights.
    done.
  - rewrite ?B13_rt, ?B13_ctx, ?B13_res, ?B13_sky, ?B13_pdf, ?B13_local, ?B13_taa, ?B13_tone,
    ?B13_reload, ?B13_params, ?B13_rq, ?B13_method, ?B13_map, ?B13_index, ?B13_dirty,
    ?B13_meshes, ?B13_triangles, ?B13_lights, ?B12_rt, ?B12_ctx, ?B12_res, ?B12_sky, ?B12_pdf,
    ?B12_local, ?B12_taa, ?B12_nrd, ?B12_reload, ?B12_params, ?B12_rq, ?B12_method, ?B12_map,
    ?B12_index, ?B12_dirty, ?B12_meshes, ?B12_triangles, ?B12_lights, ?B11_rt, ?B11_ctx,
    ?B11_res, ?B11_sky, ?B11_pdf, ?B11_local, ?B11_taa, ?B11_tone, ?B11_nrd, ?B11_reload,
    ?B11_params, ?B11_rq, ?B11_method, ?B11_map, ?B11_index, ?B11_dirty, ?B11_meshes,
    ?B11_triangles, ?B11_lights, ?B10_rt, ?B10_ctx, ?B10_res, ?B10_sky, ?B10_pdf, ?B10_local,
    ?B10_taa, ?B10_tone, ?B10_nrd, ?B10_reload, ?B10_params, ?B10_rq, ?B10_method, ?B10_map,
    ?B10_index, ?B10_dirty, ?B10_meshes, ?B10_triangles, ?B10_lights, ?B9_rt, ?B9_ctx, ?B9_res,
    ?B9_sky, ?B9_pdf, ?B9_taa, ?B9_tone, ?B9_nrd, ?B9_reload, ?B9_params, ?B9_rq, ?B9_method,
    ?B9_map, ?B9_index, ?B9_dirty, ?B9_meshes, ?B9_triangles, ?B9_lights, ?B8_rt, ?B8_ctx,
    ?B8_res, ?B8_sky, ?B8_local, ?B8_taa, ?B8_tone, ?B8_nrd, ?B8_reload, ?B8_params, ?B8_rq,
    ?B8_method, ?B8_map, ?B8_index, ?B8_dirty, ?B8_meshes, ?B8_triangles, ?B8_lights, ?B7_rt,
    ?B7_ctx, ?B7_sky, ?B7_pdf, ?B7_local, ?B7_taa, ?B7_tone, ?B7_nrd, ?B7_reload, ?B7_params,
    ?B7_rq, ?B7_method, ?B7_map, ?B7_index, ?B7_dirty, ?B7_meshes, ?B7_triangles, ?B7_lights,
    ?B6_rt, ?B6_ctx, ?B6_res, ?B6_sky, ?B6_pdf, ?B6_local, ?B6_taa, ?B6_tone, ?B6_nrd,
    ?B6_reload, ?B6_params, ?B6_rq, ?B6_method, ?B6_map, ?B6_index, ?B6_dirty, ?B6_meshes,
    ?B6_triangles, ?B6_lights, ?B5_rt, ?B5_ctx, ?B5_res, ?B5_sky, ?B5_pdf, ?B5_local, ?B5_taa,
    ?B5_tone, ?B5_nrd, ?B5_reload, ?B5_params, ?B5_rq, ?B5_method, ?B5_map, ?B5_index,
    ?B5_dirty, ?B5_meshes, ?B5_triangles, ?B5_lights, ?B4_rt, ?B4_ctx, ?B4_res, ?B4_sky,
    ?B4_pdf, ?B4_local, ?B4_taa, ?B4_tone, ?B4_nrd, ?B4_reload, ?B4_params, ?B4_rq, ?B4_method,
    ?B4_map, ?B4_index, ?B4_dirty, ?B4_meshes, ?B4_triangles, ?B4_lights, ?B3_rt, ?B3_ctx,
    ?B3_res, ?B3_sky, ?B3_pdf, ?B3_local, ?B3_taa, ?B3_tone, ?B3_nrd, ?B3_reload, ?B3_params,
    ?B3_rq, ?B3_method, ?B3_map, ?B3_index, ?B3_dirty, ?B3_meshes, ?B3_triangles, ?B3_lights,
    ?B2_rt, ?B2_ctx, ?B2_res, ?B2_sky, ?B2_pdf, ?B2_local, ?B2_taa, ?B2_tone, ?B2_nrd,
    ?B2_reload, ?B2_params, ?B2_rq, ?B2_method, ?B2_map, ?B2_index, ?B2_dirty, ?B2_meshes,
    ?B2_triangles, ?B2_lights, ?B1_rt, ?B1_ctx, ?B1_res, ?B1_sky, ?B1_pdf, ?B1_local, ?B1_taa,
    ?B1_tone, ?B1_nrd, ?B1_reload, ?B1_params, ?B1_rq, ?B1_method, ?B1_map, ?B1_index,
    ?B1_dirty, ?B1_meshes, ?B1_triangles, ?B1_lights.
    done.
  - by rewrite B13_res, B12_res, B11_res, B10_res, B9_res, B8_res.
  - intros Hno. rewrite <- Ecreated in Hno.
    rewrite B13_res, B12_res, B11_res, B10_res, B9_res, B8_res, (B7_x3 Hno), B6_res, B5_res,
      B4_res, Estale, B3_res, B2_res, B1_res.
    rewrite Hno in Ecreated. unfold bundleCreated in Ecreated.
    destruct (bundleStale size s); [| done]. by rewrite orb_true_r in Ecreated.
  - rewrite ?B13_rt, ?B13_ctx, ?B13_res, ?B13_sky, ?B13_pdf, ?B13_local, ?B13_taa, ?B13_tone,
    ?B13_reload, ?B13_params, ?B13_rq, ?B13_method, ?B13_map, ?B13_index, ?B13_dirty,
    ?B13_meshes, ?B13_triangles, ?B13_lights, ?B12_rt, ?B12_ctx, ?B12_res, ?B12_sky, ?B12_pdf,
    ?B12_local, ?B12_taa, ?B12_nrd, ?B12_reload, ?B12_params, ?B12_rq, ?B12_method, ?B12_map,
    ?B12_index, ?B12_dirty, ?B12_meshes, ?B12_triangles, ?B12_lights, ?B11_rt, ?B11_ctx,
    ?B11_res, ?B11_sky, ?B11_pdf, ?B11_local, ?B11_taa, ?B11_tone, ?B11_nrd, ?B11_reload,
    ?B11_params, ?B11_rq, ?B11_method, ?B11_map, ?B11_index, ?B11_dirty, ?B11_meshes,
    ?B11_triangles, ?B11_lights, ?B10_rt, ?B10_ctx, ?B10_res, ?B10_sky, ?B10_pdf, ?B10_local,
    ?B10_taa, ?B10_tone, ?B10_nrd, ?B10_reload, ?B10_params, ?B10_rq, ?B10_method, ?B10_map,
    ?B10_index, ?B10_dirty, ?B10_meshes, ?B10_triangles, ?B10_lights, ?B9_rt, ?B9_ctx, ?B9_res,
    ?B9_sky, ?B9_pdf, ?B9_taa, ?B9_tone, ?B9_nrd, ?B9_reload, ?B9_params, ?B9_rq, ?B9_method,
    ?B9_map, ?B9_index, ?B9_dirty, ?B9_meshes, ?B9_triangles, ?B9_lights, ?B8_rt, ?B8_ctx,
    ?B8_res, ?B8_sky, ?B8_local, ?B8_taa, ?B8_tone, ?B8_nrd, ?B8_reload, ?B8_params, ?B8_rq,
    ?B8_method, ?B8_map, ?B8_index, ?B8_dirty, ?B8_meshes, ?B8_triangles, ?B8_lights, ?B7_rt,
    ?B7_ctx, ?B7_sky, ?B7_pdf, ?B7_local, ?B7_taa, ?B7_tone, ?B7_nrd, ?B7_reload, ?B7_params,
    ?B7_rq, ?B7_method, ?B7_map, ?B7_index, ?B7_dirty, ?B7_meshes, ?B7_triangles, ?B7_lights,
    ?B6_rt, ?B6_ctx, ?B6_res, ?B6_sky, ?B6_pdf, ?B6_local, ?B6_taa, ?B6_tone, ?B6_nrd,
    ?B6_reload, ?B6_params, ?B6_rq, ?B6_method, ?B6_map, ?B6_index, ?B6_dirty, ?B6_meshes,
    ?B6_triangles, ?B6_lights, ?B5_rt, ?B5_ctx, ?B5_res, ?B5_sky, ?B5_pdf, ?B5_local, ?B5_taa,
    ?B5_tone, ?B5_nrd, ?B5_reload, ?B5_params, ?B5_rq, ?B5_method, ?B5_map, ?B5_index,
    ?B5_dirty, ?B5_meshes, ?B5_triangles, ?B5_lights, ?B4_rt, ?B4_ctx, ?B4_res, ?B4_sky,
    ?B4_pdf, ?B4_local, ?B4_taa, ?B4_tone, ?B4_nrd, ?B4_reload, ?B4_params, ?B4_rq, ?B4_method,
    ?B4_map, ?B4_index, ?B4_dirty, ?B4_meshes, ?B4_triangles, ?B4_lights, ?B3_rt, ?B3_ctx,
    ?B3_res, ?B3_sky, ?B3_pdf, ?B3_local, ?B3_taa, ?B3_tone, ?B3_nrd, ?B3_reload, ?B3_params,
    ?B3_rq, ?B3_method, ?B3_map, ?B3_index, ?B3_dirty, ?B3_meshes, ?B3_triangles, ?B3_lights,
    ?B2_rt, ?B2_ctx, ?B2_res, ?B2_sky, ?B2_pdf, ?B2_local, ?B2_taa, ?B2_tone, ?B2_nrd,
    ?B2_reload, ?B2_params, ?B2_rq, ?B2_method, ?B2_map, ?B2_index, ?B2_dirty, ?B2_meshes,
    ?B2_triangles, ?B2_lights, ?B1_rt, ?B1_ctx, ?B1_res, ?B1_sky, ?B1_pdf, ?B1_local, ?B1_taa,
    ?B1_tone, ?B1_nrd, ?B1_reload, ?B1_params, ?B1_rq, ?B1_method, ?B1_map, ?B1_index,
    ?B1_dirty, ?B1_meshes, ?B1_triangles, ?B1_lights.
    done.
  - rewrite ?B13_rt, ?B13_ctx, ?B13_res, ?B13_sky, ?B13_pdf, ?B13_local, ?B13_taa, ?B13_tone,
    ?B13_reload, ?B13_params, ?B13_rq, ?B13_method, ?B13_map, ?B13_index, ?B13_dirty,
    ?B13_meshes, ?B13_triangles, ?B13_lights, ?B12_rt, ?B12_ctx, ?B12_res, ?B12_sky, ?B12_pdf,
    ?B12_local, ?B12_taa, ?B12_nrd, ?B12_reload, ?B12_params, ?B12_rq, ?B12_method, ?B12_map,
    ?B12_index, ?B12_dirty, ?B12_meshes, ?B12_triangles, ?B12_lights, ?B11_rt, ?B11_ctx,
    ?B11_res, ?B11_sky, ?B11_pdf, ?B11_local, ?B11_taa, ?B11_tone, ?B11_nrd, ?B11_reload,
    ?B11_params, ?B11_rq, ?B11_method, ?B11_map, ?B11_index, ?B11_dirty, ?B11_meshes,
    ?B11_triangles, ?B11_lights, ?B10_rt, ?B10_ctx, ?B10_res, ?B10_sky, ?B10_pdf, ?B10_local,
    ?B10_taa, ?B10_tone, ?B10_nrd, ?B10_reload, ?B10_params, ?B10_rq, ?B10_method, ?B10_map,
    ?B10_index, ?B10_dirty, ?B10_meshes, ?B10_triangles, ?B10_lights, ?B9_rt, ?B9_ctx, ?B9_res,
    ?B9_sky, ?B9_pdf, ?B9_taa, ?B9_tone, ?B9_nrd, ?B9_reload, ?B9_params, ?B9_rq, ?B9_method,
    ?B9_map, ?B9_index, ?B9_dirty, ?B9_meshes, ?B9_triangles, ?B9_lights, ?B8_rt, ?B8_ctx,
    ?B8_res, ?B8_sky, ?B8_local, ?B8_taa, ?B8_tone, ?B8_nrd, ?B8_reload, ?B8_params, ?B8_rq,
    ?B8_method, ?B8_map, ?B8_index, ?B8_dirty, ?B8_meshes, ?B8_triangles, ?B8_lights, ?B7_rt,
    ?B7_ctx, ?B7_sky, ?B7_pdf, ?B7_local, ?B7_taa, ?B7_tone, ?B7_nrd, ?B7_reload, ?B7_params,
    ?B7_rq, ?B7_method, ?B7_map, ?B7_index, ?B7_dirty, ?B7_meshes, ?B7_triangles, ?B7_lights,
    ?B6_rt, ?B6_ctx, ?B6_res, ?B6_sky, ?B6_pdf, ?B6_local, ?B6_taa, ?B6_tone, ?B6_nrd,
    ?B6_reload, ?B6_params, ?B6_rq, ?B6_method, ?B6_map, ?B6_index, ?B6_dirty, ?B6_meshes,
    ?B6_triangles, ?B6_lights, ?B5_rt, ?B5_ctx, ?B5_res, ?B5_sky, ?B5_pdf, ?B5_local, ?B5_taa,
    ?B5_tone, ?B5_nrd, ?B5_reload, ?B5_params, ?B5_rq, ?B5_method, ?B5_map, ?B5_index,
    ?B5_dirty, ?B5_meshes, ?B5_triangles, ?B5_lights, ?B4_rt, ?B4_ctx, ?B4_res, ?B4_sky,
    ?B4_pdf, ?B4_local, ?B4_taa, ?B4_tone, ?B4_nrd, ?B4_reload, ?B4_params, ?B4_rq, ?B4_method,
    ?B4_map, ?B4_index, ?B4_dirty, ?B4_meshes, ?B4_triangles, ?B4_lights, ?B3_rt, ?B3_ctx,
    ?B3_res, ?B3_sky, ?B3_pdf, ?B3_local, ?B3_taa, ?B3_tone, ?B3_nrd, ?B3_reload, ?B3_params,
    ?B3_rq, ?B3_method, ?B3_map, ?B3_index, ?B3_dirty, ?B3_meshes, ?B3_triangles, ?B3_lights,
    ?B2_rt, ?B2_ctx, ?B2_res, ?B2_sky, ?B2_pdf, ?B2_local, ?B2_taa, ?B2_tone, ?B2_nrd,
    ?B2_reload, ?B2_params, ?B2_rq, ?B2_method, ?B2_map, ?B2_index, ?B2_dirty, ?B2_meshes,
    ?B2_triangles, ?B2_lights, ?B1_rt, ?B1_ctx, ?B1_res, ?B1_sky, ?B1_pdf, ?B1_local, ?B1_taa,
    ?B1_tone, ?B1_nrd, ?B1_reload, ?B1_params, ?B1_rq, ?B1_method, ?B1_map, ?B1_index,
    ?B1_dirty, ?B1_meshes, ?B1_triangles, ?B1_lights.
    done.
  - rewrite ?B13_rt, ?B13_ctx, ?B13_res, ?B13_sky, ?B13_pdf, ?B13_local, ?B13_taa, ?B13_tone,
    ?B13_reload, ?B13_params, ?B13_rq, ?B13_method, ?B13_map, ?B13_index, ?B13_dirty,
    ?B13_meshes, ?B13_triangles, ?B13_lights, ?B12_rt, ?B12_ctx, ?B12_res, ?B12_sky, ?B12_pdf,
    ?B12_local, ?B12_taa, ?B12_nrd, ?B12_reload, ?B12_params, ?B12_rq, ?B12_method, ?B12_map,
    ?B12_index, ?B12_dirty, ?B12_meshes, ?B12_triangles, ?B12_lights, ?B11_rt, ?B11_ctx,
    ?B11_res, ?B11_sky, ?B11_pdf, ?B11_local, ?B11_taa, ?B11_tone, ?B11_nrd, ?B11_reload,
    ?B11_params, ?B11_rq, ?B11_method, ?B11_map, ?B11_index, ?B11_dirty, ?B11_meshes,
    ?B11_triangles, ?B11_lights, ?B10_rt, ?B10_ctx, ?B10_res, ?B10_sky, ?B10_pdf, ?B10_local,
    ?B10_taa, ?B10_tone, ?B10_nrd, ?B10_reload, ?B10_params, ?B10_rq, ?B10_method, ?B10_map,
    ?B10_index, ?B10_dirty, ?B10_meshes, ?B10_triangles, ?B10_lights, ?B9_rt, ?B9_ctx, ?B9_res,
    ?B9_sky, ?B9_pdf, ?B9_taa, ?B9_tone, ?B9_nrd, ?B9_reload, ?B9_params, ?B9_rq, ?B9_method,
    ?B9_map, ?B9_index, ?B9_dirty, ?B9_meshes, ?B9_triangles, ?B9_lights, ?B8_rt, ?B8_ctx,
    ?B8_res, ?B8_sky, ?B8_local, ?B8_taa, ?B8_tone, ?B8_nrd, ?B8_reload, ?B8_params, ?B8_rq,
    ?B8_method, ?B8_map, ?B8_index, ?B8_dirty, ?B8_meshes, ?B8_triangles, ?B8_lights, ?B7_rt,
    ?B7_ctx, ?B7_sky, ?B7_pdf, ?B7_local, ?B7_taa, ?B7_tone, ?B7_nrd, ?B7_reload, ?B7_params,
    ?B7_rq, ?B7_method, ?B7_map, ?B7_index, ?B7_dirty, ?B7_meshes, ?B7_triangles, ?B7_lights,
    ?B6_rt, ?B6_ctx, ?B6_res, ?B6_sky, ?B6_pdf, ?B6_local, ?B6_taa, ?B6_tone, ?B6_nrd,
    ?B6_reload, ?B6_params, ?B6_rq, ?B6_method, ?B6_map, ?B6_index, ?B6_dirty, ?B6_meshes,
    ?B6_triangles, ?B6_lights, ?B5_rt, ?B5_ctx, ?B5_res, ?B5_sky, ?B5_pdf, ?B5_local, ?B5_taa,
    ?B5_tone, ?B5_nrd, ?B5_reload, ?B5_params, ?B5_rq, ?B5_method, ?B5_map, ?B5_index,
    ?B5_dirty, ?B5_meshes, ?B5_triangles, ?B5_lights, ?B4_rt, ?B4_ctx, ?B4_res, ?B4_sky,
    ?B4_pdf, ?B4_local, ?B4_taa, ?B4_tone, ?B4_nrd, ?B4_reload, ?B4_params, ?B4_rq, ?B4_method,
    ?B4_map, ?B4_index, ?B4_dirty, ?B4_meshes, ?B4_triangles, ?B4_lights, ?B3_rt, ?B3_ctx,
    ?B3_res, ?B3_sky, ?B3_pdf, ?B3_local, ?B3_taa, ?B3_tone, ?B3_nrd, ?B3_reload, ?B3_params,
    ?B3_rq, ?B3_method, ?B3_map, ?B3_index, ?B3_dirty, ?B3_meshes, ?B3_triangles, ?B3_lights,
    ?B2_rt, ?B2_ctx, ?B2_res, ?B2_sky, ?B2_pdf, ?B2_local, ?B2_taa, ?B2_tone, ?B2_nrd,
    ?B2_reload, ?B2_params, ?B2_rq, ?B2_method, ?B2_map, ?B2_index, ?B2_dirty, ?B2_meshes,
    ?B2_triangles, ?B2_lights, ?B1_rt, ?B1_ctx, ?B1_res, ?B1_sky, ?B1_pdf, ?B1_local, ?B1_taa,
    ?B1_tone, ?B1_nrd, ?B1_reload, ?B1_params, ?B1_rq, ?B1_method, ?B1_map, ?B1_index,
    ?B1_dirty, ?B1_meshes, ?B1_triangles, ?B1_lights.
    rewrite <- Ecreated. piece.
  - rewrite ?B13_rt, ?B13_ctx, ?B13_res, ?B13_sky, ?B13_pdf, ?B13_local, ?B13_taa, ?B13_tone,
    ?B13_reload, ?B13_params, ?B13_rq, ?B13_method, ?B13_map, ?B13_index, ?B13_dirty,
    ?B13_meshes, ?B13_triangles, ?B13_lights, ?B12_rt, ?B12_ctx, ?B12_res, ?B12_sky, ?B12_pdf,
    ?B12_local, ?B12_taa, ?B12_nrd, ?B12_reload, ?B12_params, ?B12_rq, ?B12_method, ?B12_map,
    ?B12_index, ?B12_dirty, ?B12_meshes, ?B12_triangles, ?B12_lights, ?B11_rt, ?B11_ctx,
    ?B11_res, ?B11_sky, ?B11_pdf, ?B11_local, ?B11_taa, ?B11_tone, ?B11_nrd, ?B11_reload,
    ?B11_params, ?B11_rq, ?B11_method, ?B11_map, ?B11_index, ?B11_dirty, ?B11_meshes,
    ?B11_triangles, ?B11_lights, ?B10_rt, ?B10_ctx, ?B10_res, ?B10_sky, ?B10_pdf, ?B10_local,
    ?B10_taa, ?B10_tone, ?B10_nrd, ?B10_reload, ?B10_params, ?B10_rq, ?B10_method, ?B10_map,
    ?B10_index, ?B10_dirty, ?B10_meshes, ?B10_triangles, ?B10_lights, ?B9_rt, ?B9_ctx, ?B9_res,
    ?B9_sky, ?B9_pdf, ?B9_taa, ?B9_tone, ?B9_nrd, ?B9_reload, ?B9_params, ?B9_rq, ?B9_method,
    ?B9_map, ?B9_index, ?B9_dirty, ?B9_meshes, ?B9_triangles, ?B9_lights, ?B8_rt, ?B8_ctx,
    ?B8_res, ?B8_sky, ?B8_local, ?B8_taa, ?B8_tone, ?B8_nrd, ?B8_reload, ?B8_params, ?B8_rq,
    ?B8_method, ?B8_map, ?B8_index, ?B8_dirty, ?B8_meshes, ?B8_triangles, ?B8_lights, ?B7_rt,
    ?B7_ctx, ?B7_sky, ?B7_pdf, ?B7_local, ?B7_taa, ?B7_tone, ?B7_nrd, ?B7_reload, ?B7_params,
    ?B7_rq, ?B7_method, ?B7_map, ?B7_index, ?B7_dirty, ?B7_meshes, ?B7_triangles, ?B7_lights,
    ?B6_rt, ?B6_ctx, ?B6_res, ?B6_sky, ?B6_pdf, ?B6_local, ?B6_taa, ?B6_tone, ?B6_nrd,
    ?B6_reload, ?B6_params, ?B6_rq, ?B6_method, ?B6_map, ?B6_index, ?B6_dirty, ?B6_meshes,
    ?B6_triangles, ?B6_lights, ?B5_rt, ?B5_ctx, ?B5_res, ?B5_sky, ?B5_pdf, ?B5_local, ?B5_taa,
    ?B5_tone, ?B5_nrd, ?B5_reload, ?B5_params, ?B5_rq, ?B5_method, ?B5_map, ?B5_index,
    ?B5_dirty, ?B5_meshes, ?B5_triangles, ?B5_lights, ?B4_rt, ?B4_ctx, ?B4_res, ?B4_sky,
    ?B4_pdf, ?B4_local, ?B4_taa, ?B4_tone, ?B4_nrd, ?B4_reload, ?B4_params, ?B4_rq, ?B4_method,
    ?B4_map, ?B4_index, ?B4_dirty, ?B4_meshes, ?B4_triangles, ?B4_lights, ?B3_rt, ?B3_ctx,
    ?B3_res, ?B3_sky, ?B3_pdf, ?B3_local, ?B3_taa, ?B3_tone, ?B3_nrd, ?B3_reload, ?B3_params,
    ?B3_rq, ?B3_method, ?B3_map, ?B3_index, ?B3_dirty, ?B3_meshes, ?B3_triangles, ?B3_lights,
    ?B2_rt, ?B2_ctx, ?B2_res, ?B2_sky, ?B2_pdf, ?B2_local, ?B2_taa, ?B2_tone, ?B2_nrd,
    ?B2_reload, ?B2_params, ?B2_rq, ?B2_method, ?B2_map, ?B2_index, ?B2_dirty, ?B2_meshes,
    ?B2_triangles, ?B2_lights, ?B1_rt, ?B1_ctx, ?B1_res, ?B1_sky, ?B1_pdf, ?B1_local, ?B1_taa,
    ?B1_tone, ?B1_nrd, ?B1_reload, ?B1_params, ?B1_rq, ?B1_method, ?B1_map, ?B1_index,
    ?B1_dirty, ?B1_meshes, ?B1_triangles, ?B1_lights.
    piece.
  - intros Hno. rewrite <- Ecreated in Hno.
    destruct resCreated; [done |]. cbn [orb] in Hno.
    rewrite B13_pdf, B12_pdf, B11_pdf, B10_pdf, B9_pdf.
    assert (isNull (m_EnvironmentMapPdfMipmapPass s2) || false = false) as Hkeep.
    { rewrite ?B13_rt, ?B13_ctx, ?B13_res, ?B13_sky, ?B13_pdf, ?B13_local, ?B13_taa, ?B13_tone,
        ?B13_reload, ?B13_params, ?B13_rq, ?B13_method, ?B13_map, ?B13_index, ?B13_dirty,
        ?B13_meshes, ?B13_triangles, ?B13_lights, ?B12_rt, ?B12_ctx, ?B12_res, ?B12_sky, ?B12_pdf,
        ?B12_local, ?B12_taa, ?B12_nrd, ?B12_reload, ?B12_params, ?B12_rq, ?B12_method, ?B12_map,
        ?B12_index, ?B12_dirty, ?B12_meshes, ?B12_triangles, ?B12_lights, ?B11_rt, ?B11_ctx,
        ?B11_res, ?B11_sky, ?B11_pdf, ?B11_local, ?B11_taa, ?B11_tone, ?B11_nrd, ?B11_reload,
        ?B11_params, ?B11_rq, ?B11_method, ?B11_map, ?B11_index, ?B11_dirty, ?B11_meshes,
        ?B11_triangles, ?B11_lights, ?B10_rt, ?B10_ctx, ?B10_res, ?B10_sky, ?B10_pdf, ?B10_local,
        ?B10_taa, ?B10_tone, ?B10_nrd, ?B10_reload, ?B10_params, ?B10_rq, ?B10_method, ?B10_map,
        ?B10_index, ?B10_dirty, ?B10_meshes, ?B10_triangles, ?B10_lights, ?B9_rt, ?B9_ctx, ?B9_res,
        ?B9_sky, ?B9_pdf, ?B9_taa, ?B9_tone, ?B9_nrd, ?B9_reload, ?B9_params, ?B9_rq, ?B9_method,
        ?B9_map, ?B9_index, ?B9_dirty, ?B9_meshes, ?B9_triangles, ?B9_lights, ?B8_rt, ?B8_ctx,
        ?B8_res, ?B8_sky, ?B8_local, ?B8_taa, ?B8_tone, ?B8_nrd, ?B8_reload, ?B8_params, ?B8_rq,
        ?B8_method, ?B8_map, ?B8_index, ?B8_dirty, ?B8_meshes, ?B8_triangles, ?B8_lights, ?B7_rt,
        ?B7_ctx, ?B7_sky, ?B7_pdf, ?B7_local, ?B7_taa, ?B7_tone, ?B7_nrd, ?B7_reload, ?B7_params,
        ?B7_rq, ?B7_method, ?B7_map, ?B7_index, ?B7_dirty, ?B7_meshes, ?B7_triangles, ?B7_lights,
        ?B6_rt, ?B6_ctx, ?B6_res, ?B6_sky, ?B6_pdf, ?B6_local, ?B6_taa, ?B6_tone, ?B6_nrd,
        ?B6_reload, ?B6_params, ?B6_rq, ?B6_method, ?B6_map, ?B6_index, ?B6_dirty, ?B6_meshes,
        ?B6_triangles, ?B6_lights, ?B5_rt, ?B5_ctx, ?B5_res, ?B5_sky, ?B5_pdf, ?B5_local, ?B5_taa,
        ?B5_tone, ?B5_nrd, ?B5_reload, ?B5_params, ?B5_rq, ?B5_method, ?B5_map, ?B5_index,
        ?B5_dirty, ?B5_meshes, ?B5_triangles, ?B5_lights, ?B4_rt, ?B4_ctx, ?B4_res, ?B4_sky,
        ?B4_pdf, ?B4_local, ?B4_taa, ?B4_tone, ?B4_nrd, ?B4_reload, ?B4_params, ?B4_rq, ?B4_method,
        ?B4_map, ?B4_index, ?B4_dirty, ?B4_meshes, ?B4_triangles, ?B4_lights, ?B3_rt, ?B3_ctx,
        ?B3_res, ?B3_sky, ?B3_pdf, ?B3_local, ?B3_taa, ?B3_tone, ?B3_nrd, ?B3_reload, ?B3_params,
        ?B3_rq, ?B3_method, ?B3_map, ?B3_index, ?B3_dirty, ?B3_meshes, ?B3_triangles, ?B3_lights,
        ?B2_rt, ?B2_ctx, ?B2_res, ?B2_sky, ?B2_pdf, ?B2_local, ?B2_taa, ?B2_tone, ?B2_nrd,
        ?B2_reload, ?B2_params, ?B2_rq, ?B2_method, ?B2_map, ?B2_index, ?B2_dirty, ?B2_meshes,
        ?B2_triangles, ?B2_lights, ?B1_rt, ?B1_ctx, ?B1_res, ?B1_sky, ?B1_pdf, ?B1_local, ?B1_taa,
        ?B1_tone, ?B1_nrd, ?B1_reload, ?B1_params, ?B1_rq, ?B1_method, ?B1_map, ?B1_index,
        ?B1_dirty, ?B1_meshes, ?B1_triangles, ?B1_lights.
      revert Hno. piece. }
    rewrite (B8_x2 Hkeep).
    rewrite ?B13_rt, ?B13_ctx, ?B13_res, ?B13_sky, ?B13_pdf, ?B13_local, ?B13_taa, ?B13_tone,
      ?B13_reload, ?B13_params, ?B13_rq, ?B13_method, ?B13_map, ?B13_index, ?B13_dirty,
      ?B13_meshes, ?B13_triangles, ?B13_lights, ?B12_rt, ?B12_ctx, ?B12_res, ?B12_sky, ?B12_pdf,
      ?B12_local, ?B12_taa, ?B12_nrd, ?B12_reload, ?B12_params, ?B12_rq, ?B12_method, ?B12_map,
      ?B12_index, ?B12_dirty, ?B12_meshes, ?B12_triangles, ?B12_lights, ?B11_rt, ?B11_ctx,
      ?B11_res, ?B11_sky, ?B11_pdf, ?B11_local, ?B11_taa, ?B11_tone, ?B11_nrd, ?B11_reload,
      ?B11_params, ?B11_rq, ?B11_method, ?B11_map, ?B11_index, ?B11_dirty, ?B11_meshes,
      ?B11_triangles, ?B11_lights, ?B10_rt, ?B10_ctx, ?B10_res, ?B10_sky, ?B10_pdf, ?B10_local,
      ?B10_taa, ?B10_tone, ?B10_nrd, ?B10_reload, ?B10_params, ?B10_rq, ?B10_method, ?B10_map,
      ?B10_index, ?B10_dirty, ?B10_meshes, ?B10_triangles, ?B10_lights, ?B9_rt, ?B9_ctx, ?B9_res,
      ?B9_sky, ?B9_pdf, ?B9_taa, ?B9_tone, ?B9_nrd, ?B9_reload, ?B9_params, ?B9_rq, ?B9_method,
      ?B9_map, ?B9_index, ?B9_dirty, ?B9_meshes, ?B9_triangles, ?B9_lights, ?B8_rt, ?B8_ctx,
      ?B8_res, ?B8_sky, ?B8_local, ?B8_taa, ?B8_tone, ?B8_nrd, ?B8_reload, ?B8_params, ?B8_rq,
      ?B8_method, ?B8_map, ?B8_index, ?B8_dirty, ?B8_meshes, ?B8_triangles, ?B8_lights, ?B7_rt,
      ?B7_ctx, ?B7_sky, ?B7_pdf, ?B7_local, ?B7_taa, ?B7_tone, ?B7_nrd, ?B7_reload, ?B7_params,
      ?B7_rq, ?B7_method, ?B7_map, ?B7_index, ?B7_dirty, ?B7_meshes, ?B7_triangles, ?B7_lights,
      ?B6_rt, ?B6_ctx, ?B6_res, ?B6_sky, ?B6_pdf, ?B6_local, ?B6_taa, ?B6_tone, ?B6_nrd,
      ?B6_reload, ?B6_params, ?B6_rq, ?B6_method, ?B6_map, ?B6_index, ?B6_dirty, ?B6_meshes,
      ?B6_triangles, ?B6_lights, ?B5_rt, ?B5_ctx, ?B5_res, ?B5_sky, ?B5_pdf, ?B5_local, ?B5_taa,
      ?B5_tone, ?B5_nrd, ?B5_reload, ?B5_params, ?B5_rq, ?B5_method, ?B5_map, ?B5_index,
      ?B5_dirty, ?B5_meshes, ?B5_triangles, ?B5_lights, ?B4_rt, ?B4_ctx, ?B4_res, ?B4_sky,
      ?B4_pdf, ?B4_local, ?B4_taa, ?B4_tone, ?B4_nrd, ?B4_reload, ?B4_params, ?B4_rq, ?B4_method,
      ?B4_map, ?B4_index, ?B4_dirty, ?B4_meshes, ?B4_triangles, ?B4_lights, ?B3_rt, ?B3_ctx,
      ?B3_res, ?B3_sky, ?B3_pdf, ?B3_local, ?B3_taa, ?B3_tone, ?B3_nrd, ?B3_reload, ?B3_params,
      ?B3_rq, ?B3_method, ?B3_map, ?B3_index, ?B3_dirty, ?B3_meshes, ?B3_triangles, ?B3_lights,
      ?B2_rt, ?B2_ctx, ?B2_res, ?B2_sky, ?B2_pdf, ?B2_local, ?B2_taa, ?B2_tone, ?B2_nrd,
      ?B2_reload, ?B2_params, ?B2_rq, ?B2_method, ?B2_map, ?B2_index, ?B2_dirty, ?B2_meshes,
      ?B2_triangles, ?B2_lights, ?B1_rt, ?B1_ctx, ?B1_res, ?B1_sky, ?B1_pdf, ?B1_local, ?B1_taa,
      ?B1_tone, ?B1_nrd, ?B1_reload, ?B1_params, ?B1_rq, ?B1_method, ?B1_map, ?B1_index,
      ?B1_dirty, ?B1_meshes, ?B1_triangles, ?B1_lights.
    revert Hno. piece.
  - intros Hno. rewrite <- Ecreated in Hno.
    destruct resCreated; [done |]. cbn [orb] in Hno.
    rewrite B13_local, B12_local, B11_local, B10_local.
    assert (isNull (m_LocalLightPdfMipmapPass s3) || false = false) as Hkeep.
    { rewrite ?B13_rt, ?B13_ctx, ?B13_res, ?B13_sky, ?B13_pdf, ?B13_local, ?B13_taa, ?B13_tone,
        ?B13_reload, ?B13_params, ?B13_rq, ?B13_method, ?B13_map, ?B13_index, ?B13_dirty,
        ?B13_meshes, ?B13_triangles, ?B13_lights, ?B12_rt, ?B12_ctx, ?B12_res, ?B12_sky, ?B12_pdf,
        ?B12_local, ?B12_taa, ?B12_nrd, ?B12_reload, ?B12_params, ?B12_rq, ?B12_method, ?B12_map,
        ?B12_index, ?B12_dirty, ?B12_meshes, ?B12_triangles, ?B12_lights, ?B11_rt, ?B11_ctx,
        ?B11_res, ?B11_sky, ?B11_pdf, ?B11_local, ?B11_taa, ?B11_tone, ?B11_nrd, ?B11_reload,
        ?B11_params, ?B11_rq, ?B11_method, ?B11_map, ?B11_index, ?B11_dirty, ?B11_meshes,
        ?B11_triangles, ?B11_lights, ?B10_rt, ?B10_ctx, ?B10_res, ?B10_sky, ?B10_pdf, ?B10_local,
        ?B10_taa, ?B10_tone, ?B10_nrd, ?B10_reload, ?B10_params, ?B10_rq, ?B10_method, ?B10_map,
        ?B10_index, ?B10_dirty, ?B10_meshes, ?B10_triangles, ?B10_lights, ?B9_rt, ?B9_ctx, ?B9_res,
        ?B9_sky, ?B9_pdf, ?B9_taa, ?B9_tone, ?B9_nrd, ?B9_reload, ?B9_params, ?B9_rq, ?B9_method,
        ?B9_map, ?B9_index, ?B9_dirty, ?B9_meshes, ?B9_triangles, ?B9_lights, ?B8_rt, ?B8_ctx,
        ?B8_res, ?B8_sky, ?B8_local, ?B8_taa, ?B8_tone, ?B8_nrd, ?B8_reload, ?B8_params, ?B8_rq,
        ?B8_method, ?B8_map, ?B8_index, ?B8_dirty, ?B8_meshes, ?B8_triangles, ?B8_lights, ?B7_rt,
        ?B7_ctx, ?B7_sky, ?B7_pdf, ?B7_local, ?B7_taa, ?B7_tone, ?B7_nrd, ?B7_reload, ?B7_params,
        ?B7_rq, ?B7_method, ?B7_map, ?B7_index, ?B7_dirty, ?B7_meshes, ?B7_triangles, ?B7_lights,
        ?B6_rt, ?B6_ctx, ?B6_res, ?B6_sky, ?B6_pdf, ?B6_local, ?B6_taa, ?B6_tone, ?B6_nrd,
        ?B6_reload, ?B6_params, ?B6_rq, ?B6_method, ?B6_map, ?B6_index, ?B6_dirty, ?B6_meshes,
        ?B6_triangles, ?B6_lights, ?B5_rt, ?B5_ctx, ?B5_res, ?B5_sky, ?B5_pdf, ?B5_local, ?B5_taa,
        ?B5_tone, ?B5_nrd, ?B5_reload, ?B5_params, ?B5_rq, ?B5_method, ?B5_map, ?B5_index,
        ?B5_dirty, ?B5_meshes, ?B5_triangles, ?B5_lights, ?B4_rt, ?B4_ctx, ?B4_res, ?B4_sky,
        ?B4_pdf, ?B4_local, ?B4_taa, ?B4_tone, ?B4_nrd, ?B4_reload, ?B4_params, ?B4_rq, ?B4_method,
        ?B4_map, ?B4_index, ?B4_dirty, ?B4_meshes, ?B4_triangles, ?B4_lights, ?B3_rt, ?B3_ctx,
        ?B3_res, ?B3_sky, ?B3_pdf, ?B3_local, ?B3_taa, ?B3_tone, ?B3_nrd, ?B3_reload, ?B3_params,
        ?B3_rq, ?B3_method, ?B3_map, ?B3_index, ?B3_dirty, ?B3_meshes, ?B3_triangles, ?B3_lights,
        ?B2_rt, ?B2_ctx, ?B2_res, ?B2_sky, ?B2_pdf, ?B2_local, ?B2_taa, ?B2_tone, ?B2_nrd,
        ?B2_reload, ?B2_params, ?B2_rq, ?B2_method, ?B2_map, ?B2_index, ?B2_dirty, ?B2_meshes,
        ?B2_triangles, ?B2_lights, ?B1_rt, ?B1_ctx, ?B1_res, ?B1_sky, ?B1_pdf, ?B1_local, ?B1_taa,
        ?B1_tone, ?B1_nrd, ?B1_reload, ?B1_params, ?B1_rq, ?B1_method, ?B1_map, ?B1_index,
        ?B1_dirty, ?B1_meshes, ?B1_triangles, ?B1_lights.
      revert Hno. piece. }
    rewrite (B9_x2 Hkeep).
    rewrite ?B13_rt, ?B13_ctx, ?B13_res, ?B13_sky, ?B13_pdf, ?B13_local, ?B13_taa, ?B13_tone,
      ?B13_reload, ?B13_params, ?B13_rq, ?B13_method, ?B13_map, ?B13_index, ?B13_dirty,
      ?B13_meshes, ?B13_triangles, ?B13_lights, ?B12_rt, ?B12_ctx, ?B12_res, ?B12_sky, ?B12_pdf,
      ?B12_local, ?B12_taa, ?B12_nrd, ?B12_reload, ?B12_params, ?B12_rq, ?B12_method, ?B12_map,
      ?B12_index, ?B12_dirty, ?B12_meshes, ?B12_triangles, ?B12_lights, ?B11_rt, ?B11_ctx,
      ?B11_res, ?B11_sky, ?B11_pdf, ?B11_local, ?B11_taa, ?B11_tone, ?B11_nrd, ?B11_reload,
      ?B11_params, ?B11_rq, ?B11_method, ?B11_map, ?B11_index, ?B11_dirty, ?B11_meshes,
      ?B11_triangles, ?B11_lights, ?B10_rt, ?B10_ctx, ?B10_res, ?B10_sky, ?B10_pdf, ?B10_local,
      ?B10_taa, ?B10_tone, ?B10_nrd, ?B10_reload, ?B10_params, ?B10_rq, ?B10_method, ?B10_map,
      ?B10_index, ?B10_dirty, ?B10_meshes, ?B10_triangles, ?B10_lights, ?B9_rt, ?B9_ctx, ?B9_res,
      ?B9_sky, ?B9_pdf, ?B9_taa, ?B9_tone, ?B9_nrd, ?B9_reload, ?B9_params, ?B9_rq, ?B9_method,
      ?B9_map, ?B9_index, ?B9_dirty, ?B9_meshes, ?B9_triangles, ?B9_lights, ?B8_rt, ?B8_ctx,
      ?B8_res, ?B8_sky, ?B8_local, ?B8_taa, ?B8_tone, ?B8_nrd, ?B8_reload, ?B8_params, ?B8_rq,
      ?B8_method, ?B8_map, ?B8_index, ?B8_dirty, ?B8_meshes, ?B8_triangles, ?B8_lights, ?B7_rt,
      ?B7_ctx, ?B7_sky, ?B7_pdf, ?B7_local, ?B7_taa, ?B7_tone, ?B7_nrd, ?B7_reload, ?B7_params,
      ?B7_rq, ?B7_method, ?B7_map, ?B7_index, ?B7_dirty, ?B7_meshes, ?B7_triangles, ?B7_lights,
      ?B6_rt, ?B6_ctx, ?B6_res, ?B6_sky, ?B6_pdf, ?B6_local, ?B6_taa, ?B6_tone, ?B6_nrd,
      ?B6_reload, ?B6_params, ?B6_rq, ?B6_method, ?B6_map, ?B6_index, ?B6_dirty, ?B6_meshes,
      ?B6_triangles, ?B6_lights, ?B5_rt, ?B5_ctx, ?B5_res, ?B5_sky, ?B5_pdf, ?B5_local, ?B5_taa,
      ?B5_tone, ?B5_nrd, ?B5_reload, ?B5_params, ?B5_rq, ?B5_method, ?B5_map, ?B5_index,
      ?B5_dirty, ?B5_meshes, ?B5_triangles, ?B5_lights, ?B4_rt, ?B4_ctx, ?B4_res, ?B4_sky,
      ?B4_pdf, ?B4_local, ?B4_taa, ?B4_tone, ?B4_nrd, ?B4_reload, ?B4_params, ?B4_rq, ?B4_method,
      ?B4_map, ?B4_index, ?B4_dirty, ?B4_meshes, ?B4_triangles, ?B4_lights, ?B3_rt, ?B3_ctx,
      ?B3_res, ?B3_sky, ?B3_pdf, ?B3_local, ?B3_taa, ?B3_tone, ?B3_nrd, ?B3_reload, ?B3_params,
      ?B3_rq, ?B3_method, ?B3_map, ?B3_index, ?B3_dirty, ?B3_meshes, ?B3_triangles, ?B3_lights,
      ?B2_rt, ?B2_ctx, ?B2_res, ?B2_sky, ?B2_pdf, ?B2_local, ?B2_taa, ?B2_tone, ?B2_nrd,
      ?B2_reload, ?B2_params, ?B2_rq, ?B2_method, ?B2_map, ?B2_index, ?B2_dirty, ?B2_meshes,
      ?B2_triangles, ?B2_lights, ?B1_rt, ?B1_ctx, ?B1_res, ?B1_sky, ?B1_pdf, ?B1_local, ?B1_taa,
      ?B1_tone, ?B1_nrd, ?B1_reload, ?B1_params, ?B1_rq, ?B1_method, ?B1_map, ?B1_index,
      ?B1_dirty, ?B1_meshes, ?B1_triangles, ?B1_lights.
    revert Hno. piece.
  - intros Hyes. rewrite <- Ecreated in Hyes.
    destruct (B7_x4 Hyes) as (context & Ectx & Eres). exists context. split.
    + by rewrite B13_ctx, B12_ctx, B11_ctx, B10_ctx, B9_ctx, B8_ctx, B7_ctx.
    + rewrite B13_res, B12_res, B11_res, B10_res, B9_res, B8_res, Eres.
      by rewrite B6_meshes, B5_meshes, B4_meshes, B3_meshes, B2_meshes, B1_meshes,
        B6_triangles, B5_triangles, B4_triangles, B3_triangles, B2_triangles, B1_triangles,
        B6_lights, B5_lights, B4_lights, B3_lights, B2_lights, B1_lights.
Qed.

(** ** The events of a frame that create a resource *)

(** The events that build a pass, a resource or a pipeline. *)
Definition creates (e : Event) : bool :=
  match e with
  | EvClearShaderCache | EvLoadShaders | EvCreateRenderEnvironmentMapPass
  | EvCreateRenderTargets _ | EvCreateRenderTargetBindings | EvCreateRtxdiContext _
  | EvCreateRtxdiResources _ | EvPrepareLightsCreateBindingSet
  | EvCreateEnvironmentMapPdfMipmapPass _ | EvCreateLocalLightPdfMipmapPass _
  | EvLightingCreateBindingSet _ _ | EvLightingCreatePipelines _ _
  | EvCreateTemporalAntiAliasingPass | EvCreateToneMappingPass
  | EvCreateNrdIntegration _ => true
  | _ => false
  end.

(** The events of [LoadEnvironmentMap]. *)
Definition reloads (e : Event) : bool :=
  match e with
  | EvWaitForIdle | EvUnloadTexture _ | EvReleaseDescriptor _
  | EvLoadTextureFromFileDeferred _ | EvFinishTextureLoading | EvCreateDescriptor _ => true
  | _ => false
  end.

(** Lines 675-730 log one event at most: the capture of the benchmark
    results when the camera path has ended. *)
Lemma earlyState_trace w s :
  trace (earlyState w s)
  = trace s
    ++ match animationFrame (m_ui s) with
       | Some frame =>
           match InterpolateCameraPath w frame with
           | Some _ => []
           | None => [EvCaptureBenchmarkResults]
           end
       | None => []
       end.
Proof.
  unfold earlyState.
  assert (forall s0, trace (resetRtxdiContextIfRequested s0) = trace s0) as ->.
  { intros s0. unfold resetRtxdiContextIfRequested. destruct_renderer s0. norm.
    by case_inner. }
  assert (forall s0, trace (dropDenoiserOnMethodChange w s0) = trace s0) as ->.
  { intros s0. unfold dropDenoiserOnMethodChange. destruct_renderer s0. norm.
    by repeat case_inner. }
  unfold resolveEffectiveFrameIndex, leaveStep. destruct_renderer s. norm.
  repeat (case_inner; cbn [fst snd]; norm). all: by rewrite ?app_nil_r.
Qed.

Lemma LoadEnvironmentMap_reloads w s s' :
  LoadEnvironmentMap w s = Ok s' -> Forall (fun e => reloads e = true) (newEvents s s').
Proof.
  unfold LoadEnvironmentMap, unloadEnvironmentMap, newEvents. intros Hrun.
  destruct_renderer s. invert_run.
  all: rewrite <- ?app_assoc, ?drop_app_length, ?drop_all; by repeat constructor.
Qed.

Lemma reloadEnvironmentMapIfDirty_reloads w s s' :
  reloadEnvironmentMapIfDirty w s = Ok s' ->
  Forall (fun e => reloads e = true) (newEvents s s')
  /\ (environmentMapDirty (m_ui s) <> 2 -> s' = s).
Proof.
  unfold reloadEnvironmentMapIfDirty. intros Hrun.
  destruct (Z.eqb_spec (environmentMapDirty (m_ui s)) 2) as [Hd|Hd].
  - split; [by eapply LoadEnvironmentMap_reloads | done].
  - injection Hrun as <-. split; [| done]. unfold newEvents. by rewrite drop_all.
Qed.

(** The block of [SetupRenderPasses] that issues an event. *)
Inductive Stage :=
| SShaderReload | SSkyPass | SRenderTargets | SContext | SBundle | SEnvironmentPdfPass
| SLocalPdfPass | SLightingBinding | SLightingPipelines | STaaPass | SToneMappingPass
| SDenoiserIntegration | SOutside.

Definition stage (e : Event) : Stage :=
  match e with
  | EvWaitForIdle | EvClearShaderCache | EvLoadShaders => SShaderReload
  | EvCreateRenderEnvironmentMapPass => SSkyPass
  | EvCreateRenderTargets _ | EvCreateRenderTargetBindings => SRenderTargets
  | EvCreateRtxdiContext _ => SContext
  | EvCreateRtxdiResources _ | EvPrepareLightsCreateBindingSet => SBundle
  | EvCreateEnvironmentMapPdfMipmapPass _ => SEnvironmentPdfPass
  | EvCreateLocalLightPdfMipmapPass _ => SLocalPdfPass
  | EvLightingCreateBindingSet _ _ => SLightingBinding
  | EvLightingCreatePipelines _ _ => SLightingPipelines
  | EvCreateTemporalAntiAliasingPass => STaaPass
  | EvCreateToneMappingPass => SToneMappingPass
  | EvCreateNrdIntegration _ => SDenoiserIntegration
  | _ => SOutside
  end.

(** The events of the setup that belong to the block of [e]. *)
Definition stageEvents w fbinfo (size : Z * Z) s s' (e : Event) : list Event :=
  match stage e with
  | SShaderReload => shaderReloadEvents s
  | SSkyPass => skyPassEvents s
  | SRenderTargets => renderTargetEvents fbinfo s
  | SContext => contextEvents fbinfo s
  | SBundle => bundleEvents size s s'
  | SEnvironmentPdfPass => environmentPdfPassEvents size s s'
  | SLocalPdfPass => localPdfPassEvents size s s'
  | SLightingBinding => lightingBindingEvents size s s'
  | SLightingPipelines => lightingPipelineEvents size s s'
  | STaaPass => taaPassEvents s
  | SToneMappingPass => toneMappingPassEvents s
  | SDenoiserIntegration => denoiserIntegrationEvents w s
  | SOutside => []
  end.

Ltac stage_Forall :=
  repeat case_goal; repeat (apply Forall_cons_2; [done |]); apply Forall_nil_2.

Lemma setupEvents_stages w fbinfo size s s' :
  Forall (fun e => stage e = SShaderReload) (shaderReloadEvents s)
  /\ Forall (fun e => stage e = SSkyPass) (skyPassEvents s)
  /\ Forall (fun e => stage e = SRenderTargets) (renderTargetEvents fbinfo s)
  /\ Forall (fun e => stage e = SContext) (contextEvents fbinfo s)
  /\ Forall (fun e => stage e = SBundle) (bundleEvents size s s')
  /\ Forall (fun e => stage e = SEnvironmentPdfPass) (environmentPdfPassEvents size s s')
  /\ Forall (fun e => stage e = SLocalPdfPass) (localPdfPassEvents size s s')
  /\ Forall (fun e => stage e = SLightingBinding) (lightingBindingEvents size s s')
  /\ Forall (fun e => stage e = SLightingPipelines) (lightingPipelineEvents size s s')
  /\ Forall (fun e => stage e = STaaPass) (taaPassEvents s)
  /\ Forall (fun e => stage e = SToneMappingPass) (toneMappingPassEvents s)
  /\ Forall (fun e => stage e = SDenoiserIntegration) (denoiserIntegrationEvents w s).
Proof.
  unfold shaderReloadEvents, skyPassEvents, renderTargetEvents, contextEvents, bundleEvents,
    environmentPdfPassEvents, localPdfPassEvents, lightingBindingEvents,
    lightingPipelineEvents, taaPassEvents, toneMappingPassEvents, denoiserIntegrationEvents.
  repeat split; stage_Forall.
Qed.

(** An event is among those of the setup exactly when it is among the events
    of its block. *)
Lemma elem_of_setupEvents w fbinfo size s s' e :
  e ∈ setupEvents w fbinfo size s s' <-> e ∈ stageEvents w fbinfo size s s' e.
Proof.
  destruct (setupEvents_stages w fbinfo size s s')
    as (F1 & F2 & F3 & F4 & F5 & F6 & F7 & F8 & F9 & F10 & F11 & F12).
  rewrite Forall_forall in F1, F2, F3, F4, F5, F6, F7, F8, F9, F10, F11, F12.
  unfold setupEvents, stageEvents. rewrite !elem_of_app. split.
  - intros [Hin | [Hin | [Hin | [Hin | [Hin | [Hin | [Hin | [Hin | [Hin | [Hin | [Hin | Hin
      ]]]]]]]]]]].
    + by rewrite (F1 _ Hin).
    + by rewrite (F2 _ Hin).
    + by rewrite (F3 _ Hin).
    + by rewrite (F4 _ Hin).
    + by rewrite (F5 _ Hin).
    + by rewrite (F6 _ Hin).
    + by rewrite (F7 _ Hin).
    + by rewrite (F8 _ Hin).
    + by rewrite (F9 _ Hin).
    + by rewrite (F10 _ Hin).
    + by rewrite (F11 _ Hin).
    + by rewrite (F12 _ Hin).
  - destruct (stage e); try tauto. by intros ?%elem_of_nil.
Qed.

(** The anatomy of a frame that is not frozen: the states between its
    phases, and which of its events come from which phase.  An event that
    creates a resource is issued exactly when it is among the events of its
    block of [SetupRenderPasses]; an event of the command list exactly when it
    is among the events of its block of the command list. *)
Lemma frame_anatomy w fbinfo s s' :
  m_FrameStepMode s <> Wait ->
  RenderScene w fbinfo s = Ok s' ->
  exists s2 s4 s5 s6 reset static weight mode size,
    let v := SetupView fbinfo (effectiveFrameIndex w s) s2 in
    (reloadEnvironmentMapIfDirty w (earlyState w s) = Ok s2
     /\ SetupRenderPasses w fbinfo v = Ok (s4, reset)
     /\ framePolicy w s4 = Ok (s5, static, weight, mode)
     /\ recordCommandList w (effectiveFrameIndex w s) reset static weight mode s5 = Ok s6
     /\ s' = commitFrame s6
     /\ environmentMapSize (prepared w v) = Ok size)
    /\ (forall e, creates e = true ->
                  (e ∈ newEvents s s' <-> e ∈ stageEvents w fbinfo size v s4 e))
    /\ (forall e, reloads e = true ->
                  (e ∈ newEvents s s'
                   <-> e ∈ newEvents (earlyState w s) s2
                       \/ e ∈ stageEvents w fbinfo size v s4 e))
    /\ (forall e,
          block e <> BOutside ->
          e ∈ newEvents s s'
          <-> match block e with
              | BNeighborOffsets => e ∈ neighborOffsetEvents s5
              | BAccelStruct => e ∈ accelStructEvents s5
              | BEnvironment => e ∈ environmentEvents s5
              | BGBuffer => e ∈ gbufferEvents s5
              | BLightPreparation => e ∈ lightPreparationEvents (effectiveFrameIndex w s) s5
              | BLighting => e ∈ lightingCalls (renderingMode (m_ui s5))
              | BDenoiser => e ∈ denoiserEvents w s5
              | BCompositing => e ∈ compositingEvents mode s5
              | BResolve => e ∈ resolveEvents weight s5
              | BPresent => e ∈ presentEvents reset s5
              | BOutside => False
              end)
    /\ (m_RenderTargets s' = m_RenderTargets s4
        /\ m_RtxdiContext s' = m_RtxdiContext s4
        /\ m_RtxdiResources s' = m_RtxdiResources s4
        /\ rtxdiContextParams (m_ui s') = rtxdiContextParams (m_ui s4)
        /\ m_EnvironmentMapPdfMipmapPass s' = m_EnvironmentMapPdfMipmapPass s4
        /\ m_LocalLightPdfMipmapPass s' = m_LocalLightPdfMipmapPass s4
        /\ m_RenderEnvironmentMapPass s' = m_RenderEnvironmentMapPass s4
        /\ m_EnvironmentMap s' = m_EnvironmentMap s4
        /\ environmentMapIndex (m_ui s') = environmentMapIndex (m_ui s4)
        /\ reloadShaders (m_ui s') = reloadShaders (m_ui s4)
        /\ m_ToneMappingPass s' = m_ToneMappingPass s4
        /\ environmentMapDirty (m_ui s5) = environmentMapDirty (m_ui s4)
        /\ m_EnvironmentMapPdfMipmapPass s5 = m_EnvironmentMapPdfMipmapPass s4
        /\ environmentMapIndex (m_ui s5) = environmentMapIndex (m_ui s4))
    /\ (EvCaptureBenchmarkResults ∈ newEvents s s'
        <-> EvCaptureBenchmarkResults
            ∈ match animationFrame (m_ui s) with
              | Some frame =>
                  match InterpolateCameraPath w frame with
                  | Some _ => []
                  | None => [EvCaptureBenchmarkResults]
                  end
              | None => []
              end).
Proof.
  intros Hmode Hrun.
  destruct (RenderScene_trace _ _ _ _ Hmode Hrun)
    as (s2 & s4 & s5 & reset & static & weight & mode & setup & skip & acc & texture & sun
        & (L & S & P) & Hev & _ & Hsetup & Hacc & _ & Hres & _ & _ & Hd).
  destruct (frame_states _ _ _ _ Hmode Hrun)
    as (s2' & s4' & s5' & s6 & reset' & static' & weight' & mode' & L' & S' & P' & C & ->).
  rewrite L in L'. injection L' as <-. rewrite S in S'. injection S' as <- <-.
  rewrite P in P'. injection P' as <- <- <- <-.
  destruct (frame_event _ _ _ _ Hmode Hrun)
    as (s4' & s5' & reset' & static' & weight' & mode' & P' & (s2' & L' & S') & Hin & _).
  rewrite L in L'. injection L' as <-. rewrite S in S'. injection S' as <- <-.
  rewrite P in P'. injection P' as <- <- <- <-.
  destruct (SetupRenderPasses_exact _ _ _ _ _ S) as (size & Hsize & Hexact & _).
  exists s2, s4, s5, s6, reset, static, weight, mode, size. cbv zeta. split; [done |].
  pose proof (earlyState_trace w s) as Te.
  destruct (reloadEnvironmentMapIfDirty_reloads _ _ _ L) as (Hload & _).
  pose proof (reloadEnvironmentMapIfDirty_step _ _ _ L) as [AL _].
  assert (grows s (earlyState w s)) as G1 by (eexists; exact Te).
  pose proof (appends_grows _ _ _ AL) as G2.
  assert (grows s2 s4) as G3.
  { destruct (SetupRenderPasses_step _ _ _ _ _ S) as [(l & _ & El) _].
    exists l. by rewrite El, SetupView_trace. }
  assert (newEvents s2 s4 = setupEvents w fbinfo size
                              (SetupView fbinfo (effectiveFrameIndex w s) s2) s4) as E3.
  { rewrite <- Hexact. unfold newEvents. by rewrite SetupView_trace. }
  assert (newEvents s s4
          = newEvents s (earlyState w s) ++ newEvents (earlyState w s) s2
            ++ setupEvents w fbinfo size (SetupView fbinfo (effectiveFrameIndex w s) s2) s4)
    as E4.
  { rewrite (newEvents_grows s (earlyState w s) s4), (newEvents_grows (earlyState w s) s2 s4)
      by chain. by rewrite E3. }
  rewrite (newEvents_app _ _ _ Te) in E4.
  rewrite Forall_forall in Hload.
  assert (forall e, creates e = true \/ reloads e = true ->
            (e ∉ policyEvents skip acc texture sun)
            /\ (e ∉ commandList w (effectiveFrameIndex w s) reset weight mode s5)
            /\ (e ∉ match animationFrame (m_ui s) with
                    | Some frame =>
                        match InterpolateCameraPath w frame with
                        | Some _ => []
                        | None => [EvCaptureBenchmarkResults]
                        end
                    | None => []
                    end)) as Hout.
  { intros e He. split; [| split].
    - unfold policyEvents.
      rewrite elem_of_cons, elem_of_app, elem_of_cons, list_elem_of_singleton.
      intros [-> | [Hin' | [-> | ->]]].
      + by destruct He.
      + destruct skip; [by apply elem_of_nil in Hin' |].
        apply list_elem_of_singleton in Hin' as ->. by destruct He.
      + by destruct acc, He.
      + by destruct He.
    - rewrite elem_of_commandList.
      destruct e; cbn [block]; try (by intros []); destruct He as [He | He]; by cbn in He.
    - repeat case_match; intros Hin'; try (by apply elem_of_nil in Hin').
      apply list_elem_of_singleton in Hin' as ->. by destruct He. }
  split; [| split; [| split; [done |]]].
  - intros e He. destruct (Hout e (or_introl He)) as (O1 & O2 & O3).
    rewrite <- elem_of_setupEvents, Hev, <- Hsetup, E4, !elem_of_app. split; [| tauto].
    intros [[Hin' | [Hin' | Hin']] | [Hin' | Hin']]; try done.
    apply Hload in Hin'. by destruct e.
  - intros e He. destruct (Hout e (or_intror He)) as (O1 & O2 & O3).
    rewrite <- elem_of_setupEvents, Hev, <- Hsetup, E4, !elem_of_app. tauto.
  - destruct Hres as (Rrt & Rctx & Rres & Rpdf & _ & Rtone & _ & _ & Ridx & _).
    destruct (framePolicy_keeps _ _ _ _ _ _ P)
      as (Ptone & _ & Prel & _ & Prt & Pctx & Pres & Ppar & Pmap & Psky & Ploc & _).
    destruct (recordCommandList_keeps _ _ _ _ _ _ _ _ C)
      as (_ & _ & Crel & _ & Cpar & Cmap & Csky & Cloc & _).
    destruct (commitFrame_keeps s6) as (_ & _ & Krel & _ & Kpar & Kmap & Ksky & Kloc & _).
    destruct (framePolicy_spec _ _ _ _ _ _ P)
      as (_ & _ & _ & _ & _ & _ & _ & _ & _ & _ & _ & _ & _ & taa & countdown & material
          & denoiser & E & _).
    assert (m_EnvironmentMapPdfMipmapPass s5 = m_EnvironmentMapPdfMipmapPass s4
            /\ environmentMapIndex (m_ui s5) = environmentMapIndex (m_ui s4)) as (Ppdf & Pidx).
    { remember (trace s5) as tr eqn:Etr.
      remember (numAccumulatedFrames (m_ui s5)) as n eqn:En.
      clear -E. subst s5. destruct_renderer s4. by norm. }
    split; [repeat split; congruence |].
    rewrite Hev, <- Hsetup, E4, !elem_of_app. split; [| tauto].
    intros [[Hin' | [Hin' | Hin']] | [Hin' | Hin']]; [done | | | |]; exfalso.
    + by apply Hload in Hin'.
    + apply elem_of_setupEvents in Hin'. by apply elem_of_nil in Hin'.
    + unfold policyEvents in Hin'.
      rewrite elem_of_cons, elem_of_app, elem_of_cons, list_elem_of_singleton in Hin'.
      destruct Hin' as [? | [Hin' | [<- | ?]]]; try done.
      destruct skip; [by apply elem_of_nil in Hin' |].
      by apply list_elem_of_singleton in Hin'.
    + by apply elem_of_commandList in Hin'.
Qed.

(** ** Shader reload *)

(** Ctrl+R requests a shader reload.  The next frame that is not frozen
    clears the shader cache and loads the shaders, which no other frame does,
    rebuilds the environment-map pass, both PDF mipmap passes, the TAA pass
    and the lighting pipelines, regenerates the environment PDF mipmaps with
    the new pass, and clears the request. *)
Theorem shader_reload_rule w fbinfo s s' :
  m_FrameStepMode s <> Wait ->
  RenderScene w fbinfo s = Ok s' ->
  (forall e, e = EvClearShaderCache \/ e = EvLoadShaders ->
             (e ∈ newEvents s s' <-> reloadShaders (m_ui s) = true))
  /\ (reloadShaders (m_ui s) = true ->
      EvCreateRenderEnvironmentMapPass ∈ newEvents s s'
      /\ EvCreateTemporalAntiAliasingPass ∈ newEvents s s'
      /\ EvLightingCreatePipelines (rtxdiContextParams (m_ui s')) (useRayQuery (m_ui s))
         ∈ newEvents s s'
      /\ (exists pass,
            m_EnvironmentMapPdfMipmapPass s' = Some pass
            /\ EvCreateEnvironmentMapPdfMipmapPass pass ∈ newEvents s s'
            /\ EvEnvironmentMapPdfMipmapProcess pass ∈ newEvents s s')
      /\ (exists pass,
            m_LocalLightPdfMipmapPass s' = Some pass
            /\ EvCreateLocalLightPdfMipmapPass pass ∈ newEvents s s'))
  /\ reloadShaders (m_ui s') = false
  /\ (forall (a : @Shell Matrix) (scancode : Z),
        reloadShaders
          (m_ui (renderer (KeyboardUpdate GLFW_KEY_R scancode GLFW_PRESS GLFW_MOD_CONTROL a).1))
        = true).
Proof.
  intros Hmode Hrun.
  destruct (frame_anatomy _ _ _ _ Hmode Hrun)
    as (s2 & s4 & s5 & s6 & reset & static & weight & mode & size
        & (L & S & P & C & Es' & Hsize) & Hc & _ & Hp & Hk & _).
  cbv zeta in *.
  destruct Hk as (_ & _ & _ & Kpar & Kpdf & Kloc & _ & _ & _ & Krel & _ & Kd & Kpdf5 & _).
  destruct (before_setup _ fbinfo (effectiveFrameIndex w s) _ _ L)
    as (_ & _ & _ & _ & _ & Brel & _ & _ & _ & _ & _ & _ & _ & _ & _ & _ & Brq & _).
  destruct (SetupRenderPasses_passes _ _ _ _ _ S) as (_ & _ & _ & Srel & _).
  destruct (SetupRenderPasses_ready _ _ _ _ _ S) as (_ & _ & _ & _ & Rpdf & Rloc & _).
  destruct (SetupRenderPasses_exact _ _ _ _ _ S)
    as (size' & Hsize' & _ & _ & _ & _ & _ & _ & _ & _ & Sd & _).
  rewrite Hsize in Hsize'. injection Hsize' as <-.
  split; [| split; [| split]].
  - intros e He. rewrite (Hc e) by (by destruct He as [-> | ->]).
    unfold stageEvents, shaderReloadEvents. rewrite Brel.
    destruct He as [-> | ->]; cbn [stage]; destruct (reloadShaders (m_ui s));
      rewrite ?elem_of_cons, ?elem_of_nil; intuition (simplify_eq; done).
  - intros Hrel. rewrite Hrel in Brel. rewrite Brel in Sd.
    split; [| split; [| split; [| split]]].
    + rewrite (Hc EvCreateRenderEnvironmentMapPass) by done.
      unfold stageEvents, skyPassEvents. cbn [stage]. rewrite Brel.
      by apply list_elem_of_singleton.
    + rewrite (Hc EvCreateTemporalAntiAliasingPass) by done.
      unfold stageEvents, taaPassEvents. cbn [stage]. rewrite Brel.
      by apply list_elem_of_singleton.
    + rewrite (Hc (EvLightingCreatePipelines _ _)) by done.
      unfold stageEvents, lightingPipelineEvents. cbn [stage].
      rewrite Brel, orb_true_r, Kpar, Brq. by apply list_elem_of_singleton.
    + destruct (m_EnvironmentMapPdfMipmapPass s4) as [pass|] eqn:Epass; [| done].
      exists pass. split; [by rewrite Kpdf |]. split.
      * rewrite (Hc (EvCreateEnvironmentMapPdfMipmapPass pass)) by done.
        unfold stageEvents, environmentPdfPassEvents. cbn [stage].
        rewrite Brel, Epass, orb_true_r. cbn [orb]. by apply list_elem_of_singleton.
      * rewrite (Hp (EvEnvironmentMapPdfMipmapProcess pass)) by done.
        cbn [block]. unfold environmentEvents.
        rewrite Kd, Sd, Kpdf5, !orb_true_r. cbn [orb negb Z.eqb].
        rewrite elem_of_app. right. by apply list_elem_of_singleton.
    + destruct (m_LocalLightPdfMipmapPass s4) as [pass|] eqn:Epass; [| done].
      exists pass. split; [by rewrite Kloc |].
      rewrite (Hc (EvCreateLocalLightPdfMipmapPass pass)) by done.
      unfold stageEvents, localPdfPassEvents. cbn [stage].
      rewrite Brel, Epass. cbn [orb]. by apply list_elem_of_singleton.
  - by rewrite Krel.
  - intros a scancode. unfold KeyboardUpdate.
    cbn [fst renderer with_renderer andb Z.eqb Pos.eqb GLFW_KEY_F2 GLFW_KEY_GRAVE_ACCENT
           GLFW_PRESS GLFW_MOD_CONTROL GLFW_KEY_R GLFW_KEY_F1].
    destruct a as [r ? ? ?]. cbn [renderer with_renderer]. destruct_renderer r. by norm.
Qed.

(** ** The resampling context *)

(** A frame that is not frozen builds a resampling context exactly when it
    begins without one or with a reset requested in the UI; the new context
    takes the framebuffer's width and height and keeps the checkerboard mode
    of the UI's parameters, and the UI's parameters are updated to the new
    ones.  A requested reset is cleared, and it also rebuilds the resource
    bundle, for the new context. *)
Theorem context_rebuild_rule w fbinfo s s' :
  m_FrameStepMode s <> Wait ->
  RenderScene w fbinfo s = Ok s' ->
  let rebuilt := resetRtxdiContext (m_ui s) || isNull (m_RtxdiContext s) in
  let params :=
    mkContextParameters (fb_width fbinfo) (fb_height fbinfo)
      (CheckerboardSamplingMode (rtxdiContextParams (m_ui s))) in
  (forall p, EvCreateRtxdiContext p ∈ newEvents s s' <-> rebuilt = true /\ p = params)
  /\ m_RtxdiContext s' = (if rebuilt then Some (mkContext params) else m_RtxdiContext s)
  /\ rtxdiContextParams (m_ui s') = (if rebuilt then params else rtxdiContextParams (m_ui s))
  /\ resetRtxdiContext (m_ui s') = false
  /\ (resetRtxdiContext (m_ui s) = true ->
      exists r,
        m_RtxdiResources s' = Some r
        /\ res_context r = params
        /\ EvCreateRtxdiResources r ∈ newEvents s s').
Proof.
  intros Hmode Hrun rebuilt params.
  destruct (frame_anatomy _ _ _ _ Hmode Hrun)
    as (s2 & s4 & s5 & s6 & reset & static & weight & mode & size
        & (L & S & P & C & Es' & Hsize) & Hc & _ & _ & Hk & _).
  cbv zeta in *.
  destruct Hk as (_ & Kctx & Kres & Kpar & _).
  destruct (before_setup _ fbinfo (effectiveFrameIndex w s) _ _ L)
    as (_ & _ & _ & _ & _ & _ & _ & _ & _ & _ & _ & _ & _ & Bctx & Bres & Bpar & _).
  destruct (earlyState_resources w s) as (_ & Ectx & Eres).
  destruct (SetupRenderPasses_exact _ _ _ _ _ S)
    as (size' & Hsize' & _ & _ & Sctx & Spar & _ & _ & _ & _ & _ & _ & _ & _ & Sbundle).
  rewrite Hsize in Hsize'. injection Hsize' as <-.
  rewrite Bctx, Ectx, Bpar in Sctx, Spar. fold params in Sctx, Spar.
  assert (isNull (if resetRtxdiContext (m_ui s) then None else m_RtxdiContext s) = rebuilt)
    as Enull by (subst rebuilt; by destruct (resetRtxdiContext (m_ui s))).
  split; [| split; [| split; [| split]]].
  - intros p. rewrite (Hc (EvCreateRtxdiContext p)) by done.
    unfold stageEvents, contextEvents. cbn [stage]. rewrite Bctx, Ectx, Bpar, Enull.
    fold params. destruct rebuilt;
      rewrite ?list_elem_of_singleton, ?elem_of_nil; intuition (simplify_eq; done).
  - rewrite Kctx, Sctx. subst rebuilt.
    destruct (resetRtxdiContext (m_ui s)); [done |]. by destruct (m_RtxdiContext s).
  - rewrite Kpar, Spar, Enull. done.
  - destruct (RenderScene_settings _ _ _ _ Hmode Hrun) as (_ & _ & _ & -> & _).
    by destruct (earlyState_facts w s) as (_ & _ & _ & _ & ->).
  - intros Hreset. rewrite Hreset in *.
    assert (bundleCreated size (SetupView fbinfo (effectiveFrameIndex w s) s2) = true) as Hb
      by (unfold bundleCreated; by rewrite Bres, Eres).
    destruct (Sbundle Hb) as (context & Ec & Er). rewrite Sctx in Ec. injection Ec as <-.
    eexists. split; [by rewrite Kres, Er |]. split; [done |].
    rewrite (Hc (EvCreateRtxdiResources _)) by done.
    unfold stageEvents, bundleEvents. cbn [stage]. rewrite Hb, Er. apply list_elem_of_here.
Qed.

(** ** Steady state *)

(** The size of the active environment map depends on the selection, the
    loaded map and the procedural pass only. *)
Lemma environmentMapSize_ext s s' :
  environmentMapIndex (m_ui s') = environmentMapIndex (m_ui s) ->
  m_EnvironmentMap s' = m_EnvironmentMap s ->
  m_RenderEnvironmentMapPass s' = m_RenderEnvironmentMapPass s ->
  environmentMapSize s' = environmentMapSize s.
Proof. unfold environmentMapSize. by intros -> -> ->. Qed.

Lemma prepared_environment w s :
  environmentMapIndex (m_ui (prepared w s)) = environmentMapIndex (m_ui s)
  /\ m_EnvironmentMap (prepared w s) = m_EnvironmentMap s
  /\ m_RenderEnvironmentMapPass (prepared w s)
     = Some (match m_RenderEnvironmentMapPass s with
             | Some pass =>
                 if reloadShaders (m_ui s)
                 then mkRenderEnvironmentMapPass (proceduralTextureSize w 2048)
                 else pass
             | None => mkRenderEnvironmentMapPass (proceduralTextureSize w 2048)
             end).
Proof.
  unfold prepared, ensureRenderEnvironmentMapPass, reloadShadersIfRequested,
    dropPdfMipmapPassOnReload, LoadShaders.
  destruct_renderer s. norm. by repeat (case_inner; norm).
Qed.

(** In a build with NRD a frame ends with a denoiser of the selected method. *)
Lemma frame_denoiser_handle w fbinfo s s' :
  m_FrameStepMode s <> Wait ->
  RenderScene w fbinfo s = Ok s' ->
  WITH_NRD w = true ->
  exists nrd, m_NRD s' = Some nrd /\ GetMethod nrd = denoisingMethod (m_ui s).
Proof.
  intros Hmode Hrun Hw.
  destruct (frame_event _ _ _ _ Hmode Hrun)
    as (s4 & s5 & reset & static & weight & mode & P & (s2 & L & S) & _ & _ & Hres & _).
  destruct Hres as (_ & _ & _ & _ & _ & _ & Enrd & _).
  destruct (before_setup _ fbinfo (effectiveFrameIndex w s) _ _ L)
    as (_ & _ & _ & _ & _ & _ & Bnrd & Bmeth & _).
  destruct (SetupRenderPasses_passes _ _ _ _ _ S) as (_ & _ & _ & _ & _ & Son).
  destruct (framePolicy_denoiser _ _ _ _ _ _ P) as (_ & _ & Pnrd).
  destruct (earlyState_resources w s) as (Enrd0 & _).
  rewrite Bnrd, Enrd0, Bmeth, Hw in Son. destruct (Son eq_refl) as (nrd & E4 & Hold & Hnew).
  exists nrd. split; [by rewrite Enrd, Pnrd |].
  destruct (m_NRD s) as [old|]; [| by apply Hnew].
  case_bool_decide as Hm; [| by apply Hnew]. by rewrite (Hold old eq_refl).
Qed.

(** The state a frame that is not frozen ends in: no request is pending, every
    handle of the setup exists, the denoiser has the selected method, and the
    resource bundle passes the staleness test of lines 512-517. *)
Lemma frame_end_settled w fbinfo s s' :
  m_FrameStepMode s <> Wait ->
  RenderScene w fbinfo s = Ok s' ->
  reloadShaders (m_ui s') = false
  /\ resetRtxdiContext (m_ui s') = false
  /\ environmentMapDirty (m_ui s') = 0
  /\ handles_ready w s'
  /\ (WITH_NRD w = true ->
      exists nrd, m_NRD s' = Some nrd /\ GetMethod nrd = denoisingMethod (m_ui s'))
  /\ exists size, environmentMapSize s' = Ok size /\ bundleStale size s' = false.
Proof.
  intros Hmode Hrun.
  destruct (frame_anatomy _ _ _ _ Hmode Hrun)
    as (s2 & s4 & s5 & s6 & reset & static & weight & mode & size
        & (L & S & P & C & Es' & Hsize) & _ & _ & _ & Hk & _).
  cbv zeta in *.
  destruct Hk as (_ & _ & Kres & _ & _ & _ & Ksky & Kmap & Kidx & Krel & _).
  destruct (SetupRenderPasses_passes _ _ _ _ _ S) as (_ & _ & _ & Srel & _).
  destruct (SetupRenderPasses_exact _ _ _ _ _ S)
    as (size' & Hsize' & _ & _ & _ & _ & _ & Skeep & Smap & Sidx & _ & Ssky & _ & _
        & Sbundle).
  rewrite Hsize in Hsize'. injection Hsize' as <-.
  destruct (RenderScene_temporal _ _ _ _ Hmode Hrun)
    as (_ & _ & _ & _ & _ & _ & _ & Hzero & _).
  destruct (RenderScene_toggles _ _ _ _ Hmode Hrun) as (_ & _ & _ & _ & Tmeth & _).
  split; [by rewrite Krel |]. split.
  { destruct (RenderScene_settings _ _ _ _ Hmode Hrun) as (_ & _ & _ & -> & _).
    by destruct (earlyState_facts w s) as (_ & _ & _ & _ & ->). }
  split; [done |]. split; [by eapply RenderScene_ready |]. split.
  { intros Hw. rewrite Tmeth. by eapply frame_denoiser_handle. }
  set (v := SetupView fbinfo (effectiveFrameIndex w s) s2) in *.
  destruct (prepared_environment w v) as (Pidx & Pmap & Psky).
  exists size. split.
  - rewrite <- Hsize. apply environmentMapSize_ext; congruence.
  - unfold bundleStale. rewrite Kres.
    destruct (bundleCreated size v) eqn:Hb.
    + destruct (Sbundle eq_refl) as (context & _ & ->). cbn. by rewrite !Z.eqb_refl.
    + rewrite (Skeep eq_refl). unfold bundleCreated in Hb.
      apply orb_false_iff in Hb as [_ Hb]. exact Hb.
Qed.

(** A frame that follows a rendered frame with no input in between builds
    and loads nothing: it returns, and none of its events clears the shader
    cache, creates a pass, a resource or a pipeline, waits for the device
    or touches an environment-map file; the render targets, the context, the
    resource bundle and the three environment passes stay the same objects. *)
Theorem steady_frame_allocates_nothing w fbinfo s s1 :
  m_FrameStepMode s = Disabled ->
  RenderScene w fbinfo s = Ok s1 ->
  exists s2,
    RenderScene w fbinfo s1 = Ok s2
    /\ Forall (fun e => creates e = false /\ reloads e = false) (newEvents s1 s2)
    /\ m_RenderTargets s2 = m_RenderTargets s1
    /\ m_RtxdiContext s2 = m_RtxdiContext s1
    /\ m_RtxdiResources s2 = m_RtxdiResources s1
    /\ m_RenderEnvironmentMapPass s2 = m_RenderEnvironmentMapPass s1
    /\ m_EnvironmentMapPdfMipmapPass s2 = m_EnvironmentMapPdfMipmapPass s1
    /\ m_LocalLightPdfMipmapPass s2 = m_LocalLightPdfMipmapPass s1.
Proof.
  intros Hdis Hrun1.
  assert (m_FrameStepMode s <> Wait) as Hmode by (by rewrite Hdis).
  destruct (frame_end_settled _ _ _ _ Hmode Hrun1)
    as (Hrel & Hreset & Hzero & Hready & Hnrd & size1 & Hsize1 & Hstale).
  destruct (RenderScene_temporal _ _ _ _ Hmode Hrun1)
    as (_ & _ & _ & _ & _ & _ & _ & _ & _ & _ & Hkeep & _ & Hok).
  assert (m_FrameStepMode s1 <> Wait) as Hmode1 by (by rewrite (Hkeep Hdis)).
  destruct (RenderScene_Ok w fbinfo s1 Hmode1 Hok) as (s2 & Hrun2).
  exists s2. split; [done |].
  destruct (frame_anatomy _ _ _ _ Hmode1 Hrun2)
    as (s2' & s4 & s5 & s6 & reset & static & weight & mode & size
        & (L & S & P & C & Es' & Hsize) & Hc & Hl & _ & Hk & _).
  cbv zeta in *.
  destruct Hk as (Krt & Kctx & Kres & _ & Kpdf & Kloc & Ksky & _).
  destruct (early_step_environment _ _ (earlyState_step w s1)) as (Emap & _ & Eidx & Edirty).
  destruct (reloadEnvironmentMapIfDirty_reloads _ _ _ L) as (_ & Hsame).
  rewrite Edirty, Hzero in Hsame. specialize (Hsame ltac:(done)). subst s2'.
  destruct (before_setup _ fbinfo (effectiveFrameIndex w s1) _ _ L)
    as (Btone & Btaa & _ & _ & _ & Brel & Bnrd & Bmeth & _ & _ & _ & _ & Brt & Bctx & Bres
        & _ & _ & _ & _ & Bsky & Bpdf & Bloc & Bdirty & Bmap & Bidx).
  destruct (earlyState_resources w s1) as (Enrd & Ectx & Eres).
  rewrite Hreset in Ectx, Eres. rewrite Ectx in Bctx. rewrite Eres in Bres.
  rewrite Emap in Bmap. rewrite Eidx in Bidx.
  set (v := SetupView fbinfo (effectiveFrameIndex w s1) (earlyState w s1)) in *.
  destruct Hready as (Rrt & Rctx & Rres & Rsky & Rpdf & Rloc & Rtaa & Rtone & Rnrd).
  destruct (prepared_environment w v) as (Pidx & Pmap & Psky).
  assert (size = size1) as ->.
  { assert (environmentMapSize (prepared w v) = environmentMapSize s1) as Eq.
    { apply environmentMapSize_ext; [congruence | congruence |].
      rewrite Psky, Bsky, Brel, Hrel. destruct (m_RenderEnvironmentMapPass s1); done. }
    rewrite Eq, Hsize1 in Hsize. by injection Hsize as <-. }
  assert (bundleCreated size1 v = false) as Hb.
  { unfold bundleCreated, bundleStale in *. by rewrite Bres, Rres, Hstale. }
  assert (isNull (m_NRD v) = false \/ WITH_NRD w = false) as Hn.
  { destruct (WITH_NRD w) eqn:Hw; [left | by right].
    destruct (Hnrd eq_refl) as (nrd & En & Em).
    by rewrite Bnrd, Enrd, En, Em, bool_decide_eq_true_2. }
  destruct (SetupRenderPasses_exact _ _ _ _ _ S)
    as (size' & Hsize' & _ & Srt & Sctx & _ & _ & Skeep & _ & _ & _ & Ssky & Spdf & Sloc & _).
  rewrite Hsize in Hsize'. injection Hsize' as <-.
  assert (forall e, stageEvents w fbinfo size1 v s4 e = []) as Hnone.
  { intros e. unfold stageEvents, shaderReloadEvents, skyPassEvents, renderTargetEvents,
      contextEvents, bundleEvents, environmentPdfPassEvents, localPdfPassEvents,
      lightingBindingEvents, lightingPipelineEvents, taaPassEvents, toneMappingPassEvents,
      denoiserIntegrationEvents.
    rewrite Hb, Brel, Hrel, Bsky, Rsky, Brt, Rrt, Bctx, Rctx, Bdirty, Hzero, Bpdf, Rpdf, Bloc,
      Rloc, Btaa, Rtaa, Btone, Rtone.
    destruct Hn as [-> | ->]; cbn [orb andb Z.eqb]; rewrite ?andb_false_r;
      by destruct (stage e). }
  split.
  - apply Forall_forall. intros e He. split.
    + destruct (creates e) eqn:Hcr; [| done].
      apply (Hc e Hcr) in He. rewrite Hnone in He. by apply elem_of_nil in He.
    + destruct (reloads e) eqn:Hre; [| done].
      apply (Hl e Hre) in He. rewrite Hnone in He. unfold newEvents in He.
      rewrite drop_all in He. destruct He as [He | He]; by apply elem_of_nil in He.
  - rewrite Krt, Kctx, Kres, Kpdf, Kloc, Ksky, Srt, Sctx, Ssky, (Skeep Hb), Brt, Bctx, Bres,
      Bsky, Brel, Hrel.
    rewrite Spdf, Sloc, Bpdf, Bloc;
      try (rewrite Hb, Brel, Hrel, ?Bdirty, ?Hzero, ?Bpdf, ?Rpdf, ?Bloc, ?Rloc; done).
    destruct (m_RenderTargets s1), (m_RtxdiContext s1), (m_RenderEnvironmentMapPass s1);
      done.
Qed.

(** ** Camera path playback *)

(** Lines 678-696 on the camera and the playback position. *)
Lemma earlyState_camera w s :
  m_Camera (earlyState w s)
  = match animationFrame (m_ui s) with
    | Some frame =>
        match InterpolateCameraPath w frame with
        | Some camera => camera
        | None => m_Camera s
        end
    | None => m_Camera s
    end
  /\ animationFrame (m_ui (earlyState w s))
     = match animationFrame (m_ui s) with
       | Some frame =>
           match InterpolateCameraPath w frame with
           | Some _ => Some (uint_incr (uint_wrap frame))
           | None => None
           end
       | None => None
       end.
Proof.
  unfold earlyState.
  assert (forall s0, m_Camera (resetRtxdiContextIfRequested s0) = m_Camera s0
                     /\ animationFrame (m_ui (resetRtxdiContextIfRequested s0))
                        = animationFrame (m_ui s0)) as E1.
  { intros s0. unfold resetRtxdiContextIfRequested. destruct_renderer s0. norm.
    by case_inner. }
  assert (forall s0, m_Camera (dropDenoiserOnMethodChange w s0) = m_Camera s0
                     /\ animationFrame (m_ui (dropDenoiserOnMethodChange w s0))
                        = animationFrame (m_ui s0)) as E2.
  { intros s0. unfold dropDenoiserOnMethodChange. destruct_renderer s0. norm.
    by repeat case_inner. }
  destruct (E1 (dropDenoiserOnMethodChange w (resolveEffectiveFrameIndex w (leaveStep s)).1))
    as (-> & ->).
  destruct (E2 (resolveEffectiveFrameIndex w (leaveStep s)).1) as (-> & ->).
  unfold resolveEffectiveFrameIndex, leaveStep. destruct_renderer s. norm.
  repeat (case_inner; cbn [fst snd]; norm). all: done.
Qed.

(** While a camera path plays, each frame that is not frozen takes the camera
    from the path at the playback position, renders from it in the same
    frame, and moves the position on by one.  When the path has ended the
    frame captures the benchmark results, stops the playback and leaves the
    camera alone; without playback it does none of this. *)
Theorem camera_path_playback w fbinfo s s' :
  m_FrameStepMode s <> Wait ->
  RenderScene w fbinfo s = Ok s' ->
  GetViewMatrix (m_View s') = m_Camera s'
  /\ match animationFrame (m_ui s) with
     | Some frame =>
         match InterpolateCameraPath w frame with
         | Some camera =>
             m_Camera s' = camera
             /\ animationFrame (m_ui s') = Some (uint_incr (uint_wrap frame))
             /\ EvCaptureBenchmarkResults ∉ newEvents s s'
         | None =>
             m_Camera s' = m_Camera s
             /\ animationFrame (m_ui s') = None
             /\ EvCaptureBenchmarkResults ∈ newEvents s s'
         end
     | None =>
         m_Camera s' = m_Camera s
         /\ animationFrame (m_ui s') = None
         /\ EvCaptureBenchmarkResults ∉ newEvents s s'
     end.
Proof.
  intros Hmode Hrun.
  destruct (frame_anatomy _ _ _ _ Hmode Hrun)
    as (s2 & s4 & s5 & s6 & reset & static & weight & mode & size & _ & _ & _ & _ & _ & Hcap).
  destruct (RenderScene_settings _ _ _ _ Hmode Hrun) as (_ & Ecam & Eframe & _).
  destruct (earlyState_camera w s) as (Ec & Ef).
  destruct (RenderScene_temporal _ _ _ _ Hmode Hrun) as (_ & _ & _ & _ & Eview & _).
  split; [done |]. rewrite Ec in Ecam. rewrite Ef in Eframe.
  destruct (animationFrame (m_ui s)) as [frame|].
  - destruct (InterpolateCameraPath w frame).
    + do 2 (split; [done |]). rewrite Hcap. by intros ?%elem_of_nil.
    + do 2 (split; [done |]). rewrite Hcap. apply list_elem_of_here.
  - do 2 (split; [done |]). rewrite Hcap. by intros ?%elem_of_nil.
Qed.

(** ** [LoadEnvironmentMap] *)


(** ** The configuration of the environment light *)

(** The configuration of lines 787-800, from the selection and the loaded
    map. *)
Definition environmentLightEvent s : Event :=
  if 0 <=? environmentMapIndex (m_ui s) then
    EvConfigureEnvironmentLight
      (Some match m_EnvironmentMap s with
            | Some t => FileMap (bindlessDescriptorIndex t)
            | None => ProceduralSky
            end)
      (if 0 <? environmentMapIndex (m_ui s) then 0 else 1)
  else EvConfigureEnvironmentLight None 0.

Lemma configureEnvironmentLight_last s s' :
  configureEnvironmentLight s = Ok s' -> last (trace s') = Some (environmentLightEvent s').
Proof.
  unfold configureEnvironmentLight, environmentLightEvent. intros Hrun.
  destruct_renderer s. invert_run; by rewrite last_snoc.
Qed.

(** The policy phase ends with the configuration of the environment light. *)
Lemma framePolicy_last w s s' static weight mode :
  framePolicy w s = Ok (s', static, weight, mode) ->
  last (trace s') = Some (environmentLightEvent s').
Proof.
  unfold framePolicy. intros Hrun.
  inv_bind Hrun. inv_bind Hrun. inv_bind Hrun. rename a1 into s6.
  apply configureEnvironmentLight_last in Hstep1.
  destruct (selectDenoiserMode w s6) as [s7 mode'] eqn:Hden. simplify_eq.
  apply selectDenoiserMode_result in Hden as (denoiser & ->).
  revert Hstep1. unfold environmentLightEvent. clear. destruct_renderer s6. by norm.
Qed.

(** * The frame as one sequence of events *)

(** The render passes of a frame that is not frozen, in the order of lines
    814-1010, in terms of the state [s] the frame starts in and the state
    [s'] it ends in, which holds the handles the setup built, the denoiser
    flag and the accumulated-frame counter; [regenerate] tells whether the
    PDF mipmaps of the environment map are due. *)
Definition framePasses w fbinfo (regenerate : bool) s s' : list Event :=
  match m_RtxdiResources s' with
  | Some r => [EvInitializeNeighborOffsets r]
  | None => []
  end
  ++ accelStructEvents s
  ++ (if regenerate then
        (if environmentMapIndex (m_ui s') =? 0 then [EvRenderEnvironmentMap] else [])
        ++ match m_EnvironmentMapPdfMipmapPass s' with
           | Some mips => [EvEnvironmentMapPdfMipmapProcess mips]
           | None => []
           end
      else [])
  ++ gbufferEvents s
  ++ EvPrepareLights (environmentMapImportanceSampling (m_ui s)) (effectiveFrameIndex w s)
     :: (if enableLocalLightImportanceSampling (m_ui s) then [EvLocalLightPdfMipmapProcess]
         else [])
  ++ lightingCalls (renderingMode (m_ui s))
  ++ (if enableDenoiser (m_ui s') then [EvRunDenoiserPasses] else [])
  ++ EvCompositing
       (if enableDenoiser (m_ui s')
        then if bool_decide (denoisingMethod (m_ui s) = RELAX_DIFFUSE_SPECULAR)
             then DENOISER_MODE_RELAX else DENOISER_MODE_REBLUR
        else DENOISER_MODE_OFF)
     :: (if enableTransparentGeometry (m_ui s) then [EvGlass] else [])
  ++ resolveEvents (accumulationWeight s') s
  ++ (if enableToneMapping (m_ui s) then
        (if isNull (m_ToneMappingPass s) then [EvResetExposure] else [])
        ++ [EvToneMapping (finalHdrImage (m_ui s));
            EvBlitTexture (fb_width fbinfo, fb_height fbinfo) LdrColor]
      else [EvBlitTexture (fb_width fbinfo, fb_height fbinfo) (finalHdrImage (m_ui s))]).

(** The one event lines 675-730 can issue: the capture of the benchmark
    results when the camera path has ended. *)
Definition benchmarkEvents w s : list Event :=
  match animationFrame (m_ui s) with
  | Some frame =>
      match InterpolateCameraPath w frame with
      | Some _ => []
      | None => [EvCaptureBenchmarkResults]
      end
  | None => []
  end.

(** All the events of a frame that is not frozen, in order: the benchmark
    capture, the reload of the environment map, the resource setup, the four
    events of the policy phase, and the render passes. *)
Lemma frame_sequence w fbinfo s s' :
  m_FrameStepMode s <> Wait ->
  RenderScene w fbinfo s = Ok s' ->
  exists s2 s4 reset size (skip : bool) accumulation,
    let v := SetupView fbinfo (effectiveFrameIndex w s) s2 in
    (reloadEnvironmentMapIfDirty w (earlyState w s) = Ok s2
     /\ SetupRenderPasses w fbinfo v = Ok (s4, reset)
     /\ environmentMapSize (prepared w v) = Ok size)
    /\ newEvents s s'
       = benchmarkEvents w s ++ newEvents (earlyState w s) s2
         ++ setupEvents w fbinfo size v s4
         ++ (EvNextFrame :: (if skip then [] else [EvTaaAdvanceFrame])
             ++ [accumulation; environmentLightEvent s'])
         ++ framePasses w fbinfo (negb (environmentMapDirty (m_ui s4) =? 0)) s s'
    /\ Forall (fun e => reloads e = true) (newEvents (earlyState w s) s2)
    /\ Forall (fun e => origin e = OSetup) (setupEvents w fbinfo size v s4)
    /\ origin accumulation = OAccumulation
    /\ skipJitterAdvance s4 = Ok skip
    /\ isNull (m_RtxdiResources s') = false
    /\ isNull (m_EnvironmentMapPdfMipmapPass s') = false.
Proof.
  intros Hmode Hrun.
  destruct (RenderScene_trace _ _ _ _ Hmode Hrun)
    as (s2 & s4 & s5 & reset & static & weight & mode & setup & skip0 & acc0 & texture0 & sun0
        & (L & S & P) & _ & _ & _ & _ & Hset & Hres & Hr & Hv & Hd).
  destruct (frame_anatomy _ _ _ _ Hmode Hrun)
    as (s2' & s4' & s5' & s6 & reset' & static' & weight' & mode' & size
        & (L' & S' & P' & C & Es' & Hsize) & _ & _ & _ & Hk & _).
  cbv zeta in *.
  rewrite L in L'. injection L' as <-. rewrite S in S'. injection S' as <- <-.
  rewrite P in P'. injection P' as <- <- <- <-.
  exists s2, s4, reset, size.
  destruct (framePolicy_spec _ _ _ _ _ _ P)
    as (_ & _ & Hweight & _ & _ & skip & acc & texture & sun & Hskip & Hacc & _ & Hpol & _).
  exists skip, acc. split; [done |].
  destruct Hset as (Hsince & Hvalid & Hraster & Hrmode & Hglass & Hacc' & Htaa & Htone & Hloc
                    & Himp).
  destruct Hres as (_ & _ & Eres & Epdf & _ & _ & _ & _ & Eidx & Eden & _).
  destruct Hr as (_ & _ & Rres & _ & Rpdf & _).
  destruct (reloadEnvironmentMapIfDirty_reloads _ _ _ L) as (Hload & _).
  destruct (SetupRenderPasses_exact _ _ _ _ _ S) as (size' & Hsize' & Hexact & _).
  rewrite Hsize in Hsize'. injection Hsize' as <-.
  destruct (SetupRenderPasses_step _ _ _ _ _ S) as [Sapp Sh].
  split; [| split; [done | split; [| split; [done | split; [done |]]]]]; cycle 1.
  { rewrite <- Hexact. by apply appends_Forall. }
  { by rewrite Eres, Epdf. }
  (* the events, phase by phase *)
  pose proof (earlyState_trace w s) as Te. fold (benchmarkEvents w s) in Te.
  pose proof (reloadEnvironmentMapIfDirty_step _ _ _ L) as [AL _].
  assert (grows s (earlyState w s)) as G1 by (eexists; exact Te).
  pose proof (appends_grows _ _ _ AL) as G2.
  assert (grows s2 s4) as G3.
  { destruct Sapp as (l & _ & El). exists l. by rewrite El, SetupView_trace. }
  pose proof (framePolicy_grows _ _ _ _ _ _ P) as G5.
  pose proof (recordCommandList_events _ _ _ _ _ _ _ _ C) as Hcmd.
  assert (grows s5 s6) as G6 by (by eexists).
  assert (newEvents s2 s4 = setupEvents w fbinfo size
                              (SetupView fbinfo (effectiveFrameIndex w s) s2) s4) as E3.
  { rewrite <- Hexact. unfold newEvents. by rewrite SetupView_trace. }
  assert (newEvents s s'
          = benchmarkEvents w s ++ newEvents (earlyState w s) s2
            ++ setupEvents w fbinfo size (SetupView fbinfo (effectiveFrameIndex w s) s2) s4
            ++ newEvents s4 s5 ++ newEvents s5 s6) as ->.
  { subst s'. assert (newEvents s (commitFrame s6) = newEvents s s6) as ->
      by (unfold newEvents; by rewrite commitFrame_trace).
    rewrite (newEvents_grows s (earlyState w s) s6), (newEvents_grows (earlyState w s) s2 s6),
      (newEvents_grows s2 s4 s6), (newEvents_grows s4 s5 s6) by chain.
    by rewrite (newEvents_app _ _ _ Te), E3. }
  (* the environment light *)
  destruct Hk as (_ & _ & _ & _ & _ & _ & _ & Kmap & Kidx & _ & _ & _ & _ & Kidx5).
  destruct (framePolicy_keeps _ _ _ _ _ _ P) as (_ & _ & _ & _ & _ & _ & _ & _ & Pmap & _).
  pose proof (framePolicy_last _ _ _ _ _ _ P) as Hlast.
  destruct G5 as (l5 & E5). rewrite (newEvents_app _ _ _ E5) in Hpol.
  rewrite E5, last_app, Hpol in Hlast.
  assert (Some (EvConfigureEnvironmentLight texture sun) = Some (environmentLightEvent s5))
    as Hlight by (by destruct skip).
  injection Hlight as Hlight. clear Hlast.
  assert (environmentLightEvent s5 = environmentLightEvent s') as Elight.
  { unfold environmentLightEvent. by rewrite Kmap, Kidx, Kidx5, Pmap. }
  rewrite (newEvents_app _ _ _ E5), Hpol, Hlight, Elight.
  (* the scalars the command list is given *)
  destruct (SetupRenderPasses_passes _ _ _ _ _ S) as (-> & _).
  destruct (before_setup _ fbinfo (effectiveFrameIndex w s) _ _ L)
    as (Btone & _ & _ & _ & _ & _ & _ & Bmeth & Bden & _).
  assert (setup_step (SetupView fbinfo (effectiveFrameIndex w s) s2) s4) as St by done.
  destruct (setup_step_settings _ _ St) as (Smeth & _).
  destruct (framePolicy_denoiser _ _ _ _ _ _ P) as (Pden & Pmode & _).
  rewrite Smeth, Bmeth in Pmode. rewrite <- Eden in Pmode.
  assert (WITH_NRD w && enableDenoiser (m_ui s5) = enableDenoiser (m_ui s5)) as Enrd.
  { rewrite Pden. by destruct (WITH_NRD w). }
  assert (accumulationWeight s' = accumulationWeight s5) as Eweight.
  { subst s'. unfold accumulationWeight. f_equal. f_equal. f_equal.
    destruct (recordCommandList_step _ _ _ _ _ _ _ _ C) as (_ & _ & ? & ? & ? & ? & ? & ->).
    destruct (commitFrame_shape
                (set_trace x (set_m_BindingCache x0
                   (set_m_ui (set_environmentMapDirty x1 (set_reblurCheckerboardMode x2
                                (set_taaClampingFactor x3 (m_ui s5)))) s5))))
      as (? & ? & ? & ->).
    destruct_renderer s5. by norm. }
  rewrite (newEvents_app _ _ _ Hcmd). do 4 f_equal.
  unfold commandList, framePasses, neighborOffsetEvents, environmentEvents, gbufferEvents,
    lightPreparationEvents, denoiserEvents, compositingEvents, resolveEvents, presentEvents,
    accelStructEvents, finalHdrImage.
  rewrite Enrd, Hsince, Hvalid, Hraster, Hrmode, Hglass, Hacc', Htaa, Htone, Hloc, Himp, Hv,
    Hd, Btone, Pmode, Hweight, Eweight, Rpdf, <- Eres, <- Epdf, <- Eidx, <- Eden.
  cbn [negb andb]. done.
Qed.

(** ** Counting events *)

Lemma filter_none (P : Event -> bool) (l : list Event) :
  Forall (fun e => P e = false) l -> List.filter P l = [].
Proof.
  induction 1 as [| e l He _ IH]; [done |]. cbn. by rewrite He.
Qed.

Lemma Forall_origin_filter (P : Event -> bool) (o : Origin) (l : list Event) :
  (forall e, origin e = o -> P e = false) ->
  Forall (fun e => origin e = o) l -> List.filter P l = [].
Proof.
  intros HP Hl. apply filter_none. eapply Forall_impl; [exact Hl |]. exact HP.
Qed.

Lemma Forall_reloads_filter (P : Event -> bool) (l : list Event) :
  (forall e, reloads e = true -> P e = false) ->
  Forall (fun e => reloads e = true) l -> List.filter P l = [].
Proof.
  intros HP Hl. apply filter_none. eapply Forall_impl; [exact Hl |]. exact HP.
Qed.

(** Removes from the goal the pieces of an event list that [List.filter]
    empties. *)
Ltac drop_piece :=
  match goal with
  | |- context [List.filter ?P ?l] =>
      rewrite (filter_none P l)
        by (clear; repeat case_goal; repeat (apply Forall_cons_2; [reflexivity |]);
            apply Forall_nil_2)
  end.

(** Writes a list of events as a concatenation of pieces and filters each
    piece on its own. *)
Ltac uncons :=
  repeat match goal with
    | |- context [?x :: ?l] =>
        lazymatch l with
        | [] => fail
        | _ => change (x :: l) with ([x] ++ l)
        end
    end.

Ltac split_filter :=
  unfold framePasses, benchmarkEvents, accelStructEvents, gbufferEvents, resolveEvents,
    lightingCalls;
  uncons; rewrite ?List.filter_app; repeat drop_piece.

(** The light preparation of lines 853-878. *)
Definition isLightPreparation (e : Event) : bool :=
  match e with
  | EvPrepareLights _ _ | EvLocalLightPdfMipmapProcess => true
  | _ => false
  end.

Lemma elem_of_filter_events (P : Event -> bool) (l : list Event) (e : Event) :
  P e = true -> (e ∈ l <-> e ∈ List.filter P l).
Proof.
  intros He. rewrite !list_elem_of_In, filter_In. tauto.
Qed.

(** ** Light preparation *)

(** The light preparation of a frame runs exactly once, with the frame index
    the frame resolved (the animation frame during path playback, otherwise 0
    under freeze-random and the frame counter without it), and with
    environment-map importance sampling as the UI has it: after the setup the
    PDF mipmap pass is never null.  The local-light PDF mipmaps are processed
    right after it, once, exactly when local-light importance sampling is
    on. *)
Theorem light_preparation_arguments w fbinfo s s' :
  m_FrameStepMode s <> Wait ->
  RenderScene w fbinfo s = Ok s' ->
  let index :=
    match animationFrame (m_ui s) with
    | Some frame =>
        match InterpolateCameraPath w frame with
        | Some _ => uint_wrap frame
        | None => if freezeRandom (m_ui s) then 0 else m_FrameIndex s
        end
    | None => if freezeRandom (m_ui s) then 0 else m_FrameIndex s
    end in
  List.filter isLightPreparation (newEvents s s')
  = EvPrepareLights (environmentMapImportanceSampling (m_ui s)) index
    :: (if enableLocalLightImportanceSampling (m_ui s) then [EvLocalLightPdfMipmapProcess]
        else [])
  /\ (forall importance index',
        EvPrepareLights importance index' ∈ newEvents s s'
        <-> importance = environmentMapImportanceSampling (m_ui s) /\ index' = index)
  /\ (EvLocalLightPdfMipmapProcess ∈ newEvents s s'
      <-> enableLocalLightImportanceSampling (m_ui s) = true).
Proof.
  intros Hmode Hrun index.
  assert (List.filter isLightPreparation (newEvents s s')
          = EvPrepareLights (environmentMapImportanceSampling (m_ui s)) index
            :: (if enableLocalLightImportanceSampling (m_ui s)
                then [EvLocalLightPdfMipmapProcess] else [])) as Hfilter.
  { subst index. rewrite <- effectiveFrameIndex_spec.
    destruct (frame_sequence _ _ _ _ Hmode Hrun)
      as (s2 & s4 & reset & size & skip & acc & _ & Hev & Hload & Hsetup & Hacc & _).
    cbv zeta in *. rewrite Hev. clear Hev.
    rewrite !List.filter_app.
    rewrite (Forall_reloads_filter isLightPreparation _ ltac:(by intros []) Hload).
    rewrite (Forall_origin_filter isLightPreparation OSetup _ ltac:(by intros []) Hsetup).
    assert (List.filter isLightPreparation [acc] = []) as Eacc by (by destruct acc).
    assert (List.filter isLightPreparation [environmentLightEvent s'] = []) as Elight
      by (clear; unfold environmentLightEvent; by case_match).
    split_filter. rewrite Eacc, Elight.
    by destruct (enableLocalLightImportanceSampling (m_ui s)). }
  split; [done |]. split.
  - intros importance index'.
    rewrite (elem_of_filter_events isLightPreparation) by done. rewrite Hfilter.
    rewrite elem_of_cons. split.
    + intros [[= -> ->] | Hin]; [done |]. case_match; [| by apply elem_of_nil in Hin].
      by apply list_elem_of_singleton in Hin.
    + intros [-> ->]. by left.
  - rewrite (elem_of_filter_events isLightPreparation) by done. rewrite Hfilter.
    rewrite elem_of_cons. destruct (enableLocalLightImportanceSampling (m_ui s)).
    + split; [done |]. intros _. right. by apply list_elem_of_singleton.
    + split; [| done]. intros [? | Hin]; [done |]. by apply elem_of_nil in Hin.
Qed.

(** ** The environment light *)

Definition isEnvironmentLightSetup (e : Event) : bool :=
  match e with
  | EvConfigureEnvironmentLight _ _ => true
  | _ => false
  end.

(** Every frame that is not frozen configures the environment light exactly
    once.  With a negative selection the light has no texture and the sun is
    off.  Otherwise the light takes the loaded map, or the procedural sky when
    no map is loaded.  The sun shines exactly under the procedural selection
    (index 0). *)
Theorem environment_light_rule w fbinfo s s' :
  m_FrameStepMode s <> Wait ->
  RenderScene w fbinfo s = Ok s' ->
  let texture :=
    if 0 <=? environmentMapIndex (m_ui s')
    then Some match m_EnvironmentMap s' with
              | Some t => FileMap (bindlessDescriptorIndex t)
              | None => ProceduralSky
              end
    else None in
  let sun := if environmentMapIndex (m_ui s') =? 0 then 1 else 0 in
  List.filter isEnvironmentLightSetup (newEvents s s')
  = [EvConfigureEnvironmentLight texture sun]
  /\ (forall texture' sun',
        EvConfigureEnvironmentLight texture' sun' ∈ newEvents s s'
        <-> texture' = texture /\ sun' = sun).
Proof.
  intros Hmode Hrun texture sun.
  assert (List.filter isEnvironmentLightSetup (newEvents s s')
          = [EvConfigureEnvironmentLight texture sun]) as Hfilter.
  { destruct (frame_sequence _ _ _ _ Hmode Hrun)
      as (s2 & s4 & reset & size & skip & acc & _ & Hev & Hload & Hsetup & Hacc & _).
    cbv zeta in *. rewrite Hev. clear Hev.
    rewrite !List.filter_app.
    rewrite (Forall_reloads_filter isEnvironmentLightSetup _ ltac:(by intros []) Hload).
    rewrite (Forall_origin_filter isEnvironmentLightSetup OSetup _ ltac:(by intros [])
               Hsetup).
    assert (List.filter isEnvironmentLightSetup [acc] = []) as Eacc by (by destruct acc).
    assert (List.filter isEnvironmentLightSetup [environmentLightEvent s']
            = [EvConfigureEnvironmentLight texture sun]) as Elight.
    { unfold environmentLightEvent. subst texture sun.
      destruct (Z.leb_spec 0 (environmentMapIndex (m_ui s')));
        destruct (Z.ltb_spec 0 (environmentMapIndex (m_ui s')));
        destruct (Z.eqb_spec (environmentMapIndex (m_ui s')) 0); done || lia. }
    split_filter. by rewrite Eacc, Elight. }
  split; [done |]. intros texture' sun'.
  rewrite (elem_of_filter_events isEnvironmentLightSetup) by done. rewrite Hfilter.
  rewrite list_elem_of_singleton. split; [by intros [= -> ->] | by intros [-> ->]].
Qed.

(** ** Post-processing, in order *)

(** Compositing and the passes that follow it. *)
Definition isPostProcessing (e : Event) : bool :=
  match e with
  | EvCompositing _ | EvGlass | EvAccumulationRender _ | EvTemporalResolve _
  | EvResetExposure | EvToneMapping _ | EvBlitTexture _ _ => true
  | _ => false
  end.

(** After compositing, a frame accumulates if accumulation is enabled and
    otherwise resolves with TAA if TAA is enabled (never both), passing on
    whether a previous view existed when the frame began; it tone-maps the
    resulting image if tone mapping is enabled; and it blits exactly the image
    that the frame-step "wait" path shows, over the whole framebuffer.  The
    glass pass runs exactly when transparent geometry is enabled.  Each of
    these runs once, in the order of lines 956-1005: compositing, glass,
    accumulation or TAA resolve, exposure reset when the tone-mapping pass is
    new, tone mapping, blit. *)
Theorem post_processing_chain w fbinfo s s' :
  m_FrameStepMode s <> Wait ->
  RenderScene w fbinfo s = Ok s' ->
  ((exists weight, EvAccumulationRender weight ∈ newEvents s s')
   <-> enableAccumulation (m_ui s) = true)
  /\ (forall valid,
        EvTemporalResolve valid ∈ newEvents s s'
        <-> enableAccumulation (m_ui s) = false /\ enableTAA (m_ui s) = true
            /\ valid = m_PreviousViewValid s)
  /\ (forall img,
        EvToneMapping img ∈ newEvents s s'
        <-> enableToneMapping (m_ui s) = true
            /\ img = if enableAccumulation (m_ui s) then AccumulatedColor
                     else if enableTAA (m_ui s) then ResolvedColor else HdrColor)
  /\ (forall viewport img,
        EvBlitTexture viewport img ∈ newEvents s s'
        <-> viewport = (fb_width fbinfo, fb_height fbinfo) /\ img = finalImage (m_ui s))
  /\ (EvGlass ∈ newEvents s s' <-> enableTransparentGeometry (m_ui s) = true)
  /\ exists mode,
       List.filter isPostProcessing (newEvents s s')
       = EvCompositing mode
         :: (if enableTransparentGeometry (m_ui s) then [EvGlass] else [])
         ++ (if enableAccumulation (m_ui s)
             then [EvAccumulationRender
                     (1 / inject_Z (Z.of_N (numAccumulatedFrames (m_ui s'))))]
             else if enableTAA (m_ui s) then [EvTemporalResolve (m_PreviousViewValid s)]
             else [])
         ++ (if enableToneMapping (m_ui s) then
               (if isNull (m_ToneMappingPass s) then [EvResetExposure] else [])
               ++ [EvToneMapping
                     (if enableAccumulation (m_ui s) then AccumulatedColor
                      else if enableTAA (m_ui s) then ResolvedColor else HdrColor)]
             else [])
         ++ [EvBlitTexture (fb_width fbinfo, fb_height fbinfo) (finalImage (m_ui s))].
Proof.
  intros Hmode Hrun.
  destruct (post_processing_members _ _ _ _ Hmode Hrun) as (H1 & H2 & H3 & H4 & H5).
  do 5 (split; [done |]).
  destruct (frame_sequence _ _ _ _ Hmode Hrun)
    as (s2 & s4 & reset & size & skip & acc & _ & Hev & Hload & Hsetup & Hacc & _).
  cbv zeta in *. rewrite Hev. clear Hev.
  eexists.
  rewrite !List.filter_app.
  rewrite (Forall_reloads_filter isPostProcessing _ ltac:(by intros []) Hload).
  rewrite (Forall_origin_filter isPostProcessing OSetup _ ltac:(by intros []) Hsetup).
  assert (List.filter isPostProcessing [acc] = []) as Eacc by (by destruct acc).
  assert (List.filter isPostProcessing [environmentLightEvent s'] = []) as Elight
    by (clear; unfold environmentLightEvent; by case_match).
  split_filter. rewrite Eacc, Elight. unfold accumulationWeight, finalImage, finalHdrImage.
  cbn [app].
  destruct (enableTransparentGeometry (m_ui s)), (enableAccumulation (m_ui s)),
    (enableTAA (m_ui s)), (enableToneMapping (m_ui s)), (isNull (m_ToneMappingPass s));
    reflexivity.
Qed.

(** * The dirty level of the environment map *)








(** * A file that fails to load *)

(** C9: a frame in which the selected environment-map file fails to load does
    not abort.  It returns; the environment map handle is null, the selection
    index is 0 and the failing path is erased from the list of selectable
    maps.  After the failed attempt, and with the environment light pointed at
    the procedural sky with the sun on, the frame runs its whole pass
    sequence, and nothing else: neighbor offsets, acceleration structure, the
    sky and its PDF mipmaps, G-buffer, light preparation, the lighting passes
    of the rendering mode, denoiser, compositing, glass, accumulation or TAA
    resolve, tone mapping and the final blit.  The sun light that lines 794
    and 835 use is taken to exist, as in [configureEnvironmentLight]. *)
Theorem failed_load_falls_back w fbinfo s path :
  m_FrameStepMode s <> Wait ->
  environmentMapDirty (m_ui s) = 2 ->
  0 < environmentMapIndex (m_ui s) ->
  environmentMaps s !! Z.to_nat (environmentMapIndex (m_ui s)) = Some path ->
  LoadTextureFromFileDeferred w path = None ->
  exists s' earlier r mips,
    RenderScene w fbinfo s = Ok s'
    /\ m_EnvironmentMap s' = None
    /\ environmentMapIndex (m_ui s') = 0
    /\ environmentMaps s'
       = delete (Z.to_nat (environmentMapIndex (m_ui s))) (environmentMaps s)
    /\ m_FrameIndex s' = uint_incr (m_FrameIndex s)
    /\ m_RtxdiResources s' = Some r
    /\ m_EnvironmentMapPdfMipmapPass s' = Some mips
    /\ EvLoadTextureFromFileDeferred path ∈ earlier
    /\ Forall (fun e => isPassEvent e = false) earlier
    /\ newEvents s s'
       = earlier
         ++ [EvConfigureEnvironmentLight (Some ProceduralSky) 1]
         ++ [EvInitializeNeighborOffsets r]
         ++ (if m_FramesSinceAnimation s <? 2 then [EvBuildTopLevelAccelStruct] else [])
         ++ [EvRenderEnvironmentMap; EvEnvironmentMapPdfMipmapProcess mips]
         ++ [if rasterizeGBuffer (m_ui s) then EvGBufferRasterized else EvGBufferRaytraced]
         ++ [EvPrepareLights (environmentMapImportanceSampling (m_ui s))
               (effectiveFrameIndex w s)]
         ++ (if enableLocalLightImportanceSampling (m_ui s)
             then [EvLocalLightPdfMipmapProcess] else [])
         ++ lightingCalls (renderingMode (m_ui s))
         ++ (if enableDenoiser (m_ui s') then [EvRunDenoiserPasses] else [])
         ++ [EvCompositing
               (if enableDenoiser (m_ui s')
                then if bool_decide (denoisingMethod (m_ui s) = RELAX_DIFFUSE_SPECULAR)
                     then DENOISER_MODE_RELAX else DENOISER_MODE_REBLUR
                else DENOISER_MODE_OFF)]
         ++ (if enableTransparentGeometry (m_ui s) then [EvGlass] else [])
         ++ (if enableAccumulation (m_ui s)
             then [EvAccumulationRender
                     (1 / inject_Z (Z.of_N (numAccumulatedFrames (m_ui s'))))]
             else if enableTAA (m_ui s) then [EvTemporalResolve (m_PreviousViewValid s)]
             else [])
         ++ (if enableToneMapping (m_ui s) then
               (if isNull (m_ToneMappingPass s) then [EvResetExposure] else [])
               ++ [EvToneMapping (finalHdrImage (m_ui s));
                   EvBlitTexture (fb_width fbinfo, fb_height fbinfo) LdrColor]
             else [EvBlitTexture (fb_width fbinfo, fb_height fbinfo)
                     (finalHdrImage (m_ui s))]).
Proof.
  intros Hmode Hd Hidx Hpath Hfail.
  assert (environment_ok s) as Hok.
  { unfold environment_ok. rewrite Hd. cbn. by rewrite Hpath. }
  destruct (RenderScene_Ok w fbinfo s Hmode Hok) as (s' & Hrun). exists s'.
  destruct (RenderScene_temporal _ _ _ _ Hmode Hrun) as (_ & _ & _ & _ & _ & Hframe & _).
  destruct (frame_sequence _ _ _ _ Hmode Hrun)
    as (s2 & s4 & reset & size & skip & acc & (L & S & Hsize) & Hev & Hload & Hsetup & Hacc
        & _ & Rres & Rpdf).
  cbv zeta in *.
  (* the state the frame ends in *)
  destruct (RenderScene_environment _ _ _ _ Hmode Hrun)
    as (t1 & t2 & T & Em & Ems & Ei & Ed & Em' & Ems' & Ei' & _).
  unfold reloadEnvironmentMapIfDirty in T. rewrite Ed, Hd in T. cbn in T.
  destruct (LoadEnvironmentMap_failure w t1 path) as (t2' & T' & Hnone & Hzero & Hdel & _);
    [by rewrite Ei | by rewrite Ems, Ei | done |].
  rewrite T in T'. injection T' as <-.
  assert (m_EnvironmentMap s' = None) as Emap by (by rewrite Em').
  assert (environmentMapIndex (m_ui s') = 0) as Eidx by (by rewrite Ei').
  assert (environmentMaps s'
          = delete (Z.to_nat (environmentMapIndex (m_ui s))) (environmentMaps s)) as Emaps
    by (by rewrite Ems', Hdel, Ems, Ei).
  (* the failed attempt *)
  destruct (early_step_environment _ _ (earlyState_step w s)) as (Fm & Fms & Fi & Fd).
  pose proof L as L0.
  unfold reloadEnvironmentMapIfDirty in L. rewrite Fd, Hd in L. cbn in L.
  assert (EvLoadTextureFromFileDeferred path ∈ newEvents (earlyState w s) s2) as Hin.
  { eapply LoadEnvironmentMap_event; [exact L | by rewrite Fi | by rewrite Fms, Fi]. }
  (* the dirty level after the setup *)
  destruct (before_setup _ fbinfo (effectiveFrameIndex w s) _ _ L0)
    as (_ & _ & _ & _ & _ & _ & _ & _ & _ & _ & _ & _ & _ & _ & _ & _ & _ & _ & _ & _ & _ & _
        & Bd & _).
  destruct (SetupRenderPasses_exact _ _ _ _ _ S)
    as (size' & _ & _ & _ & _ & _ & _ & _ & _ & _ & Sd & _).
  rewrite Bd, Hd in Sd. rewrite orb_true_r in Sd.
  destruct (m_RtxdiResources s') as [r|] eqn:Eres; [| done].
  destruct (m_EnvironmentMapPdfMipmapPass s') as [mips|] eqn:Epdf; [| done].
  exists (benchmarkEvents w s ++ newEvents (earlyState w s) s2
          ++ setupEvents w fbinfo size (SetupView fbinfo (effectiveFrameIndex w s) s2) s4
          ++ EvNextFrame :: (if skip then [] else [EvTaaAdvanceFrame]) ++ [acc]), r, mips.
  split; [done |]. split; [done |]. split; [done |].
  split; [done |].
  do 3 (split; [done |]). split; [| split].
  - rewrite !elem_of_app. right. by left.
  - rewrite !Forall_app. split; [| split; [| split]].
    + clear. unfold benchmarkEvents. repeat case_match; by repeat constructor.
    + eapply Forall_impl; [exact Hload |]. by intros [].
    + eapply Forall_impl; [exact Hsetup |]. by intros [].
    + constructor; [done |]. apply Forall_app. split.
      * destruct skip; by repeat constructor.
      * constructor; [by destruct acc | constructor].
  - rewrite Hev. unfold framePasses, environmentLightEvent, accelStructEvents, gbufferEvents,
      resolveEvents, accumulationWeight.
    rewrite Sd, Emap, Eidx, Eres, Epdf. cbn [negb Z.eqb Z.leb Z.ltb Z.compare].
    rewrite <- !app_assoc. cbn [app]. do 3 f_equal. rewrite <- !app_assoc. by cbn [app].
Qed.

(** * The frozen frame and the frame before it *)

(** A frame that is not frozen ends with the blit of the image its toggles
    choose, over the whole framebuffer, and leaves that viewport and those
    toggles behind. *)
Lemma frame_final_blit w fbinfo s s' :
  m_FrameStepMode s <> Wait ->
  RenderScene w fbinfo s = Ok s' ->
  (exists earlier,
     newEvents s s'
     = earlier ++ [EvBlitTexture (fb_width fbinfo, fb_height fbinfo) (finalImage (m_ui s))])
  /\ m_Viewport (m_View s') = (fb_width fbinfo, fb_height fbinfo)
  /\ enableToneMapping (m_ui s') = enableToneMapping (m_ui s)
  /\ enableAccumulation (m_ui s') = enableAccumulation (m_ui s)
  /\ enableTAA (m_ui s') = enableTAA (m_ui s).
Proof.
  intros Hmode Hrun.
  destruct (RenderScene_toggles _ _ _ _ Hmode Hrun) as (Ttone & Tacc & Ttaa & _).
  destruct (RenderScene_trace _ _ _ _ Hmode Hrun)
    as (s2 & s4 & s5 & reset & static & weight & mode & setup & skip & acc & texture & sun
        & _ & Hev & _ & _ & _ & Hset & Hres & _ & Hv & _).
  destruct Hset as (_ & _ & _ & _ & _ & Hacc & Htaa & Htone & _).
  destruct Hres as (_ & _ & _ & _ & _ & _ & _ & Hview & _).
  assert (finalImage (m_ui s5) = finalImage (m_ui s)) as Eimg
    by (unfold finalImage; by rewrite Hacc, Htaa, Htone).
  destruct (presentEvents_last reset s5) as (earlier & Hlast).
  split; [| by rewrite Hview, Hv].
  exists (setup ++ policyEvents skip acc texture sun
          ++ neighborOffsetEvents s5 ++ accelStructEvents s5 ++ environmentEvents s5
          ++ gbufferEvents s5 ++ lightPreparationEvents (effectiveFrameIndex w s) s5
          ++ lightingCalls (renderingMode (m_ui s5)) ++ denoiserEvents w s5
          ++ compositingEvents mode s5 ++ resolveEvents weight s5 ++ earlier).
  rewrite Hev. unfold commandList. rewrite Hlast, Hv, Eimg. by rewrite <- !app_assoc.
Qed.

(** C8, as the code has it: a call in frame-step mode "wait" that finds the
    render targets only blits the image the current toggles choose.  That
    blit is the one event it issues, and the state is the old state but for
    the trace and the blit binding cache, so the frame counter, the
    accumulated-frame counter, both views, the previous-view flag and the TAA
    pass are unchanged; a second call issues the same blit.  The blit repeats
    the one that ended the last completed frame whenever the view and the
    tone-mapping, accumulation and TAA toggles are as that frame left them. *)
Theorem wait_freezes_frame w fbinfo s rt :
  m_FrameStepMode s = Wait ->
  m_RenderTargets s = Some rt ->
  exists s' blit cache,
    RenderScene w fbinfo s = Ok s'
    /\ blit = EvBlitTexture (m_Viewport (m_View s)) (finalImage (m_ui s))
    /\ s' = set_trace (trace s ++ [blit]) (set_m_BindingCache cache s)
    /\ newEvents s s' = [blit]
    /\ m_FrameIndex s' = m_FrameIndex s
    /\ numAccumulatedFrames (m_ui s') = numAccumulatedFrames (m_ui s)
    /\ m_View s' = m_View s
    /\ m_ViewPrevious s' = m_ViewPrevious s
    /\ m_PreviousViewValid s' = m_PreviousViewValid s
    /\ m_TemporalAntiAliasingPass s' = m_TemporalAntiAliasingPass s
    /\ m_FrameStepMode s' = Wait
    /\ (exists s'', RenderScene w fbinfo s' = Ok s'' /\ newEvents s s'' = [blit; blit])
    /\ (forall w0 fbinfo0 s0 s1,
          m_FrameStepMode s0 <> Wait ->
          RenderScene w0 fbinfo0 s0 = Ok s1 ->
          m_View s = m_View s1 ->
          enableToneMapping (m_ui s) = enableToneMapping (m_ui s1) ->
          enableAccumulation (m_ui s) = enableAccumulation (m_ui s1) ->
          enableTAA (m_ui s) = enableTAA (m_ui s1) ->
          exists earlier, newEvents s0 s1 = earlier ++ [blit]).
Proof.
  intros Hmode Hrt. rewrite RenderScene_wait by done.
  destruct (reblitFinalImage_result s rt Hrt) as (cache & Hblit).
  set (blit := EvBlitTexture (m_Viewport (m_View s)) (finalImage (m_ui s))) in *.
  set (s' := set_trace (trace s ++ [blit]) (set_m_BindingCache cache s)) in *.
  assert (m_FrameStepMode s' = Wait /\ m_RenderTargets s' = Some rt
          /\ m_View s' = m_View s /\ m_ui s' = m_ui s /\ trace s' = trace s ++ [blit]
          /\ m_FrameIndex s' = m_FrameIndex s /\ m_ViewPrevious s' = m_ViewPrevious s
          /\ m_PreviousViewValid s' = m_PreviousViewValid s
          /\ m_TemporalAntiAliasingPass s' = m_TemporalAntiAliasingPass s)
    as (Pm & Prt & Pv & Pu & Pt & Pi & Pp & Pf & Pa).
  { subst s'. revert Hmode Hrt. clearbody blit. clear. destruct_renderer s. by norm. }
  exists s', blit, cache. split; [done |]. do 2 (split; [done |]).
  split; [unfold newEvents; by rewrite Pt, drop_app_length |].
  split; [done |]. split; [by rewrite Pu |]. do 5 (split; [done |]). split.
  - rewrite RenderScene_wait by done.
    destruct (reblitFinalImage_result s' rt Prt) as (cache' & ->).
    rewrite Pv, Pu. fold blit. eexists. split; [done |].
    assert (forall (t : @SceneRenderer Matrix) c l,
               trace (set_trace l (set_m_BindingCache c t)) = l)
      as Htr by (intros t c l; by destruct_renderer t).
    unfold newEvents. rewrite Htr, Pt, <- app_assoc. by rewrite drop_app_length.
  - intros w0 fbinfo0 s0 s1 Hmode0 Hrun0 Eview Etone Eacc Etaa.
    destruct (frame_final_blit _ _ _ _ Hmode0 Hrun0)
      as ((earlier & Hev) & Hv & Ttone & Tacc & Ttaa).
    exists earlier. rewrite Hev. subst blit. rewrite Eview, Hv.
    unfold finalImage. by rewrite Etone, Eacc, Etaa, Ttone, Tacc, Ttaa.
Qed.

(** * Camera motion, frame by frame *)

(** C6, as the code has it: camera-static detection is true exactly when a
    previous view is valid and the current view matrix equals the previous
    one.  [SetupView] seeds the previous view from the current one in a frame
    whose frame counter is 0, and only then, and never makes it valid.  So a
    frame that is not frozen is treated as static exactly when it starts with
    a valid previous view and either its frame counter is 0 or its view
    matrix equals the previous frame's; that decides the accumulated-frame
    counter.  The first frame, which has no valid previous view, sets the
    counter to 1, and so does every frame with a nonzero frame counter whose
    view matrix differs from the previous frame's.  Every completed frame
    leaves a valid previous view equal to its own view.  The last part names
    the state the policy phase of the frame starts in: the detection run on
    that state is what the phase returns. *)
Theorem camera_static_detection :
  (forall s,
     cameraIsStatic s = true
     <-> m_PreviousViewValid s = true
         /\ GetViewMatrix (m_View s) = GetViewMatrix (m_ViewPrevious s))
  /\ (forall fbinfo eff s,
        m_PreviousViewValid (SetupView fbinfo eff s) = m_PreviousViewValid s
        /\ (m_FrameIndex s = 0 ->
            m_ViewPrevious (SetupView fbinfo eff s) = m_View (SetupView fbinfo eff s))
        /\ (m_FrameIndex s <> 0 ->
            m_ViewPrevious (SetupView fbinfo eff s) = m_ViewPrevious s))
  /\ (forall w fbinfo s s',
        m_FrameStepMode s <> Wait ->
        RenderScene w fbinfo s = Ok s' ->
        let static :=
          m_PreviousViewValid s
          && ((m_FrameIndex s =? 0)
              || bool_decide (GetViewMatrix (m_View s') = GetViewMatrix (m_ViewPrevious s))) in
        m_PreviousViewValid s' = true
        /\ m_ViewPrevious s' = m_View s'
        /\ numAccumulatedFrames (m_ui s')
           = (if static && enableAccumulation (m_ui s) && negb (resetAccumulation (m_ui s))
              then if (0 <? framesToAccumulate (m_ui s))%N
                   then N.min (numAccumulatedFrames (m_ui s) + 1) (framesToAccumulate (m_ui s))
                   else (numAccumulatedFrames (m_ui s) + 1)%N
              else 1%N)
        /\ (m_PreviousViewValid s = false -> numAccumulatedFrames (m_ui s') = 1%N)
        /\ (m_FrameIndex s <> 0 ->
            GetViewMatrix (m_View s') <> GetViewMatrix (m_ViewPrevious s) ->
            numAccumulatedFrames (m_ui s') = 1%N)
        /\ exists s2 s4 s5 reset weight mode,
             reloadEnvironmentMapIfDirty w (earlyState w s) = Ok s2
             /\ SetupRenderPasses w fbinfo (SetupView fbinfo (effectiveFrameIndex w s) s2)
                = Ok (s4, reset)
             /\ framePolicy w s4 = Ok (s5, static, weight, mode)
             /\ cameraIsStatic s4 = static).
Proof.
  split; [| split].
  - intros s. unfold cameraIsStatic. rewrite andb_true_iff, bool_decide_eq_true. done.
  - intros fbinfo eff s. destruct (SetupView_result fbinfo eff s) as (offset & ->).
    split; [| split].
    + by destruct_renderer s.
    + intros Hzero. rewrite Hzero. by destruct_renderer s.
    + intros Hidx. apply Z.eqb_neq in Hidx. rewrite Hidx. by destruct_renderer s.
  - intros w fbinfo s s' Hmode Hrun static.
    destruct (RenderScene_temporal _ _ _ _ Hmode Hrun) as (Hc & _ & Hv & Hp & _).
    do 2 (split; [done |]).
    assert (frameIsStatic s s' = static) as Hst.
    { unfold frameIsStatic, static. destruct (m_FrameIndex s =? 0); [| done].
      by rewrite bool_decide_eq_true_2. }
    rewrite Hc, Hst. unfold accumulate. split; [done |]. split; [| split].
    + subst static. by intros ->.
    + subst static. intros Hidx Hneq. apply Z.eqb_neq in Hidx. rewrite Hidx.
      by rewrite bool_decide_eq_false_2, andb_false_r.
    + destruct (RenderScene_frame _ _ _ _ Hmode Hrun)
        as (s2 & s4 & s5 & s6 & reset & static' & weight & mode
            & (L & S & P & C) & Sh2 & Sh4 & Sh5 & Sh6 & Sh').
      pose proof (framePolicy_spec _ _ _ _ _ _ P) as (Hdet & _).
      destruct (earlyState_step w s) as (_ & _ & _ & _ & _ & Sh1).
      assert (cameraIsStatic s4 = frameIsStatic s s') as Heq.
      { clear -Sh1 Sh2 Sh4 Sh5 Sh6 Sh'. unfold frameIsStatic, cameraIsStatic, commitFrame in *.
        subst s'. destruct Sh6 as (?&?&?&? & ->). destruct Sh5 as (?&?&?&?&?&? & ->).
        destruct Sh4 as (?&?&?&?&?&?&?&?&?&?&?&?&?&?&?& ->). destruct Sh2 as (?&?&?&? & ->).
        destruct Sh1 as (?&?&?&?&?&?&?&? & ->).
        destruct_renderer s. norm. repeat case_goal; by norm. }
      exists s2, s4, s5, reset, weight, mode. rewrite <- Hst, <- Heq.
      do 2 (split; [done |]). split; [by rewrite <- Hdet | done].
Qed.

(** * Frames that return *)

(** When [RenderScene] can return.  A frozen frame returns exactly when the
    render targets it reads exist.  Any other frame can return only if the
    selection of the environment map is usable: with a file selected, the
    entry of the list must exist when a reload is pending, and the map must
    be loaded otherwise. *)
Theorem frame_returns_only_if w fbinfo s :
  (m_FrameStepMode s = Wait ->
   ((exists s', RenderScene w fbinfo s = Ok s') <-> isNull (m_RenderTargets s) = false))
  /\ (m_FrameStepMode s <> Wait ->
      (exists s', RenderScene w fbinfo s = Ok s') ->
      0 < environmentMapIndex (m_ui s) ->
      if environmentMapDirty (m_ui s) =? 2
      then is_Some (environmentMaps s !! Z.to_nat (environmentMapIndex (m_ui s)))
      else isNull (m_EnvironmentMap s) = false).
Proof.
  split.
  - intros Hmode. split.
    + intros [s' Hrun]. destruct (m_RenderTargets s) eqn:Hrt; [done |].
      rewrite RenderScene_wait in Hrun by done. unfold reblitFinalImage in Hrun.
      by rewrite Hrt in Hrun.
    + intros (rt & Hrt)%not_null_Some. rewrite RenderScene_wait by done.
      destruct (reblitFinalImage_result s rt Hrt) as (cache & ->). eauto.
  - intros Hmode [s' Hrun] Hidx. rewrite RenderScene_unfold in Hrun by done.
    destruct (early_step_environment _ _ (earlyState_step w s)) as (Em & Ems & Ei & Ed).
    unfold reloadEnvironmentMapIfDirty in Hrun. rewrite Ed in Hrun.
    destruct (Z.eqb_spec (environmentMapDirty (m_ui s)) 2) as [Hd|Hd].
    + destruct (environmentMaps s !! _) eqn:Hlook; [done |].
      rewrite LoadEnvironmentMap_crash in Hrun; [done | by rewrite Ei | by rewrite Ei, Ems].
    + destruct (m_EnvironmentMap s) eqn:Hmap; [done |]. cbn [bind] in Hrun.
      unfold SetupRenderPasses in Hrun.
      match type of Hrun with
      | context [environmentMapSize ?x] =>
          fold (prepared w (SetupView fbinfo (effectiveFrameIndex w s) (earlyState w s)))
            in Hrun
      end.
      destruct (setup_step_environment _ _
                  (prepared_step w
                     (SetupView fbinfo (effectiveFrameIndex w s) (earlyState w s))))
        as (Pm & Pi & _).
      destruct (SetupView_environment fbinfo (effectiveFrameIndex w s) (earlyState w s))
        as [Vm Vu].
      rewrite environmentMapSize_crash in Hrun;
        [done | by rewrite Pi, Vu, Ei | by rewrite Pm, Vm, Em].
Qed.

End Properties.

(** * IES profile assignment *)

Section IesAssignment.

Variable BakeIesProfile : IesProfile -> IesProfile.

(** Baking fills in the texture of a profile and leaves its name alone. *)
Hypothesis bake_name : forall p, ies_name (BakeIesProfile p) = ies_name p.

(** A light the loop passes over: not a spot light, no profile name, a
    profile already assigned, or no profile of that name. *)
Definition settledLight (names : list string) (light : Light) : Prop :=
  match light with
  | SpotLightWithProfile profileName profileTextureIndex =>
      profileName = EmptyString \/ 0 <= profileTextureIndex \/ profileName ∉ names
  | OtherLight _ => True
  end.

#[global] Instance settledLight_dec names light : Decision (settledLight names light).
Proof. destruct light; apply _. Defined.

(** A light for which the loop bakes the profile of the given name. *)
Definition bakesProfile (names : list string) (profileName : string) (light : Light) : bool :=
  match light with
  | SpotLightWithProfile name _ =>
      bool_decide (name = profileName) && bool_decide (~ settledLight names light)
  | OtherLight _ => false
  end.

(** How often the loop over [lights] bakes the profile of the given name. *)
Definition bakeCount (names : list string) (profileName : string) (lights : list Light)
  : nat :=
  length (List.filter (bakesProfile names profileName) lights).

Lemma list_find_name (profileName : string) (profiles : list IesProfile) :
  match list_find (fun p => ies_name p = profileName) profiles with
  | Some (i, found) => profiles !! i = Some found /\ ies_name found = profileName
  | None => profileName ∉ map ies_name profiles
  end.
Proof.
  destruct (list_find _ profiles) as [[i found]|] eqn:Hfind.
  - apply list_find_Some in Hfind as (Hi & Hname & _). done.
  - apply list_find_None in Hfind. intros Hin.
    apply list_elem_of_fmap in Hin as (p & Hp & Hin).
    rewrite Forall_forall in Hfind. by apply (Hfind p).
Qed.

Lemma insert_baked_names (profiles : list IesProfile) i found :
  profiles !! i = Some found ->
  map ies_name (<[i := BakeIesProfile found]> profiles) = map ies_name profiles.
Proof.
  intros Hi. change (ies_name <$> <[i:=BakeIesProfile found]> profiles = ies_name <$> profiles).
  rewrite list_fmap_insert, bake_name. apply list_insert_id.
  by rewrite list_lookup_fmap, Hi.
Qed.

(** One turn of the loop. *)
Lemma assignIesProfile_spec (light : Light) (profiles : list IesProfile) :
  let '(light', profiles', baked) := assignIesProfile BakeIesProfile light profiles in
  map ies_name profiles' = map ies_name profiles
  /\ length profiles' = length profiles
  /\ (if decide (settledLight (map ies_name profiles) light)
      then light' = light /\ profiles' = profiles /\ baked = []
      else exists profileName before i found,
          light = SpotLightWithProfile profileName before
          /\ list_find (fun p => ies_name p = profileName) profiles = Some (i, found)
          /\ light' = SpotLightWithProfile profileName
                        (textureIndex (BakeIesProfile found))
          /\ profiles' = <[i := BakeIesProfile found]> profiles
          /\ baked = [profileName]).
Proof.
  unfold assignIesProfile. destruct light as [profileName idx|lightType]; [| done].
  case_bool_decide as Hempty.
  { rewrite decide_True by (by left). done. }
  destruct (Z.leb_spec 0 idx) as [Hidx|Hidx].
  { rewrite decide_True by (right; by left). done. }
  pose proof (list_find_name profileName profiles) as Hfind.
  destruct (list_find _ profiles) as [[i found]|] eqn:Efind.
  - destruct Hfind as (Hi & Hname). cbv zeta.
    split; [by apply insert_baked_names |]. split; [by rewrite length_insert |].
    rewrite decide_False.
    + exists profileName, idx, i, found. by rewrite Hname.
    + intros [? | [? | Hnot]]; [done | lia |]. apply Hnot.
      apply list_elem_of_fmap. exists found. split; [done |]. by eapply list_elem_of_lookup_2.
  - rewrite decide_True by (right; by right). done.
Qed.

(** The first profile of a name sits at the same position in two lists with
    the same names. *)
Lemma list_find_same_names (profileName : string) (l1 l2 : list IesProfile) k x :
  map ies_name l1 = map ies_name l2 ->
  list_find (fun p => ies_name p = profileName) l1 = Some (k, x) ->
  exists y, l2 !! k = Some y
            /\ list_find (fun p => ies_name p = profileName) l2 = Some (k, y).
Proof.
  intros Hnames Hfind. apply list_find_Some in Hfind as (Hk & Hname & Hfirst).
  assert (forall j, ies_name <$> l2 !! j = ies_name <$> l1 !! j) as Hlook.
  { intros j. rewrite <- !list_lookup_fmap.
    change (map ies_name l2 !! j = map ies_name l1 !! j). by rewrite Hnames. }
  pose proof (Hlook k) as Ek. rewrite Hk in Ek.
  destruct (l2 !! k) as [y|] eqn:Hy; [| done]. cbn in Ek. injection Ek as Ey.
  exists y. split; [done |]. apply list_find_Some. split; [done |].
  split; [by rewrite Ey |].
  intros j z Hz Hlt. pose proof (Hlook j) as Ej. rewrite Hz in Ej.
  destruct (l1 !! j) as [z'|] eqn:Hz'; [| done]. cbn in Ej. injection Ej as Ez.
  rewrite Ez. by eapply Hfirst.
Qed.

Lemma iter_baked (n : nat) (p : IesProfile) :
  Nat.iter n BakeIesProfile (BakeIesProfile p) = Nat.iter (S n) BakeIesProfile p.
Proof. symmetry. apply Nat.iter_succ_r. Qed.

Lemma iter_baked_name (n : nat) (p : IesProfile) :
  ies_name (Nat.iter n BakeIesProfile p) = ies_name p.
Proof. induction n as [|n IH]; [done |]. cbn. by rewrite bake_name. Qed.

(** [AssignIesProfiles] keeps the number and the order of the lights and the
    names of the profiles.  A light is changed exactly when it is a spot light
    with a profile name, no texture assigned yet, and a profile of that name
    in the list.  The profile the loop bakes for it is the first one of that
    name in the list, as the earlier turns of the loop have left it: the
    original profile baked once for every earlier light that was changed with
    the same profile name.  The light gets the texture index that one more
    baking leaves in that profile.  Every other light is passed over.  One
    profile is baked for each light that is changed, in the order of the
    lights, so a profile shared by two lights is baked twice; in the end the
    first profile of each name has been baked once for every light changed
    with that name, and every other profile not at all. *)
Theorem ies_assignment_rule (lights : list Light) (profiles : list IesProfile) :
  let '(lights', profiles', baked) := AssignIesProfiles BakeIesProfile lights profiles in
  let names := map ies_name profiles in
  length lights' = length lights
  /\ map ies_name profiles' = names
  /\ (forall i light light',
        lights !! i = Some light -> lights' !! i = Some light' ->
        if decide (settledLight names light) then light' = light
        else exists profileName before k original,
            light = SpotLightWithProfile profileName before
            /\ list_find (fun p => ies_name p = profileName) profiles = Some (k, original)
            /\ light'
               = SpotLightWithProfile profileName
                   (textureIndex
                      (Nat.iter (S (bakeCount names profileName (take i lights)))
                         BakeIesProfile original)))
  /\ (forall k p,
        profiles !! k = Some p ->
        profiles' !! k
        = Some (Nat.iter
                  (if decide (list_find (fun q => ies_name q = ies_name p) profiles
                              = Some (k, p))
                   then bakeCount names (ies_name p) lights else 0%nat)
                  BakeIesProfile p))
  /\ baked
     = omap (fun light =>
               match light with
               | SpotLightWithProfile profileName _ =>
                   if decide (settledLight names light) then None else Some profileName
               | OtherLight _ => None
               end) lights.
Proof.
  revert profiles. induction lights as [|light lights IH]; intros profiles.
  { cbn. repeat split; try done. intros k p Hp. by case_decide. }
  cbn [AssignIesProfiles].
  pose proof (assignIesProfile_spec light profiles) as Hone.
  destruct (assignIesProfile BakeIesProfile light profiles) as [[light1 profiles1] baked1].
  destruct Hone as (Hnames & Hlen & Hone).
  specialize (IH profiles1).
  destruct (AssignIesProfiles BakeIesProfile lights profiles1) as [[lights2 profiles2] baked2].
  cbv zeta in *. destruct IH as (IHlen & IHnames & IHlights & IHprofiles & IHbaked).
  rewrite Hnames in IHnames, IHlights, IHprofiles, IHbaked.
  split; [cbn; by rewrite IHlen |]. split; [done |].
  destruct (decide (settledLight (map ies_name profiles) light)) as [Hs|Hs].
  - (* the first light is passed over *)
    destruct Hone as (-> & -> & ->).
    assert (forall name, bakesProfile (map ies_name profiles) name light = false) as Hno.
    { intros name. destruct light as [n idx|]; [| done]. cbn.
      rewrite (bool_decide_eq_false_2 (~ _)) by tauto. apply andb_false_r. }
    split; [| split].
    + intros [|i] l l' Hl Hl'; cbn in Hl, Hl'.
      * injection Hl as <-. injection Hl' as <-. by rewrite decide_True.
      * specialize (IHlights i l l' Hl Hl').
        destruct (decide (settledLight (map ies_name profiles) l)); [done |].
        destruct IHlights as (name & before & k & original & -> & Hfind & ->).
        exists name, before, k, original. do 2 (split; [done |]).
        unfold bakeCount. cbn [take List.filter]. by rewrite Hno.
    + intros k p Hp. rewrite (IHprofiles k p Hp). unfold bakeCount. cbn [List.filter].
      by rewrite Hno.
    + cbn [omap list_omap app]. rewrite <- IHbaked. destruct light; [| done].
      by rewrite decide_True.
  - (* the first light is changed *)
    destruct Hone as (name0 & before0 & k0 & found0 & -> & Hfind0 & -> & -> & ->).
    pose proof Hfind0 as Hfind0'.
    apply list_find_Some in Hfind0' as (Hk0 & Hname0 & Hfirst0).
    assert (forall name,
              bakesProfile (map ies_name profiles) name (SpotLightWithProfile name0 before0)
              = bool_decide (name0 = name)) as Hyes.
    { intros name. cbn. rewrite (bool_decide_eq_true_2 (~ _)) by done. apply andb_true_r. }
    split; [| split].
    + intros [|i] l l' Hl Hl'; cbn in Hl, Hl'.
      * injection Hl as <-. injection Hl' as <-.
        rewrite decide_False by done. exists name0, before0, k0, found0.
        by repeat split.
      * specialize (IHlights i l l' Hl Hl').
        destruct (decide (settledLight (map ies_name profiles) l)); [done |].
        destruct IHlights as (name & before & k & original1 & -> & Hfind1 & ->).
        destruct (list_find_same_names name _ profiles k original1
                    (insert_baked_names profiles k0 found0 Hk0) Hfind1)
          as (original & Hk & Hfind).
        exists name, before, k, original. do 2 (split; [done |]).
        unfold bakeCount. cbn [take List.filter]. rewrite Hyes.
        apply list_find_Some in Hfind1 as (Hk1 & _ & _).
        case_bool_decide as Hsame.
        -- (* the same profile: it has been baked once more *)
           subst name. rewrite Hfind0 in Hfind. injection Hfind as <- <-.
           rewrite list_lookup_insert_eq in Hk1 by (by eapply lookup_lt_Some).
           injection Hk1 as <-. cbn [length]. by rewrite iter_baked.
        -- (* another profile: untouched by the first turn *)
           assert (k <> k0) as Hne.
           { intros ->. rewrite Hk0 in Hk. injection Hk as <-.
             apply list_find_Some in Hfind as (_ & Hn & _). congruence. }
           rewrite list_lookup_insert_ne in Hk1 by done. rewrite Hk in Hk1.
           by injection Hk1 as <-.
    + intros k p Hp. unfold bakeCount. cbn [List.filter]. rewrite Hyes.
      destruct (decide (k = k0)) as [-> | Hne].
      * (* the profile the first turn baked *)
        rewrite Hk0 in Hp. injection Hp as <-.
        rewrite (IHprofiles k0 (BakeIesProfile found0))
          by (rewrite list_lookup_insert_eq; [done | by eapply lookup_lt_Some]).
        rewrite bake_name, Hname0.
        rewrite bool_decide_eq_true_2 by done.
        rewrite (decide_True (P := list_find _ profiles = _)) by done.
        assert (list_find (fun q => ies_name q = name0)
                  (<[k0 := BakeIesProfile found0]> profiles)
                = Some (k0, BakeIesProfile found0)) as Hfind1.
        { apply list_find_Some. split; [| split].
          - rewrite list_lookup_insert_eq; [done | by eapply lookup_lt_Some].
          - by rewrite bake_name.
          - intros j y Hy Hlt. rewrite list_lookup_insert_ne in Hy by lia.
            by eapply Hfirst0. }
        rewrite decide_True by done. cbn [length]. by rewrite iter_baked.
      * (* any other profile *)
        rewrite (IHprofiles k p) by (by rewrite list_lookup_insert_ne).
        f_equal.
        assert (list_find (fun q => ies_name q = ies_name p)
                  (<[k0 := BakeIesProfile found0]> profiles) = Some (k, p)
                <-> list_find (fun q => ies_name q = ies_name p) profiles = Some (k, p))
          as Hiff.
        { split; intros Hf.
          - destruct (list_find_same_names _ _ profiles k p
                        (insert_baked_names profiles k0 found0 Hk0) Hf) as (y & Hy & Hf').
            rewrite Hp in Hy. by injection Hy as <-.
          - destruct (list_find_same_names _ _ (<[k0 := BakeIesProfile found0]> profiles) k p
                        (eq_sym (insert_baked_names profiles k0 found0 Hk0)) Hf)
              as (y & Hy & Hf').
            rewrite list_lookup_insert_ne, Hp in Hy by done. by injection Hy as <-. }
        destruct (decide (list_find _ profiles = Some (k, p))) as [Hf|Hf].
        -- rewrite decide_True by (by apply Hiff).
           case_bool_decide as Hsame; [| done]. exfalso.
           rewrite Hsame in Hfind0. rewrite Hfind0 in Hf. injection Hf as Ek _.
           by apply Hne.
        -- rewrite decide_False; [done |]. intros Hf'. by apply Hf, Hiff.
    + cbn [omap list_omap app]. rewrite <- IHbaked. by rewrite decide_False by done.
Qed.

Lemma AssignIesProfiles_names (lights : list Light) (profiles : list IesProfile) :
  map ies_name (AssignIesProfiles BakeIesProfile lights profiles).1.2 = map ies_name profiles.
Proof.
  revert profiles. induction lights as [|light lights IH]; intros profiles; [done |].
  cbn [AssignIesProfiles].
  pose proof (assignIesProfile_spec light profiles) as Hone.
  destruct (assignIesProfile BakeIesProfile light profiles) as [[light1 profiles1] baked1].
  destruct Hone as (Hnames & _).
  specialize (IH profiles1).
  destruct (AssignIesProfiles BakeIesProfile lights profiles1) as [[lights2 profiles2] baked2].
  cbn [fst snd] in *. by rewrite IH.
Qed.

(** Baking assigns a texture, so its index is a valid slot. *)
Hypothesis bake_index : forall p, 0 <= textureIndex (BakeIesProfile p).

Lemma AssignIesProfiles_settles (lights : list Light) (profiles : list IesProfile) :
  Forall (settledLight (map ies_name profiles))
    (AssignIesProfiles BakeIesProfile lights profiles).1.1.
Proof.
  revert profiles. induction lights as [|light lights IH]; intros profiles; [by cbn |].
  cbn [AssignIesProfiles].
  pose proof (assignIesProfile_spec light profiles) as Hone.
  destruct (assignIesProfile BakeIesProfile light profiles) as [[light1 profiles1] baked1].
  destruct Hone as (Hnames & Hlen & Hone).
  specialize (IH profiles1).
  destruct (AssignIesProfiles BakeIesProfile lights profiles1) as [[lights2 profiles2] baked2].
  cbn [fst] in *. rewrite Hnames in IH. constructor; [| done].
  destruct (decide (settledLight (map ies_name profiles) light)) as [Hs|Hs].
  - by destruct Hone as (-> & _).
  - destruct Hone as (profileName & before & i & found & _ & _ & -> & _).
    right. left. apply bake_index.
Qed.

Lemma AssignIesProfiles_settled (lights : list Light) (profiles : list IesProfile) :
  Forall (settledLight (map ies_name profiles)) lights ->
  AssignIesProfiles BakeIesProfile lights profiles = (lights, profiles, []).
Proof.
  induction 1 as [|light lights Hs _ IH]; [done |].
  cbn [AssignIesProfiles].
  pose proof (assignIesProfile_spec light profiles) as Hone.
  destruct (assignIesProfile BakeIesProfile light profiles) as [[light1 profiles1] baked1].
  destruct Hone as (_ & _ & Hone). rewrite decide_True in Hone by done.
  destruct Hone as (-> & -> & ->). by rewrite IH.
Qed.

(** [AssignIesProfiles] is idempotent: run again on its own result it changes
    no light and bakes no profile. *)
Theorem ies_assignment_idempotent (lights : list Light) (profiles : list IesProfile) :
  let '(lights', profiles', _) := AssignIesProfiles BakeIesProfile lights profiles in
  AssignIesProfiles BakeIesProfile lights' profiles' = (lights', profiles', []).
Proof.
  pose proof (AssignIesProfiles_settles lights profiles) as Hs.
  pose proof (AssignIesProfiles_names lights profiles) as Hn.
  destruct (AssignIesProfiles BakeIesProfile lights profiles) as [[lights' profiles'] baked].
  cbn [fst snd] in *. apply AssignIesProfiles_settled. by rewrite Hn.
Qed.

End IesAssignment.

(** * A concrete renderer

    The camera transform is a list of twelve integers standing for the rows
    of an affine matrix.  The world has two environment-map files: one
    loads as a 4096 x 1024 texture, the other fails to load. *)

Definition Pose : Type := list Z.

Definition camera0 : Pose := [1; 0; 0; 0;  0; 1; 0; 0;  0; 0; 1; 0].
Definition camera1 : Pose := [1; 0; 0; 1;  0; 1; 0; 0;  0; 0; 1; 0].

Definition world0 : @World Pose :=
  {| WITH_NRD := true;
     LoadTextureFromFileDeferred :=
       fun path => if String.eqb path "wide.exr" then Some (4096, 1024) else None;
     CreateDescriptor := fun _ => 7;
     InterpolateCameraPath := fun _ => None;
     proceduralTextureSize := fun width => (width, width / 2);
     localLightPdfTextureSize := fun _ _ _ => (64, 64);
     GetReGIRLightSlotCount := fun _ => 0;
     nrdAvailable := fun _ _ => true;
     GetMaterialReadback := 3 |}.

Definition fb0 : FramebufferInfo := mkFramebufferInfo 1920 1080.
Definition fb1 : FramebufferInfo := mkFramebufferInfo 2560 1440.

(** UI settings, by freeze-random toggle, checkerboard mode and cap. *)
Definition uiWith (freeze : bool) (checkerboard : CheckerboardMode) (cap : N) : UIData :=
  {| reloadShaders := false; resetAccumulation := false; enableToneMapping := true;
     enableAccumulation := true; enableTAA := true; enablePixelJitter := true;
     freezeRandom := freeze; animationFrame := None; resetRtxdiContext := false;
     environmentMapDirty := 2; environmentMapIndex := 0;
     rtxdiContextParams := mkContextParameters 0 0 checkerboard;
     regirLightSlotCount := 0; numAccumulatedFrames := 1; framesToAccumulate := cap;
     enableDenoiser := true; denoisingMethod := REBLUR_DIFFUSE_SPECULAR;
     reblurCheckerboardMode := NrdCheckerboardOFF; rasterizeGBuffer := true;
     renderingMode := ReStirDirectOnly; enableLocalLightImportanceSampling := true;
     environmentMapImportanceSampling := true; animateMeshes := false;
     enableTransparentGeometry := true; enableMaterialReadback := false;
     selectedMaterialIndex := -1; taaClampingFactor := 1; useRayQuery := true |}.

(** The renderer as [SceneLoaded] leaves it: no frame rendered, every lazily
    built handle null, the environment map due for a full reload. *)
Definition loadedWith (u : UIData) : @SceneRenderer Pose :=
  {| m_ui := u; m_RenderTargets := None; m_Camera := camera0;
     m_View := mkView camera0 (0, 0) ZeroOffset;
     m_ViewPrevious := mkView camera0 (0, 0) ZeroOffset;
     m_EnvironmentMap := None; m_RtxdiContext := None; m_RenderEnvironmentMapPass := None;
     m_EnvironmentMapPdfMipmapPass := None; m_LocalLightPdfMipmapPass := None;
     m_RtxdiResources := None; m_TemporalAntiAliasingPass := None;
     m_ToneMappingPass := None; m_NRD := None; m_FrameIndex := 0;
     m_FramesSinceAnimation := 0; m_PreviousViewValid := false;
     m_MaterialReadbackCountdown := 0; m_SceneEmissiveMeshes := 10;
     m_SceneEmissiveTriangles := 200; m_ScenePrimitiveLights := 5;
     m_FrameStepMode := Disabled;
     environmentMaps := [EmptyString; "wide.exr"; "missing.exr"]%string;
     m_BindingCache := []; trace := [] |}.

Definition loaded : @SceneRenderer Pose := loadedWith (uiWith false CheckerboardOff 4).

(** The state after one more frame (unchanged if the frame crashes). *)
Definition afterFrame (fbinfo : FramebufferInfo) (s : @SceneRenderer Pose)
  : @SceneRenderer Pose :=
  match RenderScene world0 fbinfo s with
  | Ok s' => s'
  | Crash _ => s
  end.

(** Modelled from the spec: user actions, which [main.cpp] only sees as
    changed UI fields.  Picking an environment map sets the selection index
    and requests a reload (dirty level 2). *)
Definition selectEnvironmentMap (index : Z) (s : @SceneRenderer Pose) : @SceneRenderer Pose :=
  with_ui (fun u => set_environmentMapDirty 2 (set_environmentMapIndex index u)) s.

Definition frame1 : @SceneRenderer Pose := afterFrame fb0 loaded.

(** ** Environment-map resolution and the resource bundle *)

Definition wideSelected : @SceneRenderer Pose := selectEnvironmentMap 1 frame1.

(** C1 fails on the code.  The first frame builds the resource bundle for the
    2048 x 1024 procedural sky.  The user then picks a 4096 x 1024 map: the
    width differs, the height does not.  Lines 512-514 join the two
    comparisons with [&&], so the next frame keeps the bundle: its PDF texture
    is still 2048 x 1024, the new PDF mipmap pass reads the 4096 x 1024 map
    into it, and the lighting family runs on it. *)
Theorem stale_bundle_survives_width_change :
  RenderScene world0 fb0 loaded = Ok frame1
  /\ RenderScene world0 fb0 wideSelected = Ok (afterFrame fb0 wideSelected)
  /\ tex_size <$> m_EnvironmentMap (afterFrame fb0 wideSelected) = Some (4096, 1024)
  /\ m_RtxdiResources (afterFrame fb0 wideSelected) = m_RtxdiResources wideSelected
  /\ EnvironmentPdfTexture <$> m_RtxdiResources (afterFrame fb0 wideSelected)
     = Some (2048, 1024)
  /\ m_EnvironmentMapPdfMipmapPass (afterFrame fb0 wideSelected)
     = Some (mkGenerateMipsPass (Some (4096, 1024)) (2048, 1024))
  /\ List.filter isLightingCall (newEvents wideSelected (afterFrame fb0 wideSelected))
     = [EvLightingRender true false].
Proof. vm_compute. repeat split. Qed.

(** ** Counterexamples *)

(** Freeze-random on, checkerboard sampling on, after one frame: the frame
    counter is 1 and the effective frame index is 0. *)
Definition frozen1 : @SceneRenderer Pose :=
  afterFrame fb0 (loadedWith (uiWith true CheckerboardBlack 4)).

Definition isJitterAdvance (e : Event) : bool :=
  match e with EvTaaAdvanceFrame => true | _ => false end.

Lemma no_jitter_advance (l : list Event) :
  forallb (fun e => negb (isJitterAdvance e)) l = true -> EvTaaAdvanceFrame ∉ l.
Proof.
  intros Hall Hin. rewrite forallb_forall in Hall.
  apply list_elem_of_In, Hall in Hin. discriminate Hin.
Qed.

(** C5 as stated fails: with freeze-random the effective frame index is 0,
    which is even, yet the frame with frame counter 1 skips the jitter
    advance. *)
Lemma jitter_skipped_on_even_effective_index :
  RenderScene world0 fb0 frozen1 = Ok (afterFrame fb0 frozen1)
  /\ (resolveEffectiveFrameIndex world0 frozen1).2 = 0
  /\ ~ (EvTaaAdvanceFrame ∉ newEvents frozen1 (afterFrame fb0 frozen1)
        <-> enableAccumulation (m_ui frozen1) = true
            /\ (forall context,
                  m_RtxdiContext (afterFrame fb0 frozen1) = Some context ->
                  CheckerboardSamplingMode (GetParameters context) <> CheckerboardOff)
            /\ Z.odd (resolveEffectiveFrameIndex world0 frozen1).2 = true).
Proof.
  split; [vm_compute; reflexivity |]. split; [vm_compute; reflexivity |].
  intros [Hskip _].
  assert (EvTaaAdvanceFrame ∉ newEvents frozen1 (afterFrame fb0 frozen1)) as Hnot.
  { apply no_jitter_advance. vm_compute. reflexivity. }
  assert (Z.odd (resolveEffectiveFrameIndex world0 frozen1).2 = false) as Heven
    by (vm_compute; reflexivity).
  destruct (Hskip Hnot) as (_ & _ & Hodd). congruence.
Qed.


(** The renderer frozen after the first frame. *)
Definition waiting : @SceneRenderer Pose := set_m_FrameStepMode Wait frame1.

(** C2 as stated fails for a resize that arrives while the renderer is
    frozen.  The next frame takes the frozen path of lines 652-673, which
    runs no resource setup, so nothing is rebuilt; it reads the render
    targets the handler has released, and the run ends there. *)
Lemma frozen_frame_after_resize_rebuilds_nothing :
  m_FrameStepMode (BackBufferResizing world0 waiting) = Wait
  /\ m_RenderTargets (BackBufferResizing world0 waiting) = None
  /\ RenderScene world0 fb1 (BackBufferResizing world0 waiting) = Crash NullDereference
  /\ ~ (exists s',
          RenderScene world0 fb1 (BackBufferResizing world0 waiting) = Ok s'
          /\ m_RenderTargets s' = Some (mkRenderTargets (fb_width fb1, fb_height fb1))).
Proof.
  split; [vm_compute; reflexivity |]. split; [vm_compute; reflexivity |].
  assert (RenderScene world0 fb1 (BackBufferResizing world0 waiting) = Crash NullDereference)
    as Hcrash by (vm_compute; reflexivity).
  split; [exact Hcrash |]. intros (s' & Hrun & _). rewrite Hcrash in Hrun. discriminate Hrun.
Qed.

(** The frame counter at its last 32-bit value.  The frame rendered from here
    wraps it to 0; the camera then moves before the next frame. *)
Definition lastIndex : @SceneRenderer Pose := set_m_FrameIndex (uint_modulus - 1) frame1.
Definition wrapped : @SceneRenderer Pose := afterFrame fb0 lastIndex.
Definition movedAfterWrap : @SceneRenderer Pose := set_m_Camera camera1 wrapped.

(** C6 as stated fails once the 32-bit frame counter has wrapped to 0.  Lines
    471-472 seed the previous view from the current one again, now that a
    previous view is valid: the frame in which the camera moved compares its
    view with itself, is treated as static, and raises the accumulated-frame
    counter from 2 to 3. *)
Lemma moved_camera_static_after_wrap :
  RenderScene world0 fb0 lastIndex = Ok wrapped
  /\ m_FrameIndex movedAfterWrap = 0
  /\ m_PreviousViewValid movedAfterWrap = true
  /\ RenderScene world0 fb0 movedAfterWrap = Ok (afterFrame fb0 movedAfterWrap)
  /\ GetViewMatrix (m_View (afterFrame fb0 movedAfterWrap))
     <> GetViewMatrix (m_ViewPrevious movedAfterWrap)
  /\ frameIsStatic movedAfterWrap (afterFrame fb0 movedAfterWrap) = true
  /\ numAccumulatedFrames (m_ui movedAfterWrap) = 2%N
  /\ numAccumulatedFrames (m_ui (afterFrame fb0 movedAfterWrap)) = 3%N
  /\ numAccumulatedFrames (m_ui (afterFrame fb0 movedAfterWrap)) <> 1%N.
Proof.
  split; [vm_compute; reflexivity |]. split; [vm_compute; reflexivity |].
  split; [vm_compute; reflexivity |]. split; [vm_compute; reflexivity |].
  split; [vm_compute; discriminate |]. split; [vm_compute; reflexivity |].
  split; [vm_compute; reflexivity |]. split; [vm_compute; reflexivity |].
  vm_compute. discriminate.
Qed.

(** Modelled from the spec: the toggles of the UI, which [main.cpp] only
    reads.  The user unticks tone mapping and accumulation. *)
Definition untickToneMappingAndAccumulation (u : UIData) : UIData :=
  {| reloadShaders := reloadShaders u; resetAccumulation := resetAccumulation u;
     enableToneMapping := false; enableAccumulation := false; enableTAA := enableTAA u;
     enablePixelJitter := enablePixelJitter u; freezeRandom := freezeRandom u;
     animationFrame := animationFrame u; resetRtxdiContext := resetRtxdiContext u;
     environmentMapDirty := environmentMapDirty u;
     environmentMapIndex := environmentMapIndex u;
     rtxdiContextParams := rtxdiContextParams u;
     regirLightSlotCount := regirLightSlotCount u;
     numAccumulatedFrames := numAccumulatedFrames u;
     framesToAccumulate := framesToAccumulate u; enableDenoiser := enableDenoiser u;
     denoisingMethod := denoisingMethod u;
     reblurCheckerboardMode := reblurCheckerboardMode u;
     rasterizeGBuffer := rasterizeGBuffer u; renderingMode := renderingMode u;
     enableLocalLightImportanceSampling := enableLocalLightImportanceSampling u;
     environmentMapImportanceSampling := environmentMapImportanceSampling u;
     animateMeshes := animateMeshes u;
     enableTransparentGeometry := enableTransparentGeometry u;
     enableMaterialReadback := enableMaterialReadback u;
     selectedMaterialIndex := selectedMaterialIndex u;
     taaClampingFactor := taaClampingFactor u; useRayQuery := useRayQuery u |}.

(** Frozen after the first frame, with the two toggles changed since; and
    frozen before any frame was rendered. *)
Definition retoggled : @SceneRenderer Pose :=
  with_ui untickToneMappingAndAccumulation waiting.
Definition frozenEarly : @SceneRenderer Pose := set_m_FrameStepMode Wait loaded.

Definition isTemporalResolve (e : Event) : bool :=
  match e with EvTemporalResolve _ => true | _ => false end.

(** C8 as stated fails: the frozen path blits the image that the toggles
    choose at the time of the call, not the image the last completed frame
    chose.  The first frame, with tone mapping and accumulation on, ends with
    the blit of the LDR color and never runs the TAA resolve.  With both
    unticked while frozen, the frozen frame blits the resolved color, which no
    frame has written.  And frozen before any frame was rendered, the call
    does not return: the render targets it reads are null. *)
Lemma frozen_blit_follows_toggles :
  RenderScene world0 fb0 loaded = Ok frame1
  /\ last (trace frame1) = Some (EvBlitTexture (1920, 1080) LdrColor)
  /\ List.filter isTemporalResolve (trace frame1) = []
  /\ m_FrameStepMode retoggled = Wait
  /\ trace retoggled = trace frame1
  /\ RenderScene world0 fb0 retoggled = Ok (afterFrame fb0 retoggled)
  /\ newEvents retoggled (afterFrame fb0 retoggled)
     = [EvBlitTexture (1920, 1080) ResolvedColor]
  /\ last (newEvents retoggled (afterFrame fb0 retoggled)) <> last (trace frame1)
  /\ m_FrameStepMode frozenEarly = Wait
  /\ RenderScene world0 fb0 frozenEarly = Crash NullDereference.
Proof. vm_compute. repeat split. discriminate. Qed.

(** ** Instances of the theorems *)

Definition resized : @SceneRenderer Pose := BackBufferResizing world0 frame1.

Lemma resize_rebuilds_witness :
  m_FrameStepMode resized <> Wait
  /\ m_RenderTargets resized = None
  /\ m_RtxdiContext resized = None
  /\ m_RtxdiResources resized = None
  /\ RenderScene world0 fb1 resized = Ok (afterFrame fb1 resized)
  /\ (exists context r setup rest,
        m_RenderTargets (afterFrame fb1 resized)
        = Some (mkRenderTargets (fb_width fb1, fb_height fb1))
        /\ m_RtxdiContext (afterFrame fb1 resized) = Some context
        /\ RenderWidth (GetParameters context) = fb_width fb1
        /\ RenderHeight (GetParameters context) = fb_height fb1
        /\ m_RtxdiResources (afterFrame fb1 resized) = Some r
        /\ res_context r = GetParameters context
        /\ newEvents resized (afterFrame fb1 resized) = setup ++ rest
        /\ EvCreateRenderTargets (fb_width fb1, fb_height fb1) ∈ setup
        /\ EvCreateRtxdiContext (GetParameters context) ∈ setup
        /\ Forall (fun e => isPassEvent e = false) setup)
  /\ m_FrameStepMode frame1 <> Wait
  /\ environment_ok frame1
  /\ exists s' context r setup rest,
       RenderScene world0 fb1 resized = Ok s'
       /\ m_RenderTargets s' = Some (mkRenderTargets (fb_width fb1, fb_height fb1))
       /\ m_RtxdiContext s' = Some context
       /\ RenderWidth (GetParameters context) = fb_width fb1
       /\ RenderHeight (GetParameters context) = fb_height fb1
       /\ m_RtxdiResources s' = Some r
       /\ res_context r = GetParameters context
       /\ newEvents resized s' = setup ++ rest
       /\ EvCreateRenderTargets (fb_width fb1, fb_height fb1) ∈ setup
       /\ EvCreateRtxdiContext (GetParameters context) ∈ setup
       /\ Forall (fun e => isPassEvent e = false) setup.
Proof.
  destruct (@resize_rebuilds Pose _) as (_ & Hnext & Hresize).
  assert (m_FrameStepMode resized <> Wait) as H1 by (vm_compute; discriminate).
  assert (m_RenderTargets resized = None) as H2 by (vm_compute; reflexivity).
  assert (m_RtxdiContext resized = None) as H3 by (vm_compute; reflexivity).
  assert (m_RtxdiResources resized = None) as H4 by (vm_compute; reflexivity).
  assert (RenderScene world0 fb1 resized = Ok (afterFrame fb1 resized)) as H5
    by (vm_compute; reflexivity).
  assert (m_FrameStepMode frame1 <> Wait) as H6 by (vm_compute; discriminate).
  assert (environment_ok frame1) as H7
    by (intros Hidx; vm_compute in Hidx; discriminate Hidx).
  do 5 (split; [assumption |]).
  split; [exact (Hnext world0 fb1 resized (afterFrame fb1 resized) H1 H2 H3 H4 H5) |].
  do 2 (split; [assumption |]).
  exact (Hresize world0 fb1 frame1 H6 H7).
Defined.


Lemma mode_selects_lighting_passes_witness :
  m_FrameStepMode loaded <> Wait
  /\ RenderScene world0 fb0 loaded = Ok frame1
  /\ exists before calls after,
       newEvents loaded frame1 = before ++ calls ++ after
       /\ Forall (fun e => isLightingCall e = false) before
       /\ Forall (fun e => isLightingCall e = false) after
       /\ (renderingMode (m_ui loaded) = ReStirDirectOnly ->
           calls = [EvLightingRender true false])
       /\ (renderingMode (m_ui loaded) = ReStirDirectBrdfMIS ->
           calls = [EvLightingRender true true; EvRenderBrdfRays true false true true])
       /\ (renderingMode (m_ui loaded) = ReStirDirectBrdfIndirect ->
           calls = [EvLightingRender false true; EvRenderBrdfRays true true true true])
       /\ (renderingMode (m_ui loaded) = BrdfDirectOnly ->
           calls = [EvRenderBrdfRays true false false false]).
Proof.
  assert (m_FrameStepMode loaded <> Wait) as H1 by (vm_compute; discriminate).
  assert (RenderScene world0 fb0 loaded = Ok frame1) as H2 by (vm_compute; reflexivity).
  do 2 (split; [assumption |]).
  exact (mode_selects_lighting_passes world0 fb0 loaded frame1 H1 H2).
Defined.

Lemma jitter_advance_rule_witness :
  m_FrameStepMode frozen1 <> Wait
  /\ RenderScene world0 fb0 frozen1 = Ok (afterFrame fb0 frozen1)
  /\ m_RtxdiContext (afterFrame fb0 frozen1)
     = Some (mkContext (mkContextParameters 1920 1080 CheckerboardBlack))
  /\ (EvTaaAdvanceFrame ∉ newEvents frozen1 (afterFrame fb0 frozen1)
      <-> enableAccumulation (m_ui frozen1) = true
          /\ CheckerboardSamplingMode
               (GetParameters (mkContext (mkContextParameters 1920 1080 CheckerboardBlack)))
             <> CheckerboardOff
          /\ Z.odd (m_FrameIndex frozen1) = true).
Proof.
  assert (m_FrameStepMode frozen1 <> Wait) as H1 by (vm_compute; discriminate).
  assert (RenderScene world0 fb0 frozen1 = Ok (afterFrame fb0 frozen1)) as H2
    by (vm_compute; reflexivity).
  assert (m_RtxdiContext (afterFrame fb0 frozen1)
          = Some (mkContext (mkContextParameters 1920 1080 CheckerboardBlack))) as H3
    by (vm_compute; reflexivity).
  do 3 (split; [assumption |]).
  exact (jitter_advance_rule world0 fb0 frozen1 (afterFrame fb0 frozen1) _ H1 H2 H3).
Defined.

(** The camera moves between the first and the second frame. *)
Definition moved : @SceneRenderer Pose := set_m_Camera camera1 frame1.

Lemma camera_static_detection_witness :
  (cameraIsStatic frame1 = true
   <-> m_PreviousViewValid frame1 = true
       /\ GetViewMatrix (m_View frame1) = GetViewMatrix (m_ViewPrevious frame1))
  /\ m_ViewPrevious (SetupView fb0 0 loaded) = m_View (SetupView fb0 0 loaded)
  /\ m_ViewPrevious (SetupView fb0 1 moved) = m_ViewPrevious moved
  /\ numAccumulatedFrames (m_ui frame1) = 1%N
  /\ numAccumulatedFrames (m_ui (afterFrame fb0 moved)) = 1%N
  /\ numAccumulatedFrames (m_ui (afterFrame fb0 movedAfterWrap)) = 3%N
  /\ exists s2 s4 s5 reset weight mode,
       reloadEnvironmentMapIfDirty world0 (earlyState world0 moved) = Ok s2
       /\ SetupRenderPasses world0 fb0 (SetupView fb0 (effectiveFrameIndex world0 moved) s2)
          = Ok (s4, reset)
       /\ framePolicy world0 s4 = Ok (s5, false, weight, mode)
       /\ cameraIsStatic s4 = false.
Proof.
  destruct (@camera_static_detection Pose _) as (Hiff & Hseed & Hframe).
  assert (m_FrameStepMode loaded <> Wait) as H1 by (vm_compute; discriminate).
  assert (RenderScene world0 fb0 loaded = Ok frame1) as H2 by (vm_compute; reflexivity).
  assert (m_FrameStepMode moved <> Wait) as H3 by (vm_compute; discriminate).
  assert (RenderScene world0 fb0 moved = Ok (afterFrame fb0 moved)) as H4
    by (vm_compute; reflexivity).
  assert (m_FrameIndex moved <> 0) as H5 by (vm_compute; discriminate).
  assert (GetViewMatrix (m_View (afterFrame fb0 moved)) <> GetViewMatrix (m_ViewPrevious moved))
    as H6 by (vm_compute; discriminate).
  assert (m_FrameStepMode movedAfterWrap <> Wait) as H7 by (vm_compute; discriminate).
  assert (RenderScene world0 fb0 movedAfterWrap = Ok (afterFrame fb0 movedAfterWrap)) as H8
    by (vm_compute; reflexivity).
  destruct (Hframe world0 fb0 loaded frame1 H1 H2) as (_ & _ & _ & Hfirst & _).
  destruct (Hframe world0 fb0 moved _ H3 H4) as (_ & _ & _ & _ & Hmoved & Hdetected).
  destruct (Hframe world0 fb0 movedAfterWrap _ H7 H8) as (_ & _ & Hwrap & _).
  split; [exact (Hiff frame1) |].
  split; [exact (proj1 (proj2 (Hseed fb0 0 loaded)) eq_refl) |].
  split; [exact (proj2 (proj2 (Hseed fb0 1 moved)) H5) |].
  split; [exact (Hfirst eq_refl) |].
  split; [exact (Hmoved H5 H6) |].
  split; [exact Hwrap |].
  exact Hdetected.
Defined.


Lemma wait_freezes_frame_witness :
  let w := world0 in
  let fbinfo := fb0 in
  let s := waiting in
  let rt := mkRenderTargets (1920, 1080) in
  m_FrameStepMode s = Wait /\
  m_RenderTargets s = Some rt /\
  (exists s' blit cache,
     RenderScene w fbinfo s = Ok s'
     /\ blit = EvBlitTexture (m_Viewport (m_View s)) (finalImage (m_ui s))
     /\ s' = set_trace (trace s ++ [blit]) (set_m_BindingCache cache s)
     /\ newEvents s s' = [blit]
     /\ m_FrameIndex s' = m_FrameIndex s
     /\ numAccumulatedFrames (m_ui s') = numAccumulatedFrames (m_ui s)
     /\ m_View s' = m_View s
     /\ m_ViewPrevious s' = m_ViewPrevious s
     /\ m_PreviousViewValid s' = m_PreviousViewValid s
     /\ m_TemporalAntiAliasingPass s' = m_TemporalAntiAliasingPass s
     /\ m_FrameStepMode s' = Wait
     /\ (exists s'', RenderScene w fbinfo s' = Ok s'' /\ newEvents s s'' = [blit; blit])
     /\ (forall w0 fbinfo0 s0 s1,
           m_FrameStepMode s0 <> Wait ->
           RenderScene w0 fbinfo0 s0 = Ok s1 ->
           m_View s = m_View s1 ->
           enableToneMapping (m_ui s) = enableToneMapping (m_ui s1) ->
           enableAccumulation (m_ui s) = enableAccumulation (m_ui s1) ->
           enableTAA (m_ui s) = enableTAA (m_ui s1) ->
           exists earlier, newEvents s0 s1 = earlier ++ [blit])).
Proof.
  intros w fbinfo s rt.
  assert (m_FrameStepMode s = Wait) as H1
    by (vm_compute; reflexivity).
  assert (m_RenderTargets s = Some rt) as H2
    by (vm_compute; reflexivity).
  split; [exact H1 |].
  split; [exact H2 |].
  exact (wait_freezes_frame w fbinfo s rt H1 H2).
Defined.

Definition missingSelected : @SceneRenderer Pose := selectEnvironmentMap 2 frame1.

Lemma failed_load_falls_back_witness :
  let w := world0 in
  let fbinfo := fb0 in
  let s := missingSelected in
  let path := "missing.exr"%string in
  m_FrameStepMode s <> Wait /\
  environmentMapDirty (m_ui s) = 2 /\
  0 < environmentMapIndex (m_ui s) /\
  environmentMaps s !! Z.to_nat (environmentMapIndex (m_ui s)) = Some path /\
  LoadTextureFromFileDeferred w path = None /\
  (exists s' earlier r mips,
     RenderScene w fbinfo s = Ok s'
     /\ m_EnvironmentMap s' = None
     /\ environmentMapIndex (m_ui s') = 0
     /\ environmentMaps s'
        = delete (Z.to_nat (environmentMapIndex (m_ui s))) (environmentMaps s)
     /\ m_FrameIndex s' = uint_incr (m_FrameIndex s)
     /\ m_RtxdiResources s' = Some r
     /\ m_EnvironmentMapPdfMipmapPass s' = Some mips
     /\ EvLoadTextureFromFileDeferred path ∈ earlier
     /\ Forall (fun e => isPassEvent e = false) earlier
     /\ newEvents s s'
        = earlier
          ++ [EvConfigureEnvironmentLight (Some ProceduralSky) 1]
          ++ [EvInitializeNeighborOffsets r]
          ++ (if m_FramesSinceAnimation s <? 2 then [EvBuildTopLevelAccelStruct] else [])
          ++ [EvRenderEnvironmentMap; EvEnvironmentMapPdfMipmapProcess mips]
          ++ [if rasterizeGBuffer (m_ui s) then EvGBufferRasterized else EvGBufferRaytraced]
          ++ [EvPrepareLights (environmentMapImportanceSampling (m_ui s))
                (effectiveFrameIndex w s)]
          ++ (if enableLocalLightImportanceSampling (m_ui s)
              then [EvLocalLightPdfMipmapProcess] else [])
          ++ lightingCalls (renderingMode (m_ui s))
          ++ (if enableDenoiser (m_ui s') then [EvRunDenoiserPasses] else [])
          ++ [EvCompositing
                (if enableDenoiser (m_ui s')
                 then if bool_decide (denoisingMethod (m_ui s) = RELAX_DIFFUSE_SPECULAR)
                      then DENOISER_MODE_RELAX else DENOISER_MODE_REBLUR
                 else DENOISER_MODE_OFF)]
          ++ (if enableTransparentGeometry (m_ui s) then [EvGlass] else [])
          ++ (if enableAccumulation (m_ui s)
              then [EvAccumulationRender
                      (1 / inject_Z (Z.of_N (numAccumulatedFrames (m_ui s'))))]
              else if enableTAA (m_ui s) then [EvTemporalResolve (m_PreviousViewValid s)]
              else [])
          ++ (if enableToneMapping (m_ui s) then
                (if isNull (m_ToneMappingPass s) then [EvResetExposure] else [])
                ++ [EvToneMapping (finalHdrImage (m_ui s));
                    EvBlitTexture (fb_width fbinfo, fb_height fbinfo) LdrColor]
              else [EvBlitTexture (fb_width fbinfo, fb_height fbinfo)
                      (finalHdrImage (m_ui s))])).
Proof.
  intros w fbinfo s path.
  assert (m_FrameStepMode s <> Wait) as H1
    by (vm_compute; discriminate).
  assert (environmentMapDirty (m_ui s) = 2) as H2
    by (vm_compute; reflexivity).
  assert (0 < environmentMapIndex (m_ui s)) as H3
    by (vm_compute; reflexivity).
  assert (environmentMaps s !! Z.to_nat (environmentMapIndex (m_ui s)) = Some path) as H4
    by (vm_compute; reflexivity).
  assert (LoadTextureFromFileDeferred w path = None) as H5
    by (vm_compute; reflexivity).
  split; [exact H1 |].
  split; [exact H2 |].
  split; [exact H3 |].
  split; [exact H4 |].
  split; [exact H5 |].
  exact (failed_load_falls_back w fbinfo s path H1 H2 H3 H4 H5).
Defined.

Lemma wait_image_priority_witness :
  m_FrameStepMode waiting = Wait
  /\ m_RenderTargets waiting = Some (mkRenderTargets (1920, 1080))
  /\ exists s' img,
       RenderScene world0 fb0 waiting = Ok s'
       /\ newEvents waiting s' = [EvBlitTexture (m_Viewport (m_View waiting)) img]
       /\ (enableToneMapping (m_ui waiting) = true -> img = LdrColor)
       /\ (enableToneMapping (m_ui waiting) = false ->
           enableAccumulation (m_ui waiting) = true -> img = AccumulatedColor)
       /\ (enableToneMapping (m_ui waiting) = false ->
           enableAccumulation (m_ui waiting) = false ->
           enableTAA (m_ui waiting) = true -> img = ResolvedColor)
       /\ (enableToneMapping (m_ui waiting) = false ->
           enableAccumulation (m_ui waiting) = false ->
           enableTAA (m_ui waiting) = false -> img = HdrColor).
Proof.
  assert (m_FrameStepMode waiting = Wait) as H1 by (vm_compute; reflexivity).
  assert (m_RenderTargets waiting = Some (mkRenderTargets (1920, 1080))) as H2
    by (vm_compute; reflexivity).
  do 2 (split; [assumption |]).
  exact (wait_image_priority world0 fb0 waiting _ H1 H2).
Defined.

(** * The extra properties on concrete runs

    The application shell around the renderer after the first frame, with
    the UI shown and no input received yet. *)
Definition shell0 : @Shell Pose := mkShell frame1 true (0, 0) [].

Definition frame2 : @SceneRenderer Pose := afterFrame fb0 frame1.

(** The shell paused in frame-step mode. *)
Definition pausedShell : @Shell Pose := mkShell waiting true (0, 0) [].

(** Ctrl+R, a context reset and a camera-path playback requested after the
    first frame. *)
Definition reloadRequested : @SceneRenderer Pose :=
  renderer (KeyboardUpdate GLFW_KEY_R 0 GLFW_PRESS GLFW_MOD_CONTROL shell0).1.

Definition resetRequested : @SceneRenderer Pose :=
  with_ui (set_resetRtxdiContext true) frame1.

Definition playing : @SceneRenderer Pose := with_ui (set_animationFrame (Some 3)) frame1.

(** A right click at (10.5, 20.25) and the three frames after it. *)
Definition clicked0 : @Shell Pose :=
  (MouseButtonUpdate GLFW_MOUSE_BUTTON_RIGHT GLFW_PRESS 0 (21 # 2, 81 # 4)%Q shell0).1.
Definition clicked1 : @SceneRenderer Pose := afterFrame fb0 (renderer clicked0).
Definition clicked2 : @SceneRenderer Pose := afterFrame fb0 clicked1.
Definition clicked3 : @SceneRenderer Pose := afterFrame fb0 clicked2.


(** Baking puts every profile in texture slot 5. *)
Definition bake0 (p : IesProfile) : IesProfile := mkIesProfile (ies_name p) 5.

Definition lights0 : list Light :=
  [SpotLightWithProfile "spot.ies" (-1); OtherLight 0;
   SpotLightWithProfile "missing.ies" (-1); SpotLightWithProfile "spot.ies" (-1);
   SpotLightWithProfile "other.ies" 2].

Definition profiles0 : list IesProfile :=
  [mkIesProfile "other.ies" 2; mkIesProfile "spot.ies" (-1)].

Lemma single_step_witness :
  let w := world0 in
  let fbinfo := fb0 in
  let a := pausedShell in
  let scancode := 0 in
  m_FrameStepMode (renderer a) = Wait /\
  environment_ok (renderer a) /\
  (exists s1 s2,
     RenderScene w fbinfo (renderer (KeyboardUpdate GLFW_KEY_F2 scancode GLFW_PRESS 0 a).1)
     = Ok s1
     /\ m_FrameIndex s1 = uint_incr (m_FrameIndex (renderer a))
     /\ m_FrameStepMode s1 = Wait
     /\ RenderScene w fbinfo s1 = Ok s2
     /\ m_FrameIndex s2 = m_FrameIndex s1
     /\ m_FrameStepMode s2 = Wait
     /\ newEvents s1 s2 = [EvBlitTexture (m_Viewport (m_View s1)) (finalImage (m_ui s1))]).
Proof.
  intros w fbinfo a scancode.
  assert (m_FrameStepMode (renderer a) = Wait) as H1
    by (vm_compute; reflexivity).
  assert (environment_ok (renderer a)) as H2
    by (intros Hidx; vm_compute in Hidx; discriminate Hidx).
  split; [exact H1 |].
  split; [exact H2 |].
  exact (single_step w fbinfo a scancode H1 H2).
Defined.

Lemma paused_resize_crashes_witness :
  let w := world0 in
  let fbinfo := fb0 in
  let s := waiting in
  m_FrameStepMode s = Wait /\
  (RenderScene w fbinfo (BackBufferResizing w s) = Crash NullDereference).
Proof.
  intros w fbinfo s.
  assert (m_FrameStepMode s = Wait) as H1
    by (vm_compute; reflexivity).
  split; [exact H1 |].
  exact (paused_resize_crashes w fbinfo s H1).
Defined.

Lemma accel_struct_rebuild_rule_witness :
  let w := world0 in
  let fbinfo := fb0 in
  let s := loaded in
  let s' := frame1 in
  m_FrameStepMode s <> Wait /\
  RenderScene w fbinfo s = Ok s' /\
  ((EvBuildTopLevelAccelStruct ∈ newEvents s s' <-> m_FramesSinceAnimation s < 2)
   /\ m_FramesSinceAnimation s'
      = if animateMeshes (m_ui s) then 0 else uint_incr (m_FramesSinceAnimation s)).
Proof.
  intros w fbinfo s s'.
  assert (m_FrameStepMode s <> Wait) as H1
    by (vm_compute; discriminate).
  assert (RenderScene w fbinfo s = Ok s') as H2
    by (vm_compute; reflexivity).
  split; [exact H1 |].
  split; [exact H2 |].
  exact (accel_struct_rebuild_rule w fbinfo s s' H1 H2).
Defined.

Lemma light_preparation_arguments_witness :
  let w := world0 in
  let fbinfo := fb0 in
  let s := loaded in
  let s' := frame1 in
  m_FrameStepMode s <> Wait /\
  RenderScene w fbinfo s = Ok s' /\
  (let index :=
     match animationFrame (m_ui s) with
     | Some frame =>
         match InterpolateCameraPath w frame with
         | Some _ => uint_wrap frame
         | None => if freezeRandom (m_ui s) then 0 else m_FrameIndex s
         end
     | None => if freezeRandom (m_ui s) then 0 else m_FrameIndex s
     end in
   List.filter isLightPreparation (newEvents s s')
   = EvPrepareLights (environmentMapImportanceSampling (m_ui s)) index
     :: (if enableLocalLightImportanceSampling (m_ui s) then [EvLocalLightPdfMipmapProcess]
         else [])
   /\ (forall importance index',
         EvPrepareLights importance index' ∈ newEvents s s'
         <-> importance = environmentMapImportanceSampling (m_ui s) /\ index' = index)
   /\ (EvLocalLightPdfMipmapProcess ∈ newEvents s s'
       <-> enableLocalLightImportanceSampling (m_ui s) = true)).
Proof.
  intros w fbinfo s s'.
  assert (m_FrameStepMode s <> Wait) as H1
    by (vm_compute; discriminate).
  assert (RenderScene w fbinfo s = Ok s') as H2
    by (vm_compute; reflexivity).
  split; [exact H1 |].
  split; [exact H2 |].
  exact (light_preparation_arguments w fbinfo s s' H1 H2).
Defined.

Lemma post_processing_chain_witness :
  let w := world0 in
  let fbinfo := fb0 in
  let s := loaded in
  let s' := frame1 in
  m_FrameStepMode s <> Wait /\
  RenderScene w fbinfo s = Ok s' /\
  (((exists weight, EvAccumulationRender weight ∈ newEvents s s')
    <-> enableAccumulation (m_ui s) = true)
   /\ (forall valid,
         EvTemporalResolve valid ∈ newEvents s s'
         <-> enableAccumulation (m_ui s) = false /\ enableTAA (m_ui s) = true
             /\ valid = m_PreviousViewValid s)
   /\ (forall img,
         EvToneMapping img ∈ newEvents s s'
         <-> enableToneMapping (m_ui s) = true
             /\ img = if enableAccumulation (m_ui s) then AccumulatedColor
                      else if enableTAA (m_ui s) then ResolvedColor else HdrColor)
   /\ (forall viewport img,
         EvBlitTexture viewport img ∈ newEvents s s'
         <-> viewport = (fb_width fbinfo, fb_height fbinfo) /\ img = finalImage (m_ui s))
   /\ (EvGlass ∈ newEvents s s' <-> enableTransparentGeometry (m_ui s) = true)
   /\ exists mode,
        List.filter isPostProcessing (newEvents s s')
        = EvCompositing mode
          :: (if enableTransparentGeometry (m_ui s) then [EvGlass] else [])
          ++ (if enableAccumulation (m_ui s)
              then [EvAccumulationRender
                      (1 / inject_Z (Z.of_N (numAccumulatedFrames (m_ui s'))))]
              else if enableTAA (m_ui s) then [EvTemporalResolve (m_PreviousViewValid s)]
              else [])
          ++ (if enableToneMapping (m_ui s) then
                (if isNull (m_ToneMappingPass s) then [EvResetExposure] else [])
                ++ [EvToneMapping
                      (if enableAccumulation (m_ui s) then AccumulatedColor
                       else if enableTAA (m_ui s) then ResolvedColor else HdrColor)]
              else [])
          ++ [EvBlitTexture (fb_width fbinfo, fb_height fbinfo) (finalImage (m_ui s))]).
Proof.
  intros w fbinfo s s'.
  assert (m_FrameStepMode s <> Wait) as H1
    by (vm_compute; discriminate).
  assert (RenderScene w fbinfo s = Ok s') as H2
    by (vm_compute; reflexivity).
  split; [exact H1 |].
  split; [exact H2 |].
  exact (post_processing_chain w fbinfo s s' H1 H2).
Defined.

Lemma pause_shows_last_frame_witness :
  let w := world0 in
  let fbinfo := fb0 in
  let a := shell0 in
  let scancode := 0 in
  let s1 := frame2 in
  m_FrameStepMode (renderer a) = Disabled /\
  RenderScene w fbinfo (renderer a) = Ok s1 /\
  (exists paused s2 earlier blit,
     paused = renderer (KeyboardUpdate GLFW_KEY_F1 scancode GLFW_PRESS 0
                          (with_renderer (fun _ => s1) a)).1
     /\ m_FrameStepMode paused = Wait
     /\ RenderScene w fbinfo paused = Ok s2
     /\ blit = EvBlitTexture (fb_width fbinfo, fb_height fbinfo)
                 (finalImage (m_ui (renderer a)))
     /\ newEvents (renderer a) s1 = earlier ++ [blit]
     /\ newEvents paused s2 = [blit]).
Proof.
  intros w fbinfo a scancode s1.
  assert (m_FrameStepMode (renderer a) = Disabled) as H1
    by (vm_compute; reflexivity).
  assert (RenderScene w fbinfo (renderer a) = Ok s1) as H2
    by (vm_compute; reflexivity).
  split; [exact H1 |].
  split; [exact H2 |].
  exact (pause_shows_last_frame w fbinfo a scancode s1 H1 H2).
Defined.

Lemma exposure_reset_rule_witness :
  let w := world0 in
  let fbinfo := fb0 in
  let s := loaded in
  let s' := frame1 in
  m_FrameStepMode s <> Wait /\
  RenderScene w fbinfo s = Ok s' /\
  ((EvResetExposure ∈ newEvents s s'
    <-> isNull (m_ToneMappingPass s) = true /\ enableToneMapping (m_ui s) = true)
   /\ isNull (m_ToneMappingPass s') = false
   /\ isNull (m_ToneMappingPass (BackBufferResizing w s')) = true).
Proof.
  intros w fbinfo s s'.
  assert (m_FrameStepMode s <> Wait) as H1
    by (vm_compute; discriminate).
  assert (RenderScene w fbinfo s = Ok s') as H2
    by (vm_compute; reflexivity).
  split; [exact H1 |].
  split; [exact H2 |].
  exact (exposure_reset_rule w fbinfo s s' H1 H2).
Defined.

Lemma jitter_sequence_rule_witness :
  let w := world0 in
  let fbinfo := fb0 in
  let s := frame1 in
  let s' := frame2 in
  m_FrameStepMode s <> Wait /\
  RenderScene w fbinfo s = Ok s' /\
  (m_PixelOffset (m_View s')
   = match m_TemporalAntiAliasingPass s with
     | Some taa =>
         if enablePixelJitter (m_ui s) then JitterOffset (taa_FrameIndex taa) else ZeroOffset
     | None => ZeroOffset
     end
   /\ exists context,
        let start :=
          match m_TemporalAntiAliasingPass s with
          | Some taa => if reloadShaders (m_ui s) then 0 else taa_FrameIndex taa
          | None => 0
          end in
        let skip :=
          enableAccumulation (m_ui s)
          && bool_decide (CheckerboardSamplingMode (GetParameters context) <> CheckerboardOff)
          && Z.odd (m_FrameIndex s) in
        m_RtxdiContext s' = Some context
        /\ m_TemporalAntiAliasingPass s'
           = Some (mkTemporalAntiAliasingPass (if skip then start else uint_incr start))).
Proof.
  intros w fbinfo s s'.
  assert (m_FrameStepMode s <> Wait) as H1
    by (vm_compute; discriminate).
  assert (RenderScene w fbinfo s = Ok s') as H2
    by (vm_compute; reflexivity).
  split; [exact H1 |].
  split; [exact H2 |].
  exact (jitter_sequence_rule w fbinfo s s' H1 H2).
Defined.

Lemma denoiser_gating_witness :
  let w := world0 in
  let fbinfo := fb0 in
  let s := loaded in
  let s' := frame1 in
  m_FrameStepMode s <> Wait /\
  RenderScene w fbinfo s = Ok s' /\
  ((WITH_NRD w = true ->
    exists nrd,
      m_NRD s' = Some nrd
      /\ GetMethod nrd = denoisingMethod (m_ui s)
      /\ (forall old,
            m_NRD s = Some old -> GetMethod old = denoisingMethod (m_ui s) -> nrd = old)
      /\ enableDenoiser (m_ui s') = enableDenoiser (m_ui s) && IsAvailable nrd)
   /\ (WITH_NRD w = false -> enableDenoiser (m_ui s') = false /\ m_NRD s' = m_NRD s)
   /\ (EvRunDenoiserPasses ∈ newEvents s s' <-> enableDenoiser (m_ui s') = true)
   /\ (forall m,
         EvCompositing m ∈ newEvents s s'
         <-> m = if enableDenoiser (m_ui s')
                 then if bool_decide (denoisingMethod (m_ui s) = RELAX_DIFFUSE_SPECULAR)
                      then DENOISER_MODE_RELAX else DENOISER_MODE_REBLUR
                 else DENOISER_MODE_OFF)).
Proof.
  intros w fbinfo s s'.
  assert (m_FrameStepMode s <> Wait) as H1
    by (vm_compute; discriminate).
  assert (RenderScene w fbinfo s = Ok s') as H2
    by (vm_compute; reflexivity).
  split; [exact H1 |].
  split; [exact H2 |].
  exact (denoiser_gating w fbinfo s s' H1 H2).
Defined.

Lemma material_readback_latency_witness :
  let w := world0 in
  let fbinfo := fb0 in
  let a := shell0 in
  let mods := 0 in
  let cursor := (21 # 2, 81 # 4)%Q in
  let s1 := clicked1 in
  let s2 := clicked2 in
  let s3 := clicked3 in
  let clicked := (MouseButtonUpdate GLFW_MOUSE_BUTTON_RIGHT GLFW_PRESS mods cursor a).1 in
  m_FrameStepMode (renderer a) = Disabled /\
  RenderScene w fbinfo (renderer clicked) = Ok s1 /\
  RenderScene w fbinfo s1 = Ok s2 /\
  RenderScene w fbinfo s2 = Ok s3 /\
  (materialReadbackPosition clicked = (int_of_double cursor.1, int_of_double cursor.2)
   /\ cameraInput clicked = cameraInput a
   /\ enableMaterialReadback (m_ui s1) = false
   /\ selectedMaterialIndex (m_ui s1) = selectedMaterialIndex (m_ui (renderer a))
   /\ selectedMaterialIndex (m_ui s2) = selectedMaterialIndex (m_ui (renderer a))
   /\ selectedMaterialIndex (m_ui s3) = GetMaterialReadback w
   /\ m_MaterialReadbackCountdown s3 = 0).
Proof.
  intros w fbinfo a mods cursor s1 s2 s3 clicked.
  assert (m_FrameStepMode (renderer a) = Disabled) as H1
    by (vm_compute; reflexivity).
  assert (RenderScene w fbinfo (renderer clicked) = Ok s1) as H2
    by (vm_compute; reflexivity).
  assert (RenderScene w fbinfo s1 = Ok s2) as H3
    by (vm_compute; reflexivity).
  assert (RenderScene w fbinfo s2 = Ok s3) as H4
    by (vm_compute; reflexivity).
  split; [exact H1 |].
  split; [exact H2 |].
  split; [exact H3 |].
  split; [exact H4 |].
  exact (material_readback_latency w fbinfo a mods cursor s1 s2 s3 H1 H2 H3 H4).
Defined.

Lemma shader_reload_rule_witness :
  let w := world0 in
  let fbinfo := fb0 in
  let s := reloadRequested in
  let s' := afterFrame fb0 reloadRequested in
  m_FrameStepMode s <> Wait /\
  RenderScene w fbinfo s = Ok s' /\
  ((forall e, e = EvClearShaderCache \/ e = EvLoadShaders ->
              (e ∈ newEvents s s' <-> reloadShaders (m_ui s) = true))
   /\ (reloadShaders (m_ui s) = true ->
       EvCreateRenderEnvironmentMapPass ∈ newEvents s s'
       /\ EvCreateTemporalAntiAliasingPass ∈ newEvents s s'
       /\ EvLightingCreatePipelines (rtxdiContextParams (m_ui s')) (useRayQuery (m_ui s))
          ∈ newEvents s s'
       /\ (exists pass,
             m_EnvironmentMapPdfMipmapPass s' = Some pass
             /\ EvCreateEnvironmentMapPdfMipmapPass pass ∈ newEvents s s'
             /\ EvEnvironmentMapPdfMipmapProcess pass ∈ newEvents s s')
       /\ (exists pass,
             m_LocalLightPdfMipmapPass s' = Some pass
             /\ EvCreateLocalLightPdfMipmapPass pass ∈ newEvents s s'))
   /\ reloadShaders (m_ui s') = false
   /\ (forall (a : @Shell Pose) (scancode : Z),
         reloadShaders
           (m_ui (renderer (KeyboardUpdate GLFW_KEY_R scancode GLFW_PRESS GLFW_MOD_CONTROL a).1))
         = true)).
Proof.
  intros w fbinfo s s'.
  assert (m_FrameStepMode s <> Wait) as H1
    by (vm_compute; discriminate).
  assert (RenderScene w fbinfo s = Ok s') as H2
    by (vm_compute; reflexivity).
  split; [exact H1 |].
  split; [exact H2 |].
  exact (shader_reload_rule w fbinfo s s' H1 H2).
Defined.

Lemma context_rebuild_rule_witness :
  let w := world0 in
  let fbinfo := fb0 in
  let s := resetRequested in
  let s' := afterFrame fb0 resetRequested in
  m_FrameStepMode s <> Wait /\
  RenderScene w fbinfo s = Ok s' /\
  (let rebuilt := resetRtxdiContext (m_ui s) || isNull (m_RtxdiContext s) in
   let params :=
     mkContextParameters (fb_width fbinfo) (fb_height fbinfo)
       (CheckerboardSamplingMode (rtxdiContextParams (m_ui s))) in
   (forall p, EvCreateRtxdiContext p ∈ newEvents s s' <-> rebuilt = true /\ p = params)
   /\ m_RtxdiContext s' = (if rebuilt then Some (mkContext params) else m_RtxdiContext s)
   /\ rtxdiContextParams (m_ui s') = (if rebuilt then params else rtxdiContextParams (m_ui s))
   /\ resetRtxdiContext (m_ui s') = false
   /\ (resetRtxdiContext (m_ui s) = true ->
       exists r,
         m_RtxdiResources s' = Some r
         /\ res_context r = params
         /\ EvCreateRtxdiResources r ∈ newEvents s s')).
Proof.
  intros w fbinfo s s'.
  assert (m_FrameStepMode s <> Wait) as H1
    by (vm_compute; discriminate).
  assert (RenderScene w fbinfo s = Ok s') as H2
    by (vm_compute; reflexivity).
  split; [exact H1 |].
  split; [exact H2 |].
  exact (context_rebuild_rule w fbinfo s s' H1 H2).
Defined.

Lemma steady_frame_allocates_nothing_witness :
  let w := world0 in
  let fbinfo := fb0 in
  let s := loaded in
  let s1 := frame1 in
  m_FrameStepMode s = Disabled /\
  RenderScene w fbinfo s = Ok s1 /\
  (exists s2,
     RenderScene w fbinfo s1 = Ok s2
     /\ Forall (fun e => creates e = false /\ reloads e = false) (newEvents s1 s2)
     /\ m_RenderTargets s2 = m_RenderTargets s1
     /\ m_RtxdiContext s2 = m_RtxdiContext s1
     /\ m_RtxdiResources s2 = m_RtxdiResources s1
     /\ m_RenderEnvironmentMapPass s2 = m_RenderEnvironmentMapPass s1
     /\ m_EnvironmentMapPdfMipmapPass s2 = m_EnvironmentMapPdfMipmapPass s1
     /\ m_LocalLightPdfMipmapPass s2 = m_LocalLightPdfMipmapPass s1).
Proof.
  intros w fbinfo s s1.
  assert (m_FrameStepMode s = Disabled) as H1
    by (vm_compute; reflexivity).
  assert (RenderScene w fbinfo s = Ok s1) as H2
    by (vm_compute; reflexivity).
  split; [exact H1 |].
  split; [exact H2 |].
  exact (steady_frame_allocates_nothing w fbinfo s s1 H1 H2).
Defined.

Lemma camera_path_playback_witness :
  let w := world0 in
  let fbinfo := fb0 in
  let s := playing in
  let s' := afterFrame fb0 playing in
  m_FrameStepMode s <> Wait /\
  RenderScene w fbinfo s = Ok s' /\
  (GetViewMatrix (m_View s') = m_Camera s'
   /\ match animationFrame (m_ui s) with
      | Some frame =>
          match InterpolateCameraPath w frame with
          | Some camera =>
              m_Camera s' = camera
              /\ animationFrame (m_ui s') = Some (uint_incr (uint_wrap frame))
              /\ EvCaptureBenchmarkResults ∉ newEvents s s'
          | None =>
              m_Camera s' = m_Camera s
              /\ animationFrame (m_ui s') = None
              /\ EvCaptureBenchmarkResults ∈ newEvents s s'
          end
      | None =>
          m_Camera s' = m_Camera s
          /\ animationFrame (m_ui s') = None
          /\ EvCaptureBenchmarkResults ∉ newEvents s s'
      end).
Proof.
  intros w fbinfo s s'.
  assert (m_FrameStepMode s <> Wait) as H1
    by (vm_compute; discriminate).
  assert (RenderScene w fbinfo s = Ok s') as H2
    by (vm_compute; reflexivity).
  split; [exact H1 |].
  split; [exact H2 |].
  exact (camera_path_playback w fbinfo s s' H1 H2).
Defined.


Lemma environment_light_rule_witness :
  let w := world0 in
  let fbinfo := fb0 in
  let s := loaded in
  let s' := frame1 in
  m_FrameStepMode s <> Wait /\
  RenderScene w fbinfo s = Ok s' /\
  (let texture :=
     if 0 <=? environmentMapIndex (m_ui s')
     then Some match m_EnvironmentMap s' with
               | Some t => FileMap (bindlessDescriptorIndex t)
               | None => ProceduralSky
               end
     else None in
   let sun := if environmentMapIndex (m_ui s') =? 0 then 1 else 0 in
   List.filter isEnvironmentLightSetup (newEvents s s')
   = [EvConfigureEnvironmentLight texture sun]
   /\ (forall texture' sun',
         EvConfigureEnvironmentLight texture' sun' ∈ newEvents s s'
         <-> texture' = texture /\ sun' = sun)).
Proof.
  intros w fbinfo s s'.
  assert (m_FrameStepMode s <> Wait) as H1
    by (vm_compute; discriminate).
  assert (RenderScene w fbinfo s = Ok s') as H2
    by (vm_compute; reflexivity).
  split; [exact H1 |].
  split; [exact H2 |].
  exact (environment_light_rule w fbinfo s s' H1 H2).
Defined.

Lemma ies_assignment_rule_witness :
  let BakeIesProfile := bake0 in
  let lights := lights0 in
  let profiles := profiles0 in
  (forall p, ies_name (BakeIesProfile p) = ies_name p) /\
  (let '(lights', profiles', baked) := AssignIesProfiles BakeIesProfile lights profiles in
   let names := map ies_name profiles in
   length lights' = length lights
   /\ map ies_name profiles' = names
   /\ (forall i light light',
         lights !! i = Some light -> lights' !! i = Some light' ->
         if decide (settledLight names light) then light' = light
         else exists profileName before k original,
             light = SpotLightWithProfile profileName before
             /\ list_find (fun p => ies_name p = profileName) profiles = Some (k, original)
             /\ light'
                = SpotLightWithProfile profileName
                    (textureIndex
                       (Nat.iter (S (bakeCount names profileName (take i lights)))
                          BakeIesProfile original)))
   /\ (forall k p,
         profiles !! k = Some p ->
         profiles' !! k
         = Some (Nat.iter
                   (if decide (list_find (fun q => ies_name q = ies_name p) profiles
                               = Some (k, p))
                    then bakeCount names (ies_name p) lights else 0%nat)
                   BakeIesProfile p))
   /\ baked
      = omap (fun light =>
                match light with
                | SpotLightWithProfile profileName _ =>
                    if decide (settledLight names light) then None else Some profileName
                | OtherLight _ => None
                end) lights).
Proof.
  intros BakeIesProfile lights profiles.
  assert (forall p, ies_name (BakeIesProfile p) = ies_name p) as H1
    by (intros p; reflexivity).
  split; [exact H1 |].
  exact (ies_assignment_rule BakeIesProfile H1 lights profiles).
Defined.

Lemma ies_assignment_idempotent_witness :
  let BakeIesProfile := bake0 in
  let lights := lights0 in
  let profiles := profiles0 in
  (forall p, ies_name (BakeIesProfile p) = ies_name p) /\
  (forall p, 0 <= textureIndex (BakeIesProfile p)) /\
  (let '(lights', profiles', _) := AssignIesProfiles BakeIesProfile lights profiles in
   AssignIesProfiles BakeIesProfile lights' profiles' = (lights', profiles', [])).
Proof.
  intros BakeIesProfile lights profiles.
  assert (forall p, ies_name (BakeIesProfile p) = ies_name p) as H1
    by (intros p; reflexivity).
  assert (forall p, 0 <= textureIndex (BakeIesProfile p)) as H2
    by (intros p; vm_compute; discriminate).
  split; [exact H1 |].
  split; [exact H2 |].
  exact (ies_assignment_idempotent BakeIesProfile H1 H2 lights profiles).
Defined.
